(** * Page-Proof-QA: a shallow embedding of the ingestion pipeline and of the
      grounded question-answering engine

    The development follows [backend/app/services/document_processing.py],
    [backend/app/services/qa.py] and the upload, status and [ask] routes of
    [backend/app/api/routes/documents.py].

    Modelling conventions.
    - Python [int] is [Z]; Python [float] is an exact rational [Q] (no rounding,
      no NaN, no infinities); comparisons of floats are comparisons of
      rationals. Where a decision of the program turns on the rounding (the
      OCR arbitration, the global evidence filter), the function is embedded
      a second time in module [Binary64], over IEEE 754 binary64 numbers, and
      the theorems about that decision are about that embedding.
    - Python [str] is [string]; only the ASCII letters have a case, only the
      ASCII white space is stripped, only ASCII letters and digits are
      alphanumeric.
    - A Python [set] is a duplicate-free list; the order in which a set is
      iterated is unspecified and the properties proved below do not depend
      on it.
    - A raised exception is the [Raised] case of [outcome]; what the code logs
      is collected in a list of [LogEntry].
    - Library and service calls (difflib, uuid, json, the embedding and chat
      provider, the PDF library, pgvector's distance operator) are the fields
      of the class [Externals]; the requests that one question sends to the
      chat provider are followed with the class [ChatProvider]. *)

From Stdlib Require Import ZArith QArith Qminmax Qabs Qround List String Ascii Bool Lia Lqa.
From Stdlib Require Import Sorting.Permutation Sorting.Sorted DecimalString.
From Stdlib Require PrimFloat Uint63.
Import ListNotations.

Set Implicit Arguments.
Set Warnings "-register-all".
Set Warnings "-inexact-float".

(** ** Exceptions and outcomes *)

Inductive exn_class : Type :=
| ZeroDivisionError
| ValueError
| IndexError
| ValidationError
| IntegrityError
| ProviderError
| PdfError
| OSError
| QAError
| InvalidQuestionError
| DocumentNotReadyError
| OpenAIConfigurationError
| DatabaseError
| FuelExhausted.

Record exn : Type := mk_exn { exn_kind : exn_class; exn_message : string }.

Inductive outcome (A : Type) : Type :=
| Returned (a : A)
| Raised (e : exn).

Arguments Returned {A} a.
Arguments Raised {A} e.

Definition ret {A : Type} (a : A) : outcome A := Returned a.

Definition bind {A B : Type} (m : outcome A) (k : A -> outcome B) : outcome B :=
  match m with
  | Returned a => k a
  | Raised e => Raised e
  end.

Definition raise {A : Type} (c : exn_class) (msg : string) : outcome A :=
  Raised (mk_exn c msg).

Declare Scope outcome_scope.
Delimit Scope outcome_scope with outcome.
Notation "x <- m ;; k" := (bind m (fun x => k))
  (at level 61, m at next level, right associativity) : outcome_scope.
Notation "' pat <- m ;; k" := (bind m (fun x => match x with pat => k end))
  (at level 61, pat pattern, m at next level, right associativity) : outcome_scope.

(** [for x in l: acc = body(acc, x)] where the body may raise. *)
Fixpoint foldM {A S : Type} (body : S -> A -> outcome S) (l : list A) (acc : S)
  : outcome S :=
  match l with
  | [] => Returned acc
  | x :: l' => bind (body acc x) (foldM body l')
  end.

(** [[f(x) for x in l]] where [f] may raise. *)
Fixpoint mapM {A B : Type} (f : A -> outcome B) (l : list A) : outcome (list B) :=
  match l with
  | [] => Returned []
  | x :: l' => bind (f x) (fun y => bind (mapM f l') (fun ys => Returned (y :: ys)))
  end.

(** A [for] loop whose body may [break]: the body returns the new state and
    whether it left the loop. *)
Fixpoint for_break {A S : Type} (body : S -> A -> outcome (S * bool)) (l : list A)
  (acc : S) : outcome S :=
  match l with
  | [] => Returned acc
  | x :: l' =>
      bind (body acc x)
           (fun r => if snd r then Returned (fst r) else for_break body l' (fst r))
  end.

Inductive log_level : Type := INFO | WARNING | ERROR.

Record LogEntry : Type := mk_log { log_lvl : log_level; log_message : string }.

(** ** Python primitives *)

Module Py.

Local Open Scope Q_scope.

Definition Qltb (a b : Q) : bool := negb (Qle_bool b a).

(** [min(a, b)]: the first argument unless the second is strictly smaller. *)
Definition fmin (a b : Q) : Q := if Qltb b a then b else a.

(** [max(a, b)]: the first argument unless the second is strictly larger. *)
Definition fmax (a b : Q) : Q := if Qltb a b then b else a.

Definition fabs (a : Q) : Q := Qabs a.

(** [min(gen)] and [max(gen)] over a non-empty sequence; [ValueError] on an
    empty one. *)
Definition min_of (l : list Q) : outcome Q :=
  match l with
  | [] => raise ValueError "min() arg is an empty sequence"
  | x :: l' => Returned (fold_left fmin l' x)
  end.

Definition max_of (l : list Q) : outcome Q :=
  match l with
  | [] => raise ValueError "max() arg is an empty sequence"
  | x :: l' => Returned (fold_left fmax l' x)
  end.

Definition fsum (l : list Q) : Q := fold_left Qplus l 0.

(** True division [a / b]. *)
Definition truediv (a b : Q) : outcome Q :=
  if Qeq_bool b 0 then raise ZeroDivisionError "division by zero"
  else Returned (a / b).

Definition len {A : Type} (l : list A) : Z := Z.of_nat (List.length l).

Definition slen (s : string) : Z := Z.of_nat (String.length s).

(** [l[i]] with Python's negative indices. *)
Definition index {A : Type} (l : list A) (i : Z) : outcome A :=
  let j := (if i <? 0 then i + len l else i)%Z in
  if (j <? 0)%Z then raise IndexError "list index out of range"
  else match nth_error l (Z.to_nat j) with
       | Some x => Returned x
       | None => raise IndexError "list index out of range"
       end.

(** The bounds of a slice are clamped, negative ones count from the end. *)
Definition clamp_bound {A : Type} (l : list A) (i : Z) : nat :=
  Z.to_nat (Z.min (len l) (Z.max 0 (if i <? 0 then i + len l else i)%Z)).

(** [l[:stop]] *)
Definition slice_to {A : Type} (l : list A) (stop : Z) : list A :=
  firstn (clamp_bound l stop) l.

(** [l[start:stop]] *)
Definition slice {A : Type} (l : list A) (start stop : Z) : list A :=
  skipn (clamp_bound l start) (firstn (clamp_bound l stop) l).

(** *** Strings *)

(** [str(n)] of an integer. *)
Definition str_of_int (n : Z) : string := NilZero.string_of_int (Z.to_int n).

Definition is_upper (c : ascii) : bool :=
  let n := nat_of_ascii c in (65 <=? n)%nat && (n <=? 90)%nat.

Definition is_lower (c : ascii) : bool :=
  let n := nat_of_ascii c in (97 <=? n)%nat && (n <=? 122)%nat.

Definition is_digit (c : ascii) : bool :=
  let n := nat_of_ascii c in (48 <=? n)%nat && (n <=? 57)%nat.

Definition is_alnum (c : ascii) : bool := is_upper c || is_lower c || is_digit c.

Definition is_space (c : ascii) : bool :=
  let n := nat_of_ascii c in
  ((9 <=? n)%nat && (n <=? 13)%nat) || ((28 <=? n)%nat && (n <=? 32)%nat).

Definition lower_char (c : ascii) : ascii :=
  if is_upper c then ascii_of_nat (nat_of_ascii c + 32) else c.

Fixpoint lower (s : string) : string :=
  match s with
  | EmptyString => EmptyString
  | String c s' => String (lower_char c) (lower s')
  end.

Fixpoint sfilter (p : ascii -> bool) (s : string) : string :=
  match s with
  | EmptyString => EmptyString
  | String c s' => if p c then String c (sfilter p s') else sfilter p s'
  end.

Fixpoint count_chars (p : ascii -> bool) (s : string) : Z :=
  match s with
  | EmptyString => 0%Z
  | String c s' => ((if p c then 1 else 0) + count_chars p s')%Z
  end.

Fixpoint lstrip (s : string) : string :=
  match s with
  | EmptyString => EmptyString
  | String c s' => if is_space c then lstrip s' else s
  end.

Fixpoint rstrip (s : string) : string :=
  match s with
  | EmptyString => EmptyString
  | String c s' =>
      match rstrip s' with
      | EmptyString => if is_space c then EmptyString else String c EmptyString
      | r => String c r
      end
  end.

(** [s.strip()] *)
Definition strip (s : string) : string := rstrip (lstrip s).

Definition is_empty (s : string) : bool :=
  match s with EmptyString => true | _ => false end.

(** [s.startswith(p)] *)
Definition startswith (s p : string) : bool := String.prefix p s.

(** [s.endswith(suffix)] *)
Definition endswith (s suffix : string) : bool :=
  let n := String.length s in
  let m := String.length suffix in
  (m <=? n)%nat && String.eqb (String.substring (n - m) m s) suffix.

(** [needle in hay] *)
Fixpoint contains (needle hay : string) : bool :=
  String.prefix needle hay ||
  match hay with
  | EmptyString => false
  | String _ hay' => contains needle hay'
  end.

(** [s.find(c)] and [s.rfind(c)] for a character [c]; [pos] is the index of
    the first character of [s]; [-1] when [c] does not occur. *)
Fixpoint find_char_from (c : ascii) (s : string) (pos : Z) : Z :=
  match s with
  | EmptyString => (-1)%Z
  | String c' s' => if Ascii.eqb c c' then pos else find_char_from c s' (pos + 1)%Z
  end.

Fixpoint rfind_char_from (c : ascii) (s : string) (pos : Z) : Z :=
  match s with
  | EmptyString => (-1)%Z
  | String c' s' =>
      let later := rfind_char_from c s' (pos + 1)%Z in
      if (later =? -1)%Z then (if Ascii.eqb c c' then pos else (-1)%Z) else later
  end.

Definition find_char (c : ascii) (s : string) : Z := find_char_from c s 0.
Definition rfind_char (c : ascii) (s : string) : Z := rfind_char_from c s 0.

(** [sep.join(parts)] *)
Fixpoint join (sep : string) (parts : list string) : string :=
  match parts with
  | [] => EmptyString
  | [p] => p
  | p :: rest => (p ++ sep ++ join sep rest)%string
  end.

(** Rounding to the nearest integer, ties to the even one. *)
Definition round_half_even (q : Q) : Z :=
  let f := Qfloor q in
  match Qcompare (q - inject_Z f) (1 # 2) with
  | Lt => f
  | Gt => (f + 1)%Z
  | Eq => if Z.even f then f else (f + 1)%Z
  end.

(** [f"{q:.1f}"] *)
Definition format_1f (q : Q) : string :=
  let tenths := Z.abs (round_half_even (q * 10)) in
  ((if Qltb q 0 then "-" else "") ++ str_of_int (tenths / 10) ++ "."
   ++ str_of_int (tenths mod 10))%string.

(** [range(start, stop)] *)
Definition range (start stop : Z) : list Z :=
  map (fun k => (start + Z.of_nat k)%Z) (seq 0 (Z.to_nat (stop - start))).

(** [d.get(key)] on a dict given by its items in insertion order; of two
    items with one key the later one counts. *)
Definition dict_get {V : Type} (d : list (Z * V)) (key : Z) : option V :=
  option_map snd (find (fun kv => Z.eqb (fst kv) key) (rev d)).

(** [re.findall(r"[a-zA-Z0-9]+", s)]: the maximal runs of letters and digits,
    from left to right; [cur] is the run being read. *)
Fixpoint findall_alnum_from (s : string) (cur : string) : list string :=
  match s with
  | EmptyString => if is_empty cur then [] else [cur]
  | String c s' =>
      if is_alnum c then findall_alnum_from s' (cur ++ String c EmptyString)%string
      else (if is_empty cur then [] else [cur]) ++ findall_alnum_from s' EmptyString
  end.

Definition findall_alnum (s : string) : list string :=
  findall_alnum_from s EmptyString.

Definition mem_str (s : string) (l : list string) : bool :=
  existsb (String.eqb s) l.

(** A set of integers built from the elements of [l]. *)
Definition zset_of (l : list Z) : list Z := nodup Z.eq_dec l.

(** A set of strings built from the elements of [l]. *)
Definition set_of (l : list string) : list string := nodup string_dec l.

(** *** Sorting
    [sorted(l, key=...)] is stable and compares keys with [<] only; a key is
    a tuple of numbers, compared lexicographically. *)

Fixpoint key_lt (k1 k2 : list Q) : bool :=
  match k1, k2 with
  | [], [] => false
  | [], _ :: _ => true
  | _ :: _, [] => false
  | a :: k1', b :: k2' => if Qeq_bool a b then key_lt k1' k2' else Qltb a b
  end.

Fixpoint insert_by {A : Type} (lt : A -> A -> bool) (x : A) (l : list A) : list A :=
  match l with
  | [] => [x]
  | y :: l' => if lt y x then y :: insert_by lt x l' else x :: l
  end.

Definition sorted_by {A : Type} (lt : A -> A -> bool) (l : list A) : list A :=
  fold_right (insert_by lt) [] l.

Definition sorted {A : Type} (key : A -> list Q) (l : list A) : list A :=
  sorted_by (fun x y => key_lt (key x) (key y)) l.

(** [x] may stand before [y] in a sorted list: [y] is not smaller. *)
Definition not_after {A : Type} (lt : A -> A -> bool) (x y : A) : Prop :=
  lt y x = false.

End Py.

(** ** Configuration ([app/core/config.py]) *)

Record Settings : Type := mk_settings {
  ocr_fallback_enabled : bool;
  ocr_trigger_min_words : Z;
  ocr_trigger_min_alnum_ratio : Q;
  openai_api_key : option string;
  openai_chat_model : string;
  openai_embedding_model : string;
  openai_embedding_dimensions : Z;
  retrieval_top_k : Z;
  retrieval_max_context_chunks : Z;
  answer_max_evidence_items : Z;
  retrieval_min_keyword_overlap : Z;
  evidence_question_weight : Q;
  evidence_answer_weight : Q;
  evidence_relative_score_threshold : Q;
  evidence_drop_ratio_stop : Q;
  evidence_min_absolute_score : Q;
  retrieval_max_vector_distance : Q;
  minimum_evidence_items : Z;
  require_llm_citations : bool
}.

Definition default_settings : Settings := {|
  ocr_fallback_enabled := true;
  ocr_trigger_min_words := 18;
  ocr_trigger_min_alnum_ratio := 0.60;
  openai_api_key := None;
  openai_chat_model := "gpt-5-mini";
  openai_embedding_model := "text-embedding-3-small";
  openai_embedding_dimensions := 1536;
  retrieval_top_k := 8;
  retrieval_max_context_chunks := 6;
  answer_max_evidence_items := 0;
  retrieval_min_keyword_overlap := 1;
  evidence_question_weight := 0.2;
  evidence_answer_weight := 0.8;
  evidence_relative_score_threshold := 0.60;
  evidence_drop_ratio_stop := 0.72;
  evidence_min_absolute_score := 0.20;
  retrieval_max_vector_distance := 1.2;
  minimum_evidence_items := 1;
  require_llm_citations := true
|}.

(** ** Data model ([app/models], [app/schemas/qa.py]) *)

(** A UUID is its 128-bit integer value. *)
Definition UUID : Type := N.

Definition Embedding : Type := list Q.

Record Document : Type := mk_document {
  doc_id : UUID;
  doc_filename : string;
  doc_status : string;
  doc_total_pages : option Z;
  doc_page_width : option Q;
  doc_page_height : option Q;
  doc_error_message : option string
}.

Record Page : Type := mk_page {
  page_id : Z;
  page_document_id : UUID;
  page_number : Z;
  page_width_pts : option Q;
  page_height_pts : option Q;
  page_image_path : option string
}.

Record Span : Type := mk_span {
  span_id : Z;
  span_document_id : UUID;
  span_page_id : Z;
  span_index : Z;
  span_text : string;
  span_x1 : Q;
  span_y1 : Q;
  span_x2 : Q;
  span_y2 : Q;
  span_char_start : option Z;
  span_char_end : option Z
}.

Record Chunk : Type := mk_chunk {
  chunk_id : UUID;
  chunk_document_id : UUID;
  chunk_index : Z;
  chunk_text : string;
  chunk_page_start : option Z;
  chunk_page_end : option Z;
  chunk_span_start_id : option Z;
  chunk_span_end_id : option Z;
  chunk_embedding : option Embedding
}.

Record BBox : Type := mk_bbox { bx1 : Q; by1 : Q; bx2 : Q; by2 : Q }.

Record EvidenceItem : Type := mk_evidence_item {
  ev_page : Z;
  ev_text : string;
  ev_bbox : BBox;
  ev_page_width : option Q;
  ev_page_height : option Q
}.

Record AskQuestionResponse : Type := mk_response {
  resp_answer : string;
  resp_evidence : list EvidenceItem
}.

(** [EvidenceItem(...)]: the schema validates [page >= 1] and a non-empty
    text. *)
Definition new_EvidenceItem (page : Z) (text : string) (bbox : BBox)
  (page_width page_height : option Q) : outcome EvidenceItem :=
  if (page <? 1)%Z then raise ValidationError "page: Input should be greater than or equal to 1"
  else if Py.is_empty text then raise ValidationError "text: String should have at least 1 character"
  else Returned (mk_evidence_item page text bbox page_width page_height).

(** ** The database session
    The rows of the four tables, a committed state and the state the open
    transaction sees, the sequences that number pages and spans, and the
    history of commits and rollbacks. *)

Record Store : Type := mk_store {
  documents : list Document;
  pages : list Page;
  spans : list Span;
  chunks : list Chunk
}.

Inductive DbEvent : Type :=
| EvCommit (s : Store)
| EvRollback.

Record Session : Type := mk_session {
  committed : Store;
  working : Store;
  next_page_id : Z;
  next_span_id : Z;
  uuid_counter : N;
  events : list DbEvent
}.

Definition with_working (db : Session) (w : Store) : Session :=
  mk_session (committed db) w (next_page_id db) (next_span_id db)
             (uuid_counter db) (events db).

(** [db.commit()] *)
Definition db_commit (db : Session) : Session :=
  mk_session (working db) (working db) (next_page_id db) (next_span_id db)
             (uuid_counter db) (events db ++ [EvCommit (working db)]).

(** [db.rollback()] *)
Definition db_rollback (db : Session) : Session :=
  mk_session (committed db) (committed db) (next_page_id db) (next_span_id db)
             (uuid_counter db) (events db ++ [EvRollback]).

(** [db.get(Document, document_id)] *)
Definition db_get_document (db : Session) (document_id : UUID) : option Document :=
  find (fun d => N.eqb (doc_id d) document_id) (documents (working db)).

Definition chunks_of (db : Session) : list Chunk := chunks (working db).

(** Attribute assignments on the loaded document row. *)
Definition db_update_document (db : Session) (document_id : UUID)
  (f : Document -> Document) : Session :=
  let w := working db in
  with_working db
    (mk_store (map (fun d => if N.eqb (doc_id d) document_id then f d else d)
                   (documents w))
              (pages w) (spans w) (chunks w)).

(** ** External collaborators *)

Inductive Json : Type :=
| JNull
| JBool (b : bool)
| JNum (q : Q)
| JStr (s : string)
| JList (l : list Json)
| JDict (fields : list (string * Json)).

Record RetrievedChunk : Type := mk_retrieved {
  rc_id : UUID;
  rc_chunk_index : Z;
  rc_text : string;
  rc_page_start : option Z;
  rc_page_end : option Z;
  rc_span_start_id : option Z;
  rc_span_end_id : option Z;
  rc_distance : option Q
}.

Class Externals : Type := {
  (** [difflib.SequenceMatcher(None, a, b).ratio()] *)
  similarity : string -> string -> Q;
  (** [uuid.UUID(s)]; [None] when it raises [ValueError] *)
  uuid_parse : string -> option UUID;
  (** [str(u)] of a UUID *)
  uuid_str : UUID -> string;
  (** the [n]-th value [uuid.uuid4()] hands out *)
  uuid4 : N -> UUID;
  (** [str(v)] of a JSON value that is not a string *)
  json_repr : Json -> string;
  (** [json.loads(s)]; [None] on [JSONDecodeError] *)
  json_loads : string -> option Json;
  (** [client.embeddings.create(input=texts, model=..., dimensions=...)],
      the vectors of [response.data] *)
  embeddings_create : string -> option Z -> list string -> outcome (list Embedding);
  (** pgvector's cosine distance [a <=> b]; [None] is SQL NULL *)
  cosine_distance : Embedding -> Embedding -> option Q;
  (** [_create_llm_json_response]: the provider's reply to the question asked
      over the context chunks *)
  llm_json_response : Settings -> string -> list RetrievedChunk -> outcome string;
  (** where the rendered image of page [n] is stored *)
  stored_image_path : UUID -> Z -> string
}.

(** The chat provider, for the messages of one question: what it answers to
    a request, by raising [BadRequestError], by raising another exception or
    with a response. *)
Inductive ProviderReply (A : Type) : Type :=
| Replied (a : A)
| BadRequest (message : string)
| ProviderFailed (exc : exn).

Arguments Replied {A} a.
Arguments BadRequest {A} message.
Arguments ProviderFailed {A} exc.

(** The keyword arguments of a chat-completions request that the code
    varies: the model, whether [response_format] is among them, and the
    temperature when it is. *)
Record ChatRequest : Type := mk_chat_request {
  req_model : string;
  req_response_format : bool;
  req_temperature : option Q
}.

(** [content.text] of an output item of the Responses API: a string, an
    object with its [value], or nothing. *)
Inductive ContentText : Type :=
| TextStr (s : string)
| TextObject (value : option string)
| TextMissing.

Record ResponsesReply : Type := mk_responses_reply {
  output_text : option string;
  output : list (list ContentText)
}.

Class ChatProvider : Type := {
  (** [client.chat.completions.create] called with the request's keyword
      arguments: the [message.content] of every element of
      [response.choices] *)
  chat_completions_create : ChatRequest -> ProviderReply (list (option string));
  (** [client.responses.create(model=..., input=messages, temperature=...)] *)
  responses_create : string -> option Q -> ProviderReply ResponsesReply
}.

(** A call the code made to the provider. *)
Inductive ProviderCall : Type :=
| ChatCall (request : ChatRequest)
| ResponsesCall (model : string) (temperature : option Q).

(** ** Stateful code: the session, the log and exceptions
    A [task] runs against the database session, appends to the log and either
    returns or raises; the session keeps what was done before a raise. *)

Definition task (A : Type) : Type :=
  Session -> Session * list LogEntry * outcome A.

Definition tret {A : Type} (a : A) : task A :=
  fun db => (db, [], Returned a).

Definition tbind {A B : Type} (m : task A) (k : A -> task B) : task B :=
  fun db =>
    match m db with
    | (db1, l1, Returned a) =>
        match k a db1 with
        | (db2, l2, r) => (db2, l1 ++ l2, r)
        end
    | (db1, l1, Raised e) => (db1, l1, Raised e)
    end.

Definition lift {A : Type} (o : outcome A) : task A :=
  fun db => (db, [], o).

Definition traise {A : Type} (c : exn_class) (msg : string) : task A :=
  lift (raise c msg).

Definition tlog (lvl : log_level) (msg : string) : task unit :=
  fun db => (db, [mk_log lvl msg], Returned tt).

Definition tget : task Session :=
  fun db => (db, [], Returned db).

Definition tmodify (f : Session -> Session) : task unit :=
  fun db => (f db, [], Returned tt).

(** [try: m  except Exception as exc: handler(exc)] *)
Definition try_except {A : Type} (m : task A) (handler : exn -> task A) : task A :=
  fun db =>
    match m db with
    | (db1, l1, Returned a) => (db1, l1, Returned a)
    | (db1, l1, Raised e) =>
        match handler e db1 with
        | (db2, l2, r) => (db2, l1 ++ l2, r)
        end
    end.

(** A task that neither commits nor rolls back: it leaves the committed
    state and the history of the session as they were. *)
Definition keeps_committed {A : Type} (m : task A) : Prop :=
  forall db db' logs result,
    m db = (db', logs, result) ->
    committed db' = committed db /\ events db' = events db.

(** A task that relates the session it ends with to the session it started
    from by [R], however it ends. *)
Definition preserves (R : Session -> Session -> Prop) {A : Type} (m : task A) : Prop :=
  forall db db' logs result, m db = (db', logs, result) -> R db db'.

Declare Scope task_scope.
Delimit Scope task_scope with task.
Notation "x <- m ;; k" := (tbind m (fun x => k))
  (at level 61, m at next level, right associativity) : task_scope.
Notation "m ;;; k" := (tbind m (fun _ => k))
  (at level 61, right associativity) : task_scope.

Fixpoint tfold {A S : Type} (body : S -> A -> task S) (l : list A) (acc : S)
  : task S :=
  match l with
  | [] => tret acc
  | x :: l' => tbind (body acc x) (tfold body l')
  end.

(** [enumerate(l)] *)
Definition enumerate {A : Type} (l : list A) : list (Z * A) :=
  combine (map Z.of_nat (seq 0 (List.length l))) l.

(** ** Ingestion ([app/services/document_processing.py]) *)

Module DocumentProcessing.

Local Open Scope Z_scope.

Definition RENDER_SCALE : Q := 2.0.
Definition CHUNK_MAX_CHARS : Z := 900.
Definition CHUNK_OVERLAP_SPANS : Z := 20.
Definition OCR_SCORE_MARGIN : Q := 0.04.

(** [(x0, y0, x1, y1, text)] *)
Definition Word : Type := (Q * Q * Q * Q * string)%type.

Definition word_text (w : Word) : string := snd w.

Record ExtractedPageWords : Type := mk_extracted {
  words : list Word;
  source : string;
  attempted_ocr : bool;
  native_word_count : Z;
  ocr_word_count : Z
}.

(** What the PDF library answers for one page. *)
Record PdfPage : Type := mk_pdf_page {
  rect_width : Q;
  rect_height : Q;
  (** [page.get_pixmap(...)] and [pix.save(...)] *)
  pixmap_save : outcome unit;
  (** [page.get_text("words", sort=True)] *)
  get_text_words : outcome (list Word);
  (** [page.get_textpage_ocr(...)] followed by
      [page.get_text("words", textpage=textpage, sort=True)] *)
  get_text_words_ocr : outcome (list Word)
}.

(** What the PDF library and the file system answer for one upload. *)
Record PdfFile : Type := mk_pdf_file {
  (** [fitz.open(pdf_path)], the pages of the document *)
  fitz_open : outcome (list PdfPage);
  (** [shutil.rmtree(pages_dir, ignore_errors=True)] followed by
      [pages_dir.mkdir(parents=True, exist_ok=True)] *)
  make_pages_dir : outcome unit
}.

(** The upload as the route receives it: the name and the content type the
    client sent, and the bytes [upload_file.file] yields, or the exception
    the first file operation raises. *)
Record UploadFile : Type := mk_upload_file {
  upload_filename : option string;
  upload_content_type : option string;
  upload_body : outcome (list Byte.byte)
}.

(** How [persist_upload] ends: with the number of bytes, with
    [FileTooLargeError], or with another exception. *)
Inductive PersistResult : Type :=
| Persisted (total_bytes : Z)
| FileTooLarge (message : string)
| PersistFailed (exc : exn).

Definition UPLOAD_CHUNK_SIZE : Z := 1024 * 1024.

(** The loop [while True] of [persist_upload]: [stream] is what the file has
    left to read, [target] what was written to the destination so far. *)
Fixpoint persist_chunks (fuel : nat) (chunk_size max_upload_bytes : Z)
  (stream : list Byte.byte) (total_bytes : Z) (target : list Byte.byte)
  : list Byte.byte * PersistResult :=
  match fuel with
  | O => (target, PersistFailed (mk_exn FuelExhausted "persist_upload"))
  | S fuel' =>
      (* upload_file.file.read(chunk_size) *)
      let chunk := Py.slice_to stream chunk_size in
      match chunk with
      | [] => (target, Persisted total_bytes)
      | _ =>
          let total_bytes := total_bytes + Py.len chunk in
          if max_upload_bytes <? total_bytes
          then (target,
                FileTooLarge ("File exceeds upload size limit of "
                              ++ Py.str_of_int max_upload_bytes ++ " bytes."))
          else persist_chunks fuel' chunk_size max_upload_bytes
                              (skipn (List.length chunk) stream) total_bytes
                              (target ++ chunk)
      end
  end.

(** [persist_upload]: what the destination file holds afterwards, and how
    the function ends. *)
Definition persist_upload (upload_file : UploadFile) (max_upload_bytes : Z)
  : list Byte.byte * PersistResult :=
  match upload_body upload_file with
  | Raised exc => ([], PersistFailed exc)
  | Returned content =>
      persist_chunks (S (List.length content)) UPLOAD_CHUNK_SIZE max_upload_bytes
                     content 0 []
  end.

(** [_extract_words] on the items the library returned. *)
Definition _extract_words (items : list Word) : list Word :=
  flat_map
    (fun item =>
       match item with
       | (x0, y0, x1, y1, text) =>
           let clean := Py.strip text in
           if Py.is_empty clean then [] else [(x0, y0, x1, y1, clean)]
       end)
    items.

Definition _word_quality_metrics (words : list Word) : outcome (Z * Q) :=
  match words with
  | [] => Returned (0, 0.0%Q)
  | _ =>
      let compact := String.concat "" (map word_text words) in
      if Py.is_empty compact then Returned (0, 0.0%Q)
      else
        let alnum_chars := Py.count_chars Py.is_alnum compact in
        (alnum_ratio <- Py.truediv (inject_Z alnum_chars) (inject_Z (Py.slen compact)) ;;
         ret (Py.len words, alnum_ratio))%outcome
  end.

Definition _should_attempt_ocr (word_metrics : Z * Q) (settings : Settings) : bool :=
  if negb (ocr_fallback_enabled settings) then false
  else
    let '(word_count, alnum_ratio) := word_metrics in
    (word_count <? ocr_trigger_min_words settings)
    || Py.Qltb alnum_ratio (ocr_trigger_min_alnum_ratio settings).

Definition _word_quality_score (word_metrics : Z * Q) (settings : Settings)
  : outcome Q :=
  let '(word_count, alnum_ratio) := word_metrics in
  let word_target := Z.max 1 (ocr_trigger_min_words settings) in
  (ratio <- Py.truediv (inject_Z word_count) (inject_Z word_target) ;;
   let word_score := Py.fmin 1.0 ratio in
   ret (word_score * 0.55 + alnum_ratio * 0.45)%Q)%outcome.

Definition _should_use_ocr (native_metrics ocr_metrics : Z * Q)
  (settings : Settings) : outcome bool :=
  let '(native_count, native_ratio) := native_metrics in
  let '(ocr_count, ocr_ratio) := ocr_metrics in
  if ocr_count =? 0 then Returned false
  else if native_count =? 0 then Returned true
  else
    (native_score <- _word_quality_score native_metrics settings ;;
     ocr_score <- _word_quality_score ocr_metrics settings ;;
     if Qle_bool (native_score + OCR_SCORE_MARGIN) ocr_score then ret true
     else if (native_count <? ocr_trigger_min_words settings)
             && (native_count <? ocr_count) then ret true
     else if Qle_bool (native_ratio + 0.12) ocr_ratio
             && (Z.max 3 (native_count / 2) <=? ocr_count) then ret true
     else ret false)%outcome.

Definition _extract_words_with_fallback (page : PdfPage) (page_number : Z)
  (settings : Settings) : task ExtractedPageWords :=
  (items <- lift (get_text_words page) ;;
   let native_words := _extract_words items in
   native_metrics <- lift (_word_quality_metrics native_words) ;;
   if negb (_should_attempt_ocr native_metrics settings) then
     tret (mk_extracted native_words "native" false (Py.len native_words) 0)
   else
     match get_text_words_ocr page with
     | Raised exc =>
         tlog WARNING ("OCR fallback failed on page " ++ Py.str_of_int page_number
                       ++ ": " ++ exn_message exc) ;;;
         tret (mk_extracted native_words "native" true (Py.len native_words) 0)
     | Returned ocr_items =>
         let ocr_words := _extract_words ocr_items in
         ocr_metrics <- lift (_word_quality_metrics ocr_words) ;;
         use_ocr <- lift (_should_use_ocr native_metrics ocr_metrics settings) ;;
         if (use_ocr : bool) then
           tret (mk_extracted ocr_words "ocr" true (Py.len native_words)
                              (Py.len ocr_words))
         else
           tret (mk_extracted native_words "native" true (Py.len native_words)
                              (Py.len ocr_words))
     end)%task.

(** The inner loop of [_chunk_span_window]: [rest] is [span_refs[end:]]; the
    result is the value of [end] when the loop is left. *)
Fixpoint pack_window (rest : list (Span * Z)) (start end_ total_chars : Z) : Z :=
  match rest with
  | [] => end_
  | ref :: rest' =>
      let text_len :=
        Py.slen (span_text (fst ref)) + (if total_chars =? 0 then 0 else 1) in
      if (CHUNK_MAX_CHARS <? total_chars + text_len) && (start <? end_) then end_
      else pack_window rest' start (end_ + 1) (total_chars + text_len)
  end.

(** The outer [while start < len(span_refs)] loop; [None] when the fuel runs
    out before the loop is left. *)
Fixpoint chunk_windows_from (fuel : nat) (span_refs : list (Span * Z)) (start : Z)
  : option (list (Z * Z)) :=
  match fuel with
  | O => None
  | S fuel' =>
      if start <? Py.len span_refs then
        let end_ := pack_window (skipn (Z.to_nat start) span_refs) start start 0 in
        if Py.len span_refs <=? end_ then Some [(start, end_)]
        else
          match chunk_windows_from fuel' span_refs
                  (Z.max (end_ - CHUNK_OVERLAP_SPANS) (start + 1)) with
          | Some windows => Some ((start, end_) :: windows)
          | None => None
          end
      else Some []
  end.

Definition _chunk_span_window (span_refs : list (Span * Z)) : option (list (Z * Z)) :=
  match span_refs with
  | [] => Some []
  | _ => chunk_windows_from (S (List.length span_refs)) span_refs 0
  end.

(** The lengths of the texts of the spans, all the chunker reads of them. *)
Definition text_lengths (refs : list (Span * Z)) : list Z :=
  map (fun ref => Py.slen (span_text (fst ref))) refs.

Definition _reset_document_rows (document_id : UUID) : task unit :=
  tmodify (fun db =>
    let w := working db in
    let keep {A : Type} (owner : A -> UUID) :=
      filter (fun row => negb (N.eqb (owner row) document_id)) in
    with_working db
      (mk_store (documents w)
                (keep page_document_id (pages w))
                (keep span_document_id (spans w))
                (keep chunk_document_id (chunks w)))).

(** [db.add(page_row); db.flush()]: the row gets the next id of the sequence. *)
Definition add_page_and_flush (row : Page) : task Page :=
  fun db =>
    let stored := mk_page (next_page_id db) (page_document_id row) (page_number row)
                          (page_width_pts row) (page_height_pts row)
                          (page_image_path row) in
    let w := working db in
    (mk_session (committed db)
                (mk_store (documents w) (pages w ++ [stored]) (spans w) (chunks w))
                (next_page_id db + 1) (next_span_id db) (uuid_counter db) (events db),
     [], Returned stored).

(** The table's check constraints [x2 > x1] and [y2 > y1]. *)
Definition span_checks (s : Span) : bool :=
  Py.Qltb (span_x1 s) (span_x2 s) && Py.Qltb (span_y1 s) (span_y2 s).

Fixpoint number_spans (first_id : Z) (rows : list Span) : list Span :=
  match rows with
  | [] => []
  | s :: rows' =>
      mk_span first_id (span_document_id s) (span_page_id s) (span_index s)
              (span_text s) (span_x1 s) (span_y1 s) (span_x2 s) (span_y2 s)
              (span_char_start s) (span_char_end s)
      :: number_spans (first_id + 1) rows'
  end.

(** [db.add(span)] for every span of the page, then [db.flush()]: the rows are
    inserted in order and numbered by the sequence, unless one of them
    violates a check constraint. *)
Definition add_spans_and_flush (rows : list Span) : task (list Span) :=
  fun db =>
    if forallb span_checks rows then
      let stored := number_spans (next_span_id db) rows in
      let w := working db in
      (mk_session (committed db)
                  (mk_store (documents w) (pages w) (spans w ++ stored) (chunks w))
                  (next_page_id db) (next_span_id db + Py.len rows)
                  (uuid_counter db) (events db),
       [], Returned stored)
    else (db, [], raise IntegrityError "new row for relation spans violates check constraint").

Section Pipeline.

Context {ext : Externals}.

(** [db.add(chunk)]: the primary key defaults to [uuid.uuid4()]. *)
Definition add_chunk (row : Chunk) : task unit :=
  fun db =>
    let stored := mk_chunk (uuid4 (uuid_counter db)) (chunk_document_id row)
                           (chunk_index row) (chunk_text row) (chunk_page_start row)
                           (chunk_page_end row) (chunk_span_start_id row)
                           (chunk_span_end_id row) (chunk_embedding row) in
    let w := working db in
    (mk_session (committed db)
                (mk_store (documents w) (pages w) (spans w) (chunks w ++ [stored]))
                (next_page_id db) (next_span_id db) (uuid_counter db + 1)%N (events db),
     [], Returned tt).

(** The spans of one page, before the flush gives them an id: the loop over
    [enumerate(words)] with its [char_cursor]. *)
Fixpoint page_spans_from (document_id : UUID) (page_row_id : Z)
  (span_index char_cursor : Z) (words : list Word) : list Span :=
  match words with
  | [] => []
  | (x0, y0, x1, y1, text) :: words' =>
      let char_start := char_cursor in
      let char_end := char_start + Py.slen text in
      mk_span 0 document_id page_row_id span_index text x0 y0 x1 y1
              (Some char_start) (Some char_end)
      :: page_spans_from document_id page_row_id (span_index + 1) (char_end + 1) words'
  end.

Record PageLoopState : Type := mk_loop_state {
  span_refs : list (Span * Z);
  ocr_attempted_pages : Z;
  ocr_used_pages : Z
}.

(** The body of [for page_idx in range(total_pages)]. *)
Definition process_page (document_id : UUID) (settings : Settings)
  (st : PageLoopState) (entry : Z * PdfPage) : task PageLoopState :=
  let '(page_idx, page) := entry in
  let page_number := page_idx + 1 in
  (_ <- lift (pixmap_save page) ;;
   page_row <- add_page_and_flush
                 (mk_page 0 document_id page_number (Some (rect_width page))
                          (Some (rect_height page))
                          (Some (stored_image_path document_id page_number))) ;;
   extracted_words <- _extract_words_with_fallback page page_number settings ;;
   let attempted := if attempted_ocr extracted_words
                    then ocr_attempted_pages st + 1 else ocr_attempted_pages st in
   let used := if String.eqb (source extracted_words) "ocr"
               then ocr_used_pages st + 1 else ocr_used_pages st in
   page_spans <- add_spans_and_flush
                   (page_spans_from document_id (page_id page_row) 0 0
                                    (words extracted_words)) ;;
   tret (mk_loop_state
           (span_refs st ++ map (fun span => (span, page_number)) page_spans)
           attempted used))%task.

(** The body of [for chunk_index, (start, end) in enumerate(windows)]. *)
Definition add_window_chunk (document_id : UUID) (refs : list (Span * Z))
  (_ : unit) (entry : Z * (Z * Z)) : task unit :=
  let '(chunk_index, (start, end_)) := entry in
  let window := Py.slice refs start end_ in
  match window with
  | [] => tret tt
  | (first_span, first_page) :: _ =>
      let text := Py.strip (Py.join " " (map (fun ref => span_text (fst ref)) window)) in
      if Py.is_empty text then tret tt
      else
        let '(last_span, last_page) := last window (first_span, first_page) in
        add_chunk (mk_chunk 0%N document_id chunk_index text (Some first_page)
                            (Some last_page) (Some (span_id first_span))
                            (Some (span_id last_span)) None)
  end.

(** The body of the [try] block up to, and without, its final [db.commit()]. *)
Definition ingest_rows (document_id : UUID) (pdf : PdfFile)
  (settings : Settings) : task unit :=
  (pdf_pages <- lift (fitz_open pdf) ;;
   let total_pages := Py.len pdf_pages in
   if total_pages =? 0 then traise ValueError "PDF has no pages."
   else
     _reset_document_rows document_id ;;;
     _ <- lift (make_pages_dir pdf) ;;
     first_page <- lift (Py.index pdf_pages 0) ;;
     let page_width := rect_width first_page in
     let page_height := rect_height first_page in
     st <- tfold (process_page document_id settings) (enumerate pdf_pages)
                 (mk_loop_state [] 0 0) ;;
     windows <- lift (match _chunk_span_window (span_refs st) with
                      | Some windows => Returned windows
                      | None => raise FuelExhausted "_chunk_span_window"
                      end) ;;
     tfold (add_window_chunk document_id (span_refs st)) (enumerate windows) tt ;;;
     tmodify (fun db => db_update_document db document_id
                (fun d => mk_document (doc_id d) (doc_filename d) "ready"
                            (Some total_pages) (Some page_width) (Some page_height)
                            None)) ;;;
     tlog INFO ("Document " ++ uuid_str document_id ++ " processed: pages="
                ++ Py.str_of_int total_pages ++ ", ocr_attempted_pages="
                ++ Py.str_of_int (ocr_attempted_pages st) ++ ", ocr_used_pages="
                ++ Py.str_of_int (ocr_used_pages st)))%task.

(** The whole [try] block. *)
Definition ingest (document_id : UUID) (pdf : PdfFile)
  (settings : Settings) : task unit :=
  (ingest_rows document_id pdf settings ;;; tmodify db_commit)%task.

(** The [except Exception as exc] block. *)
Definition ingest_failed (document_id : UUID) (exc : exn) : task unit :=
  (tlog ERROR ("Failed to process document " ++ uuid_str document_id) ;;;
   tmodify db_rollback ;;;
   db <- tget ;;
   match db_get_document db document_id with
   | None => tret tt
   | Some _ =>
       tmodify (fun db => db_update_document db document_id
                  (fun d => mk_document (doc_id d) (doc_filename d) "error"
                              None None None
                              (Some ("Document processing failed: "
                                     ++ exn_message exc)%string))) ;;;
       tmodify db_commit
   end)%task.

Definition process_document_metadata (document_id : UUID)
  (pdf : PdfFile) (settings : Settings) : task unit :=
  (db <- tget ;;
   match db_get_document db document_id with
   | None => tret tt
   | Some _ =>
       try_except (ingest document_id pdf settings) (ingest_failed document_id)
   end)%task.

(** [_process_document_in_background] of [app/api/routes/documents.py]: the
    background task parses the id it was handed and runs the pipeline. *)
Definition _process_document_in_background (document_id : string)
  (pdf : PdfFile) (settings : Settings) : task unit :=
  match uuid_parse document_id with
  | None => traise ValueError "badly formed hexadecimal UUID string"
  | Some parsed => process_document_metadata parsed pdf settings
  end.

End Pipeline.

End DocumentProcessing.

(** ** Question answering ([app/services/qa.py]) *)

Module QA.

Local Open Scope Q_scope.

Definition INSUFFICIENT_EVIDENCE_ANSWER : string :=
  "I don't have enough grounded evidence in this document to answer that confidently.".

Definition QUESTION_STOPWORDS : list string :=
  ["the"; "a"; "an"; "of"; "to"; "in"; "on"; "for"; "and"; "or"; "is"; "was";
   "were"; "are"; "be"; "who"; "what"; "when"; "where"; "which"; "how"; "did";
   "does"; "do"; "from"; "with"; "by"; "at"; "as"; "about"]%string.

Definition CONTEXT_WINDOW_RADIUS : Z := 1.
Definition SIGNATURE_SIGNAL_THRESHOLD : Q := 0.9.
Definition EMBEDDING_VECTOR_DIM : Z := 1536.

Record EvidenceLineCandidate : Type := mk_candidate {
  lc_text : string;
  lc_spans : list Span;
  lc_y1 : Q;
  lc_y2 : Q;
  weighted_score : Q;
  answer_overlap : Z;
  question_overlap : Z;
  signature_signal : Q
}.

Record ScoredEvidenceItem : Type := mk_scored {
  item : EvidenceItem;
  score : Q
}.

(** *** Tokens and keyword overlap *)

(** [re.sub(r"[^a-z0-9]+", "", token.lower())] *)
Definition _normalize_token (token : string) : string :=
  Py.sfilter (fun c => Py.is_lower c || Py.is_digit c) (Py.lower token).

(** The tokens of a text: [_normalize_token(t)] for every [t] that
    [re.findall(r"[a-zA-Z0-9]+", text.lower())] finds. *)
Definition text_tokens (text : string) : list string :=
  map _normalize_token (Py.findall_alnum (Py.lower text)).

(** [token and len(token) >= 3 and token not in QUESTION_STOPWORDS] *)
Definition keeps_token (token : string) : bool :=
  negb (Py.is_empty token) && (3 <=? Py.slen token)%Z
  && negb (Py.mem_str token QUESTION_STOPWORDS).

Definition _tokenize_question_terms (question : string) : list string :=
  Py.set_of (filter keeps_token (text_tokens question)).

(** [term == token or term in token or token in term] *)
Definition term_matches (term token : string) : bool :=
  String.eqb term token || Py.contains term token || Py.contains token term.

(** The set [normalized_tokens] both overlap functions build from the line. *)
Definition normalized_tokens (text : string) : list string :=
  Py.set_of (filter keeps_token (Py.set_of (text_tokens text))).

Definition _keyword_overlap_count (text : string) (question_terms : list string) : Z :=
  match question_terms with
  | [] => 0%Z
  | _ =>
      let tokens := normalized_tokens text in
      match tokens with
      | [] => 0%Z
      | _ =>
          fold_left
            (fun overlap term =>
               if existsb (term_matches term) tokens then (overlap + 1)%Z else overlap)
            question_terms 0%Z
      end
  end.

(** [1.0 + min(0.6, max(0.0, (len(term) - 4) * 0.08))] *)
Definition term_weight (term : string) : Q :=
  1.0 + Py.fmin 0.6 (Py.fmax 0.0 (inject_Z (Py.slen term - 4) * 0.08)).

Definition _keyword_overlap_weighted_score (text : string) (terms : list string) : Q :=
  match terms with
  | [] => 0.0
  | _ =>
      let tokens := normalized_tokens text in
      match tokens with
      | [] => 0.0
      | _ =>
          fold_left
            (fun score term =>
               if Py.is_empty term then score
               else if existsb (term_matches term) tokens then score + term_weight term
               else score)
            terms 0.0
      end
  end.

Definition _normalize_evidence_weights (question_weight answer_weight : Q) : Q * Q :=
  let q := Py.fmax 0.0 question_weight in
  let a := Py.fmax 0.0 answer_weight in
  let total := q + a in
  if Qle_bool total 0 then (0.2, 0.8) else (q / total, a / total).

(** *** Signature mode *)

Definition _question_targets_signer_evidence (question : string) : bool :=
  let lowered := Py.lower question in
  Py.contains "signed" lowered || Py.contains "signature" lowered
  || Py.contains "who signed" lowered.

Section Signature.

Context {ext : Externals}.

Definition _signature_line_signal (text : string) : Q :=
  let lowered := (" " ++ Py.lower text ++ " ")%string in
  let tokens := filter (fun token => (4 <=? Py.slen token)%Z) (text_tokens text) in
  let score := 0.0 in
  let score :=
    if Py.contains " signed by " lowered || Py.contains " signature " lowered
    then Py.fmax score 2.0 else score in
  let score :=
    fold_left
      (fun score token =>
         if Py.startswith token "sig" then Py.fmax score 1.6
         else
           let score :=
             if Py.startswith token "s" && Qle_bool 0.60 (similarity token "signed")
             then Py.fmax score 1.35 else score in
           if Qle_bool 0.68 (similarity token "electronic")
           then Py.fmax score 1.15 else score)
      tokens score in
  if Py.Qltb 0 score && Py.contains " by " lowered then score + 0.25 else score.

End Signature.

Definition noisy_markers : list (string * Q) :=
  [("order source", 1.00); ("order receive", 1.00); ("order continued", 0.95);
   ("order acknowledged", 0.95); ("order enter", 0.90); ("order from set", 0.85);
   ("in pom", 0.85); ("order's status changed", 0.75)]%string.

Definition _operational_line_penalty (text : string) : Q :=
  let lowered := Py.lower text in
  let penalty := 0.0 in
  let penalty :=
    if Py.contains "ordering doctor" lowered then penalty + 1.35 else penalty in
  fold_left
    (fun penalty entry =>
       if Py.contains (fst entry) lowered then penalty + snd entry else penalty)
    noisy_markers penalty.

(** *** Grouping the spans of a page into lines *)

Definition mid_y (span : Span) : Q := (span_y1 span + span_y2 span) / 2.

Definition _line_merge_tolerance (spans : list Span) : Q :=
  match spans with
  | [] => 3.0
  | _ =>
      let heights :=
        Py.sorted (fun h => [h])
                  (map (fun span => Py.fmax 0.5 (span_y2 span - span_y1 span)) spans) in
      let mid := (Py.len heights / 2)%Z in
      let median_height :=
        if (Py.len heights mod 2 =? 0)%Z
        then (nth (Z.to_nat (mid - 1)) heights 0 + nth (Z.to_nat mid) heights 0) / 2
        else nth (Z.to_nat mid) heights 0 in
      Py.fmin 10.0 (Py.fmax 2.5 (median_height * 0.65))
  end.

Record LineGroup : Type := mk_group { center : Q; group_spans : list Span }.

(** The body of [for span in ordered]; the current group is the last one. *)
Definition group_step (tolerance : Q) (groups : list LineGroup) (span : Span)
  : list LineGroup :=
  let center_y := mid_y span in
  match rev groups with
  | [] => [mk_group center_y [span]]
  | current :: earlier =>
      if Qle_bool (Py.fabs (center_y - center current)) tolerance then
        let current_spans := group_spans current ++ [span] in
        rev earlier
        ++ [mk_group (Py.fsum (map mid_y current_spans)
                      / inject_Z (Py.len current_spans))
                     current_spans]
      else groups ++ [mk_group center_y [span]]
  end.

Definition _group_spans_into_lines (spans : list Span) : list (list Span) :=
  match spans with
  | [] => []
  | _ =>
      let ordered := Py.sorted (fun span => [mid_y span; span_x1 span]) spans in
      let tolerance := _line_merge_tolerance ordered in
      map group_spans (fold_left (group_step tolerance) ordered [])
  end.


(** *** From the spans of a chunk to scored evidence lines *)

Definition RankedLine : Type := (Q * Z * EvidenceLineCandidate)%type.

Definition ranked_score (entry : RankedLine) : Q := fst (fst entry).
Definition ranked_idx (entry : RankedLine) : Z := snd (fst entry).
Definition ranked_candidate (entry : RankedLine) : EvidenceLineCandidate := snd entry.

(** The body of [for idx, candidate in enumerate(candidates)]. *)
Definition rank_entry (candidates : list EvidenceLineCandidate)
  (question_terms answer_terms : list string) (question_weight answer_weight : Q)
  (entry : Z * EvidenceLineCandidate) : RankedLine :=
  let '(idx, candidate) := entry in
  let start := Z.max 0 (idx - CONTEXT_WINDOW_RADIUS) in
  let end_ := Z.min (Py.len candidates) (idx + CONTEXT_WINDOW_RADIUS + 1) in
  (* [candidates[j] for j in range(start, end)] *)
  let window := Py.slice candidates start end_ in
  let context_text := Py.join " " (map lc_text window) in
  let context_question := _keyword_overlap_weighted_score context_text question_terms in
  let context_answer := _keyword_overlap_weighted_score context_text answer_terms in
  let context_score := context_question * question_weight + context_answer * answer_weight in
  let neighbor_overlap :=
    fold_left
      (fun acc jn =>
         if (fst jn =? idx)%Z then acc
         else acc + Py.fmin 2.0
                      (inject_Z (answer_overlap (snd jn) + question_overlap (snd jn))))
      (combine (Py.range start end_) window) 0.0 in
  let final_score :=
    weighted_score candidate * 0.72 + context_score * 0.28 + neighbor_overlap * 0.08
    + signature_signal candidate * 0.12 in
  (final_score, idx, candidate).

Definition _rank_line_candidates_with_context
  (candidates : list EvidenceLineCandidate)
  (question_terms answer_terms : list string) (question_weight answer_weight : Q)
  : list RankedLine :=
  match candidates with
  | [] => []
  | _ =>
      let ranked :=
        map (rank_entry candidates question_terms answer_terms question_weight
                        answer_weight)
            (enumerate candidates) in
      Py.sorted
        (fun entry =>
           let c := ranked_candidate entry in
           [- ranked_score entry; - signature_signal c; - weighted_score c;
            - inject_Z (answer_overlap c + question_overlap c); lc_y1 c])
        ranked
  end.

Definition _build_line_evidence_item (page_number : Z)
  (page_width page_height : option Q) (candidate : EvidenceLineCandidate)
  : outcome (option EvidenceItem) :=
  match lc_spans candidate with
  | [] => Returned None
  | _ =>
      (x1 <- Py.min_of (map span_x1 (lc_spans candidate)) ;;
       y1 <- Py.min_of (map span_y1 (lc_spans candidate)) ;;
       x2 <- Py.max_of (map span_x2 (lc_spans candidate)) ;;
       y2 <- Py.max_of (map span_y2 (lc_spans candidate)) ;;
       if Qle_bool x2 x1 || Qle_bool y2 y1 then ret None
       else
         let text := Py.strip (lc_text candidate) in
         if Py.is_empty text then ret None
         else
           item <- new_EvidenceItem page_number text (mk_bbox x1 y1 x2 y2)
                                    page_width page_height ;;
           ret (Some item))%outcome
  end.

(** [sorted(indices, key=lambda idx: candidates[idx].y1)]: the keys are
    computed first, then the indices are sorted by them. *)
Definition sorted_by_y1 (candidates : list EvidenceLineCandidate) (indices : list Z)
  : outcome (list Z) :=
  (keyed <- mapM (fun idx => candidate <- Py.index candidates idx ;;
                             ret (lc_y1 candidate, idx)) indices ;;
   ret (map snd (Py.sorted (fun entry => [fst entry]) keyed)))%outcome.

(** The closure [add_idx] of [_expand_line_indices_from_seeds]. *)
Definition add_idx (n max_lines : Z) (selected_order : list Z) (idx : Z) : list Z :=
  if (0 <=? idx)%Z && (idx <? n)%Z && negb (existsb (Z.eqb idx) selected_order)
     && (Py.len selected_order <? max_lines)%Z
  then selected_order ++ [idx] else selected_order.

(** The closure [is_relevant]. *)
Definition is_relevant (candidates : list EvidenceLineCandidate) (idx : Z)
  : outcome bool :=
  (candidate <- Py.index candidates idx ;;
   let overlap := (answer_overlap candidate + question_overlap candidate)%Z in
   if (0 <? overlap)%Z then ret true
   else if Qle_bool 0.75 (weighted_score candidate) then ret true
   else if Qle_bool SIGNATURE_SIGNAL_THRESHOLD (signature_signal candidate) then ret true
   else ret false)%outcome.

Definition _expand_line_indices_from_seeds (ranked_lines : list RankedLine)
  (candidates : list EvidenceLineCandidate) (seed_indices : list Z) (max_lines : Z)
  : outcome (list Z) :=
  match candidates with
  | [] => Returned []
  | _ =>
      if (max_lines <=? 0)%Z then Returned []
      else
        let n := Py.len candidates in
        let full (selected_order : list Z) := (max_lines <=? Py.len selected_order)%Z in
        let add_if_relevant (selected_order : list Z) (idx : Z) : outcome (list Z) :=
          (relevant <- is_relevant candidates idx ;;
           ret (if (relevant : bool) then add_idx n max_lines selected_order idx
                else selected_order))%outcome in
        (selected_order <-
           for_break
             (fun selected_order seed =>
                let selected_order := add_idx n max_lines selected_order seed in
                selected_order <-
                  (if (0 <=? seed - 1)%Z && (seed - 1 <? n)%Z
                   then add_if_relevant selected_order (seed - 1)%Z
                   else ret selected_order) ;;
                selected_order <-
                  (if (0 <=? seed + 1)%Z && (seed + 1 <? n)%Z
                   then add_if_relevant selected_order (seed + 1)%Z
                   else ret selected_order) ;;
                ret (selected_order, full selected_order))
             seed_indices [] ;;
         selected_order <-
           (if (Py.len selected_order <? max_lines)%Z then
              for_break
                (fun selected_order entry =>
                   selected_order <- add_if_relevant selected_order (ranked_idx entry) ;;
                   ret (selected_order, full selected_order))
                ranked_lines selected_order
            else ret selected_order) ;;
         let selected_order :=
           match selected_order, ranked_lines with
           | [], first :: _ => add_idx n max_lines selected_order (ranked_idx first)
           | _, _ => selected_order
           end in
         selected_order <-
           (if (Py.len selected_order <? max_lines)%Z then
              for_break
                (fun selected_order entry =>
                   let selected_order :=
                     add_idx n max_lines selected_order (ranked_idx entry) in
                   ret (selected_order, full selected_order))
                ranked_lines selected_order
            else ret selected_order) ;;
         sorted_by_y1 candidates selected_order)%outcome
  end.

Section Evidence.

Context {ext : Externals}.

(** The body of [for line_spans in line_groups]; [None] where the code
    [continue]s. *)
Definition line_candidate (question_terms answer_terms : list string)
  (question_weight answer_weight : Q) (prefer_signature_lines : bool)
  (line_spans : list Span) : outcome (option EvidenceLineCandidate) :=
  let ordered_line := Py.sorted (fun span => [span_x1 span]) line_spans in
  let excerpt := Py.strip (Py.join " " (map span_text ordered_line)) in
  if Py.is_empty excerpt then Returned None
  else
    (x1 <- Py.min_of (map span_x1 ordered_line) ;;
     y1 <- Py.min_of (map span_y1 ordered_line) ;;
     x2 <- Py.max_of (map span_x2 ordered_line) ;;
     y2 <- Py.max_of (map span_y2 ordered_line) ;;
     if Qle_bool x2 x1 || Qle_bool y2 y1 then ret None
     else
       let question_overlap := _keyword_overlap_count excerpt question_terms in
       let answer_overlap := _keyword_overlap_count excerpt answer_terms in
       let question_score := _keyword_overlap_weighted_score excerpt question_terms in
       let answer_score := _keyword_overlap_weighted_score excerpt answer_terms in
       let weighted_score :=
         question_score * question_weight + answer_score * answer_weight in
       let signature_signal :=
         if prefer_signature_lines then _signature_line_signal excerpt else 0.0 in
       let weighted_score :=
         if prefer_signature_lines
         then weighted_score
              + (signature_signal * 1.35 - _operational_line_penalty excerpt)
         else weighted_score in
       ret (Some (mk_candidate excerpt ordered_line y1 y2 weighted_score
                               answer_overlap question_overlap signature_signal)))%outcome.

(** The list [line_candidates] of one page. *)
Definition page_line_candidates (question_terms answer_terms : list string)
  (question_weight answer_weight : Q) (prefer_signature_lines : bool)
  (spans : list Span) : outcome (list EvidenceLineCandidate) :=
  foldM
    (fun line_candidates line_spans =>
       (candidate <- line_candidate question_terms answer_terms question_weight
                                    answer_weight prefer_signature_lines line_spans ;;
        ret (match candidate with
             | Some c => line_candidates ++ [c]
             | None => line_candidates
             end))%outcome)
    (_group_spans_into_lines spans) [].

(** The indices chosen on one page; [None] where the code [continue]s to
    the next page. *)
Definition page_selected_indices (question_terms answer_terms : list string)
  (min_keyword_overlap : Z) (prefer_signature_lines : bool)
  (line_candidates : list EvidenceLineCandidate) (ranked_lines : list RankedLine)
  : outcome (option (list Z)) :=
  if prefer_signature_lines then
    let signature_selected :=
      filter (fun entry =>
                Qle_bool SIGNATURE_SIGNAL_THRESHOLD
                         (signature_signal (ranked_candidate entry)))
             ranked_lines in
    match signature_selected with
    | [] => Returned None
    | _ =>
        (selected_indices <-
           sorted_by_y1 line_candidates (Py.zset_of (map ranked_idx signature_selected)) ;;
         ret (Some selected_indices))%outcome
    end
  else
    let selected :=
      match question_terms, answer_terms with
      | [], [] => Py.slice_to ranked_lines 1
      | _, _ =>
          let selected :=
            filter (fun entry =>
                      let c := ranked_candidate entry in
                      (min_keyword_overlap <=? answer_overlap c + question_overlap c)%Z)
                   ranked_lines in
          match selected with
          | [] => Py.slice_to ranked_lines 1
          | _ => selected
          end
      end in
    let seed_indices := map ranked_idx (Py.slice_to selected 2) in
    (selected_indices <-
       _expand_line_indices_from_seeds ranked_lines line_candidates seed_indices
                                       (Py.len line_candidates) ;;
     ret (Some selected_indices))%outcome.

Record PageGroup : Type := mk_page_group {
  pg_spans : list Span;
  pg_page_width : option Q;
  pg_page_height : option Q
}.

(** The body of [for page_number in sorted(grouped)]: the scored items of
    one page. *)
Definition page_evidence_items (question_terms answer_terms : list string)
  (min_keyword_overlap : Z) (question_weight answer_weight : Q)
  (prefer_signature_lines : bool) (page_number : Z) (group : PageGroup)
  : outcome (list ScoredEvidenceItem) :=
  match pg_spans group with
  | [] => Returned []
  | spans =>
      (line_candidates <-
         page_line_candidates question_terms answer_terms question_weight
                              answer_weight prefer_signature_lines spans ;;
       match line_candidates with
       | [] => ret []
       | _ =>
           let ranked_lines :=
             _rank_line_candidates_with_context line_candidates question_terms
               answer_terms question_weight answer_weight in
           let score_by_index :=
             map (fun entry => (ranked_idx entry, ranked_score entry)) ranked_lines in
           chosen <- page_selected_indices question_terms answer_terms
                       min_keyword_overlap prefer_signature_lines line_candidates
                       ranked_lines ;;
           match chosen with
           | None => ret []
           | Some selected_indices =>
               foldM
                 (fun items idx =>
                    candidate <- Py.index line_candidates idx ;;
                    built <- _build_line_evidence_item page_number
                               (pg_page_width group) (pg_page_height group) candidate ;;
                    ret (match built with
                         | Some it =>
                             items ++ [mk_scored it
                                         (match Py.dict_get score_by_index idx with
                                          | Some sc => sc
                                          | None => weighted_score candidate
                                          end)]
                         | None => items
                         end))
                 selected_indices []
           end
       end)%outcome
  end.

(** The rows of the query of [_chunk_evidence_items]: the spans of the
    document with an id in the range, joined with their page, ordered by page
    number and span index. *)
Definition SpanRow : Type := (Span * Z * option Q * option Q)%type.

Definition select_span_rows (db : Session) (document_id : UUID) (low_id high_id : Z)
  : list SpanRow :=
  let w := working db in
  Py.sorted
    (fun row => match row with
                | (span, page_number, _, _) =>
                    [inject_Z page_number; inject_Z (span_index span)]
                end)
    (flat_map
       (fun span =>
          if N.eqb (span_document_id span) document_id
             && (low_id <=? span_id span)%Z && (span_id span <=? high_id)%Z
          then map (fun page => (span, page_number page, page_width_pts page,
                                 page_height_pts page))
                   (filter (fun page => (page_id page =? span_page_id span)%Z) (pages w))
          else [])
       (spans w)).

(** [grouped.setdefault(page_number, {...})] followed by the updates of the
    group; [grouped] keeps its keys in insertion order. *)
Fixpoint upsert_group (grouped : list (Z * PageGroup)) (page_number : Z)
  (update : PageGroup -> PageGroup) : list (Z * PageGroup) :=
  match grouped with
  | [] => [(page_number, update (mk_page_group [] None None))]
  | (key, group) :: rest =>
      if (key =? page_number)%Z then (key, update group) :: rest
      else (key, group) :: upsert_group rest page_number update
  end.

Definition group_row (grouped : list (Z * PageGroup)) (row : SpanRow)
  : list (Z * PageGroup) :=
  match row with
  | (span, page_number, width_pts, height_pts) =>
      upsert_group grouped page_number
        (fun group =>
           mk_page_group
             (pg_spans group ++ [span])
             (match pg_page_width group, width_pts with
              | None, Some width => Some width
              | current, _ => current
              end)
             (match pg_page_height group, height_pts with
              | None, Some height => Some height
              | current, _ => current
              end))
  end.

Definition _chunk_evidence_items (db : Session) (question_terms answer_terms : list string)
  (min_keyword_overlap : Z) (question_weight answer_weight : Q)
  (prefer_signature_lines : bool) (document_id : UUID) (chunk : RetrievedChunk)
  : outcome (list ScoredEvidenceItem) :=
  match rc_span_start_id chunk, rc_span_end_id chunk with
  | Some span_start_id, Some span_end_id =>
      let low_id := Z.min span_start_id span_end_id in
      let high_id := Z.max span_start_id span_end_id in
      let rows := select_span_rows db document_id low_id high_id in
      match rows with
      | [] => Returned []
      | _ =>
          let grouped := fold_left group_row rows [] in
          foldM
            (fun items entry =>
               (page_items <- page_evidence_items question_terms answer_terms
                                min_keyword_overlap question_weight answer_weight
                                prefer_signature_lines (fst entry) (snd entry) ;;
                ret (items ++ page_items))%outcome)
            (Py.sorted (fun entry => [inject_Z (fst entry)]) grouped) []
      end
  | _, _ => Returned []
  end.

End Evidence.

(** *** Neighbouring chunks *)

Definition retrieved_of_row (row : Chunk) : RetrievedChunk :=
  mk_retrieved (chunk_id row) (chunk_index row) (chunk_text row) (chunk_page_start row)
               (chunk_page_end row) (chunk_span_start_id row) (chunk_span_end_id row)
               None.

Definition zmem (x : Z) (l : list Z) : bool := existsb (Z.eqb x) l.
Definition umem (x : UUID) (l : list UUID) : bool := existsb (N.eqb x) l.

Definition _expand_chunks_for_evidence (db : Session) (document_id : UUID)
  (chunks : list RetrievedChunk) : list RetrievedChunk :=
  match chunks with
  | [] => []
  | _ =>
      let present_indices := Py.zset_of (map rc_chunk_index chunks) in
      (* the first loop: (expanded, seen_ids, neighbor_indices) *)
      let '(expanded, seen_ids, neighbor_indices) :=
        fold_left
          (fun st chunk =>
             let '(expanded, seen_ids, neighbor_indices) := st in
             let '(expanded, seen_ids) :=
               if negb (umem (rc_id chunk) seen_ids)
               then (expanded ++ [chunk], seen_ids ++ [rc_id chunk])
               else (expanded, seen_ids) in
             let neighbor_indices :=
               if negb (zmem (rc_chunk_index chunk + 1) present_indices)
               then Py.zset_of (neighbor_indices ++ [rc_chunk_index chunk + 1])%Z
               else neighbor_indices in
             let neighbor_indices :=
               if (0 <? rc_chunk_index chunk)%Z
                  && negb (zmem (rc_chunk_index chunk - 1) present_indices)
               then Py.zset_of (neighbor_indices ++ [rc_chunk_index chunk - 1])%Z
               else neighbor_indices in
             (expanded, seen_ids, neighbor_indices))
          chunks ([], [], []) in
      match neighbor_indices with
      | [] => expanded
      | _ =>
          let neighbor_rows :=
            Py.sorted (fun row => [inject_Z (chunk_index row)])
              (filter (fun row => N.eqb (chunk_document_id row) document_id
                                  && zmem (chunk_index row) neighbor_indices)
                      (chunks_of db)) in
          let row_by_index := map (fun row => (chunk_index row, row)) neighbor_rows in
          fst
            (fold_left
               (fun st chunk =>
                  fold_left
                    (fun st neighbor_index =>
                       let '(expanded, seen_ids) := st in
                       match Py.dict_get row_by_index neighbor_index with
                       | None => st
                       | Some neighbor_row =>
                           if umem (chunk_id neighbor_row) seen_ids then st
                           else (expanded ++ [retrieved_of_row neighbor_row],
                                 seen_ids ++ [chunk_id neighbor_row])
                       end)
                    [rc_chunk_index chunk + 1; rc_chunk_index chunk - 1]%Z st)
               chunks (expanded, seen_ids))
      end
  end.

(** *** Global filtering *)

(** The loop [for entry in ordered[1:]] with its two [break]s. *)
Fixpoint filter_walk (score_floor drop_ratio_stop : Q)
  (entries selected : list ScoredEvidenceItem) (previous_score : Q)
  : list ScoredEvidenceItem :=
  match entries with
  | [] => selected
  | entry :: rest =>
      if Py.Qltb (score entry) score_floor then selected
      else if Py.Qltb 0 previous_score
              && Py.Qltb (score entry / previous_score) drop_ratio_stop then selected
      else filter_walk score_floor drop_ratio_stop rest (selected ++ [entry])
                       (score entry)
  end.

Definition _filter_scored_evidence (scored_items : list ScoredEvidenceItem)
  (settings : Settings) : list ScoredEvidenceItem :=
  match scored_items with
  | [] => []
  | _ =>
      let ordered :=
        Py.sorted
          (fun entry => [- score entry; inject_Z (ev_page (item entry));
                         by1 (ev_bbox (item entry)); bx1 (ev_bbox (item entry))])
          scored_items in
      match ordered with
      | [] => []
      | first :: rest =>
          let best_score := score first in
          if Qle_bool best_score 0 then Py.slice_to ordered 1
          else
            let relative_threshold :=
              Py.fmin 1.0 (Py.fmax 0.0 (evidence_relative_score_threshold settings)) in
            let drop_ratio_stop :=
              Py.fmin 1.0 (Py.fmax 0.0 (evidence_drop_ratio_stop settings)) in
            let absolute_threshold :=
              Py.fmax 0.0 (evidence_min_absolute_score settings) in
            let score_floor :=
              Py.fmax absolute_threshold (best_score * relative_threshold) in
            let selected :=
              filter_walk score_floor drop_ratio_stop rest [first] best_score in
            if (0 <? answer_max_evidence_items settings)%Z
            then Py.slice_to selected (answer_max_evidence_items settings)
            else selected
      end
  end.

(** The key of the cross-page de-duplication,
    [f"{page}:{x1:.1f}:{y1:.1f}:{x2:.1f}:{y2:.1f}"]. *)
Definition evidence_key (it : EvidenceItem) : string :=
  (Py.str_of_int (ev_page it) ++ ":" ++ Py.format_1f (bx1 (ev_bbox it)) ++ ":"
   ++ Py.format_1f (by1 (ev_bbox it)) ++ ":" ++ Py.format_1f (bx2 (ev_bbox it)) ++ ":"
   ++ Py.format_1f (by2 (ev_bbox it)))%string.

(** [existing = scored_by_key.get(key)] and the conditional assignment; the
    dict keeps its keys in insertion order. *)
Fixpoint upsert_scored (scored_by_key : list (string * ScoredEvidenceItem))
  (key : string) (scored : ScoredEvidenceItem) : list (string * ScoredEvidenceItem) :=
  match scored_by_key with
  | [] => [(key, scored)]
  | (k, existing) :: rest =>
      if String.eqb k key then
        (if Py.Qltb (score existing) (score scored) then (k, scored) else (k, existing))
        :: rest
      else (k, existing) :: upsert_scored rest key scored
  end.

(** The display order of [_build_evidence]. *)
Definition ordered_for_display (filtered : list ScoredEvidenceItem)
  : list ScoredEvidenceItem :=
  Py.sorted
    (fun entry => [inject_Z (ev_page (item entry)); by1 (ev_bbox (item entry));
                   bx1 (ev_bbox (item entry)); - score entry])
    filtered.

Section Engine.

Context {ext : Externals}.

Definition _build_evidence (db : Session) (settings : Settings) (question answer : string)
  (document_id : UUID) (chunks : list RetrievedChunk) : outcome (list EvidenceItem) :=
  let prefer_signature_lines := _question_targets_signer_evidence question in
  let question_terms := _tokenize_question_terms question in
  let answer_terms := _tokenize_question_terms answer in
  let '(question_weight, answer_weight) :=
    _normalize_evidence_weights (evidence_question_weight settings)
                                (evidence_answer_weight settings) in
  let evidence_chunks := _expand_chunks_for_evidence db document_id chunks in
  (scored_by_key <-
     foldM
       (fun scored_by_key chunk =>
          chunk_items <- _chunk_evidence_items db question_terms answer_terms
                           (retrieval_min_keyword_overlap settings) question_weight
                           answer_weight prefer_signature_lines document_id chunk ;;
          ret (fold_left
                 (fun scored_by_key scored =>
                    upsert_scored scored_by_key (evidence_key (item scored)) scored)
                 chunk_items scored_by_key))
       evidence_chunks [] ;;
   match scored_by_key with
   | [] => ret []
   | _ =>
       let filtered := _filter_scored_evidence (map snd scored_by_key) settings in
       ret (map item (ordered_for_display filtered))
   end)%outcome.

(** *** Gates *)

Definition _has_sufficient_retrieval_confidence (settings : Settings)
  (chunks : list RetrievedChunk) : bool :=
  match chunks with
  | [] => false
  | _ =>
      let vector_distances :=
        flat_map (fun chunk => match rc_distance chunk with
                               | Some d => [d]
                               | None => []
                               end) chunks in
      match vector_distances with
      | first :: rest =>
          let best_distance := fold_left Py.fmin rest first in
          Qle_bool best_distance (retrieval_max_vector_distance settings)
      | [] => false
      end
  end.

Definition uncertainty_markers : list string :=
  ["not enough evidence"; "cannot determine"; "can't determine"; "insufficient";
   "uncertain"; "not clearly supported"]%string.

Definition _answer_is_uncertain (answer : string) : bool :=
  let lowered := Py.lower answer in
  existsb (fun marker => Py.contains marker lowered) uncertainty_markers.

(** The query of [_validate_evidence_mapping]: a span of the document on a
    page with the item's number that overlaps the box. *)
Definition span_overlaps (db : Session) (document_id : UUID) (it : EvidenceItem)
  (span : Span) : bool :=
  N.eqb (span_document_id span) document_id
  && existsb (fun page => (page_id page =? span_page_id span)%Z
                          && (page_number page =? ev_page it)%Z)
             (pages (working db))
  && Py.Qltb (bx1 (ev_bbox it)) (span_x2 span)
  && Py.Qltb (span_x1 span) (bx2 (ev_bbox it))
  && Py.Qltb (by1 (ev_bbox it)) (span_y2 span)
  && Py.Qltb (span_y1 span) (by2 (ev_bbox it)).

Definition _validate_evidence_mapping (db : Session) (document_id : UUID)
  (evidence : list EvidenceItem) : bool :=
  forallb
    (fun it =>
       if Qle_bool (bx2 (ev_bbox it)) (bx1 (ev_bbox it))
          || Qle_bool (by2 (ev_bbox it)) (by1 (ev_bbox it))
       then false
       else existsb (span_overlaps db document_id it) (spans (working db)))
    evidence.

Definition _insufficient_response (reason : string) : task AskQuestionResponse :=
  (tlog INFO ("Returning insufficient evidence response: " ++ reason) ;;;
   tret (mk_response INSUFFICIENT_EVIDENCE_ANSWER []))%task.

(** *** Embedding back-fill and retrieval *)

Definition _embedding_request_kwargs (settings : Settings) : string * option Z :=
  let selected_model := Py.strip (openai_embedding_model settings) in
  (selected_model,
   if Py.startswith selected_model "text-embedding-3"
   then Some (openai_embedding_dimensions settings) else None).

(** [chunk.embedding = embedded.embedding] on a loaded row. *)
Definition set_chunk_embedding (id : UUID) (embedding : Embedding) : task unit :=
  tmodify (fun db =>
    let w := working db in
    with_working db
      (mk_store (documents w) (pages w) (spans w)
                (map (fun row =>
                        if N.eqb (chunk_id row) id
                        then mk_chunk (chunk_id row) (chunk_document_id row)
                                      (chunk_index row) (chunk_text row)
                                      (chunk_page_start row) (chunk_page_end row)
                                      (chunk_span_start_id row) (chunk_span_end_id row)
                                      (Some embedding)
                        else row)
                     (chunks w)))).

(** [for chunk, embedded in zip(batch, response.data, strict=True)] *)
Fixpoint assign_embeddings (batch : list Chunk) (data : list Embedding) : task unit :=
  match batch, data with
  | [], [] => tret tt
  | chunk :: batch', embedded :: data' =>
      tbind (set_chunk_embedding (chunk_id chunk) embedded)
            (fun _ => assign_embeddings batch' data')
  | _ :: _, [] => traise ValueError "zip() argument 2 is shorter than argument 1"
  | [], _ :: _ => traise ValueError "zip() argument 2 is longer than argument 1"
  end.

(** [missing_chunks[start : start + batch_size]] for
    [start in range(0, len(missing_chunks), batch_size)]. *)
Fixpoint batches_of (fuel : nat) (batch_size : nat) {A : Type} (l : list A)
  : list (list A) :=
  match fuel, l with
  | S fuel', _ :: _ => firstn batch_size l :: batches_of fuel' batch_size (skipn batch_size l)
  | _, _ => []
  end.

(** A chunk row without its embedding, and two sessions whose working rows
    differ in the embeddings of chunks at most. *)
Definition forget_embedding (row : Chunk) : Chunk :=
  mk_chunk (chunk_id row) (chunk_document_id row) (chunk_index row) (chunk_text row)
           (chunk_page_start row) (chunk_page_end row) (chunk_span_start_id row)
           (chunk_span_end_id row) None.

Definition only_embeddings_change (db db' : Session) : Prop :=
  documents (working db') = documents (working db)
  /\ pages (working db') = pages (working db)
  /\ spans (working db') = spans (working db)
  /\ map forget_embedding (chunks (working db'))
     = map forget_embedding (chunks (working db)).

(** The query of [_ensure_chunk_embeddings]: the chunks of the document
    without an embedding, ordered by chunk index. *)
Definition select_missing_chunks (db : Session) (document_id : UUID) : list Chunk :=
  Py.sorted (fun row => [inject_Z (chunk_index row)])
    (filter (fun row => N.eqb (chunk_document_id row) document_id
                        && match chunk_embedding row with
                           | None => true
                           | Some _ => false
                           end)
            (chunks_of db)).

Definition _ensure_chunk_embeddings (settings : Settings) (document_id : UUID)
  : task unit :=
  (db <- tget ;;
   let missing_chunks := select_missing_chunks db document_id in
   match missing_chunks with
   | [] => tret tt
   | _ =>
       let batch_size := 64%nat in
       let '(model, dimensions) := _embedding_request_kwargs settings in
       tfold
         (fun _ batch =>
            data <- lift (embeddings_create model dimensions (map chunk_text batch)) ;;
            assign_embeddings batch data)
         (batches_of (List.length missing_chunks) batch_size missing_chunks) tt ;;;
       tmodify db_commit
   end)%task.

(** [f"{v:.8f}"] read back as a number. *)
Definition round_8f (v : Q) : Q :=
  inject_Z (Py.round_half_even (v * 100000000)) / 100000000.

Definition _retrieve_chunks (db : Session) (settings : Settings) (document_id : UUID)
  (question : string) : outcome (list RetrievedChunk) :=
  let '(model, dimensions) := _embedding_request_kwargs settings in
  (data <- embeddings_create model dimensions [question] ;;
   query_embedding <- Py.index data 0 ;;
   let vector_literal := map round_8f query_embedding in
   let rows :=
     flat_map
       (fun row =>
          if N.eqb (chunk_document_id row) document_id then
            match chunk_embedding row with
            | Some embedding => [(row, cosine_distance embedding vector_literal)]
            | None => []
            end
          else [])
       (chunks_of db) in
   (* ORDER BY distance, chunk_index: NULL distances come last *)
   let ordered :=
     Py.sorted
       (fun rd => match snd rd with
                  | Some d => [0; d; inject_Z (chunk_index (fst rd))]
                  | None => [1; 0; inject_Z (chunk_index (fst rd))]
                  end)
       rows in
   if (retrieval_top_k settings <? 0)%Z
   then raise DatabaseError "LIMIT must not be negative"
   else
     ret (map (fun rd =>
                 mk_retrieved (chunk_id (fst rd)) (chunk_index (fst rd))
                              (chunk_text (fst rd)) (chunk_page_start (fst rd))
                              (chunk_page_end (fst rd)) (chunk_span_start_id (fst rd))
                              (chunk_span_end_id (fst rd)) (snd rd))
              (firstn (Z.to_nat (retrieval_top_k settings)) ordered)))%outcome.

(** *** The request to the chat provider
    Each function returns the calls it made to the provider, in order, with
    its result. *)

Definition _is_gpt5_family_model (model_name : string) : bool :=
  let normalized := Py.lower (Py.strip model_name) in
  Py.startswith normalized "gpt-5".

Definition newline : string := String (ascii_of_nat 10) EmptyString.

(** [response.choices[0].message.content or "{}"] *)
Definition first_choice_content (choices : list (option string)) : outcome string :=
  (content <- Py.index choices 0 ;;
   ret (match content with
        | Some text => if Py.is_empty text then "{}"%string else text
        | None => "{}"%string
        end))%outcome.

Section ChatRequests.

Context {provider : ChatProvider}.

Definition _create_response_via_responses_api (model_name : string)
  : list ProviderCall * outcome string :=
  let temperature :=
    if negb (_is_gpt5_family_model model_name) then Some 0.1 else None in
  ([ResponsesCall model_name temperature],
   match responses_create model_name temperature with
   | BadRequest message => Raised (mk_exn ProviderError message)
   | ProviderFailed exc => Raised exc
   | Replied response =>
       let output_text :=
         Py.strip (match output_text response with
                   | Some text => text
                   | None => EmptyString
                   end) in
       if negb (Py.is_empty output_text) then Returned output_text
       else
         let parts :=
           flat_map
             (fun item =>
                flat_map
                  (fun content =>
                     match content with
                     | TextStr text_value =>
                         if negb (Py.is_empty (Py.strip text_value))
                         then [Py.strip text_value] else []
                     | TextObject (Some value) =>
                         if negb (Py.is_empty value) then [Py.strip value] else []
                     | TextObject None => []
                     | TextMissing => []
                     end)
                  item)
             (output response) in
         let joined :=
           Py.join newline (filter (fun part => negb (Py.is_empty part)) parts) in
         Returned (if Py.is_empty joined then "{}"%string else joined)
   end).

(** [retry_kwargs != request_kwargs] on the arguments the code varies. *)
Definition chat_request_eqb (a b : ChatRequest) : bool :=
  String.eqb (req_model a) (req_model b)
  && Bool.eqb (req_response_format a) (req_response_format b)
  && match req_temperature a, req_temperature b with
     | Some x, Some y => Qeq_bool x y
     | None, None => true
     | _, _ => false
     end.

Definition _create_llm_json_response_for_model (model_name : string)
  (request_kwargs : ChatRequest) : list ProviderCall * outcome string :=
  match chat_completions_create request_kwargs with
  | Replied choices => ([ChatCall request_kwargs], first_choice_content choices)
  | ProviderFailed exc => ([ChatCall request_kwargs], Raised exc)
  | BadRequest message =>
      let lowered := Py.lower message in
      let retry_kwargs := request_kwargs in
      let retry_kwargs :=
        if Py.contains "response_format" lowered
        then mk_chat_request (req_model retry_kwargs) false (req_temperature retry_kwargs)
        else retry_kwargs in
      let retry_kwargs :=
        if Py.contains "temperature" lowered
        then mk_chat_request (req_model retry_kwargs) (req_response_format retry_kwargs)
                             None
        else retry_kwargs in
      if negb (chat_request_eqb retry_kwargs request_kwargs) then
        match chat_completions_create retry_kwargs with
        | Replied choices =>
            ([ChatCall request_kwargs; ChatCall retry_kwargs],
             first_choice_content choices)
        | ProviderFailed exc =>
            ([ChatCall request_kwargs; ChatCall retry_kwargs], Raised exc)
        | BadRequest retry_message =>
            let lowered_retry := Py.lower retry_message in
            if Py.contains "chat.completions" lowered_retry
               || Py.contains "responses api" lowered_retry
            then
              let '(calls, result) := _create_response_via_responses_api model_name in
              ([ChatCall request_kwargs; ChatCall retry_kwargs] ++ calls, result)
            else ([ChatCall request_kwargs; ChatCall retry_kwargs],
                  Raised (mk_exn ProviderError retry_message))
        end
      else if Py.contains "chat.completions" lowered
              || Py.contains "responses api" lowered
      then
        let '(calls, result) := _create_response_via_responses_api model_name in
        ([ChatCall request_kwargs] ++ calls, result)
      else ([ChatCall request_kwargs], Raised (mk_exn ProviderError message))
  end.

Definition _create_llm_json_response (settings : Settings)
  : list ProviderCall * outcome string :=
  let model_name := Py.strip (openai_chat_model settings) in
  let request_kwargs :=
    mk_chat_request model_name true
      (if negb (_is_gpt5_family_model model_name) then Some 0.1 else None) in
  _create_llm_json_response_for_model model_name request_kwargs.

End ChatRequests.

(** *** The answer and its citations *)

(** [payload.get(key)] on the fields of a JSON object. *)
Definition json_get (fields : list (string * Json)) (key : string) : option Json :=
  option_map snd (find (fun kv => String.eqb (fst kv) key) fields).

(** Truth value of a JSON value, as [if not raw_id] tests it. *)
Definition json_truthy (j : Json) : bool :=
  match j with
  | JNull => false
  | JBool b => b
  | JNum q => negb (Qeq_bool q 0)
  | JStr s => negb (Py.is_empty s)
  | JList l => match l with [] => false | _ => true end
  | JDict fields => match fields with [] => false | _ => true end
  end.

(** [str(j)] *)
Definition json_str (j : Json) : string :=
  match j with
  | JStr s => s
  | _ => json_repr j
  end.

Definition _parse_json_payload (content : string) : list (string * Json) :=
  match json_loads content with
  | Some (JDict fields) => fields
  | _ =>
      let start := Py.find_char "{" content in
      let end_ := Py.rfind_char "}" content in
      if (start =? -1)%Z || (end_ =? -1)%Z || (end_ <=? start)%Z then []
      else
        match json_loads (String.substring (Z.to_nat start)
                                            (Z.to_nat (end_ + 1 - start)) content) with
        | Some (JDict fields) => fields
        | _ => []
        end
  end.

(** The loop [for citation in citations] of [_generate_answer]. *)
Definition citation_step (chunk_ids : list UUID) (citation : Json) : list UUID :=
  match citation with
  | JDict fields =>
      match json_get fields "chunk_id" with
      | None => chunk_ids
      | Some raw_id =>
          if negb (json_truthy raw_id) then chunk_ids
          else
            match uuid_parse (json_str raw_id) with
            | None => chunk_ids
            | Some parsed_id =>
                if negb (umem parsed_id chunk_ids) then chunk_ids ++ [parsed_id]
                else chunk_ids
            end
      end
  | _ => chunk_ids
  end.

Definition extract_citations (payload : list (string * Json)) : list UUID :=
  match json_get payload "citations" with
  | Some (JList citations) => fold_left citation_step citations []
  | Some _ => []
  | None => []
  end.

Definition _generate_answer (settings : Settings) (question : string)
  (chunks : list RetrievedChunk) : outcome (string * list UUID) :=
  (content <- llm_json_response settings question chunks ;;
   let payload := _parse_json_payload content in
   let answer :=
     Py.strip (match json_get payload "answer" with
               | Some j => json_str j
               | None => EmptyString
               end) in
   ret (answer, extract_citations payload))%outcome.

(** *** The orchestrator *)

(** [valid_citations = [chunk_id for chunk_id in cited_chunk_ids
                        if chunk_id in cited_lookup]] *)
Definition valid_citations_of (context_chunks : list RetrievedChunk)
  (cited_chunk_ids : list UUID) : list UUID :=
  filter (fun chunk_id => umem chunk_id (map rc_id context_chunks)) cited_chunk_ids.

(** The citations [ask_question] goes on with: [None] where it returns the
    insufficient-evidence response ([require_llm_citations] and no valid
    citation); without valid citations and without that setting, the id of
    [context_chunks[0]]. *)
Definition resolve_citations (settings : Settings)
  (context_chunks : list RetrievedChunk) (cited_chunk_ids : list UUID)
  : outcome (option (list UUID)) :=
  let valid_citations := valid_citations_of context_chunks cited_chunk_ids in
  match valid_citations with
  | [] =>
      if require_llm_citations settings then Returned None
      else (first <- Py.index context_chunks 0 ;; ret (Some [rc_id first]))%outcome
  | _ => Returned (Some valid_citations)
  end.

(** [cited_lookup.get(chunk_id)]: of two context chunks with one id the
    later one is in the lookup. *)
Definition cited_lookup_get (context_chunks : list RetrievedChunk) (chunk_id : UUID)
  : option RetrievedChunk :=
  find (fun chunk => N.eqb (rc_id chunk) chunk_id) (rev context_chunks).

Definition opt_Z_eqb (a b : option Z) : bool :=
  match a, b with
  | Some x, Some y => (x =? y)%Z
  | None, None => true
  | _, _ => false
  end.

Definition opt_Q_eqb (a b : option Q) : bool :=
  match a, b with
  | Some x, Some y => Qeq_bool x y
  | None, None => true
  | _, _ => false
  end.

(** Equality of two [RetrievedChunk] values, field by field, as the
    dataclass defines [==]. *)
Definition retrieved_eqb (a b : RetrievedChunk) : bool :=
  N.eqb (rc_id a) (rc_id b) && (rc_chunk_index a =? rc_chunk_index b)%Z
  && String.eqb (rc_text a) (rc_text b)
  && opt_Z_eqb (rc_page_start a) (rc_page_start b)
  && opt_Z_eqb (rc_page_end a) (rc_page_end b)
  && opt_Z_eqb (rc_span_start_id a) (rc_span_start_id b)
  && opt_Z_eqb (rc_span_end_id a) (rc_span_end_id b)
  && opt_Q_eqb (rc_distance a) (rc_distance b).

(** The loop that resolves the citations to [selected_chunks]. *)
Definition select_cited_chunks (context_chunks : list RetrievedChunk)
  (valid_citations : list UUID) : list RetrievedChunk :=
  fold_left
    (fun selected_chunks chunk_id =>
       match cited_lookup_get context_chunks chunk_id with
       | Some chunk =>
           if negb (existsb (retrieved_eqb chunk) selected_chunks)
           then selected_chunks ++ [chunk] else selected_chunks
       | None => selected_chunks
       end)
    valid_citations [].

(** [ask_question] from the point where the citations are settled. *)
Definition answer_with_citations (settings : Settings) (document_id : UUID)
  (clean_question answer : string) (context_chunks : list RetrievedChunk)
  (valid_citations : list UUID) : task AskQuestionResponse :=
  if Py.is_empty answer then _insufficient_response "Model answer text was empty."
  else if _answer_is_uncertain answer
  then _insufficient_response "Model flagged uncertainty."
  else
    let selected_chunks := select_cited_chunks context_chunks valid_citations in
    match selected_chunks with
    | [] => _insufficient_response "No cited chunks were resolved to retrieval context."
    | _ =>
        (db <- tget ;;
         evidence <- lift (_build_evidence db settings clean_question answer
                                           document_id selected_chunks) ;;
         if (Py.len evidence <? minimum_evidence_items settings)%Z
         then _insufficient_response "Evidence count is below minimum threshold."
         else if negb (_validate_evidence_mapping db document_id evidence)
         then _insufficient_response "Evidence mapping validation failed."
         else tret (mk_response answer evidence))%task
    end.

(** [ask_question] from the point where the chunks were retrieved. *)
Definition answer_from_retrieved (settings : Settings) (document_id : UUID)
  (clean_question : string) (retrieved : list RetrievedChunk)
  : task AskQuestionResponse :=
  match retrieved with
  | [] => _insufficient_response "No retrievable chunks were found."
  | _ =>
      if negb (_has_sufficient_retrieval_confidence settings retrieved)
      then _insufficient_response "Retrieval confidence is below threshold."
      else
        let context_chunks :=
          Py.slice_to retrieved (retrieval_max_context_chunks settings) in
        match _generate_answer settings clean_question context_chunks with
        | Raised exc =>
            traise QAError ("Failed to generate answer: " ++ exn_message exc)
        | Returned (answer, cited_chunk_ids) =>
            (resolved <- lift (resolve_citations settings context_chunks
                                                 cited_chunk_ids) ;;
             match resolved with
             | None =>
                 _insufficient_response "No valid citations were returned by the model."
             | Some valid_citations =>
                 answer_with_citations settings document_id clean_question answer
                                       context_chunks valid_citations
             end)%task
        end
  end.

Definition ask_question (settings : Settings) (document_id : UUID) (question : string)
  : task AskQuestionResponse :=
  let clean_question := Py.strip question in
  if Py.is_empty clean_question
  then traise InvalidQuestionError "Question cannot be empty."
  else
    (db <- tget ;;
     match db_get_document db document_id with
     | None => traise ValueError "Document not found."
     | Some document =>
         if negb (String.eqb (doc_status document) "ready")
         then traise DocumentNotReadyError "Document is not ready for question answering."
         else if match openai_api_key settings with
                 | None => true
                 | Some key => Py.is_empty key
                 end
         then traise OpenAIConfigurationError "OPENAI_API_KEY is not configured."
         else if negb (openai_embedding_dimensions settings =? EMBEDDING_VECTOR_DIM)%Z
         then traise OpenAIConfigurationError
                     "OPENAI_EMBEDDING_DIMENSIONS must be 1536 for current schema."
         else
           try_except
             (_ensure_chunk_embeddings settings document_id)
             (fun exc =>
                traise QAError ("Failed to prepare chunk embeddings: " ++ exn_message exc)) ;;;
           db <- tget ;;
           match _retrieve_chunks db settings document_id clean_question with
           | Raised exc =>
               tlog WARNING ("Vector retrieval failed for " ++ uuid_str document_id
                             ++ ": " ++ exn_message exc) ;;;
               _insufficient_response "Vector retrieval failed."
           | Returned retrieved =>
               answer_from_retrieved settings document_id clean_question retrieved
           end
     end)%task.

End Engine.

End QA.

(** ** The [ask] route ([app/api/routes/documents.py], [app/core/errors.py]) *)

Module Routes.

Inductive HttpResponse : Type :=
| Http200 (body : AskQuestionResponse)
| HttpError (status : Z) (detail : string).

Section Ask.

Context {ext : Externals}.

(** [ask_document_question]: the request body is validated first
    ([question] has [min_length=1]); an exception no handler of the route
    catches reaches the application's handler, which answers 500. *)
Definition ask_document_question (settings : Settings) (document_id : string)
  (question : string) : Session -> Session * list LogEntry * HttpResponse :=
  fun db =>
    if Py.is_empty question
    then (db, [], HttpError 422 "String should have at least 1 character")
    else
    match uuid_parse document_id with
    | None => (db, [], HttpError 404 ("Document not found: " ++ document_id))
    | Some document_uuid =>
        match db_get_document db document_uuid with
        | None => (db, [], HttpError 404 ("Document not found: " ++ document_id))
        | Some _ =>
            match QA.ask_question settings document_uuid question db with
            | (db', logs, Returned response) => (db', logs, Http200 response)
            | (db', logs, Raised exc) =>
                (db', logs,
                 match exn_kind exc with
                 | InvalidQuestionError => HttpError 400 (exn_message exc)
                 | DocumentNotReadyError => HttpError 409 (exn_message exc)
                 | OpenAIConfigurationError => HttpError 500 (exn_message exc)
                 | QAError =>
                     HttpError 500 ("Question answering failed: " ++ exn_message exc)
                 | _ => HttpError 500 "Internal server error"
                 end)
            end
        end
    end.

End Ask.

(** *** The upload and the status routes *)

(** How the upload route ends: with 201 and the id of the document, with an
    [HTTPException], or with an exception no handler of the route catches
    (the application's handler then answers 500). *)
Inductive UploadResponse : Type :=
| Created201 (document_id : string)
| UploadHTTPException (status : Z) (detail : string)
| UploadUnhandled (exc : exn).

(** The response, what the request left in the directory of the document
    ([source.pdf]; [None] when the directory is not there) and the id handed
    to the background task. *)
Record UploadOutcome : Type := mk_upload_outcome {
  upload_response : UploadResponse;
  stored_pdf : option (list Byte.byte);
  background_task : option string
}.

Record DocumentStatusResponse : Type := mk_status_response {
  status_field : string;
  total_pages_field : option Z;
  page_width_field : option Q;
  page_height_field : option Q;
  error_message_field : option string
}.

Inductive StatusResponse : Type :=
| Status200 (body : DocumentStatusResponse)
| StatusHTTPException (status : Z) (detail : string)
| StatusUnhandled (exc : exn).

(** A session of its own on the same database, [SessionLocal()]. *)
Definition new_session (db : Session) : Session :=
  mk_session (committed db) (committed db) (next_page_id db) (next_span_id db)
             (uuid_counter db) (events db).

Section Documents.

Context {ext : Externals}.

(** [db.add(document); db.commit()]: the primary key and the lengths of the
    [filename] and [content_type] columns are checked by the database. *)
Definition add_document_and_commit (document : Document) (content_type : option string)
  (db : Session) : Session * outcome unit :=
  if existsb (fun d => N.eqb (doc_id d) (doc_id document)) (documents (working db))
  then (db, raise IntegrityError "duplicate key value violates unique constraint")
  else if (512 <? Py.slen (doc_filename document))%Z
          || match content_type with
             | Some value => (128 <? Py.slen value)%Z
             | None => false
             end
  then (db, raise DatabaseError "value too long for type character varying")
  else
    let w := working db in
    (db_commit (with_working db (mk_store (documents w ++ [document]) (pages w)
                                          (spans w) (chunks w))),
     Returned tt).

(** [upload_document]; [max_upload_bytes] is [settings.max_upload_bytes] and
    [document_dir] what [ensure_document_dir] answers. *)
Definition upload_document (max_upload_bytes : Z) (document_dir : outcome unit)
  (file : DocumentProcessing.UploadFile) : Session -> Session * UploadOutcome :=
  fun db =>
    let filename :=
      match DocumentProcessing.upload_filename file with
      | Some name => name
      | None => EmptyString
      end in
    let is_pdf_name := Py.endswith (Py.lower filename) ".pdf" in
    let content_type :=
      Py.lower (match DocumentProcessing.upload_content_type file with
                | Some value => value
                | None => EmptyString
                end) in
    let is_pdf_content := Py.contains "pdf" content_type in
    if negb is_pdf_name && negb is_pdf_content
    then (db, mk_upload_outcome
                (UploadHTTPException 400 "Only PDF files are supported.") None None)
    else
      let document_id := uuid4 (uuid_counter db) in
      let db := mk_session (committed db) (working db) (next_page_id db)
                           (next_span_id db) (uuid_counter db + 1)%N (events db) in
      match document_dir with
      | Raised exc => (db, mk_upload_outcome (UploadUnhandled exc) None None)
      | Returned _ =>
          match DocumentProcessing.persist_upload file max_upload_bytes with
          | (_, DocumentProcessing.FileTooLarge _) =>
              (* remove_document_dir(document_dir) *)
              (db, mk_upload_outcome
                     (UploadHTTPException 413 "File is too large.") None None)
          | (_, DocumentProcessing.PersistFailed _) =>
              (db, mk_upload_outcome
                     (UploadHTTPException 400 "Failed to read uploaded file.") None None)
          | (written, DocumentProcessing.Persisted _) =>
              let document :=
                mk_document document_id
                            (if Py.is_empty filename then "uploaded.pdf"%string else filename)
                            "processing" None None None None in
              match add_document_and_commit
                      document (DocumentProcessing.upload_content_type file) db with
              | (db, Raised exc) =>
                  (db, mk_upload_outcome (UploadUnhandled exc) (Some written) None)
              | (db, Returned _) =>
                  (db, mk_upload_outcome (Created201 (uuid_str document_id))
                                         (Some written) (Some (uuid_str document_id)))
              end
          end
      end.

(** The background task the upload scheduled, run in a session of its own
    once the response is sent. *)
Definition run_background_task (uploaded : UploadOutcome)
  (pdf : DocumentProcessing.PdfFile) (settings : Settings) : task unit :=
  match background_task uploaded with
  | None => tret tt
  | Some document_id =>
      fun db =>
        DocumentProcessing._process_document_in_background document_id pdf settings
                                                           (new_session db)
  end.

(** [get_document_status]; the response model admits the three states of
    [DocumentStatus] only. *)
Definition get_document_status (document_id : string) (db : Session) : StatusResponse :=
  match uuid_parse document_id with
  | None => StatusHTTPException 404 ("Document not found: " ++ document_id)
  | Some document_uuid =>
      match db_get_document db document_uuid with
      | None => StatusHTTPException 404 ("Document not found: " ++ document_id)
      | Some document =>
          if Py.mem_str (doc_status document) ["processing"; "ready"; "error"]%string
          then Status200 (mk_status_response (doc_status document)
                                             (doc_total_pages document)
                                             (doc_page_width document)
                                             (doc_page_height document)
                                             (doc_error_message document))
          else StatusUnhandled
                 (mk_exn ValidationError
                         "status: Input should be 'processing', 'ready' or 'error'")
      end
  end.

End Documents.

End Routes.

(** ** Floating point: the functions whose decisions depend on rounding

    A Python [float] is an IEEE 754 binary64 number, and so is the kernel's
    primitive [float]: [+], [*] and [/] round to the nearest number, ties to
    even, a decimal literal stands for the nearest number, and the
    comparisons are those of IEEE 754 (every comparison with a NaN is false).
    The OCR arbitration and the global evidence filter compare sums, products
    and quotients with thresholds, so what they decide depends on the
    rounding; they are embedded here a second time, over [float]. *)

Module Binary64.

Import PrimFloat.

Local Open Scope float_scope.

(** [float(n)] of an integer; exact up to [2^53], rounded to the nearest
    number up to [2^63], which bounds the integers that can be converted
    here. *)
Definition of_int (n : Z) : float :=
  if (n <? 0)%Z then - of_uint63 (Uint63.of_Z (- n))
  else of_uint63 (Uint63.of_Z n).

(** [a / b] on integers with [b <> 0]: the quotient rounded once, for
    operands up to [2^53]. *)
Definition int_truediv (a b : Z) : float := of_int a / of_int b.

(** [min(a, b)]: the first argument unless the second is strictly smaller. *)
Definition fmin (a b : float) : float := if b <? a then b else a.

(** [max(a, b)]: the first argument unless the second is strictly larger. *)
Definition fmax (a b : float) : float := if a <? b then b else a.


(** *** [app/services/document_processing.py] *)

Definition OCR_SCORE_MARGIN : float := 0.04.

Definition _word_quality_score (word_metrics : Z * float) (settings : Settings)
  : float :=
  let '(word_count, alnum_ratio) := word_metrics in
  let word_target := Z.max 1 (ocr_trigger_min_words settings) in
  let word_score := fmin 1.0 (int_truediv word_count word_target) in
  word_score * 0.55 + alnum_ratio * 0.45.

Definition _should_use_ocr (native_metrics ocr_metrics : Z * float)
  (settings : Settings) : bool :=
  let '(native_count, native_ratio) := native_metrics in
  let '(ocr_count, ocr_ratio) := ocr_metrics in
  if (ocr_count =? 0)%Z then false
  else if (native_count =? 0)%Z then true
  else
    let native_score := _word_quality_score native_metrics settings in
    let ocr_score := _word_quality_score ocr_metrics settings in
    if native_score + OCR_SCORE_MARGIN <=? ocr_score then true
    else if (native_count <? ocr_trigger_min_words settings)%Z
            && (native_count <? ocr_count)%Z then true
    else if (native_ratio + 0.12 <=? ocr_ratio)
            && (Z.max 3 (native_count / 2) <=? ocr_count)%Z then true
    else false.

(** *** [app/services/qa.py]: the evidence items and their global filter *)

Record BoundingBox : Type := mk_bounding_box {
  x1 : float;
  y1 : float;
  x2 : float;
  y2 : float
}.

Record EvidenceItem : Type := mk_evidence_item {
  page : Z;
  text : string;
  bbox : BoundingBox;
  page_width : option float;
  page_height : option float
}.

Record ScoredEvidenceItem : Type := mk_scored {
  item : EvidenceItem;
  score : float
}.

(** The settings the filter reads. *)
Record EvidenceSettings : Type := mk_evidence_settings {
  evidence_relative_score_threshold : float;
  evidence_drop_ratio_stop : float;
  evidence_min_absolute_score : float;
  answer_max_evidence_items : Z
}.

Definition default_evidence_settings : EvidenceSettings :=
  mk_evidence_settings 0.60 0.72 0.20 0.

(** [a < b] on tuples is decided at the first position where the elements
    are not equal; [rest] is the comparison of what follows. *)
Definition lex {A : Type} (eq lt : A -> A -> bool) (a b : A) (rest : bool) : bool :=
  if eq a b then rest else lt a b.

(** [(-entry.score, entry.item.page, entry.item.bbox.y1, entry.item.bbox.x1)]
    of one entry below that of another. *)
Definition score_key_lt (a b : ScoredEvidenceItem) : bool :=
  lex eqb ltb (- score a) (- score b)
    (lex Z.eqb Z.ltb (page (item a)) (page (item b))
       (lex eqb ltb (y1 (bbox (item a))) (y1 (bbox (item b)))
          (x1 (bbox (item a)) <? x1 (bbox (item b))))).

(** [(entry.item.page, entry.item.bbox.y1, entry.item.bbox.x1, -entry.score)]
    of one entry below that of another. *)
Definition display_key_lt (a b : ScoredEvidenceItem) : bool :=
  lex Z.eqb Z.ltb (page (item a)) (page (item b))
    (lex eqb ltb (y1 (bbox (item a))) (y1 (bbox (item b)))
       (lex eqb ltb (x1 (bbox (item a))) (x1 (bbox (item b)))
          (- score a <? - score b))).


(** The loop [for entry in ordered[1:]] with its two [break]s. *)
Fixpoint filter_walk (score_floor drop_ratio_stop : float)
  (entries selected : list ScoredEvidenceItem) (previous_score : float)
  : list ScoredEvidenceItem :=
  match entries with
  | [] => selected
  | entry :: rest =>
      if score entry <? score_floor then selected
      else if (0 <? previous_score)
              && (score entry / previous_score <? drop_ratio_stop) then selected
      else filter_walk score_floor drop_ratio_stop rest (selected ++ [entry])
                       (score entry)
  end.

Definition _filter_scored_evidence (scored_items : list ScoredEvidenceItem)
  (settings : EvidenceSettings) : list ScoredEvidenceItem :=
  match scored_items with
  | [] => []
  | _ =>
      let ordered := Py.sorted_by score_key_lt scored_items in
      match ordered with
      | [] => []
      | first :: rest =>
          let best_score := score first in
          if best_score <=? 0 then Py.slice_to ordered 1
          else
            let relative_threshold :=
              fmin 1.0 (fmax 0.0 (evidence_relative_score_threshold settings)) in
            let drop_ratio_stop :=
              fmin 1.0 (fmax 0.0 (evidence_drop_ratio_stop settings)) in
            let absolute_threshold :=
              fmax 0.0 (evidence_min_absolute_score settings) in
            let score_floor :=
              fmax absolute_threshold (best_score * relative_threshold) in
            let selected :=
              filter_walk score_floor drop_ratio_stop rest [first] best_score in
            if (0 <? answer_max_evidence_items settings)%Z
            then Py.slice_to selected (answer_max_evidence_items settings)
            else selected
      end
  end.

(** The display order of [_build_evidence]. *)
Definition ordered_for_display (filtered : list ScoredEvidenceItem)
  : list ScoredEvidenceItem :=
  Py.sorted_by display_key_lt filtered.

(** The last steps of [_build_evidence], from the de-duplicated items on. *)
Definition filtered_for_display (scored_items : list ScoredEvidenceItem)
  (settings : EvidenceSettings) : list EvidenceItem :=
  map item (ordered_for_display (_filter_scored_evidence scored_items settings)).

End Binary64.

(** ** What the specification says, in its own words
    The definitions of this module follow the wording of the specification,
    not the code; the theorems below compare them with the code. *)

Module Spec.

Local Open Scope Q_scope.

Section InBinary64.

Import PrimFloat.

Local Open Scope float_scope.

(** [score(m) = 0.55·min(1, word_count/MIN_WORDS) + 0.45·alnum_ratio] with
    [MIN_WORDS = 18], each operation rounded as the program rounds it (a
    rounded product does not depend on the order of its factors). *)
Definition MIN_WORDS : Z := 18.

Definition score (m : Z * float) : float :=
  Binary64.fmin 1.0 (Binary64.int_truediv (fst m) MIN_WORDS) * 0.55 + snd m * 0.45.

(** The three conditions of the arbitration as the specification writes
    them, [native_count/2] being half of the native count. *)
Definition use_ocr (N O : Z * float) : Prop :=
  (score N + 0.04 <=? score O) = true
  \/ ((fst N < MIN_WORDS)%Z /\ (fst N < fst O)%Z)
  \/ ((snd N + 0.12 <=? snd O) = true /\ (3 <= fst O)%Z /\ (fst N <= 2 * fst O)%Z).

(** The same conditions with the half rounded down, [native_count // 2]. *)
Definition use_ocr_floor (N O : Z * float) : Prop :=
  (score N + 0.04 <=? score O) = true
  \/ ((fst N < MIN_WORDS)%Z /\ (fst N < fst O)%Z)
  \/ ((snd N + 0.12 <=? snd O) = true /\ (Z.max 3 (fst N / 2) <= fst O)%Z).







End InBinary64.

(** A term is matched by a line when one of the line's tokens that is at
    least three characters long and not a stopword equals it, contains it or
    is contained in it. *)
Definition surviving_match (text term : string) : bool :=
  existsb
    (fun token =>
       (3 <=? Py.slen token)%Z && negb (Py.mem_str token QA.QUESTION_STOPWORDS)
       && QA.term_matches term token)
    (QA.text_tokens text).

(** The chunk ids a list yields when only the first occurrence of each is
    kept, in order. *)
Fixpoint first_occurrences (ids : list UUID) : list UUID :=
  match ids with
  | [] => []
  | id :: rest => id :: filter (fun other => negb (N.eqb other id)) (first_occurrences rest)
  end.

Section Orchestrator.

Context {ext : Externals}.

(** The [chunk_id] of a citation when it parses as a valid UUID. *)
Definition cited_uuid (citation : Json) : option UUID :=
  match citation with
  | JDict fields =>
      match QA.json_get fields "chunk_id" with
      | Some raw_id =>
          if QA.json_truthy raw_id then uuid_parse (QA.json_str raw_id) else None
      | None => None
      end
  | _ => None
  end.

Definition cited_uuids (citations : list Json) : list UUID :=
  flat_map (fun citation => match cited_uuid citation with
                            | Some id => [id]
                            | None => []
                            end) citations.

(** The answer of a reply, a trimmed string, and its citations: the
    [chunk_id] values of [citations] that are valid UUIDs, in order, each
    once. *)
Definition reply_answer (content : string) : string :=
  Py.strip (match QA.json_get (QA._parse_json_payload content) "answer" with
            | Some j => QA.json_str j
            | None => EmptyString
            end).

Definition reply_citations (content : string) : list UUID :=
  match QA.json_get (QA._parse_json_payload content) "citations" with
  | Some (JList citations) => first_occurrences (cited_uuids citations)
  | _ => []
  end.

(** The insufficient-evidence response, with its fixed literal answer. *)
Definition canned_response : AskQuestionResponse :=
  mk_response
    "I don't have enough grounded evidence in this document to answer that confidently."
    [].

(** The checks [ask_question] makes before any gate: a question that is not
    blank, a document that is ready, a configured provider. *)
Definition ready_to_answer (settings : Settings) (db : Session) (document_id : UUID)
  (question : string) : Prop :=
  Py.is_empty (Py.strip question) = false
  /\ (exists document, db_get_document db document_id = Some document
                       /\ doc_status document = "ready"%string)
  /\ (exists key, openai_api_key settings = Some key /\ Py.is_empty key = false)
  /\ openai_embedding_dimensions settings = 1536%Z.

(** The context chunks handed to the answer generator. *)
Definition context_of (settings : Settings) (retrieved : list RetrievedChunk)
  : list RetrievedChunk :=
  Py.slice_to retrieved (retrieval_max_context_chunks settings).

(** A confidence gate fails, for the question asked against the session as
    the embedding back-fill left it. *)
Inductive gate_fails (settings : Settings) (db : Session) (document_id : UUID)
  (question : string) : Prop :=
| retrieval_error (exc : exn) :
    QA._retrieve_chunks db settings document_id question = Raised exc ->
    gate_fails settings db document_id question
| retrieval_empty :
    QA._retrieve_chunks db settings document_id question = Returned [] ->
    gate_fails settings db document_id question
| retrieval_confidence_low (retrieved : list RetrievedChunk) :
    QA._retrieve_chunks db settings document_id question = Returned retrieved ->
    QA._has_sufficient_retrieval_confidence settings retrieved = false ->
    gate_fails settings db document_id question
| no_valid_citations (retrieved : list RetrievedChunk) (answer : string)
    (cited : list UUID) :
    QA._retrieve_chunks db settings document_id question = Returned retrieved ->
    QA._generate_answer settings question (context_of settings retrieved)
    = Returned (answer, cited) ->
    require_llm_citations settings = true ->
    QA.valid_citations_of (context_of settings retrieved) cited = [] ->
    gate_fails settings db document_id question
| empty_answer (retrieved : list RetrievedChunk) (answer : string)
    (cited citations : list UUID) :
    QA._retrieve_chunks db settings document_id question = Returned retrieved ->
    QA._generate_answer settings question (context_of settings retrieved)
    = Returned (answer, cited) ->
    QA.resolve_citations settings (context_of settings retrieved) cited
    = Returned (Some citations) ->
    answer = EmptyString ->
    gate_fails settings db document_id question
| uncertain_answer (retrieved : list RetrievedChunk) (answer : string)
    (cited citations : list UUID) :
    QA._retrieve_chunks db settings document_id question = Returned retrieved ->
    QA._generate_answer settings question (context_of settings retrieved)
    = Returned (answer, cited) ->
    QA.resolve_citations settings (context_of settings retrieved) cited
    = Returned (Some citations) ->
    QA._answer_is_uncertain answer = true ->
    gate_fails settings db document_id question
| too_few_evidence_items (retrieved : list RetrievedChunk) (answer : string)
    (cited citations : list UUID) (evidence : list EvidenceItem) :
    QA._retrieve_chunks db settings document_id question = Returned retrieved ->
    QA._generate_answer settings question (context_of settings retrieved)
    = Returned (answer, cited) ->
    QA.resolve_citations settings (context_of settings retrieved) cited
    = Returned (Some citations) ->
    QA._build_evidence db settings question answer document_id
      (QA.select_cited_chunks (context_of settings retrieved) citations)
    = Returned evidence ->
    (Py.len evidence < minimum_evidence_items settings)%Z ->
    gate_fails settings db document_id question
| evidence_validation_failure (retrieved : list RetrievedChunk) (answer : string)
    (cited citations : list UUID) (evidence : list EvidenceItem) :
    QA._retrieve_chunks db settings document_id question = Returned retrieved ->
    QA._generate_answer settings question (context_of settings retrieved)
    = Returned (answer, cited) ->
    QA.resolve_citations settings (context_of settings retrieved) cited
    = Returned (Some citations) ->
    QA._build_evidence db settings question answer document_id
      (QA.select_cited_chunks (context_of settings retrieved) citations)
    = Returned evidence ->
    QA._validate_evidence_mapping db document_id evidence = false ->
    gate_fails settings db document_id question.

(** What signature mode asks of a returned evidence item: the signal of its
    line reaches 0.9. *)
Definition signature_item (it : EvidenceItem) : Prop :=
  (0.9 <= QA._signature_line_signal (ev_text it))%Q.

(** A line candidate of signature mode: its text is stripped and its signal
    is the signal of its text. *)
Definition signature_candidate (c : QA.EvidenceLineCandidate) : Prop :=
  Py.strip (QA.lc_text c) = QA.lc_text c
  /\ QA.signature_signal c = QA._signature_line_signal (QA.lc_text c).

(** A stored span on the item's page strictly overlaps the item's box. *)
Definition box_on_a_span (db : Session) (document_id : UUID) (it : EvidenceItem) : Prop :=
  exists (span : Span) (page : Page),
    In span (spans (working db)) /\ In page (pages (working db))
    /\ span_document_id span = document_id
    /\ span_page_id span = page_id page /\ page_number page = ev_page it
    /\ (bx1 (ev_bbox it) < span_x2 span)%Q /\ (span_x1 span < bx2 (ev_bbox it))%Q
    /\ (by1 (ev_bbox it) < span_y2 span)%Q /\ (span_y1 span < by2 (ev_bbox it))%Q.

End Orchestrator.

End Spec.

(** ** Scenario data *)

Module Scenario.

(** A span whose text has twenty characters. *)
Definition span20 : Span :=
  mk_span 0 0%N 0 0 "abcdefghijklmnopqrst" 0 0 1 1 None None.

(** The forty-five spans of scenario S3, all on page 1. *)
Definition spans45 : list (Span * Z) := repeat (span20, 1%Z) 45.

(** Collaborators that are out of reach: every provider call fails. *)
Definition offline : Externals := {|
  similarity := fun _ _ => 0%Q;
  uuid_parse := fun s => if String.eqb s "doc-1" then Some 1%N else None;
  uuid_str := fun _ => "doc-1"%string;
  uuid4 := fun n => (1000 + n)%N;
  json_repr := fun _ => EmptyString;
  json_loads := fun _ => None;
  embeddings_create := fun _ _ _ => raise ProviderError "connection refused";
  cosine_distance := fun _ _ => None;
  llm_json_response := fun _ _ _ => raise ProviderError "connection refused";
  stored_image_path := fun _ n => ("pages/page-" ++ Py.str_of_int n ++ ".png")%string
|}.

(** Collaborators that answer as scenario S6 has them: the retrieval finds
    the stored chunk at distance 0.3, and the model cites a chunk, [c9999],
    that is not among the retrieved ones. *)
Definition scripted : Externals := {|
  similarity := fun _ _ => 0%Q;
  uuid_parse := fun s =>
    if String.eqb s "doc-1" then Some 1%N
    else if String.eqb s "c1" then Some 101%N
    else if String.eqb s "c9999" then Some 9999%N
    else None;
  uuid_str := fun _ => "doc-1"%string;
  uuid4 := fun n => (1000 + n)%N;
  json_repr := fun _ => EmptyString;
  json_loads := fun _ =>
    Some (JDict [("answer"%string, JStr "Dr. A. Patel");
                 ("citations"%string,
                  JList [JDict [("chunk_id"%string, JStr "c9999")]])]);
  embeddings_create := fun _ _ texts => Returned (map (fun _ => [1%Q]) texts);
  cosine_distance := fun _ _ => Some 0.3%Q;
  llm_json_response := fun _ _ _ => Returned "{}"%string;
  stored_image_path := fun _ n => ("pages/page-" ++ Py.str_of_int n ++ ".png")%string
|}.

Definition with_api_key (s : Settings) (key : string) : Settings :=
  mk_settings (ocr_fallback_enabled s) (ocr_trigger_min_words s)
    (ocr_trigger_min_alnum_ratio s) (Some key) (openai_chat_model s)
    (openai_embedding_model s) (openai_embedding_dimensions s) (retrieval_top_k s)
    (retrieval_max_context_chunks s) (answer_max_evidence_items s)
    (retrieval_min_keyword_overlap s) (evidence_question_weight s)
    (evidence_answer_weight s) (evidence_relative_score_threshold s)
    (evidence_drop_ratio_stop s) (evidence_min_absolute_score s)
    (retrieval_max_vector_distance s) (minimum_evidence_items s)
    (require_llm_citations s).

Definition settings : Settings := with_api_key default_settings "sk-test".

(** The page of scenario S5: the line "Signed by Dr. A. Patel" above the line
    "Ordering doctor: B. Smith". *)
Definition word (id index : Z) (text : string) (x1 x2 y1 y2 : Q) : Span :=
  mk_span id 1%N 1 index text x1 y1 x2 y2 None None.

Definition s5_spans : list Span :=
  [word 1 0 "Signed" 72 108 100 112; word 2 1 "by" 112 124 100 112;
   word 3 2 "Dr." 128 144 100 112; word 4 3 "A." 148 158 100 112;
   word 5 4 "Patel" 162 192 100 112;
   word 6 5 "Ordering" 72 120 130 142; word 7 6 "doctor:" 124 162 130 142;
   word 8 7 "B." 166 176 130 142; word 9 8 "Smith" 180 212 130 142].

Definition s5_document (status : string) : Document :=
  mk_document 1%N "order.pdf" status (Some 1%Z) (Some 612%Q) (Some 792%Q) None.

Definition s5_page : Page :=
  mk_page 1 1%N 1 (Some 612%Q) (Some 792%Q) (Some "pages/page-1.png"%string).

Definition s5_chunk (embedding : option Embedding) : Chunk :=
  mk_chunk 101%N 1%N 0 "Signed by Dr. A. Patel Ordering doctor: B. Smith"
           (Some 1%Z) (Some 1%Z) (Some 1%Z) (Some 9%Z) embedding.

Definition session_of (store : Store) : Session := mk_session store store 2 10 0%N [].

(** A ready document whose chunk is embedded. *)
Definition s5_db : Session :=
  session_of (mk_store [s5_document "ready"] [s5_page] s5_spans [s5_chunk (Some [1%Q])]).

(** The same document with the embedding of its chunk still missing. *)
Definition pending_db : Session :=
  session_of (mk_store [s5_document "ready"] [s5_page] s5_spans [s5_chunk None]).

(** A ready document without chunks. *)
Definition empty_db : Session :=
  session_of (mk_store [s5_document "ready"] [s5_page] s5_spans []).

Definition s5_retrieved : RetrievedChunk :=
  mk_retrieved 101%N 0 "Signed by Dr. A. Patel Ordering doctor: B. Smith"
               (Some 1%Z) (Some 1%Z) (Some 1%Z) (Some 9%Z) (Some 0.3%Q).

(** Three scored items: scores 1.0, 0.8 and 0.3 on pages 2, 1 and 1. *)
Definition scored (page : Z) (y1 : Q) (text : string) (sc : Q) : QA.ScoredEvidenceItem :=
  QA.mk_scored (mk_evidence_item page text (mk_bbox 72 y1 200 (y1 + 12)) None None) sc.

Definition scored3 : list QA.ScoredEvidenceItem :=
  [scored 1 300 "weak line" 0.3; scored 2 100 "best line" 1.0;
   scored 1 100 "good line" 0.8].

(** An upload that is still being processed, and a PDF of two pages whose
    second page has a word with an empty box. *)
Definition uploaded_db : Session :=
  mk_session (mk_store [mk_document 1%N "order.pdf" "processing" None None None None]
                       [] [] [])
             (mk_store [mk_document 1%N "order.pdf" "processing" None None None None]
                       [] [] [])
             1 1 0%N [].

Definition uploaded_document : Document :=
  mk_document 1%N "order.pdf" "processing" None None None None.

Definition check_violation : exn :=
  mk_exn IntegrityError "new row for relation spans violates check constraint".

Definition provider_down : exn := mk_exn ProviderError "connection refused".

Definition two_page_pdf : DocumentProcessing.PdfFile :=
  DocumentProcessing.mk_pdf_file
    (Returned
       [DocumentProcessing.mk_pdf_page 612 792 (Returned tt)
          (Returned [(72, 100, 108, 112, "Signed"%string);
                     (112, 100, 124, 112, "by"%string)])
          (raise OSError "tesseract is not installed");
        DocumentProcessing.mk_pdf_page 612 792 (Returned tt)
          (Returned [(72, 100, 72, 112, "|"%string)])
          (raise OSError "tesseract is not installed")]%Q)
    (Returned tt).

(** A scanned page: the text layer has no words, OCR reads two. *)
Definition scanned_page : DocumentProcessing.PdfPage :=
  DocumentProcessing.mk_pdf_page 612 792 (Returned tt)
    (Returned [])
    (Returned [(72, 100, 108, 112, "Signed"%string);
               (112, 100, 124, 112, "by"%string)])%Q.

Definition one_page_pdf : DocumentProcessing.PdfFile :=
  DocumentProcessing.mk_pdf_file (Returned [scanned_page]) (Returned tt).

(** Two uploads: the four bytes [%PDF] sent as a PDF, and a text file. *)
Definition pdf_upload : DocumentProcessing.UploadFile :=
  DocumentProcessing.mk_upload_file (Some "order.pdf"%string)
    (Some "application/pdf"%string)
    (Returned [Byte.x25; Byte.x50; Byte.x44; Byte.x46]).

Definition text_upload : DocumentProcessing.UploadFile :=
  DocumentProcessing.mk_upload_file (Some "notes.txt"%string)
    (Some "text/plain"%string)
    (Returned [Byte.x25; Byte.x50; Byte.x44; Byte.x46]).

(** The collaborators of [scripted] with a chat model that is out of reach. *)
Definition chat_down : Externals := {|
  similarity := @similarity scripted;
  uuid_parse := @uuid_parse scripted;
  uuid_str := @uuid_str scripted;
  uuid4 := @uuid4 scripted;
  json_repr := @json_repr scripted;
  json_loads := @json_loads scripted;
  embeddings_create := @embeddings_create scripted;
  cosine_distance := @cosine_distance scripted;
  llm_json_response := fun _ _ _ => raise ProviderError "connection refused";
  stored_image_path := @stored_image_path scripted
|}.

(** A chat provider that knows neither [response_format] nor a temperature,
    and answers the request that has neither. *)
Definition legacy_provider : ChatProvider := {|
  chat_completions_create := fun request =>
    if req_response_format request
    then BadRequest "Unsupported parameter: response_format and temperature"
    else Replied [Some "{}"%string];
  responses_create := fun _ _ => ProviderFailed provider_down
|}.

(** The line "Signed by Dr. A. Patel" of the page of scenario S5. *)
Definition signed_line : QA.EvidenceLineCandidate :=
  QA.mk_candidate "Signed by Dr. A. Patel" (firstn 5 s5_spans) 100 112 1 0 0 2.25.

(** Settings that hand no chunk to the answer generator and do not require
    citations. *)
Definition no_context_settings : Settings :=
  let s := settings in
  mk_settings (ocr_fallback_enabled s) (ocr_trigger_min_words s)
    (ocr_trigger_min_alnum_ratio s) (openai_api_key s) (openai_chat_model s)
    (openai_embedding_model s) (openai_embedding_dimensions s) (retrieval_top_k s)
    0 (answer_max_evidence_items s)
    (retrieval_min_keyword_overlap s) (evidence_question_weight s)
    (evidence_answer_weight s) (evidence_relative_score_threshold s)
    (evidence_drop_ratio_stop s) (evidence_min_absolute_score s)
    (retrieval_max_vector_distance s) (minimum_evidence_items s)
    false.

(** The collaborators of [scripted] with a model that answers with an empty
    text and no citation. *)
Definition speechless : Externals := {|
  similarity := @similarity scripted;
  uuid_parse := @uuid_parse scripted;
  uuid_str := @uuid_str scripted;
  uuid4 := @uuid4 scripted;
  json_repr := @json_repr scripted;
  json_loads := fun _ =>
    Some (JDict [("answer"%string, JStr EmptyString); ("citations"%string, JList [])]);
  embeddings_create := @embeddings_create scripted;
  cosine_distance := @cosine_distance scripted;
  llm_json_response := @llm_json_response scripted;
  stored_image_path := @stored_image_path scripted
|}.

Section Binary64Data.

Import PrimFloat.

Local Open Scope float_scope.

(** The metrics of scenario S2, and a pair of metrics on which the half of
    the native count decides. *)
Definition s2_native : Z * float := (10%Z, 0.55).
Definition s2_ocr : Z * float := (25%Z, 0.90).
Definition seven_words : Z * float := (7%Z, 0.6).
Definition three_words : Z * float := (3%Z, 0.8).

(** Two items of one score, and three of scores 1.0, 0.8 and 0.3. *)
Definition scored64 (page : Z) (y1 : float) (text : string)
  (sc : float) : Binary64.ScoredEvidenceItem :=
  Binary64.mk_scored
    (Binary64.mk_evidence_item page text
       (Binary64.mk_bounding_box 72 y1 200 (y1 + 12)) None None)
    sc.




End Binary64Data.

End Scenario.

(** * Theorems *)

Unset Implicit Arguments.

(** ** Facts about the Python primitives *)

Lemma Qltb_lt (a b : Q) : Py.Qltb a b = true <-> (a < b)%Q.
Proof.
  unfold Py.Qltb. rewrite negb_true_iff.
  split; intros H.
  - apply Qnot_le_lt. intros Hle. apply Qle_bool_iff in Hle. congruence.
  - destruct (Qle_bool b a) eqn:E; [|reflexivity].
    apply Qle_bool_iff in E. exfalso. apply (Qlt_not_le _ _ H E).
Qed.

Lemma Qltb_ge (a b : Q) : Py.Qltb a b = false <-> (b <= a)%Q.
Proof.
  unfold Py.Qltb. rewrite negb_false_iff. apply Qle_bool_iff.
Qed.

Lemma Qle_bool_false (a b : Q) : Qle_bool a b = false <-> (b < a)%Q.
Proof.
  rewrite <- Qltb_lt. unfold Py.Qltb. rewrite negb_true_iff. reflexivity.
Qed.

Lemma fmin_Qmin (a b : Q) : (Py.fmin a b == Qmin a b)%Q.
Proof.
  unfold Py.fmin. destruct (Py.Qltb b a) eqn:E.
  - apply Qltb_lt in E. symmetry. apply Q.min_r. apply Qlt_le_weak, E.
  - apply Qltb_ge in E. symmetry. apply Q.min_l. exact E.
Qed.

Lemma fmax_Qmax (a b : Q) : (Py.fmax a b == Qmax a b)%Q.
Proof.
  unfold Py.fmax. destruct (Py.Qltb a b) eqn:E.
  - apply Qltb_lt in E. symmetry. apply Q.max_r. apply Qlt_le_weak, E.
  - apply Qltb_ge in E. symmetry. apply Q.max_l. exact E.
Qed.

#[local] Instance fmax_proper : Proper (Qeq ==> Qeq ==> Qeq) Py.fmax.
Proof.
  intros a a' Ha b b' Hb. rewrite !fmax_Qmax. rewrite Ha, Hb. reflexivity.
Qed.

#[local] Instance fmin_proper : Proper (Qeq ==> Qeq ==> Qeq) Py.fmin.
Proof.
  intros a a' Ha b b' Hb. rewrite !fmin_Qmin. rewrite Ha, Hb. reflexivity.
Qed.

Lemma fmax_clamp_low (x : Q) : (0 <= x)%Q -> (Py.fmax 0.0 x == x)%Q.
Proof.
  intros H. rewrite fmax_Qmax. apply Q.max_r.
  apply Qle_trans with 0%Q; [discriminate | exact H].
Qed.

Lemma fmin_clamp_high (x : Q) : (x <= 1)%Q -> (Py.fmin 1.0 x == x)%Q.
Proof.
  intros H. rewrite fmin_Qmin. apply Q.min_r.
  apply Qle_trans with 1%Q; [exact H | discriminate].
Qed.

Lemma truediv_nonzero (a b : Q) :
  ~ (b == 0)%Q -> Py.truediv a b = Returned (a / b)%Q.
Proof.
  intros Hb. unfold Py.truediv.
  destruct (Qeq_bool b 0) eqn:E; [|reflexivity].
  apply Qeq_bool_iff in E. contradiction.
Qed.

(** ** Page quality score *)

Lemma word_target_nonzero (settings : Settings) :
  ~ (inject_Z (Z.max 1 (ocr_trigger_min_words settings)) == 0)%Q.
Proof.
  intros H. unfold Qeq in H. simpl in H. lia.
Qed.

Lemma word_quality_score_returns (settings : Settings) (word_count : Z) (alnum_ratio : Q) :
  DocumentProcessing._word_quality_score (word_count, alnum_ratio) settings
  = Returned
      (Py.fmin 1.0 (inject_Z word_count
                    / inject_Z (Z.max 1 (ocr_trigger_min_words settings))) * 0.55
       + alnum_ratio * 0.45)%Q.
Proof.
  unfold DocumentProcessing._word_quality_score.
  rewrite (truediv_nonzero _ _ (word_target_nonzero settings)). reflexivity.
Qed.

(** C9: the page quality score never divides by zero, whatever
    [ocr_trigger_min_words] is configured to (zero and negative values
    included): for every input it returns, and the value returned is
    [0.55·min(1, word_count / max(1, ocr_trigger_min_words)) + 0.45·alnum_ratio]. *)
Theorem word_quality_score_total :
  forall (settings : Settings) (word_count : Z) (alnum_ratio : Q),
    exists value : Q,
      DocumentProcessing._word_quality_score (word_count, alnum_ratio) settings
      = Returned value
      /\ (value == 0.55 * Qmin 1 (inject_Z word_count
                                  / inject_Z (Z.max 1 (ocr_trigger_min_words settings)))
                   + 0.45 * alnum_ratio)%Q.
Proof.
  intros settings word_count alnum_ratio.
  eexists. split.
  - apply word_quality_score_returns.
  - rewrite fmin_Qmin. setoid_replace (1.0)%Q with 1%Q by reflexivity. ring.
Qed.

(** ** The OCR arbitration, in binary64 *)

Section Arbitration.

Import PrimFloat.

Local Open Scope float_scope.

Lemma word_quality_score_is_spec_score (settings : Settings) (m : Z * float) :
  ocr_trigger_min_words settings = 18%Z ->
  Binary64._word_quality_score m settings = Spec.score m.
Proof.
  intros Hmin. destruct m as [word_count alnum_ratio].
  unfold Binary64._word_quality_score, Spec.score, Spec.MIN_WORDS. rewrite Hmin.
  reflexivity.
Qed.

Lemma should_use_ocr_decision (settings : Settings) (N O : Z * float) :
  ocr_trigger_min_words settings = 18%Z ->
  (0 < fst N)%Z -> (0 < fst O)%Z ->
  Binary64._should_use_ocr N O settings = true <-> Spec.use_ocr_floor N O.
Proof.
  intros Hmin HN HO.
  unfold Binary64._should_use_ocr, Spec.use_ocr_floor.
  rewrite <- !(word_quality_score_is_spec_score settings) by exact Hmin.
  destruct N as [nc nr], O as [oc or]. cbn [fst snd] in *.
  destruct (Z.eqb_spec oc 0) as [|_]; [lia|].
  destruct (Z.eqb_spec nc 0) as [|_]; [lia|].
  rewrite Hmin. unfold Binary64.OCR_SCORE_MARGIN, Spec.MIN_WORDS.
  destruct (Binary64._word_quality_score (nc, nr) settings + 0.04
            <=? Binary64._word_quality_score (oc, or) settings) eqn:E1.
  { split; [intros _; left; reflexivity | reflexivity]. }
  destruct ((nc <? 18)%Z && (nc <? oc)%Z) eqn:E2.
  { split; [|reflexivity]. intros _. right. left.
    apply andb_true_iff in E2. lia. }
  destruct ((nr + 0.12 <=? or) && (Z.max 3 (nc / 2) <=? oc)%Z) eqn:E3.
  { split; [|reflexivity]. intros _. right. right.
    apply andb_true_iff in E3. destruct E3 as [E3 E4]. split; [exact E3 | lia]. }
  split; [discriminate|].
  intros [H | [[H1 H2] | [H1 H2]]].
  - discriminate.
  - apply andb_false_iff in E2. lia.
  - apply andb_false_iff in E3. destruct E3 as [E3 | E3]; [congruence | lia].
Qed.

(** C3 (as the code has it): with [MIN_WORDS = 18] and every operation
    rounded as the program rounds it (IEEE 754 binary64), when both the
    native and the OCR extraction are non-empty the arbiter chooses OCR iff
    [score(O) >= score(N) + 0.04], or the native count is below 18 and the OCR
    count exceeds it, or the OCR ratio is at least the native ratio plus 0.12
    and the OCR count is at least [max(3, native_count // 2)] (the half rounded
    down); with 0 OCR words native is kept; with 0 native words and a
    non-empty OCR extraction OCR is used; and native metrics (10, 0.55)
    against OCR metrics (25, 0.90) score 0.553 and 0.955 (to three decimals),
    and OCR is used. The word counts lie between 0 and 2^53, where the
    conversion of an integer to a float is exact. *)
Theorem should_use_ocr_arbitration :
  forall (settings : Settings) (N O : Z * float),
    ocr_trigger_min_words settings = 18%Z ->
    (0 <= fst N < 2 ^ 53)%Z -> (0 <= fst O < 2 ^ 53)%Z ->
    ((0 < fst N)%Z -> (0 < fst O)%Z ->
     (Binary64._should_use_ocr N O settings = true <-> Spec.use_ocr_floor N O))
    /\ (fst O = 0%Z -> Binary64._should_use_ocr N O settings = false)
    /\ (fst N = 0%Z -> fst O <> 0%Z -> Binary64._should_use_ocr N O settings = true)
    /\ Binary64._word_quality_score N settings = Spec.score N
    /\ Binary64._word_quality_score Scenario.s2_native settings
       = 0.5530555555555556
    /\ Binary64._word_quality_score Scenario.s2_ocr settings
       = 0.9550000000000001
    /\ (0.5525 <=? Binary64._word_quality_score Scenario.s2_native settings) = true
    /\ (Binary64._word_quality_score Scenario.s2_native settings <? 0.5535) = true
    /\ (0.9545 <=? Binary64._word_quality_score Scenario.s2_ocr settings) = true
    /\ (Binary64._word_quality_score Scenario.s2_ocr settings <? 0.9555) = true
    /\ Binary64._should_use_ocr Scenario.s2_native Scenario.s2_ocr settings = true.
Proof.
  intros settings N O Hmin _ _.
  split; [|split; [|split; [|split]]].
  - intros HN HO. apply should_use_ocr_decision; assumption.
  - intros HO. destruct N as [nc nr], O as [oc or]. cbn [fst] in HO. subst oc.
    reflexivity.
  - intros HN HO. destruct N as [nc nr], O as [oc or]. cbn [fst] in HN, HO. subst nc.
    unfold Binary64._should_use_ocr.
    destruct (Z.eqb_spec oc 0); [contradiction | reflexivity].
  - apply word_quality_score_is_spec_score. exact Hmin.
  - unfold Binary64._should_use_ocr.
    rewrite !(word_quality_score_is_spec_score settings _ Hmin). rewrite Hmin.
    repeat split; vm_compute; reflexivity.
Qed.

(** Witness of [should_use_ocr_arbitration]: the default settings and the
    metrics of scenario S2. *)
Lemma should_use_ocr_arbitration_witness :
  Binary64._should_use_ocr Scenario.s2_native Scenario.s2_ocr default_settings = true
  <-> Spec.use_ocr_floor Scenario.s2_native Scenario.s2_ocr.
Proof.
  apply (proj1 (should_use_ocr_arbitration default_settings Scenario.s2_native
                  Scenario.s2_ocr eq_refl ltac:(simpl; lia) ltac:(simpl; lia))).
  - reflexivity.
  - reflexivity.
Defined.

(** C3 fails as stated: for native metrics (7, 0.6) and OCR metrics (3, 0.8)
    the arbiter chooses OCR, while none of the three conditions holds when
    [native_count/2] is read as 3.5. *)
Lemma should_use_ocr_half_counterexample :
  Binary64._should_use_ocr Scenario.seven_words Scenario.three_words default_settings
  = true
  /\ ~ Spec.use_ocr Scenario.seven_words Scenario.three_words.
Proof.
  split.
  - vm_compute. reflexivity.
  - intros [H | [[H1 H2] | [H1 [H2 H3]]]].
    + vm_compute in H. discriminate.
    + vm_compute in H2. discriminate.
    + vm_compute in H3. apply H3. reflexivity.
Qed.

(** The sum [0.17 + 0.12] rounds to a number above 0.29, so an OCR ratio of
    0.29 does not reach a native ratio of 0.17 plus 0.12. *)
Example should_use_ocr_rounds_upwards :
  Binary64._should_use_ocr (18%Z, 0.17) (9%Z, 0.29) default_settings
  = false.
Proof. vm_compute. reflexivity. Qed.

End Arbitration.

(** ** The sliding-window chunker *)

Section Chunker.

Import DocumentProcessing.

Local Open Scope Z_scope.

(** The windows depend on the spans through the lengths of their texts only. *)
Lemma pack_window_lengths (rest1 rest2 : list (Span * Z)) :
  text_lengths rest1 = text_lengths rest2 ->
  forall start end_ total_chars,
    pack_window rest1 start end_ total_chars = pack_window rest2 start end_ total_chars.
Proof.
  revert rest2. induction rest1 as [|r1 rest1 IH]; intros [|r2 rest2] H;
    try discriminate; [reflexivity|].
  injection H as Hlen Hrest. intros start end_ total_chars.
  cbn [pack_window]. rewrite Hlen.
  destruct ((CHUNK_MAX_CHARS <? _) && _); [reflexivity|].
  apply IH. exact Hrest.
Qed.

Lemma text_lengths_skipn (n : nat) (refs : list (Span * Z)) :
  text_lengths (skipn n refs) = skipn n (text_lengths refs).
Proof.
  unfold text_lengths. revert refs. induction n as [|n IH]; intros [|r refs];
    simpl; auto.
Qed.

Lemma text_lengths_len (refs1 refs2 : list (Span * Z)) :
  text_lengths refs1 = text_lengths refs2 -> Py.len refs1 = Py.len refs2.
Proof.
  intros H. unfold Py.len. f_equal.
  apply (f_equal (@List.length Z)) in H. unfold text_lengths in H.
  rewrite !length_map in H. exact H.
Qed.

Lemma chunk_windows_lengths (refs1 refs2 : list (Span * Z)) :
  text_lengths refs1 = text_lengths refs2 ->
  forall fuel start,
    chunk_windows_from fuel refs1 start = chunk_windows_from fuel refs2 start.
Proof.
  intros H fuel. induction fuel as [|fuel IH]; intros start; [reflexivity|].
  cbn [chunk_windows_from].
  rewrite (text_lengths_len _ _ H).
  rewrite (pack_window_lengths (skipn (Z.to_nat start) refs1)
                               (skipn (Z.to_nat start) refs2)).
  2:{ rewrite !text_lengths_skipn. rewrite H. reflexivity. }
  rewrite IH. reflexivity.
Qed.

Lemma chunk_span_window_lengths (refs1 refs2 : list (Span * Z)) :
  text_lengths refs1 = text_lengths refs2 ->
  _chunk_span_window refs1 = _chunk_span_window refs2.
Proof.
  intros H. unfold _chunk_span_window.
  pose proof (f_equal (@List.length Z) H) as Hl. unfold text_lengths in Hl.
  rewrite !length_map in Hl.
  destruct refs1 as [|r1 refs1], refs2 as [|r2 refs2]; try discriminate;
    [reflexivity|].
  rewrite Hl. apply chunk_windows_lengths. exact H.
Qed.

(** The outer loop is left before the fuel runs out. *)
Lemma chunk_windows_from_total (refs : list (Span * Z)) :
  forall fuel start,
    start <= Py.len refs -> Py.len refs - start < Z.of_nat fuel ->
    exists windows, chunk_windows_from fuel refs start = Some windows.
Proof.
  induction fuel as [|fuel IH]; intros start H0 Hfuel.
  - exfalso. cbn in Hfuel. lia.
  - cbn [chunk_windows_from].
    destruct (Z.ltb_spec start (Py.len refs)) as [Hlt|Hge]; [|eexists; reflexivity].
    destruct (Z.leb_spec (Py.len refs)
                (pack_window (skipn (Z.to_nat start) refs) start start 0))
      as [Hend|Hend]; [eexists; reflexivity|].
    destruct (IH (Z.max (pack_window (skipn (Z.to_nat start) refs) start start 0
                         - CHUNK_OVERLAP_SPANS) (start + 1))) as [ws Hws].
    + unfold CHUNK_OVERLAP_SPANS. lia.
    + lia.
    + rewrite Hws. eexists. reflexivity.
Qed.

Lemma chunk_span_window_total (refs : list (Span * Z)) :
  exists windows, _chunk_span_window refs = Some windows.
Proof.
  unfold _chunk_span_window. destruct refs as [|r refs]; [eexists; reflexivity|].
  apply chunk_windows_from_total; unfold Py.len; lia.
Qed.

End Chunker.

(** C2 (as the code has it): for a reading-order list of exactly 45 spans,
    each with a text of 20 characters, the chunker returns exactly two
    windows: [(0, 42)], 42 spans, and [(22, 45)], the final window of 23
    spans that starts at [42 - 20 = 22]. *)
Theorem chunk_span_window_45_spans :
  forall span_refs : list (Span * Z),
    List.length span_refs = 45%nat ->
    Forall (fun ref => String.length (span_text (fst ref)) = 20%nat) span_refs ->
    DocumentProcessing._chunk_span_window span_refs = Some [(0, 42); (22, 45)]%Z.
Proof.
  intros span_refs Hlen Htexts.
  rewrite (chunk_span_window_lengths span_refs Scenario.spans45).
  - vm_compute. reflexivity.
  - transitivity (repeat 20%Z 45); [|vm_compute; reflexivity].
    rewrite <- Hlen. clear Hlen. unfold DocumentProcessing.text_lengths.
    induction Htexts as [|ref refs Href _ IH]; [reflexivity|].
    cbn [map List.length repeat]. rewrite IH. unfold Py.slen. rewrite Href.
    reflexivity.
Qed.

(** Witness of [chunk_span_window_45_spans]: the spans of scenario S3. *)
Lemma chunk_span_window_45_spans_witness :
  DocumentProcessing._chunk_span_window Scenario.spans45 = Some [(0, 42); (22, 45)]%Z.
Proof.
  apply (chunk_span_window_45_spans Scenario.spans45).
  - reflexivity.
  - unfold Scenario.spans45. apply Forall_forall. intros ref Hin.
    apply repeat_spec in Hin. subst ref. reflexivity.
Defined.

(** C2 fails as stated: on the 45 spans of scenario S3 the chunker returns
    two windows, the second of which ends the list, and no third window that
    starts at position 24. *)
Lemma chunk_span_window_s3_counterexample :
  DocumentProcessing._chunk_span_window Scenario.spans45 = Some [(0, 42); (22, 45)]%Z
  /\ ~ (exists second_end : Z,
          DocumentProcessing._chunk_span_window Scenario.spans45
          = Some [(0, 42); (22, second_end); (24, 45)]%Z).
Proof.
  split; [vm_compute; reflexivity|].
  intros [second_end H]. vm_compute in H. discriminate H.
Qed.

(** ** Keyword overlap *)

Section Overlap.

Import QA.

Lemma keeps_token_spec (token : string) :
  keeps_token token = true
  <-> (3 <= Py.slen token)%Z /\ Py.mem_str token QUESTION_STOPWORDS = false.
Proof.
  unfold keeps_token. rewrite !andb_true_iff, !negb_true_iff, Z.leb_le.
  split.
  - intros [[_ H3] Hs]. split; assumption.
  - intros [H3 Hs]. repeat split; try assumption.
    destruct token; [cbn in H3; lia | reflexivity].
Qed.

Lemma normalized_tokens_In (text token : string) :
  In token (normalized_tokens text)
  <-> In token (text_tokens text) /\ keeps_token token = true.
Proof.
  unfold normalized_tokens, Py.set_of.
  rewrite nodup_In, filter_In, nodup_In. reflexivity.
Qed.

Lemma existsb_normalized_tokens (text term : string) :
  existsb (term_matches term) (normalized_tokens text) = Spec.surviving_match text term.
Proof.
  unfold Spec.surviving_match.
  apply eq_true_iff_eq. rewrite !existsb_exists. split.
  - intros [token [Hin Hm]]. apply normalized_tokens_In in Hin.
    destruct Hin as [Hin Hk]. apply keeps_token_spec in Hk. destruct Hk as [H3 Hs].
    exists token. split; [exact Hin|].
    rewrite Hm, Hs. apply Z.leb_le in H3. rewrite H3. reflexivity.
  - intros [token [Hin Hm]]. apply andb_true_iff in Hm. destruct Hm as [Hm Hmatch].
    apply andb_true_iff in Hm. destruct Hm as [H3 Hs].
    exists token. split; [|exact Hmatch].
    apply normalized_tokens_In. split; [exact Hin|].
    apply keeps_token_spec. rewrite negb_true_iff in Hs. apply Z.leb_le in H3.
    split; assumption.
Qed.

Lemma count_fold_filter (p : string -> bool) (terms : list string) (acc : Z) :
  fold_left (fun overlap term => if p term then (overlap + 1)%Z else overlap) terms acc
  = (acc + Py.len (filter p terms))%Z.
Proof.
  revert acc. induction terms as [|term terms IH]; intros acc.
  - cbn. lia.
  - cbn [fold_left filter]. rewrite IH. destruct (p term); unfold Py.len; cbn [List.length]; lia.
Qed.

Lemma score_fold_filter (p : string -> bool) (terms : list string) (acc : Q) :
  fold_left
    (fun score term =>
       if Py.is_empty term then score
       else if p term then (score + term_weight term)%Q else score)
    terms acc
  = fold_left Qplus
      (map term_weight (filter (fun term => negb (Py.is_empty term) && p term) terms))
      acc.
Proof.
  revert acc. induction terms as [|term terms IH]; intros acc; [reflexivity|].
  cbn [fold_left filter]. rewrite IH.
  destruct (Py.is_empty term); [reflexivity|].
  destruct (p term); reflexivity.
Qed.

Lemma fold_left_Qplus_acc (l : list Q) (a b : Q) :
  (a == b)%Q -> (fold_left Qplus l a == fold_left Qplus l b)%Q.
Proof.
  revert a b. induction l as [|x l IH]; intros a b H; [exact H|].
  cbn [fold_left]. apply IH. rewrite H. reflexivity.
Qed.

Lemma filter_all_false {A : Type} (p : A -> bool) (l : list A) :
  (forall x, p x = false) -> filter p l = [].
Proof.
  intros H. induction l as [|x l IH]; [reflexivity|].
  cbn [filter]. rewrite H. exact IH.
Qed.

Lemma no_surviving_match (text : string) :
  normalized_tokens text = [] -> forall term, Spec.surviving_match text term = false.
Proof.
  intros H term. rewrite <- existsb_normalized_tokens, H. reflexivity.
Qed.

Lemma keyword_overlap_count_spec (text : string) (terms : list string) :
  _keyword_overlap_count text terms
  = Py.len (filter (Spec.surviving_match text) terms).
Proof.
  unfold _keyword_overlap_count.
  destruct terms as [|t terms]; [reflexivity|].
  destruct (normalized_tokens text) as [|tok toks] eqn:E.
  - rewrite filter_all_false; [reflexivity|].
    intros term. apply no_surviving_match. exact E.
  - rewrite <- E.
    rewrite (count_fold_filter (fun term => existsb (term_matches term)
                                                    (normalized_tokens text))).
    rewrite (filter_ext _ _ (existsb_normalized_tokens text)). lia.
Qed.

Lemma keyword_overlap_weighted_score_spec (text : string) (terms : list string) :
  (_keyword_overlap_weighted_score text terms
   == Py.fsum (map term_weight
                   (filter (fun term => negb (Py.is_empty term)
                                        && Spec.surviving_match text term) terms)))%Q.
Proof.
  unfold _keyword_overlap_weighted_score, Py.fsum.
  destruct terms as [|t terms]; [reflexivity|].
  destruct (normalized_tokens text) as [|tok toks] eqn:E.
  - rewrite filter_all_false; [reflexivity|].
    intros term. rewrite no_surviving_match; [|exact E].
    apply andb_false_r.
  - rewrite <- E.
    rewrite (score_fold_filter (fun term => existsb (term_matches term)
                                                    (normalized_tokens text))).
    rewrite (filter_ext _ (fun term => negb (Py.is_empty term)
                                       && Spec.surviving_match text term)).
    + apply fold_left_Qplus_acc. reflexivity.
    + intros term. rewrite existsb_normalized_tokens. reflexivity.
Qed.

End Overlap.

(** C10: both overlap functions match a term against those tokens of the
    line only that, after normalization, are at least three characters long
    and not stopwords: the overlap count is the number of terms with such a
    matching token, the weighted score is the sum of the weights of the
    non-empty terms with such a matching token, every token the matching
    looks at has length at least 3 and is no stopword, and a line all of
    whose tokens are filtered out has overlap count 0 and weighted score 0.0. *)
Theorem keyword_overlap_filters_line_tokens :
  forall (text : string) (terms : list string),
    QA._keyword_overlap_count text terms
    = Py.len (filter (Spec.surviving_match text) terms)
    /\ (QA._keyword_overlap_weighted_score text terms
        == Py.fsum (map QA.term_weight
                        (filter (fun term => negb (Py.is_empty term)
                                             && Spec.surviving_match text term)
                                terms)))%Q
    /\ (forall token : string,
          In token (QA.normalized_tokens text) ->
          In token (QA.text_tokens text)
          /\ (3 <= Py.slen token)%Z /\ ~ In token QA.QUESTION_STOPWORDS)
    /\ ((forall token : string,
           In token (QA.text_tokens text) ->
           (Py.slen token < 3)%Z \/ In token QA.QUESTION_STOPWORDS) ->
        QA._keyword_overlap_count text terms = 0%Z
        /\ QA._keyword_overlap_weighted_score text terms = 0.0%Q).
Proof.
  intros text terms. split; [apply keyword_overlap_count_spec|].
  split; [apply keyword_overlap_weighted_score_spec|].
  assert (Hstop : forall token, Py.mem_str token QA.QUESTION_STOPWORDS = true
                                <-> In token QA.QUESTION_STOPWORDS).
  { intros token. unfold Py.mem_str. rewrite existsb_exists. split.
    - intros [w [Hin Heq]]. apply String.eqb_eq in Heq. subst w. exact Hin.
    - intros Hin. exists token. split; [exact Hin | apply String.eqb_refl]. }
  split.
  - intros token Hin. apply normalized_tokens_In in Hin. destruct Hin as [Hin Hk].
    apply keeps_token_spec in Hk. destruct Hk as [H3 Hs].
    repeat split; try assumption.
    intros Hin'. apply Hstop in Hin'. congruence.
  - intros Hall.
    assert (Hnil : QA.normalized_tokens text = []).
    { destruct (QA.normalized_tokens text) as [|tok toks] eqn:E; [reflexivity|].
      exfalso.
      assert (Hin : In tok (QA.normalized_tokens text)) by (rewrite E; left; reflexivity).
      apply normalized_tokens_In in Hin. destruct Hin as [Hin Hk].
      apply keeps_token_spec in Hk. destruct Hk as [H3 Hs].
      destruct (Hall tok Hin) as [Hshort | Hin']; [lia|].
      apply Hstop in Hin'. congruence. }
    unfold QA._keyword_overlap_count, QA._keyword_overlap_weighted_score.
    rewrite Hnil. destruct terms; split; reflexivity.
Qed.

(** ** [sorted]: a stable sort *)

Section SortedFacts.

Context {A : Type} (lt : A -> A -> bool).

Lemma insert_by_perm (x : A) (l : list A) : Permutation (Py.insert_by lt x l) (x :: l).
Proof.
  induction l as [|y l IH]; [apply Permutation_refl|].
  cbn [Py.insert_by]. destruct (lt y x); [|apply Permutation_refl].
  apply perm_trans with (y :: x :: l); [apply perm_skip, IH | apply perm_swap].
Qed.

Lemma sorted_by_perm (l : list A) : Permutation (Py.sorted_by lt l) l.
Proof.
  induction l as [|x l IH]; [apply Permutation_refl|].
  unfold Py.sorted_by in *. cbn [fold_right].
  apply perm_trans with (x :: fold_right (Py.insert_by lt) [] l);
    [apply insert_by_perm | apply perm_skip, IH].
Qed.

Lemma sorted_by_In (l : list A) (x : A) : In x (Py.sorted_by lt l) <-> In x l.
Proof.
  split; apply Permutation_in; [|apply Permutation_sym]; apply sorted_by_perm.
Qed.

Lemma sorted_by_length (l : list A) : List.length (Py.sorted_by lt l) = List.length l.
Proof. apply Permutation_length, sorted_by_perm. Qed.

Hypothesis lt_asym : forall x y, lt x y = true -> lt y x = false.
Hypothesis not_after_trans :
  forall x y z, Py.not_after lt x y -> Py.not_after lt y z -> Py.not_after lt x z.

Lemma insert_by_sorted (x : A) (l : list A) :
  StronglySorted (Py.not_after lt) l ->
  StronglySorted (Py.not_after lt) (Py.insert_by lt x l).
Proof.
  induction l as [|y l IH]; intros Hs.
  - cbn. constructor; constructor.
  - cbn [Py.insert_by]. inversion Hs as [|y' l' Hsl Hall]; subst.
    destruct (lt y x) eqn:E.
    + constructor; [apply IH, Hsl|].
      apply Forall_forall. intros z Hz.
      apply (Permutation_in _ (insert_by_perm x l)) in Hz. destruct Hz as [<-|Hz].
      * apply lt_asym, E.
      * rewrite Forall_forall in Hall. apply Hall, Hz.
    + constructor; [exact Hs|].
      constructor; [exact E|].
      apply Forall_forall. intros z Hz. rewrite Forall_forall in Hall.
      apply not_after_trans with y; [exact E | apply Hall, Hz].
Qed.

Lemma sorted_by_sorted (l : list A) :
  StronglySorted (Py.not_after lt) (Py.sorted_by lt l).
Proof.
  induction l as [|x l IH]; [constructor|].
  unfold Py.sorted_by in *. cbn [fold_right]. apply insert_by_sorted, IH.
Qed.

End SortedFacts.

(** The order of keys. *)

Lemma Qeq_bool_sym (a b : Q) : Qeq_bool a b = Qeq_bool b a.
Proof.
  apply eq_true_iff_eq. rewrite !Qeq_bool_iff. split; intros H; symmetry; exact H.
Qed.

Lemma key_lt_asym (k1 k2 : list Q) : Py.key_lt k1 k2 = true -> Py.key_lt k2 k1 = false.
Proof.
  revert k2. induction k1 as [|a k1 IH]; intros [|b k2] H; cbn in *;
    try reflexivity; try discriminate.
  rewrite (Qeq_bool_sym b a). destruct (Qeq_bool a b); [apply IH, H|].
  apply Qltb_lt in H. apply Qltb_ge. apply Qlt_le_weak, H.
Qed.

Lemma key_lt_trans_neg (k1 k2 k3 : list Q) :
  Py.key_lt k2 k1 = false -> Py.key_lt k3 k2 = false -> Py.key_lt k3 k1 = false.
Proof.
  revert k2 k3. induction k1 as [|a k1 IH]; intros [|b k2] [|c k3] H1 H2; cbn in *;
    try reflexivity; try discriminate.
  destruct (Qeq_bool b a) eqn:Eba, (Qeq_bool c b) eqn:Ecb.
  - apply Qeq_bool_iff in Eba, Ecb.
    assert (Eca : Qeq_bool c a = true) by (apply Qeq_bool_iff; rewrite Ecb; exact Eba).
    rewrite Eca. apply (IH k2 k3); assumption.
  - apply Qeq_bool_iff in Eba. apply Qltb_ge in H2.
    assert (Eca : Qeq_bool c a = false).
    { destruct (Qeq_bool c a) eqn:E; [|reflexivity]. apply Qeq_bool_iff in E.
      assert (Qeq_bool c b = true) by (apply Qeq_bool_iff; rewrite E, Eba; reflexivity).
      congruence. }
    rewrite Eca. apply Qltb_ge. rewrite <- Eba. exact H2.
  - apply Qeq_bool_iff in Ecb. apply Qltb_ge in H1.
    assert (Eca : Qeq_bool c a = false).
    { destruct (Qeq_bool c a) eqn:E; [|reflexivity]. apply Qeq_bool_iff in E.
      assert (Qeq_bool b a = true) by (apply Qeq_bool_iff; rewrite <- Ecb; exact E).
      congruence. }
    rewrite Eca. apply Qltb_ge. rewrite Ecb. exact H1.
  - apply Qltb_ge in H1, H2.
    assert (Hac : (a <= c)%Q) by (apply Qle_trans with b; assumption).
    destruct (Qeq_bool c a) eqn:Eca.
    + exfalso. apply Qeq_bool_iff in Eca.
      assert (Qeq_bool b a = true).
      { apply Qeq_bool_iff. apply Qle_antisym; [|exact H1]. rewrite <- Eca. exact H2. }
      congruence.
    + apply Qltb_ge. exact Hac.
Qed.

Lemma sorted_perm {A : Type} (key : A -> list Q) (l : list A) :
  Permutation (Py.sorted key l) l.
Proof. apply sorted_by_perm. Qed.

Lemma sorted_In {A : Type} (key : A -> list Q) (l : list A) (x : A) :
  In x (Py.sorted key l) <-> In x l.
Proof. apply sorted_by_In. Qed.

(** In the result of [sorted] no element has a key smaller than the key of
    an element before it. *)
Lemma sorted_sorted {A : Type} (key : A -> list Q) (l : list A) :
  StronglySorted (fun x y => Py.key_lt (key y) (key x) = false) (Py.sorted key l).
Proof.
  apply (sorted_by_sorted (fun x y => Py.key_lt (key x) (key y))).
  - intros x y. apply key_lt_asym.
  - intros x y z. unfold Py.not_after. apply key_lt_trans_neg.
Qed.

(** ** Slices *)

Lemma slice_to_firstn {A : Type} (l : list A) (k : Z) :
  (0 <= k)%Z -> Py.slice_to l k = firstn (Z.to_nat k) l.
Proof.
  intros Hk. unfold Py.slice_to, Py.clamp_bound, Py.len.
  destruct (Z.ltb_spec k 0) as [|_]; [lia|].
  destruct (Z.le_ge_cases k (Z.of_nat (List.length l))) as [Hle|Hge].
  - rewrite Z.max_r by lia. rewrite Z.min_r by lia. reflexivity.
  - rewrite Z.max_r by lia. rewrite Z.min_l by lia. rewrite Nat2Z.id.
    rewrite firstn_all. symmetry. apply firstn_all2. lia.
Qed.

(** ** Global evidence filtering, in binary64 *)

Section GlobalFilter64.

Import PrimFloat.

Local Open Scope float_scope.







(** The quotient [0.576 / 0.8] rounds to a number below 0.72, so the walk
    stops after the item of score 0.8. *)
Example drop_ratio_rounds_downwards :
  map Binary64.text
      (Binary64.filtered_for_display
         [Scenario.scored64 1 100 "kept" 0.8; Scenario.scored64 1 130 "dropped" 0.576]
         Binary64.default_evidence_settings)
  = ["kept"%string].
Proof. vm_compute. reflexivity. Qed.

End GlobalFilter64.

(** ** The orchestrator *)

Section AskQuestion.

Context {ext : Externals}.

Import QA.

Lemma canned_is_the_literal :
  mk_response INSUFFICIENT_EVIDENCE_ANSWER [] = Spec.canned_response.
Proof. reflexivity. Qed.

Lemma insufficient_response_run (reason : string) (db : Session) :
  _insufficient_response reason db
  = (db, [mk_log INFO ("Returning insufficient evidence response: " ++ reason)],
     Returned Spec.canned_response).
Proof. reflexivity. Qed.

(** What [answer_with_citations] does, case by case. *)
Lemma answer_with_citations_run (settings : Settings) (document_id : UUID)
  (question answer : string) (context_chunks : list RetrievedChunk)
  (citations : list UUID) (db : Session) :
  exists logs result,
    answer_with_citations settings document_id question answer context_chunks
                          citations db = (db, logs, result)
    /\ ((result = Returned Spec.canned_response
         /\ (answer = EmptyString
             \/ _answer_is_uncertain answer = true
             \/ select_cited_chunks context_chunks citations = []
             \/ exists evidence,
                  _build_evidence db settings question answer document_id
                    (select_cited_chunks context_chunks citations) = Returned evidence
                  /\ ((Py.len evidence < minimum_evidence_items settings)%Z
                      \/ _validate_evidence_mapping db document_id evidence = false)))
        \/ (exists exc,
              result = Raised exc
              /\ answer <> EmptyString /\ _answer_is_uncertain answer = false
              /\ _build_evidence db settings question answer document_id
                   (select_cited_chunks context_chunks citations) = Raised exc)
        \/ (exists evidence,
              result = Returned (mk_response answer evidence)
              /\ answer <> EmptyString /\ _answer_is_uncertain answer = false
              /\ _build_evidence db settings question answer document_id
                   (select_cited_chunks context_chunks citations) = Returned evidence
              /\ (minimum_evidence_items settings <= Py.len evidence)%Z
              /\ _validate_evidence_mapping db document_id evidence = true)).
Proof.
  unfold answer_with_citations.
  destruct answer as [|c answer'] eqn:Eanswer.
  { cbn [Py.is_empty]. rewrite insufficient_response_run.
    eexists. eexists. split; [reflexivity|]. left. split; [reflexivity|]. left. reflexivity. }
  cbn [Py.is_empty]. rewrite <- Eanswer.
  assert (Hne : answer <> EmptyString) by (subst answer; discriminate).
  clear Eanswer.
  destruct (_answer_is_uncertain answer) eqn:Eunc.
  { rewrite insufficient_response_run.
    eexists. eexists. split; [reflexivity|]. left. split; [reflexivity|]. right. left.
    reflexivity. }
  destruct (select_cited_chunks context_chunks citations) as [|chunk chunks] eqn:Esel.
  { rewrite insufficient_response_run.
    eexists. eexists. split; [reflexivity|]. left. split; [reflexivity|].
    right. right. left. reflexivity. }
  rewrite <- Esel.
  unfold tbind, tget, lift.
  destruct (_build_evidence db settings question answer document_id
              (select_cited_chunks context_chunks citations)) as [evidence|exc] eqn:Ebuild.
  2:{ eexists. eexists. split; [reflexivity|]. right. left. exists exc.
      repeat split; assumption. }
  destruct (Z.ltb_spec (Py.len evidence) (minimum_evidence_items settings)) as [Hfew|Hmin].
  { rewrite insufficient_response_run.
    eexists. eexists. split; [reflexivity|]. left. split; [reflexivity|].
    right. right. right. exists evidence. split; [reflexivity|]. left. exact Hfew. }
  destruct (_validate_evidence_mapping db document_id evidence) eqn:Evalid.
  - cbn [negb tret]. eexists. eexists. split; [reflexivity|]. right. right.
    exists evidence. repeat split; assumption.
  - cbn [negb]. rewrite insufficient_response_run.
    eexists. eexists. split; [reflexivity|]. left. split; [reflexivity|].
    right. right. right. exists evidence. split; [reflexivity|]. right. exact Evalid.
Qed.

(** What [answer_from_retrieved] does once the answer was generated. *)
Lemma answer_from_retrieved_generated (settings : Settings) (document_id : UUID)
  (question : string) (retrieved : list RetrievedChunk) (answer : string)
  (cited : list UUID) (db : Session) :
  retrieved <> [] ->
  _has_sufficient_retrieval_confidence settings retrieved = true ->
  _generate_answer settings question (Spec.context_of settings retrieved)
  = Returned (answer, cited) ->
  answer_from_retrieved settings document_id question retrieved db
  = match resolve_citations settings (Spec.context_of settings retrieved) cited with
    | Raised exc => (db, [], Raised exc)
    | Returned None =>
        _insufficient_response "No valid citations were returned by the model." db
    | Returned (Some citations) =>
        answer_with_citations settings document_id question answer
                              (Spec.context_of settings retrieved) citations db
    end.
Proof.
  intros Hne Hconf Hgen. unfold answer_from_retrieved.
  destruct retrieved as [|chunk chunks]; [contradiction|].
  rewrite Hconf. cbn [negb]. unfold Spec.context_of in *. rewrite Hgen.
  unfold tbind, lift.
  destruct (resolve_citations settings _ cited) as [[citations|]|exc]; try reflexivity.
  destruct (answer_with_citations settings document_id question answer _ citations db)
    as [[db' logs] result]. reflexivity.
Qed.

(** [ask_question] up to the retrieval, for a request that passes the checks
    made before the gates. *)
Lemma ask_question_ready (settings : Settings) (document_id : UUID) (question : string)
  (db : Session) :
  Spec.ready_to_answer settings db document_id question ->
  ask_question settings document_id question db
  = match _ensure_chunk_embeddings settings document_id db with
    | (db1, logs1, Raised exc) =>
        (db1, logs1,
         Raised (mk_exn QAError ("Failed to prepare chunk embeddings: "
                                 ++ exn_message exc)))
    | (db1, logs1, Returned _) =>
        match _retrieve_chunks db1 settings document_id (Py.strip question) with
        | Raised exc =>
            (db1,
             logs1 ++ [mk_log WARNING ("Vector retrieval failed for "
                                       ++ uuid_str document_id ++ ": "
                                       ++ exn_message exc);
                       mk_log INFO "Returning insufficient evidence response: Vector retrieval failed."],
             Returned Spec.canned_response)
        | Returned retrieved =>
            match answer_from_retrieved settings document_id (Py.strip question)
                                        retrieved db1 with
            | (db2, logs2, result) => (db2, logs1 ++ logs2, result)
            end
        end
    end.
Proof.
  intros [Hq [[document [Hdoc Hstatus]] [[key [Hkey Hkey_ne]] Hdim]]].
  unfold ask_question. rewrite Hq.
  unfold tbind at 1. unfold tget at 1. rewrite Hdoc, Hstatus, Hkey, Hkey_ne, Hdim.
  cbn [String.eqb Ascii.eqb Bool.eqb negb Z.eqb Pos.eqb EMBEDDING_VECTOR_DIM].
  unfold tbind, try_except, tget.
  destruct (_ensure_chunk_embeddings settings document_id db) as [[db1 logs1] [[]|exc]].
  - destruct (_retrieve_chunks db1 settings document_id (Py.strip question))
      as [retrieved|exc].
    + destruct (answer_from_retrieved settings document_id (Py.strip question)
                                      retrieved db1) as [[db2 logs2] result].
      cbn [app]. reflexivity.
    + cbn. reflexivity.
  - cbn. rewrite app_nil_r. reflexivity.
Qed.

Lemma answer_from_retrieved_unconfident (settings : Settings) (document_id : UUID)
  (question : string) (retrieved : list RetrievedChunk) (db : Session) :
  retrieved = [] \/ _has_sufficient_retrieval_confidence settings retrieved = false ->
  exists logs,
    answer_from_retrieved settings document_id question retrieved db
    = (db, logs, Returned Spec.canned_response).
Proof.
  intros H. unfold answer_from_retrieved.
  destruct retrieved as [|chunk chunks].
  - rewrite insufficient_response_run. eexists. reflexivity.
  - destruct H as [H|H]; [discriminate|]. rewrite H. cbn [negb].
    rewrite insufficient_response_run. eexists. reflexivity.
Qed.

(** Whatever [answer_from_retrieved] returns is the canned response or an
    answer whose evidence passed the validation; the session is untouched. *)
Lemma answer_from_retrieved_returned (settings : Settings) (document_id : UUID)
  (question : string) (retrieved : list RetrievedChunk) (db db' : Session)
  (logs : list LogEntry) (response : AskQuestionResponse) :
  answer_from_retrieved settings document_id question retrieved db
  = (db', logs, Returned response) ->
  db' = db
  /\ (response = Spec.canned_response
      \/ exists answer evidence,
           response = mk_response answer evidence
           /\ _validate_evidence_mapping db document_id evidence = true).
Proof.
  intros Hrun.
  destruct retrieved as [|chunk chunks] eqn:Eret.
  { cbn in Hrun. injection Hrun as <- _ <-. split; [reflexivity | left; reflexivity]. }
  rewrite <- Eret in *.
  destruct (_has_sufficient_retrieval_confidence settings retrieved) eqn:Econf.
  2:{ destruct (answer_from_retrieved_unconfident settings document_id question
                  retrieved db (or_intror Econf)) as [logs' Hrun'].
      rewrite Hrun' in Hrun. injection Hrun as <- _ <-.
      split; [reflexivity | left; reflexivity]. }
  destruct (_generate_answer settings question (Spec.context_of settings retrieved))
    as [[answer cited]|exc] eqn:Egen.
  2:{ unfold answer_from_retrieved in Hrun. rewrite Eret in Hrun. rewrite <- Eret in Hrun.
      rewrite Econf in Hrun. cbn [negb] in Hrun. unfold Spec.context_of in Egen.
      rewrite Egen in Hrun. discriminate Hrun. }
  rewrite (answer_from_retrieved_generated settings document_id question retrieved
             answer cited db) in Hrun; [|subst retrieved; discriminate|exact Econf|exact Egen].
  destruct (resolve_citations settings (Spec.context_of settings retrieved) cited)
    as [[citations|]|exc]; [| |discriminate Hrun].
  - destruct (answer_with_citations_run settings document_id question answer
                (Spec.context_of settings retrieved) citations db)
      as [logs' [result [Hrun' Hcases]]].
    rewrite Hrun' in Hrun. injection Hrun as <- _ ->. split; [reflexivity|].
    destruct Hcases as [[Hres _] | [[exc [Hres _]] | [evidence [Hres [_ [_ [_ [_ Hv]]]]]]]].
    + injection Hres as ->. left. reflexivity.
    + discriminate Hres.
    + injection Hres as ->. right. exists answer, evidence. split; [reflexivity|exact Hv].
  - rewrite insufficient_response_run in Hrun. injection Hrun as <- _ <-.
    split; [reflexivity | left; reflexivity].
Qed.

(** A response is only returned to a request that passed the checks made
    before the gates. *)
Lemma ask_question_returned_ready (settings : Settings) (document_id : UUID)
  (question : string) (db db' : Session) (logs : list LogEntry)
  (response : AskQuestionResponse) :
  ask_question settings document_id question db = (db', logs, Returned response) ->
  Spec.ready_to_answer settings db document_id question.
Proof.
  unfold ask_question, Spec.ready_to_answer.
  destruct (Py.is_empty (Py.strip question)); [discriminate|].
  unfold tbind at 1. unfold tget at 1.
  destruct (db_get_document db document_id) as [document|]; [|discriminate].
  destruct (String.eqb_spec (doc_status document) "ready") as [Hst|Hst];
    [|discriminate].
  cbn [negb].
  destruct (openai_api_key settings) as [key|]; [|discriminate].
  destruct (Py.is_empty key) eqn:Ekey; [discriminate|].
  destruct (Z.eqb_spec (openai_embedding_dimensions settings) EMBEDDING_VECTOR_DIM)
    as [Hdim|Hdim]; [|discriminate].
  intros _. repeat split.
  - exists document. split; [reflexivity | exact Hst].
  - exists key. split; [reflexivity | exact Ekey].
  - exact Hdim.
Qed.

Lemma validate_evidence_mapping_sound (db : Session) (document_id : UUID)
  (evidence : list EvidenceItem) :
  _validate_evidence_mapping db document_id evidence = true ->
  forall it, In it evidence ->
    (bx1 (ev_bbox it) < bx2 (ev_bbox it))%Q /\ (by1 (ev_bbox it) < by2 (ev_bbox it))%Q
    /\ Spec.box_on_a_span db document_id it.
Proof.
  unfold _validate_evidence_mapping. intros Hall it Hin.
  rewrite forallb_forall in Hall. specialize (Hall it Hin).
  destruct (Qle_bool (bx2 (ev_bbox it)) (bx1 (ev_bbox it))) eqn:Ex; [discriminate|].
  destruct (Qle_bool (by2 (ev_bbox it)) (by1 (ev_bbox it))) eqn:Ey; [discriminate|].
  cbn [orb] in Hall. apply Qle_bool_false in Ex, Ey.
  split; [exact Ex|]. split; [exact Ey|].
  apply existsb_exists in Hall. destruct Hall as [span [Hspan Hov]].
  unfold span_overlaps in Hov. rewrite !andb_true_iff in Hov.
  destruct Hov as [[[[[Hdoc Hpage] Hx2] Hx1] Hy2] Hy1].
  apply existsb_exists in Hpage. destruct Hpage as [page [Hpage Hpg]].
  apply andb_true_iff in Hpg. destruct Hpg as [Hpid Hpn].
  exists span, page. apply N.eqb_eq in Hdoc. apply Z.eqb_eq in Hpid, Hpn.
  apply Qltb_lt in Hx2, Hx1, Hy2, Hy1. repeat split; auto.
Qed.

Lemma gate_failure_is_insufficient (settings : Settings) (document_id : UUID)
  (question : string) (db db1 : Session) (logs1 : list LogEntry) :
  Spec.ready_to_answer settings db document_id question ->
  _ensure_chunk_embeddings settings document_id db = (db1, logs1, Returned tt) ->
  Spec.gate_fails settings db1 document_id (Py.strip question) ->
  exists logs,
    ask_question settings document_id question db
    = (db1, logs, Returned Spec.canned_response).
Proof.
  intros Hready Hfill Hgate.
  rewrite (ask_question_ready settings document_id question db Hready), Hfill.
  assert (Hlow : forall retrieved,
             _retrieve_chunks db1 settings document_id (Py.strip question)
             = Returned retrieved ->
             retrieved = [] \/ _has_sufficient_retrieval_confidence settings retrieved = false ->
             exists logs,
               match _retrieve_chunks db1 settings document_id (Py.strip question) with
               | Raised exc =>
                   (db1,
                    logs1 ++ [mk_log WARNING ("Vector retrieval failed for "
                                              ++ uuid_str document_id ++ ": "
                                              ++ exn_message exc);
                              mk_log INFO "Returning insufficient evidence response: Vector retrieval failed."],
                    Returned Spec.canned_response)
               | Returned retrieved =>
                   match answer_from_retrieved settings document_id (Py.strip question)
                                               retrieved db1 with
                   | (db2, logs2, result) => (db2, logs1 ++ logs2, result)
                   end
               end = (db1, logs, Returned Spec.canned_response)).
  { intros retrieved Hret Hor. rewrite Hret.
    destruct (answer_from_retrieved_unconfident settings document_id (Py.strip question)
                retrieved db1 Hor) as [logs' Hrun].
    rewrite Hrun. eexists. reflexivity. }
  assert (Hgen : forall retrieved answer cited,
             _retrieve_chunks db1 settings document_id (Py.strip question)
             = Returned retrieved ->
             _generate_answer settings (Py.strip question)
                              (Spec.context_of settings retrieved)
             = Returned (answer, cited) ->
             (exists logs,
                match resolve_citations settings (Spec.context_of settings retrieved)
                                        cited with
                | Raised exc => (db1, [], Raised exc)
                | Returned None =>
                    _insufficient_response
                      "No valid citations were returned by the model." db1
                | Returned (Some citations) =>
                    answer_with_citations settings document_id (Py.strip question) answer
                      (Spec.context_of settings retrieved) citations db1
                end = (db1, logs, Returned Spec.canned_response)) ->
             exists logs,
               match _retrieve_chunks db1 settings document_id (Py.strip question) with
               | Raised exc =>
                   (db1,
                    logs1 ++ [mk_log WARNING ("Vector retrieval failed for "
                                              ++ uuid_str document_id ++ ": "
                                              ++ exn_message exc);
                              mk_log INFO "Returning insufficient evidence response: Vector retrieval failed."],
                    Returned Spec.canned_response)
               | Returned retrieved =>
                   match answer_from_retrieved settings document_id (Py.strip question)
                                               retrieved db1 with
                   | (db2, logs2, result) => (db2, logs1 ++ logs2, result)
                   end
               end = (db1, logs, Returned Spec.canned_response)).
  { intros retrieved answer cited Hret Hgenerated [logs' Hrun].
    destruct retrieved as [|chunk chunks] eqn:Eret.
    { apply (Hlow []); [exact Hret | left; reflexivity]. }
    rewrite <- Eret in *.
    destruct (_has_sufficient_retrieval_confidence settings retrieved) eqn:Econf.
    2:{ apply (Hlow retrieved); [exact Hret | right; exact Econf]. }
    rewrite Hret.
    rewrite (answer_from_retrieved_generated settings document_id (Py.strip question)
               retrieved answer cited db1);
      [|subst retrieved; discriminate|exact Econf|exact Hgenerated].
    rewrite Hrun. eexists. reflexivity. }
  destruct Hgate as [exc Hret | Hret | retrieved Hret Hconf
                     | retrieved answer cited Hret Hgenerated Hreq Hvalid
                     | retrieved answer cited citations Hret Hgenerated Hres Hempty
                     | retrieved answer cited citations Hret Hgenerated Hres Hunc
                     | retrieved answer cited citations evidence Hret Hgenerated Hres Hbuild Hfew
                     | retrieved answer cited citations evidence Hret Hgenerated Hres Hbuild Hinvalid].
  - rewrite Hret. eexists. reflexivity.
  - apply (Hlow []); [exact Hret | left; reflexivity].
  - apply (Hlow retrieved); [exact Hret | right; exact Hconf].
  - apply (Hgen retrieved answer cited Hret Hgenerated).
    unfold resolve_citations. rewrite Hvalid, Hreq.
    rewrite insufficient_response_run. eexists. reflexivity.
  - apply (Hgen retrieved answer cited Hret Hgenerated). rewrite Hres.
    destruct (answer_with_citations_run settings document_id (Py.strip question) answer
                (Spec.context_of settings retrieved) citations db1)
      as [logs' [result [Hrun Hcases]]].
    rewrite Hrun. exists logs'. f_equal.
    destruct Hcases as [[Hr _] | [[exc [_ [Hne _]]] | [ev [_ [Hne _]]]]];
      [exact Hr | contradiction | contradiction].
  - apply (Hgen retrieved answer cited Hret Hgenerated). rewrite Hres.
    destruct (answer_with_citations_run settings document_id (Py.strip question) answer
                (Spec.context_of settings retrieved) citations db1)
      as [logs' [result [Hrun Hcases]]].
    rewrite Hrun. exists logs'. f_equal.
    destruct Hcases as [[Hr _] | [[exc [_ [_ [Hc _]]]] | [ev [_ [_ [Hc _]]]]]];
      [exact Hr | congruence | congruence].
  - apply (Hgen retrieved answer cited Hret Hgenerated). rewrite Hres.
    destruct (answer_with_citations_run settings document_id (Py.strip question) answer
                (Spec.context_of settings retrieved) citations db1)
      as [logs' [result [Hrun Hcases]]].
    rewrite Hrun. exists logs'. f_equal.
    destruct Hcases as [[Hr _] | [[exc [_ [_ [_ Hb]]]] | [ev [_ [_ [_ [Hb [Hmin _]]]]]]]];
      [exact Hr | congruence |].
    rewrite Hbuild in Hb. injection Hb as <-. lia.
  - apply (Hgen retrieved answer cited Hret Hgenerated). rewrite Hres.
    destruct (answer_with_citations_run settings document_id (Py.strip question) answer
                (Spec.context_of settings retrieved) citations db1)
      as [logs' [result [Hrun Hcases]]].
    rewrite Hrun. exists logs'. f_equal.
    destruct Hcases as [[Hr _] | [[exc [_ [_ [_ Hb]]]] | [ev [_ [_ [_ [Hb [_ Hv]]]]]]]];
      [exact Hr | congruence |].
    rewrite Hbuild in Hb. injection Hb as <-. congruence.
Qed.

Lemma returned_evidence_is_grounded (settings : Settings) (document_id : UUID)
  (question : string) (db db' : Session) (logs : list LogEntry)
  (response : AskQuestionResponse) :
  ask_question settings document_id question db = (db', logs, Returned response) ->
  response = Spec.canned_response
  \/ forall it, In it (resp_evidence response) ->
       (bx1 (ev_bbox it) < bx2 (ev_bbox it))%Q /\ (by1 (ev_bbox it) < by2 (ev_bbox it))%Q
       /\ Spec.box_on_a_span db' document_id it.
Proof.
  intros Hrun.
  pose proof (ask_question_returned_ready _ _ _ _ _ _ _ Hrun) as Hready.
  rewrite (ask_question_ready settings document_id question db Hready) in Hrun.
  destruct (_ensure_chunk_embeddings settings document_id db) as [[db1 logs1] [[]|exc]];
    [|discriminate Hrun].
  destruct (_retrieve_chunks db1 settings document_id (Py.strip question))
    as [retrieved|exc].
  - destruct (answer_from_retrieved settings document_id (Py.strip question) retrieved db1)
      as [[db2 logs2] result] eqn:Efrom.
    injection Hrun as <- _ ->.
    destruct (answer_from_retrieved_returned _ _ _ _ _ _ _ _ Efrom)
      as [-> [Hc | [answer [evidence [-> Hv]]]]].
    + left. exact Hc.
    + right. cbn [resp_evidence]. apply validate_evidence_mapping_sound. exact Hv.
  - injection Hrun as _ _ <-. left. reflexivity.
Qed.

End AskQuestion.

(** X28: whenever a confidence gate fails as the code tests it (the
    retrieval raises or finds nothing, the retrieval confidence is below the
    threshold, no citation is valid while citations are required, or, once
    the citations are resolved, the answer is empty or carries an uncertainty
    marker, the evidence items are too few, or the evidence validation fails),
    [ask_question] returns exactly the response whose answer is the fixed
    literal and whose evidence is empty; and every item of a returned
    response with non-empty evidence has [x1 < x2], [y1 < y2] and strictly
    overlaps a stored span of the document on the item's page. *)
Theorem insufficient_or_grounded :
  forall (ext : Externals) (settings : Settings) (document_id : UUID)
         (question : string) (db : Session),
    (forall (db1 : Session) (logs1 : list LogEntry),
        Spec.ready_to_answer settings db document_id question ->
        QA._ensure_chunk_embeddings settings document_id db = (db1, logs1, Returned tt) ->
        Spec.gate_fails settings db1 document_id (Py.strip question) ->
        exists logs,
          QA.ask_question settings document_id question db
          = (db1, logs,
             Returned
               (mk_response
                  "I don't have enough grounded evidence in this document to answer that confidently."
                  [])))
    /\ (forall (db' : Session) (logs : list LogEntry) (response : AskQuestionResponse),
          QA.ask_question settings document_id question db
          = (db', logs, Returned response) ->
          resp_evidence response <> [] ->
          forall it, In it (resp_evidence response) ->
            (bx1 (ev_bbox it) < bx2 (ev_bbox it))%Q
            /\ (by1 (ev_bbox it) < by2 (ev_bbox it))%Q
            /\ Spec.box_on_a_span db' document_id it).
Proof.
  intros ext settings document_id question db. split.
  - intros db1 logs1 Hready Hfill Hgate.
    apply (gate_failure_is_insufficient settings document_id question db db1 logs1);
      assumption.
  - intros db' logs response Hrun Hne.
    destruct (returned_evidence_is_grounded settings document_id question db db' logs
                response Hrun) as [Hc | Hall].
    + subst response. cbn in Hne. contradiction.
    + exact Hall.
Qed.

(** ** Provider failures *)

Lemma strip_nonempty (question : string) :
  Py.is_empty (Py.strip question) = false -> Py.is_empty question = false.
Proof.
  destruct question; [cbn; discriminate | reflexivity].
Qed.

(** The batches of the back-fill cover the chunks without embedding, each
    once and in order: the bound on the number of batches is never reached. *)
Lemma batches_of_concat {A : Type} (batch_size fuel : nat) (l : list A) :
  (0 < batch_size)%nat -> (List.length l <= fuel)%nat ->
  List.concat (QA.batches_of fuel batch_size l) = l.
Proof.
  intros Hsize. revert l.
  induction fuel as [|fuel IH]; intros l Hlen.
  - destruct l; [reflexivity | cbn in Hlen; lia].
  - destruct l as [|x l']; [reflexivity|].
    cbn [QA.batches_of List.concat].
    rewrite IH.
    + apply firstn_skipn.
    + rewrite length_skipn. cbn [List.length] in *. lia.
Qed.

(** A provider that fails on the first batch of chunks without embedding
    makes the back-fill raise that failure, with nothing written. *)
Lemma ensure_chunk_embeddings_provider_fails {ext : Externals} (settings : Settings)
  (document_id : UUID) (db : Session) (exc : exn) :
  QA.select_missing_chunks db document_id <> [] ->
  embeddings_create (fst (QA._embedding_request_kwargs settings))
                    (snd (QA._embedding_request_kwargs settings))
                    (map chunk_text (firstn 64 (QA.select_missing_chunks db document_id)))
  = Raised exc ->
  QA._ensure_chunk_embeddings settings document_id db = (db, [], Raised exc).
Proof.
  intros Hmissing Hcreate.
  unfold QA._ensure_chunk_embeddings, tbind at 1, tget.
  destruct (QA.select_missing_chunks db document_id) as [|c missing] eqn:Emissing;
    [contradiction|].
  destruct (QA._embedding_request_kwargs settings) as [model dimensions].
  cbn [fst snd] in Hcreate.
  cbn [List.length QA.batches_of tfold].
  unfold tbind, lift. rewrite Hcreate. reflexivity.
Qed.

(** A provider that fails on the question makes the retrieval raise that
    failure. *)
Lemma retrieve_chunks_provider_fails {ext : Externals} (settings : Settings)
  (document_id : UUID) (question : string) (db : Session) (exc : exn) :
  embeddings_create (fst (QA._embedding_request_kwargs settings))
                    (snd (QA._embedding_request_kwargs settings)) [question]
  = Raised exc ->
  QA._retrieve_chunks db settings document_id question = Raised exc.
Proof.
  intros Hcreate. unfold QA._retrieve_chunks.
  destruct (QA._embedding_request_kwargs settings) as [model dimensions].
  cbn [fst snd] in Hcreate. unfold bind. rewrite Hcreate. reflexivity.
Qed.

(** C8: when the embedding back-fill fails, [ask_question] raises a
    [QAError] and the route answers 500; when the back-fill went through and
    the vector retrieval fails, the failure is logged as a warning and the
    insufficient-evidence response is returned, which the route answers
    with 200.  The two failures are what a failing embeddings provider
    causes: on the first batch of chunks without embedding it makes the
    back-fill raise, on the question it makes the retrieval raise. *)
Theorem provider_failure_paths :
  forall (ext : Externals) (settings : Settings) (document_id_text : string)
         (document_id : UUID) (question : string) (db : Session),
    uuid_parse document_id_text = Some document_id ->
    Spec.ready_to_answer settings db document_id question ->
    (forall (db1 : Session) (logs1 : list LogEntry) (exc : exn),
        QA._ensure_chunk_embeddings settings document_id db = (db1, logs1, Raised exc) ->
        QA.ask_question settings document_id question db
        = (db1, logs1,
           Raised (mk_exn QAError ("Failed to prepare chunk embeddings: "
                                   ++ exn_message exc)))
        /\ Routes.ask_document_question settings document_id_text question db
           = (db1, logs1,
              Routes.HttpError 500
                ("Question answering failed: "
                 ++ ("Failed to prepare chunk embeddings: " ++ exn_message exc))))
    /\ (forall (db1 : Session) (logs1 : list LogEntry) (exc : exn),
          QA._ensure_chunk_embeddings settings document_id db = (db1, logs1, Returned tt) ->
          QA._retrieve_chunks db1 settings document_id (Py.strip question) = Raised exc ->
          QA.ask_question settings document_id question db
          = (db1,
             logs1 ++ [mk_log WARNING ("Vector retrieval failed for "
                                       ++ uuid_str document_id ++ ": "
                                       ++ exn_message exc);
                       mk_log INFO "Returning insufficient evidence response: Vector retrieval failed."],
             Returned Spec.canned_response)
          /\ Routes.ask_document_question settings document_id_text question db
             = (db1,
                logs1 ++ [mk_log WARNING ("Vector retrieval failed for "
                                          ++ uuid_str document_id ++ ": "
                                          ++ exn_message exc);
                          mk_log INFO "Returning insufficient evidence response: Vector retrieval failed."],
                Routes.Http200 Spec.canned_response))
    /\ (forall (exc : exn),
          QA.select_missing_chunks db document_id <> [] ->
          embeddings_create (fst (QA._embedding_request_kwargs settings))
                            (snd (QA._embedding_request_kwargs settings))
                            (map chunk_text
                                 (firstn 64 (QA.select_missing_chunks db document_id)))
          = Raised exc ->
          QA._ensure_chunk_embeddings settings document_id db = (db, [], Raised exc))
    /\ (forall (db1 : Session) (exc : exn),
          embeddings_create (fst (QA._embedding_request_kwargs settings))
                            (snd (QA._embedding_request_kwargs settings))
                            [Py.strip question]
          = Raised exc ->
          QA._retrieve_chunks db1 settings document_id (Py.strip question) = Raised exc).
Proof.
  intros ext settings document_id_text document_id question db Hparse Hready.
  pose proof (ask_question_ready settings document_id question db Hready) as Hask.
  assert (Hroute : forall result,
             QA.ask_question settings document_id question db = result ->
             Routes.ask_document_question settings document_id_text question db
             = match result with
               | (db', logs, Returned response) => (db', logs, Routes.Http200 response)
               | (db', logs, Raised exc) =>
                   (db', logs,
                    match exn_kind exc with
                    | InvalidQuestionError => Routes.HttpError 400 (exn_message exc)
                    | DocumentNotReadyError => Routes.HttpError 409 (exn_message exc)
                    | OpenAIConfigurationError => Routes.HttpError 500 (exn_message exc)
                    | QAError =>
                        Routes.HttpError 500
                          ("Question answering failed: " ++ exn_message exc)
                    | _ => Routes.HttpError 500 "Internal server error"
                    end)
               end).
  { intros result Hres. unfold Routes.ask_document_question.
    destruct Hready as [Hq [[document [Hdoc _]] _]].
    rewrite (strip_nonempty question Hq), Hparse, Hdoc, Hres.
    destruct result as [[db' logs] [response|exc]]; reflexivity. }
  split; [|split; [|split]].
  - intros db1 logs1 exc Hfill. rewrite Hfill in Hask.
    split; [exact Hask|]. rewrite (Hroute _ Hask). reflexivity.
  - intros db1 logs1 exc Hfill Hret. rewrite Hfill, Hret in Hask.
    split; [exact Hask|]. rewrite (Hroute _ Hask). reflexivity.
  - intros exc. apply ensure_chunk_embeddings_provider_fails.
  - intros db1 exc. apply retrieve_chunks_provider_fails.
Qed.

(** ** Citations *)

Section Citations.

Context {ext : Externals}.

Import QA.

Lemma umem_In (id : UUID) (ids : list UUID) : umem id ids = true <-> In id ids.
Proof.
  unfold umem. rewrite existsb_exists. split.
  - intros [x [Hin Heq]]. apply N.eqb_eq in Heq. subst x. exact Hin.
  - intros Hin. exists id. split; [exact Hin | apply N.eqb_refl].
Qed.

Lemma citation_step_cited (chunk_ids : list UUID) (citation : Json) :
  citation_step chunk_ids citation
  = match Spec.cited_uuid citation with
    | Some id => if umem id chunk_ids then chunk_ids else chunk_ids ++ [id]
    | None => chunk_ids
    end.
Proof.
  unfold citation_step, Spec.cited_uuid.
  destruct citation as [| | | |l|fields]; try reflexivity.
  destruct (json_get fields "chunk_id") as [raw_id|]; [|reflexivity].
  destruct (json_truthy raw_id); [|reflexivity]. cbn [negb].
  destruct (uuid_parse (json_str raw_id)) as [id|]; [|reflexivity].
  destruct (umem id chunk_ids); reflexivity.
Qed.

Lemma filter_filter {A : Type} (p q : A -> bool) (l : list A) :
  filter p (filter q l) = filter (fun x => q x && p x) l.
Proof.
  induction l as [|x l IH]; [reflexivity|].
  cbn [filter]. destruct (q x); cbn [filter andb]; rewrite IH; reflexivity.
Qed.

Lemma existsb_over_map {A B : Type} (p : B -> bool) (f : A -> B) (l : list A) :
  existsb p (map f l) = existsb (fun x => p (f x)) l.
Proof.
  induction l as [|x l IH]; [reflexivity|]. cbn [map existsb]. rewrite IH. reflexivity.
Qed.

Lemma citation_fold (citations : list Json) (chunk_ids : list UUID) :
  fold_left citation_step citations chunk_ids
  = chunk_ids
    ++ filter (fun id => negb (umem id chunk_ids))
              (Spec.first_occurrences (Spec.cited_uuids citations)).
Proof.
  revert chunk_ids. induction citations as [|citation citations IH]; intros chunk_ids.
  - cbn. rewrite app_nil_r. reflexivity.
  - cbn [fold_left]. rewrite citation_step_cited, IH.
    unfold Spec.cited_uuids. cbn [flat_map]. fold (Spec.cited_uuids citations).
    destruct (Spec.cited_uuid citation) as [id|]; [|reflexivity].
    cbn [app Spec.first_occurrences filter].
    destruct (umem id chunk_ids) eqn:Emem; cbn [negb].
    + f_equal. rewrite filter_filter. apply filter_ext. intros other.
      destruct (N.eqb_spec other id) as [->|Hne]; [|reflexivity].
      rewrite Emem. reflexivity.
    + rewrite <- app_assoc. cbn [app]. do 2 f_equal.
      rewrite filter_filter. apply filter_ext. intros other.
      unfold umem. rewrite existsb_app. cbn [existsb].
      rewrite orb_false_r, negb_orb. apply andb_comm.
Qed.

Lemma first_occurrences_In (ids : list UUID) (id : UUID) :
  In id (Spec.first_occurrences ids) <-> In id ids.
Proof.
  induction ids as [|x ids IH]; [reflexivity|].
  cbn [Spec.first_occurrences In]. rewrite filter_In, IH. split.
  - intros [H|[H _]]; [left|right]; exact H.
  - intros [H|H]; [left; exact H|].
    destruct (N.eqb_spec id x) as [->|Hne]; [left; reflexivity|].
    right. split; [exact H | reflexivity].
Qed.

Lemma first_occurrences_NoDup (ids : list UUID) : NoDup (Spec.first_occurrences ids).
Proof.
  induction ids as [|x ids IH]; [constructor|].
  cbn [Spec.first_occurrences]. constructor.
  - rewrite filter_In. intros [_ H]. rewrite N.eqb_refl in H. discriminate H.
  - apply NoDup_filter. exact IH.
Qed.

Lemma extract_citations_spec (payload : list (string * Json)) (citations : list Json) :
  json_get payload "citations" = Some (JList citations) ->
  extract_citations payload = Spec.first_occurrences (Spec.cited_uuids citations).
Proof.
  intros H. unfold extract_citations. rewrite H, citation_fold. cbn [app].
  rewrite (filter_ext _ (fun _ => true)) by reflexivity.
  induction (Spec.first_occurrences (Spec.cited_uuids citations)) as [|x l IH];
    [reflexivity|]. cbn [filter]. rewrite IH. reflexivity.
Qed.

Lemma valid_citations_In (context_chunks : list RetrievedChunk) (cited : list UUID)
  (id : UUID) :
  In id (valid_citations_of context_chunks cited)
  <-> In id cited /\ exists chunk, In chunk context_chunks /\ rc_id chunk = id.
Proof.
  unfold valid_citations_of. rewrite filter_In, umem_In, in_map_iff. split.
  - intros [H [chunk [Heq Hin]]]. split; [exact H|]. exists chunk. split; assumption.
  - intros [H [chunk [Hin Heq]]]. split; [exact H|]. exists chunk. split; assumption.
Qed.

End Citations.

Section Generator.

Context {ext : Externals}.

Import QA.

(** What [_generate_answer] returns is read off the reply of the model. *)
Lemma generate_answer_of_reply (settings : Settings) (question : string)
  (chunks : list RetrievedChunk) (content : string) :
  llm_json_response settings question chunks = Returned content ->
  _generate_answer settings question chunks
  = Returned (Spec.reply_answer content, Spec.reply_citations content).
Proof.
  intros Hreply. unfold _generate_answer. rewrite Hreply. cbn [bind ret].
  unfold Spec.reply_answer, Spec.reply_citations.
  destruct (json_get (_parse_json_payload content) "citations") as [citations|] eqn:Hget.
  - destruct citations;
      try (unfold extract_citations; rewrite Hget; reflexivity).
    rewrite (extract_citations_spec _ _ Hget). reflexivity.
  - unfold extract_citations. rewrite Hget. reflexivity.
Qed.

Lemma generate_answer_raises (settings : Settings) (question : string)
  (chunks : list RetrievedChunk) (exc : exn) :
  llm_json_response settings question chunks = Raised exc ->
  _generate_answer settings question chunks = Raised exc.
Proof. intros Hreply. unfold _generate_answer. rewrite Hreply. reflexivity. Qed.

Lemma reply_citations_NoDup (content : string) : NoDup (Spec.reply_citations content).
Proof.
  unfold Spec.reply_citations.
  destruct (json_get (_parse_json_payload content) "citations") as [[]|];
    try constructor.
  apply first_occurrences_NoDup.
Qed.

End Generator.

(** X29: the answer generator returns the trimmed answer of the reply and,
    as citations, the [chunk_id] values of the reply that parse as UUIDs, each
    kept at its first occurrence; it raises what the provider raises. The
    valid citations are those of them that are ids of context chunks, in the
    same order. When none is valid the response is the insufficient-evidence
    one if [require_llm_citations] is set; otherwise the id of the first
    context chunk is the single citation the orchestrator goes on with, and
    with an empty context the service raises [IndexError]. Citations
    [c1; c9999] with only [c1] among the context chunks reduce to [c1]. *)
Theorem citations_are_resolved :
  forall (ext : Externals) (settings : Settings),
    (forall (question : string) (chunks : list RetrievedChunk) (content : string),
        llm_json_response settings question chunks = Returned content ->
        QA._generate_answer settings question chunks
        = Returned (Spec.reply_answer content, Spec.reply_citations content))
    /\ (forall (question : string) (chunks : list RetrievedChunk) (exc : exn),
          llm_json_response settings question chunks = Raised exc ->
          QA._generate_answer settings question chunks = Raised exc)
    /\ (forall (content : string),
          NoDup (Spec.reply_citations content)
          /\ forall (citations : list Json),
               QA.json_get (QA._parse_json_payload content) "citations"
               = Some (JList citations) ->
               Spec.reply_citations content
               = Spec.first_occurrences (Spec.cited_uuids citations)
               /\ forall id, In id (Spec.reply_citations content)
                             <-> In id (Spec.cited_uuids citations))
    /\ (forall (context_chunks : list RetrievedChunk) (cited : list UUID),
          QA.valid_citations_of context_chunks cited
          = filter (fun id => existsb (fun chunk => N.eqb id (rc_id chunk)) context_chunks)
                   cited
          /\ forall id, In id (QA.valid_citations_of context_chunks cited)
                        <-> In id cited
                            /\ exists chunk, In chunk context_chunks /\ rc_id chunk = id)
    /\ (forall (document_id : UUID) (question : string) (db db1 : Session)
               (logs1 : list LogEntry) (retrieved : list RetrievedChunk)
               (content : string),
          Spec.ready_to_answer settings db document_id question ->
          QA._ensure_chunk_embeddings settings document_id db = (db1, logs1, Returned tt) ->
          QA._retrieve_chunks db1 settings document_id (Py.strip question)
          = Returned retrieved ->
          retrieved <> [] ->
          QA._has_sufficient_retrieval_confidence settings retrieved = true ->
          llm_json_response settings (Py.strip question)
                            (Spec.context_of settings retrieved)
          = Returned content ->
          QA.valid_citations_of (Spec.context_of settings retrieved)
                                (Spec.reply_citations content) = [] ->
          (require_llm_citations settings = true ->
           QA.ask_question settings document_id question db
           = (db1,
              logs1 ++ [mk_log INFO "Returning insufficient evidence response: No valid citations were returned by the model."],
              Returned Spec.canned_response))
          /\ (require_llm_citations settings = false ->
              (forall first rest,
                  Spec.context_of settings retrieved = first :: rest ->
                  QA.resolve_citations settings (Spec.context_of settings retrieved)
                                       (Spec.reply_citations content)
                  = Returned (Some [rc_id first])
                  /\ QA.ask_question settings document_id question db
                     = match QA.answer_with_citations settings document_id
                               (Py.strip question) (Spec.reply_answer content)
                               (Spec.context_of settings retrieved) [rc_id first] db1 with
                       | (db2, logs2, result) => (db2, logs1 ++ logs2, result)
                       end)
              /\ (Spec.context_of settings retrieved = [] ->
                  QA.ask_question settings document_id question db
                  = (db1, logs1,
                     Raised (mk_exn IndexError "list index out of range")))))
    /\ (forall (context_chunks : list RetrievedChunk) (c1 c9999 : UUID),
          (exists chunk, In chunk context_chunks /\ rc_id chunk = c1) ->
          (forall chunk, In chunk context_chunks -> rc_id chunk <> c9999) ->
          QA.valid_citations_of context_chunks [c1; c9999] = [c1]).
Proof.
  intros ext settings. split; [|split; [|split; [|split; [|split]]]].
  - intros question chunks content. apply generate_answer_of_reply.
  - intros question chunks exc. apply generate_answer_raises.
  - intros content. split; [apply reply_citations_NoDup|].
    intros citations Hget. unfold Spec.reply_citations. rewrite Hget.
    split; [reflexivity|]. intros id. apply first_occurrences_In.
  - intros context_chunks cited. split; [|intros id; apply valid_citations_In].
    unfold QA.valid_citations_of. apply filter_ext. intros id.
    unfold QA.umem. apply existsb_over_map.
  - intros document_id question db db1 logs1 retrieved content
           Hready Hfill Hret Hne Hconf Hreply Hvalid.
    pose proof (generate_answer_of_reply settings _ _ _ Hreply) as Hgen.
    pose proof (ask_question_ready settings document_id question db Hready) as Hask.
    rewrite Hfill, Hret in Hask.
    rewrite (answer_from_retrieved_generated settings document_id (Py.strip question)
               retrieved _ _ db1 Hne Hconf Hgen) in Hask.
    unfold QA.resolve_citations in Hask |- *. rewrite Hvalid in Hask |- *.
    split.
    + intros Hreq. rewrite Hreq in Hask. exact Hask.
    + intros Hreq. rewrite Hreq in Hask |- *. split.
      * intros first rest Hctx. rewrite Hctx in Hask |- *. cbn in Hask |- *.
        split; [reflexivity | exact Hask].
      * intros Hctx. rewrite Hctx in Hask. cbn in Hask. rewrite Hask.
        rewrite app_nil_r. reflexivity.
  - intros context_chunks c1 c9999 [chunk [Hin Hid]] Hout.
    unfold QA.valid_citations_of. cbn [filter].
    assert (H1 : QA.umem c1 (map rc_id context_chunks) = true).
    { apply umem_In. apply in_map_iff. exists chunk. split; assumption. }
    assert (H2 : QA.umem c9999 (map rc_id context_chunks) = false).
    { destruct (QA.umem c9999 (map rc_id context_chunks)) eqn:E; [|reflexivity].
      apply umem_In in E. apply in_map_iff in E. destruct E as [other [Hid' Hin']].
      exfalso. apply (Hout other Hin' Hid'). }
    rewrite H1, H2. reflexivity.
Qed.

(** ** Failed ingestion *)

Section KeepsCommitted.

Lemma keeps_tret {A : Type} (a : A) : keeps_committed (tret a).
Proof. intros db db' logs result H. injection H as <- _ _. split; reflexivity. Qed.

Lemma keeps_lift {A : Type} (o : outcome A) : keeps_committed (lift o).
Proof. intros db db' logs result H. injection H as <- _ _. split; reflexivity. Qed.

Lemma keeps_traise {A : Type} (c : exn_class) (msg : string) :
  keeps_committed (@traise A c msg).
Proof. apply keeps_lift. Qed.

Lemma keeps_tlog (lvl : log_level) (msg : string) : keeps_committed (tlog lvl msg).
Proof. intros db db' logs result H. injection H as <- _ _. split; reflexivity. Qed.

Lemma keeps_tget : keeps_committed tget.
Proof. intros db db' logs result H. injection H as <- _ _. split; reflexivity. Qed.

Lemma keeps_tmodify (f : Session -> Session) :
  (forall db, committed (f db) = committed db /\ events (f db) = events db) ->
  keeps_committed (tmodify f).
Proof. intros Hf db db' logs result H. injection H as <- _ _. apply Hf. Qed.

Lemma keeps_tbind {A B : Type} (m : task A) (k : A -> task B) :
  keeps_committed m -> (forall a, keeps_committed (k a)) -> keeps_committed (tbind m k).
Proof.
  intros Hm Hk db db' logs result H. unfold tbind in H.
  destruct (m db) as [[db1 logs1] [a|exc]] eqn:Em.
  - destruct (k a db1) as [[db2 logs2] result2] eqn:Ek.
    injection H as <- _ _.
    destruct (Hm _ _ _ _ Em) as [Hc He]. destruct (Hk a _ _ _ _ Ek) as [Hc' He'].
    split; congruence.
  - injection H as <- _ _. apply (Hm _ _ _ _ Em).
Qed.

Lemma keeps_tfold {A S : Type} (body : S -> A -> task S) (l : list A) :
  (forall acc x, keeps_committed (body acc x)) ->
  forall acc, keeps_committed (tfold body l acc).
Proof.
  intros Hbody. induction l as [|x l IH]; intros acc.
  - apply keeps_tret.
  - cbn [tfold]. apply keeps_tbind; [apply Hbody | exact IH].
Qed.

Lemma keeps_with_working (f : Session -> Store) :
  keeps_committed (tmodify (fun db => with_working db (f db))).
Proof. apply keeps_tmodify. intros db. split; reflexivity. Qed.

End KeepsCommitted.

Section FailedIngestion.

Context {ext : Externals}.

Import DocumentProcessing.

Lemma keeps_extract_words_with_fallback (page : PdfPage) (page_number : Z)
  (settings : Settings) :
  keeps_committed (_extract_words_with_fallback page page_number settings).
Proof.
  unfold _extract_words_with_fallback.
  apply keeps_tbind; [apply keeps_lift|]. intros items.
  apply keeps_tbind; [apply keeps_lift|]. intros native_metrics.
  destruct (negb (_should_attempt_ocr native_metrics settings)); [apply keeps_tret|].
  destruct (get_text_words_ocr page) as [ocr_items|exc].
  - apply keeps_tbind; [apply keeps_lift|]. intros ocr_metrics.
    apply keeps_tbind; [apply keeps_lift|]. intros use_ocr.
    destruct use_ocr; apply keeps_tret.
  - apply keeps_tbind; [apply keeps_tlog|]. intros _. apply keeps_tret.
Qed.

Lemma keeps_add_page_and_flush (row : Page) : keeps_committed (add_page_and_flush row).
Proof. intros db db' logs result H. injection H as <- _ _. split; reflexivity. Qed.

Lemma keeps_add_spans_and_flush (rows : list Span) :
  keeps_committed (add_spans_and_flush rows).
Proof.
  intros db db' logs result H. unfold add_spans_and_flush in H.
  destruct (forallb span_checks rows); injection H as <- _ _; split; reflexivity.
Qed.

Lemma keeps_add_chunk (row : Chunk) : keeps_committed (add_chunk row).
Proof. intros db db' logs result H. injection H as <- _ _. split; reflexivity. Qed.

Lemma keeps_process_page (document_id : UUID) (settings : Settings)
  (st : PageLoopState) (entry : Z * PdfPage) :
  keeps_committed (process_page document_id settings st entry).
Proof.
  unfold process_page. destruct entry as [page_idx page].
  apply keeps_tbind; [apply keeps_lift|]. intros _.
  apply keeps_tbind; [apply keeps_add_page_and_flush|]. intros page_row.
  apply keeps_tbind; [apply keeps_extract_words_with_fallback|]. intros extracted.
  apply keeps_tbind; [apply keeps_add_spans_and_flush|]. intros page_spans.
  apply keeps_tret.
Qed.

Lemma keeps_add_window_chunk (document_id : UUID) (refs : list (Span * Z))
  (u : unit) (entry : Z * (Z * Z)) :
  keeps_committed (add_window_chunk document_id refs u entry).
Proof.
  unfold add_window_chunk. destruct entry as [chunk_index [start end_]].
  destruct (Py.slice refs start end_) as [|[first_span first_page] window];
    [apply keeps_tret|].
  destruct (Py.is_empty _); [apply keeps_tret|].
  destruct (last _ _) as [last_span last_page]. apply keeps_add_chunk.
Qed.

(** Before its final commit the [try] block changes nothing that is
    committed. *)
Lemma keeps_ingest_rows (document_id : UUID) (pdf : PdfFile)
  (settings : Settings) :
  keeps_committed (ingest_rows document_id pdf settings).
Proof.
  unfold ingest_rows.
  apply keeps_tbind; [apply keeps_lift|]. intros pdf_pages.
  destruct (Py.len pdf_pages =? 0)%Z; [apply keeps_traise|].
  apply keeps_tbind; [apply keeps_with_working|]. intros _.
  apply keeps_tbind; [apply keeps_lift|]. intros _.
  apply keeps_tbind; [apply keeps_lift|]. intros first_page.
  apply keeps_tbind; [apply keeps_tfold; apply keeps_process_page|]. intros st.
  apply keeps_tbind; [apply keeps_lift|]. intros windows.
  apply keeps_tbind; [apply keeps_tfold; apply keeps_add_window_chunk|]. intros _.
  apply keeps_tbind; [|intros _; apply keeps_tlog].
  apply keeps_tmodify. intros db. split; reflexivity.
Qed.

(** When the [try] block raises, it is before its commit. *)
Lemma ingest_raises_before_commit (document_id : UUID) (pdf : PdfFile)
  (settings : Settings) (db db_failed : Session) (logs : list LogEntry) (exc : exn) :
  ingest document_id pdf settings db = (db_failed, logs, Raised exc) ->
  committed db_failed = committed db /\ events db_failed = events db.
Proof.
  unfold ingest, tbind. intros H.
  destruct (ingest_rows document_id pdf settings db) as [[db1 logs1] [[]|exc1]] eqn:Erows.
  - cbn in H. discriminate H.
  - injection H as <- _ _. apply (keeps_ingest_rows _ _ _ _ _ _ _ Erows).
Qed.

Lemma find_document_updated (document_id : UUID) (f : Document -> Document)
  (docs : list Document) :
  (forall d, doc_id (f d) = doc_id d) ->
  find (fun d => N.eqb (doc_id d) document_id)
       (map (fun d => if N.eqb (doc_id d) document_id then f d else d) docs)
  = option_map f (find (fun d => N.eqb (doc_id d) document_id) docs).
Proof.
  intros Hid. induction docs as [|d docs IH]; [reflexivity|].
  cbn [map find]. destruct (N.eqb (doc_id d) document_id) eqn:E.
  - rewrite Hid, E. reflexivity.
  - rewrite E. exact IH.
Qed.

End FailedIngestion.

(** C7: when the ingestion of a document raises, the background task
    returns normally (the exception is swallowed); the transaction is rolled
    back, so the committed pages, spans and chunks are those committed before
    the ingestion began; and then, in a commit of its own, the document gets
    status "error" and an error message that records the reason. *)
Theorem failed_ingestion_is_rolled_back :
  forall (ext : Externals) (settings : Settings) (document_id_text : string)
         (document_id : UUID) (pdf : DocumentProcessing.PdfFile)
         (db db_failed : Session) (document : Document) (logs_failed : list LogEntry)
         (exc : exn),
    uuid_parse document_id_text = Some document_id ->
    working db = committed db ->
    db_get_document db document_id = Some document ->
    DocumentProcessing.ingest document_id pdf settings db
    = (db_failed, logs_failed, Raised exc) ->
    exists (db' : Session) (logs : list LogEntry),
      DocumentProcessing._process_document_in_background document_id_text pdf settings db
      = (db', logs, Returned tt)
      /\ pages (committed db') = pages (committed db)
      /\ spans (committed db') = spans (committed db)
      /\ chunks (committed db') = chunks (committed db)
      /\ working db' = committed db'
      /\ events db' = events db ++ [EvRollback; EvCommit (committed db')]
      /\ db_get_document db' document_id
         = Some (mk_document (doc_id document) (doc_filename document) "error"
                             None None None
                             (Some ("Document processing failed: "
                                    ++ exn_message exc)%string))
      /\ In (mk_log ERROR ("Failed to process document " ++ uuid_str document_id)) logs.
Proof.
  intros ext settings document_id_text document_id pdf db db_failed document
         logs_failed exc Hparse Hclean Hdoc Hingest.
  destruct (ingest_raises_before_commit _ _ _ _ _ _ _ Hingest) as [Hcommitted Hevents].
  unfold DocumentProcessing._process_document_in_background. rewrite Hparse.
  unfold DocumentProcessing.process_document_metadata.
  unfold tbind at 1. unfold tget at 1. rewrite Hdoc.
  unfold try_except. rewrite Hingest.
  unfold DocumentProcessing.ingest_failed.
  assert (Hfound : db_get_document (db_rollback db_failed) document_id = Some document).
  { unfold db_get_document in *. cbn [db_rollback working].
    rewrite Hcommitted, <- Hclean. exact Hdoc. }
  unfold tbind, tlog, tmodify, tget. rewrite Hfound. cbn [app].
  eexists. eexists. split; [reflexivity|].
  cbn [db_commit db_update_document with_working db_rollback committed working events
       pages spans chunks documents].
  rewrite Hcommitted, Hevents.
  repeat split.
  - rewrite <- app_assoc. reflexivity.
  - unfold db_get_document.
    cbn [db_commit db_update_document with_working db_rollback committed working
         documents].
    rewrite find_document_updated by reflexivity.
    unfold db_get_document in Hdoc. rewrite Hcommitted, <- Hclean, Hdoc. reflexivity.
  - apply in_or_app. right. left. reflexivity.
Qed.

(** ** Facts about strings *)

Lemma rstrip_idempotent (s : string) : Py.rstrip (Py.rstrip s) = Py.rstrip s.
Proof.
  induction s as [|c s IH]; [reflexivity|].
  cbn [Py.rstrip]. destruct (Py.rstrip s) as [|c' r] eqn:E.
  - destruct (Py.is_space c) eqn:Ec; [reflexivity|].
    cbn [Py.rstrip]. rewrite Ec. reflexivity.
  - change (Py.rstrip (String c (String c' r)))
      with (match Py.rstrip (String c' r) with
            | EmptyString => if Py.is_space c then EmptyString else String c EmptyString
            | String c0 r0 => String c (String c0 r0)
            end).
    rewrite IH. reflexivity.
Qed.

Lemma lstrip_head (s : string) :
  Py.lstrip s = EmptyString
  \/ exists c t, Py.lstrip s = String c t /\ Py.is_space c = false.
Proof.
  induction s as [|c s IH]; [left; reflexivity|].
  cbn [Py.lstrip]. destruct (Py.is_space c) eqn:Ec; [exact IH|].
  right. exists c, s. split; [reflexivity | exact Ec].
Qed.

Lemma lstrip_rstrip_head (c : ascii) (t : string) :
  Py.is_space c = false -> Py.lstrip (Py.rstrip (String c t)) = Py.rstrip (String c t).
Proof.
  intros Ec. cbn [Py.rstrip]. destruct (Py.rstrip t).
  - rewrite Ec. cbn [Py.lstrip]. rewrite Ec. reflexivity.
  - cbn [Py.lstrip]. rewrite Ec. reflexivity.
Qed.

Lemma strip_idempotent (s : string) : Py.strip (Py.strip s) = Py.strip s.
Proof.
  unfold Py.strip. destruct (lstrip_head s) as [E | [c [t [E Ec]]]]; rewrite E.
  - reflexivity.
  - rewrite (lstrip_rstrip_head c t Ec). apply rstrip_idempotent.
Qed.

Lemma prefix_lower (needle hay : string) :
  String.prefix needle hay = true ->
  String.prefix (Py.lower needle) (Py.lower hay) = true.
Proof.
  revert needle. induction hay as [|b hay IH]; intros [|a needle] H; cbn in *;
    try reflexivity; try discriminate.
  destruct (ascii_dec a b) as [->|Hne]; [|discriminate].
  destruct (ascii_dec (Py.lower_char b) (Py.lower_char b)); [|contradiction].
  apply IH, H.
Qed.

Lemma contains_lower (needle hay : string) :
  Py.contains needle hay = true ->
  Py.contains (Py.lower needle) (Py.lower hay) = true.
Proof.
  induction hay as [|b hay IH]; intros H.
  - destruct needle; [reflexivity | discriminate H].
  - change (String.prefix needle (String b hay) || Py.contains needle hay = true) in H.
    change (String.prefix (Py.lower needle) (Py.lower (String b hay))
            || Py.contains (Py.lower needle) (Py.lower hay) = true).
    apply orb_true_iff in H. apply orb_true_iff.
    destruct H as [H|H].
    + left. apply (prefix_lower needle (String b hay) H).
    + right. apply IH, H.
Qed.

(** ** Facts about code that may raise *)

Lemma bind_returned {A B : Type} (m : outcome A) (k : A -> outcome B) (b : B) :
  bind m k = Returned b -> exists a, m = Returned a /\ k a = Returned b.
Proof.
  destruct m as [a|exc]; [|discriminate]. intros H. exists a. split; [reflexivity|exact H].
Qed.

(** A property of the state that every round of a loop keeps holds of the
    state the loop ends with. *)
Lemma foldM_invariant {A S : Type} (P : S -> Prop) (body : S -> A -> outcome S)
  (l : list A) :
  (forall acc x acc', In x l -> P acc -> body acc x = Returned acc' -> P acc') ->
  forall acc result, P acc -> foldM body l acc = Returned result -> P result.
Proof.
  induction l as [|x l IH]; intros Hbody acc result Hacc Hrun.
  - injection Hrun as <-. exact Hacc.
  - cbn [foldM] in Hrun. apply bind_returned in Hrun. destruct Hrun as [acc' [Hx Hrest]].
    apply (IH (fun acc0 x0 acc1 Hin => Hbody acc0 x0 acc1 (or_intror Hin)) acc' result);
      [|exact Hrest].
    apply (Hbody acc x acc' (or_introl eq_refl) Hacc Hx).
Qed.

Lemma mapM_In {A B : Type} (f : A -> outcome B) (l : list A) (result : list B) :
  mapM f l = Returned result ->
  forall y, In y result -> exists x, In x l /\ f x = Returned y.
Proof.
  revert result. induction l as [|x l IH]; intros result Hrun y Hy.
  - injection Hrun as <-. destruct Hy.
  - cbn [mapM] in Hrun. apply bind_returned in Hrun. destruct Hrun as [y0 [Hx Hrest]].
    apply bind_returned in Hrest. destruct Hrest as [ys [Hys Hres]].
    injection Hres as <-. destruct Hy as [<-|Hy].
    + exists x. split; [left; reflexivity | exact Hx].
    + destruct (IH ys Hys y Hy) as [x' [Hin Hfx]]. exists x'. split; [right|]; assumption.
Qed.

Lemma index_In {A : Type} (l : list A) (i : Z) (x : A) :
  Py.index l i = Returned x -> In x l.
Proof.
  unfold Py.index. destruct (_ <? 0)%Z; [discriminate|].
  destruct (nth_error l _) as [y|] eqn:E; [|discriminate].
  intros H. injection H as <-. apply (nth_error_In _ _ E).
Qed.

Lemma enumerate_index {A : Type} (l : list A) (i : Z) (x : A) :
  In (i, x) (enumerate l) -> Py.index l i = Returned x.
Proof.
  unfold enumerate. intros Hin.
  assert (Hgen : forall (start : nat) (l : list A),
             In (i, x) (combine (map Z.of_nat (seq start (List.length l))) l) ->
             (Z.of_nat start <= i)%Z
             /\ nth_error l (Z.to_nat i - start) = Some x).
  { clear. intros start l. revert start. induction l as [|y l IH]; intros start Hin.
    - destruct Hin.
    - cbn [List.length seq map combine] in Hin. destruct Hin as [Heq|Hin].
      + injection Heq as <- <-. split; [lia|].
        rewrite Nat2Z.id, Nat.sub_diag. reflexivity.
      + destruct (IH (S start) Hin) as [Hle Hnth]. split; [lia|].
        replace (Z.to_nat i - start)%nat with (S (Z.to_nat i - S start)) by lia.
        exact Hnth. }
  destruct (Hgen 0%nat l Hin) as [Hle Hnth]. rewrite Nat.sub_0_r in Hnth.
  unfold Py.index. destruct (Z.ltb_spec i 0) as [|_]; [lia|].
  destruct (Z.ltb_spec i 0) as [|_]; [lia|]. rewrite Hnth. reflexivity.
Qed.

(** ** Signature mode *)

Section SignatureMode.

Context {ext : Externals}.

Import QA.

Local Open Scope Q_scope.

Lemma ranked_entry_index (candidates : list EvidenceLineCandidate)
  (question_terms answer_terms : list string) (question_weight answer_weight : Q)
  (entry : RankedLine) :
  In entry (_rank_line_candidates_with_context candidates question_terms answer_terms
                                                question_weight answer_weight) ->
  Py.index candidates (ranked_idx entry) = Returned (ranked_candidate entry).
Proof.
  unfold _rank_line_candidates_with_context.
  destruct candidates as [|c0 cs] eqn:E; [intros []|]. rewrite <- E. intros Hin.
  apply sorted_In in Hin. apply in_map_iff in Hin. destruct Hin as [[i c] [Hentry Hin]].
  subst entry. unfold rank_entry. cbn [ranked_idx ranked_candidate fst snd].
  apply enumerate_index. exact Hin.
Qed.

Lemma sorted_by_y1_In (candidates : list EvidenceLineCandidate) (indices result : list Z) :
  sorted_by_y1 candidates indices = Returned result ->
  forall idx, In idx result -> In idx indices.
Proof.
  unfold sorted_by_y1. intros H idx Hin.
  apply bind_returned in H. destruct H as [keyed [Hk Hr]]. injection Hr as <-.
  apply in_map_iff in Hin. destruct Hin as [[y i] [Hi Hin]]. cbn in Hi. subst i.
  apply sorted_In in Hin.
  destruct (mapM_In _ _ _ Hk _ Hin) as [idx0 [Hin0 Hf]].
  apply bind_returned in Hf. destruct Hf as [c [_ Hc]]. injection Hc as _ <-.
  exact Hin0.
Qed.

Lemma line_candidate_signature (question_terms answer_terms : list string)
  (question_weight answer_weight : Q) (line_spans : list Span)
  (c : EvidenceLineCandidate) :
  line_candidate question_terms answer_terms question_weight answer_weight true line_spans
  = Returned (Some c) ->
  Spec.signature_candidate c.
Proof.
  unfold line_candidate. destruct (Py.is_empty _); [discriminate|]. intros H.
  apply bind_returned in H. destruct H as [x1 [_ H]].
  apply bind_returned in H. destruct H as [y1 [_ H]].
  apply bind_returned in H. destruct H as [x2 [_ H]].
  apply bind_returned in H. destruct H as [y2 [_ H]].
  destruct (_ || _); [discriminate|]. injection H as <-.
  split; [apply strip_idempotent | reflexivity].
Qed.

Lemma page_line_candidates_signature (question_terms answer_terms : list string)
  (question_weight answer_weight : Q) (spans : list Span)
  (candidates : list EvidenceLineCandidate) :
  page_line_candidates question_terms answer_terms question_weight answer_weight true spans
  = Returned candidates ->
  forall c, In c candidates -> Spec.signature_candidate c.
Proof.
  unfold page_line_candidates.
  apply (foldM_invariant (fun acc => forall c, In c acc -> Spec.signature_candidate c)).
  - intros acc line_spans acc' _ Hacc Hbody c Hin.
    apply bind_returned in Hbody. destruct Hbody as [candidate [Hline Hret]].
    injection Hret as <-. destruct candidate as [c'|]; [|apply Hacc, Hin].
    apply in_app_or in Hin. destruct Hin as [Hin|[<-|[]]]; [apply Hacc, Hin|].
    apply (line_candidate_signature _ _ _ _ _ _ Hline).
  - intros c [].
Qed.

(** The indices signature mode selects on a page. *)
Lemma signature_selected_indices (question_terms answer_terms : list string)
  (min_keyword_overlap : Z) (question_weight answer_weight : Q)
  (candidates : list EvidenceLineCandidate) (chosen : option (list Z)) :
  page_selected_indices question_terms answer_terms min_keyword_overlap true candidates
    (_rank_line_candidates_with_context candidates question_terms answer_terms
                                        question_weight answer_weight)
  = Returned chosen ->
  match chosen with
  | None =>
      forall c, In c candidates -> signature_signal c < SIGNATURE_SIGNAL_THRESHOLD
                                   \/ candidates = []
  | Some indices =>
      forall idx, In idx indices ->
        exists c, Py.index candidates idx = Returned c
                  /\ SIGNATURE_SIGNAL_THRESHOLD <= signature_signal c
  end.
Proof.
  unfold page_selected_indices.
  set (ranked := _rank_line_candidates_with_context candidates question_terms
                   answer_terms question_weight answer_weight).
  destruct (filter _ ranked) as [|e sel] eqn:Efilter.
  - intros H. injection H as <-. intros c Hin.
    destruct candidates as [|c0 cs] eqn:Ecs; [right; reflexivity|]. left.
    rewrite <- Ecs in *.
    (* every candidate is the candidate of a ranked entry *)
    assert (Hranked : exists entry, In entry ranked /\ ranked_candidate entry = c).
    { apply In_nth_error in Hin. destruct Hin as [n Hn].
      assert (Hen : In (Z.of_nat n, c) (enumerate candidates)).
      { unfold enumerate. clear -Hn. revert n Hn.
        assert (Hgen : forall (l : list EvidenceLineCandidate) (start n : nat),
                   nth_error l n = Some c ->
                   In (Z.of_nat (start + n), c)
                      (combine (map Z.of_nat (seq start (List.length l))) l)).
        { induction l as [|y l IH]; intros start n Hn; [destruct n; discriminate|].
          destruct n as [|n].
          - injection Hn as ->. left. rewrite Nat.add_0_r. reflexivity.
          - right. cbn [List.length seq map combine].
            replace (start + S n)%nat with (S start + n)%nat by lia.
            apply IH. exact Hn. }
        intros n Hn. apply (Hgen candidates 0%nat n Hn). }
      exists (rank_entry candidates question_terms answer_terms question_weight
                         answer_weight (Z.of_nat n, c)).
      split; [|reflexivity].
      unfold ranked, _rank_line_candidates_with_context. rewrite Ecs. rewrite <- Ecs.
      apply sorted_In. apply in_map. exact Hen. }
    destruct Hranked as [entry [Hentry <-]].
    destruct (Qle_bool SIGNATURE_SIGNAL_THRESHOLD
                       (signature_signal (ranked_candidate entry))) eqn:E.
    + exfalso.
      assert (Hin' : In entry (filter (fun entry0 =>
                        Qle_bool SIGNATURE_SIGNAL_THRESHOLD
                                 (signature_signal (ranked_candidate entry0))) ranked)).
      { apply filter_In. split; assumption. }
      rewrite Efilter in Hin'. destruct Hin'.
    + apply Qle_bool_false. exact E.
  - rewrite <- Efilter. intros H.
    apply bind_returned in H. destruct H as [indices [Hsorted Hret]].
    injection Hret as <-. intros idx Hin.
    apply (sorted_by_y1_In _ _ _ Hsorted) in Hin.
    unfold Py.zset_of in Hin. apply nodup_In in Hin. apply in_map_iff in Hin.
    destruct Hin as [entry [<- Hin]]. apply filter_In in Hin. destruct Hin as [Hin Hsig].
    exists (ranked_candidate entry). split.
    + apply (ranked_entry_index _ _ _ _ _ _ Hin).
    + apply Qle_bool_iff. exact Hsig.
Qed.

Lemma build_line_evidence_item_text (page_number : Z) (page_width page_height : option Q)
  (candidate : EvidenceLineCandidate) (it : EvidenceItem) :
  _build_line_evidence_item page_number page_width page_height candidate
  = Returned (Some it) ->
  ev_text it = Py.strip (lc_text candidate) /\ ev_page it = page_number.
Proof.
  unfold _build_line_evidence_item. destruct (lc_spans candidate); [discriminate|].
  intros H.
  apply bind_returned in H. destruct H as [x1 [_ H]].
  apply bind_returned in H. destruct H as [y1 [_ H]].
  apply bind_returned in H. destruct H as [x2 [_ H]].
  apply bind_returned in H. destruct H as [y2 [_ H]].
  destruct (_ || _); [discriminate|].
  destruct (Py.is_empty (Py.strip (lc_text candidate))) eqn:Etext; [discriminate|].
  apply bind_returned in H. destruct H as [built [Hnew H]]. injection H as <-.
  unfold new_EvidenceItem in Hnew. destruct (page_number <? 1)%Z; [discriminate|].
  rewrite Etext in Hnew. injection Hnew as <-. split; reflexivity.
Qed.

(** In signature mode every item of a page is a line whose signal reaches
    the threshold, and a page without such a line yields nothing. *)
Lemma page_evidence_items_signature (question_terms answer_terms : list string)
  (min_keyword_overlap : Z) (question_weight answer_weight : Q) (page_number : Z)
  (group : PageGroup) (items : list ScoredEvidenceItem) :
  page_evidence_items question_terms answer_terms min_keyword_overlap question_weight
                      answer_weight true page_number group = Returned items ->
  forall scored, In scored items -> Spec.signature_item (item scored).
Proof.
  unfold page_evidence_items. destruct (pg_spans group) as [|s0 ss] eqn:Espans.
  { intros H. injection H as <-. intros scored []. }
  rewrite <- Espans. intros H.
  apply bind_returned in H. destruct H as [candidates [Hcands H]].
  destruct candidates as [|c0 cs] eqn:Ecs.
  { injection H as <-. intros scored []. }
  rewrite <- Ecs in *.
  apply bind_returned in H. destruct H as [chosen [Hchosen H]].
  pose proof (signature_selected_indices _ _ _ _ _ _ _ Hchosen) as Hsel.
  destruct chosen as [indices|].
  2:{ injection H as <-. intros scored []. }
  revert H.
  apply (foldM_invariant (fun acc => forall scored, In scored acc ->
                                     Spec.signature_item (item scored))).
  - intros acc idx acc' Hidx Hacc Hbody scored Hin.
    apply bind_returned in Hbody. destruct Hbody as [candidate [Hindex Hbody]].
    apply bind_returned in Hbody. destruct Hbody as [built [Hbuilt Hret]].
    injection Hret as <-. destruct built as [it|]; [|apply Hacc, Hin].
    apply in_app_or in Hin. destruct Hin as [Hin|[<-|[]]]; [apply Hacc, Hin|].
    cbn [item].
    destruct (Hsel idx Hidx) as [c [Hc Hsig]].
    rewrite Hc in Hindex. injection Hindex as <-.
    destruct (page_line_candidates_signature _ _ _ _ _ _ Hcands c (index_In _ _ _ Hc))
      as [Hstrip Hsignal].
    destruct (build_line_evidence_item_text _ _ _ _ _ Hbuilt) as [Htext _].
    unfold Spec.signature_item. rewrite Htext, Hstrip, <- Hsignal. exact Hsig.
  - intros scored [].
Qed.

Lemma page_evidence_items_no_signature (question_terms answer_terms : list string)
  (min_keyword_overlap : Z) (question_weight answer_weight : Q) (page_number : Z)
  (group : PageGroup) (candidates : list EvidenceLineCandidate) :
  page_line_candidates question_terms answer_terms question_weight answer_weight true
                       (pg_spans group) = Returned candidates ->
  (forall c, In c candidates ->
             _signature_line_signal (lc_text c) < SIGNATURE_SIGNAL_THRESHOLD) ->
  page_evidence_items question_terms answer_terms min_keyword_overlap question_weight
                      answer_weight true page_number group = Returned [].
Proof.
  intros Hcands Hlow. unfold page_evidence_items.
  destruct (pg_spans group) as [|s0 ss] eqn:Espans; [reflexivity|].
  rewrite Hcands. cbn [bind].
  destruct candidates as [|c0 cs] eqn:Ecs; [reflexivity|]. rewrite <- Ecs in *.
  destruct (page_selected_indices question_terms answer_terms min_keyword_overlap true
              candidates _) as [chosen|exc] eqn:Echosen.
  - pose proof (signature_selected_indices _ _ _ _ _ _ _ Echosen) as Hsel.
    cbn [bind]. destruct chosen as [indices|]; [|reflexivity].
    destruct indices as [|idx indices]; [reflexivity|]. exfalso.
    destruct (Hsel idx (or_introl eq_refl)) as [c [Hc Hsig]].
    pose proof (index_In _ _ _ Hc) as Hin.
    destruct (page_line_candidates_signature _ _ _ _ _ _ Hcands c Hin) as [_ Hsignal].
    specialize (Hlow c Hin). rewrite <- Hsignal in Hlow.
    apply (Qlt_not_le _ _ Hlow Hsig).
  - exfalso. revert Echosen. unfold page_selected_indices.
    destruct (filter _ _) as [|e sel] eqn:Efilter; [discriminate|].
    assert (Hin : In e (e :: sel)) by (left; reflexivity).
    rewrite <- Efilter in Hin. apply filter_In in Hin. destruct Hin as [Hin Hsig].
    pose proof (ranked_entry_index _ _ _ _ _ _ Hin) as Hidx.
    pose proof (index_In _ _ _ Hidx) as Hc.
    destruct (page_line_candidates_signature _ _ _ _ _ _ Hcands _ Hc) as [_ Hsignal].
    specialize (Hlow _ Hc). rewrite <- Hsignal in Hlow. apply Qle_bool_iff in Hsig.
    exfalso. apply (Qlt_not_le _ _ Hlow Hsig).
Qed.

Lemma chunk_evidence_items_signature (db : Session)
  (question_terms answer_terms : list string) (min_keyword_overlap : Z)
  (question_weight answer_weight : Q) (document_id : UUID) (chunk : RetrievedChunk)
  (items : list ScoredEvidenceItem) :
  _chunk_evidence_items db question_terms answer_terms min_keyword_overlap
                        question_weight answer_weight true document_id chunk
  = Returned items ->
  forall scored, In scored items -> Spec.signature_item (item scored).
Proof.
  unfold _chunk_evidence_items.
  destruct (rc_span_start_id chunk); [|intros H; injection H as <-; intros scored []].
  destruct (rc_span_end_id chunk); [|intros H; injection H as <-; intros scored []].
  destruct (select_span_rows db document_id _ _) as [|row rows] eqn:Erows;
    [intros H; injection H as <-; intros scored []|].
  apply (foldM_invariant (fun acc => forall scored, In scored acc ->
                                     Spec.signature_item (item scored))).
  - intros acc entry acc' _ Hacc Hbody scored Hin.
    apply bind_returned in Hbody. destruct Hbody as [page_items [Hpage Hret]].
    injection Hret as <-. apply in_app_or in Hin. destruct Hin as [Hin|Hin];
      [apply Hacc, Hin|].
    apply (page_evidence_items_signature _ _ _ _ _ _ _ _ Hpage scored Hin).
  - intros scored [].
Qed.

Lemma upsert_scored_In (scored_by_key : list (string * ScoredEvidenceItem))
  (key : string) (scored : ScoredEvidenceItem) (kv : string * ScoredEvidenceItem) :
  In kv (upsert_scored scored_by_key key scored) ->
  In kv scored_by_key \/ snd kv = scored.
Proof.
  induction scored_by_key as [|[k existing] rest IH]; cbn [upsert_scored].
  - intros [<-|[]]. right. reflexivity.
  - destruct (String.eqb k key).
    + destruct (Py.Qltb (score existing) (score scored)).
      * intros [<-|Hin]; [right; reflexivity | left; right; exact Hin].
      * intros Hin. left. exact Hin.
    + intros [<-|Hin]; [left; left; reflexivity|].
      destruct (IH Hin) as [H|H]; [left; right; exact H | right; exact H].
Qed.

Lemma slice_to_In {A : Type} (l : list A) (k : Z) (x : A) :
  In x (Py.slice_to l k) -> In x l.
Proof.
  unfold Py.slice_to. intros Hin.
  rewrite <- (firstn_skipn (Py.clamp_bound l k) l). apply in_or_app. left. exact Hin.
Qed.

Lemma filter_walk_In (score_floor drop_ratio_stop : Q)
  (entries selected : list ScoredEvidenceItem) (previous_score : Q)
  (entry : ScoredEvidenceItem) :
  In entry (filter_walk score_floor drop_ratio_stop entries selected previous_score) ->
  In entry selected \/ In entry entries.
Proof.
  revert selected previous_score. induction entries as [|e entries IH];
    intros selected previous_score Hin; cbn [filter_walk] in Hin.
  - left. exact Hin.
  - destruct (Py.Qltb (score e) score_floor); [left; exact Hin|].
    destruct (_ && _); [left; exact Hin|].
    destruct (IH _ _ Hin) as [H|H].
    + apply in_app_or in H. destruct H as [H|[<-|[]]];
        [left; exact H | right; left; reflexivity].
    + right. right. exact H.
Qed.

(** The global filter only drops items. *)
Lemma filter_scored_evidence_In (scored_items : list ScoredEvidenceItem)
  (settings : Settings) (entry : ScoredEvidenceItem) :
  In entry (_filter_scored_evidence scored_items settings) -> In entry scored_items.
Proof.
  unfold _filter_scored_evidence.
  destruct scored_items as [|s0 ss] eqn:E; [intros []|]. rewrite <- E.
  destruct (Py.sorted _ scored_items) as [|first rest] eqn:Esorted; [intros []|].
  assert (Hsub : forall x, In x (first :: rest) -> In x scored_items).
  { intros x Hx. rewrite <- Esorted in Hx. apply sorted_In in Hx. exact Hx. }
  cbv zeta. destruct (Qle_bool (score first) 0).
  - intros Hin. apply Hsub. apply (slice_to_In _ _ _ Hin).
  - assert (Hwalk : forall x,
               In x (filter_walk
                       (Py.fmax (Py.fmax 0.0 (evidence_min_absolute_score settings))
                                (score first
                                 * Py.fmin 1.0
                                     (Py.fmax 0.0
                                        (evidence_relative_score_threshold settings))))
                       (Py.fmin 1.0 (Py.fmax 0.0 (evidence_drop_ratio_stop settings)))
                       rest [first] (score first)) ->
               In x scored_items).
    { intros x Hx. apply Hsub. apply filter_walk_In in Hx.
      destruct Hx as [[<-|[]]|Hx]; [left; reflexivity | right; exact Hx]. }
    destruct (0 <? answer_max_evidence_items settings)%Z.
    + intros Hin. apply Hwalk. apply (slice_to_In _ _ _ Hin).
    + apply Hwalk.
Qed.

(** In signature mode every item [_build_evidence] returns is a line whose
    signal reaches the threshold. *)
Lemma build_evidence_signature (db : Session) (settings : Settings)
  (question answer : string) (document_id : UUID) (chunks : list RetrievedChunk)
  (evidence : list EvidenceItem) :
  _question_targets_signer_evidence question = true ->
  _build_evidence db settings question answer document_id chunks = Returned evidence ->
  forall it, In it evidence -> Spec.signature_item it.
Proof.
  intros Hmode. unfold _build_evidence. rewrite Hmode.
  destruct (_normalize_evidence_weights _ _) as [question_weight answer_weight].
  intros H. apply bind_returned in H. destruct H as [scored_by_key [Hfold Hret]].
  assert (Hdict : forall kv, In kv scored_by_key -> Spec.signature_item (item (snd kv))).
  { revert Hfold.
    apply (foldM_invariant (fun acc => forall kv, In kv acc ->
                                       Spec.signature_item (item (snd kv)))).
    - intros acc chunk acc' _ Hacc Hbody.
      apply bind_returned in Hbody. destruct Hbody as [chunk_items [Hchunk Hret']].
      injection Hret' as <-.
      pose proof (chunk_evidence_items_signature _ _ _ _ _ _ _ _ _ Hchunk) as Hitems.
      clear Hchunk. revert acc Hacc.
      induction chunk_items as [|scored chunk_items IH]; intros acc Hacc; [exact Hacc|].
      cbn [fold_left]. apply IH.
      + intros s Hs. apply Hitems. right. exact Hs.
      + intros kv Hin. apply upsert_scored_In in Hin. destruct Hin as [Hin | ->].
        * apply Hacc, Hin.
        * apply Hitems. left. reflexivity.
    - intros kv []. }
  destruct scored_by_key as [|kv0 kvs] eqn:Ekv.
  { injection Hret as <-. intros it []. }
  rewrite <- Ekv in *. injection Hret as <-. intros it Hin.
  apply in_map_iff in Hin. destruct Hin as [entry [<- Hin]].
  unfold ordered_for_display in Hin. apply sorted_In in Hin.
  apply filter_scored_evidence_In in Hin. apply in_map_iff in Hin.
  destruct Hin as [kv [<- Hin]]. apply Hdict, Hin.
Qed.

Lemma question_targets_signer (question : string) :
  Py.contains "signed" question = true \/ Py.contains "signature" question = true ->
  _question_targets_signer_evidence question = true.
Proof.
  unfold _question_targets_signer_evidence. intros [H|H].
  - pose proof (contains_lower "signed" question H) as H'.
    change (Py.lower "signed") with "signed"%string in H'. rewrite H'. reflexivity.
  - pose proof (contains_lower "signature" question H) as H'.
    change (Py.lower "signature") with "signature"%string in H'. rewrite H'.
    rewrite orb_true_r. reflexivity.
Qed.

End SignatureMode.

(** C4: for every question that contains "signed" or "signature" the ranker
    is in signature mode; every evidence line it returns has a signature
    signal of at least 0.9; and a page none of whose lines reaches 0.9
    contributes no evidence item. *)
Theorem signature_mode_lines :
  forall (ext : Externals) (question : string),
    Py.contains "signed" question = true \/ Py.contains "signature" question = true ->
    QA._question_targets_signer_evidence question = true
    /\ (forall (db : Session) (settings : Settings) (answer : string)
               (document_id : UUID) (chunks : list RetrievedChunk)
               (evidence : list EvidenceItem),
          QA._build_evidence db settings question answer document_id chunks
          = Returned evidence ->
          forall it, In it evidence ->
            (0.9 <= QA._signature_line_signal (ev_text it))%Q)
    /\ (forall (settings : Settings) (answer : string) (page_number : Z)
               (group : QA.PageGroup) (line_candidates : list QA.EvidenceLineCandidate),
          let question_terms := QA._tokenize_question_terms question in
          let answer_terms := QA._tokenize_question_terms answer in
          let weights :=
            QA._normalize_evidence_weights (evidence_question_weight settings)
                                           (evidence_answer_weight settings) in
          QA.page_line_candidates question_terms answer_terms (fst weights) (snd weights)
            (QA._question_targets_signer_evidence question) (QA.pg_spans group)
          = Returned line_candidates ->
          (forall c, In c line_candidates ->
                     (QA._signature_line_signal (QA.lc_text c) < 0.9)%Q) ->
          QA.page_evidence_items question_terms answer_terms
            (retrieval_min_keyword_overlap settings) (fst weights) (snd weights)
            (QA._question_targets_signer_evidence question) page_number group
          = Returned []).
Proof.
  intros ext question Hq.
  pose proof (question_targets_signer question Hq) as Hmode.
  split; [exact Hmode|]. split.
  - intros db settings answer document_id chunks evidence Hbuild it Hin.
    apply (build_evidence_signature db settings question answer document_id chunks
             evidence Hmode Hbuild it Hin).
  - intros settings answer page_number group line_candidates question_terms answer_terms
           weights. rewrite Hmode. intros Hcands Hlow.
    apply (page_evidence_items_no_signature question_terms answer_terms _ _ _ page_number
             group line_candidates Hcands Hlow).
Qed.

(** ** The theorems at the scenarios *)

Lemma scenario_ready (db : Session) :
  db_get_document db 1%N = Some (Scenario.s5_document "ready"%string) ->
  Spec.ready_to_answer Scenario.settings db 1%N "Who signed the order?"%string.
Proof.
  intros Hdoc. split; [reflexivity|].
  split; [exists (Scenario.s5_document "ready"%string); split; [exact Hdoc | reflexivity]|].
  split; [exists "sk-test"%string; split; reflexivity | reflexivity].
Qed.

(** Witness of [insufficient_or_grounded]: with the provider out of reach the
    retrieval raises, and the response is the canned one. *)
Lemma insufficient_or_grounded_witness :
  exists logs,
    @QA.ask_question Scenario.offline Scenario.settings 1%N "Who signed the order?"%string
                     Scenario.empty_db
    = (Scenario.empty_db, logs,
       Returned
         (mk_response
            "I don't have enough grounded evidence in this document to answer that confidently."%string
            [])).
Proof.
  apply (proj1 (insufficient_or_grounded Scenario.offline Scenario.settings 1%N
                  "Who signed the order?"%string Scenario.empty_db) Scenario.empty_db []).
  - apply scenario_ready. reflexivity.
  - reflexivity.
  - apply (@Spec.retrieval_error Scenario.offline Scenario.settings Scenario.empty_db 1%N
             _ Scenario.provider_down).
    reflexivity.
Defined.

(** Witness of [signature_mode_lines]: scenario S5, where only the line
    "Signed by Dr. A. Patel" is returned. *)
Lemma signature_mode_lines_witness :
  exists evidence,
    @QA._build_evidence Scenario.offline Scenario.s5_db Scenario.settings
                        "Who signed the order?"%string "Dr. A. Patel"%string 1%N [Scenario.s5_retrieved]
    = Returned evidence
    /\ map ev_text evidence = ["Signed by Dr. A. Patel"%string]
    /\ Forall (fun it => (0.9 <= @QA._signature_line_signal Scenario.offline (ev_text it))%Q)
              evidence.
Proof.
  eexists. split; [vm_compute; reflexivity|]. split; [reflexivity|].
  apply Forall_forall.
  apply (proj1 (proj2 (signature_mode_lines Scenario.offline "Who signed the order?"%string
                         (or_introl eq_refl)))
           Scenario.s5_db Scenario.settings "Dr. A. Patel"%string 1%N [Scenario.s5_retrieved]).
  vm_compute. reflexivity.
Defined.

(** Witness of [citations_are_resolved]: scenario S6, where the only citation
    is outside the retrieved set and citations are required. *)
Lemma citations_are_resolved_witness :
  @QA.ask_question Scenario.scripted Scenario.settings 1%N "Who signed the order?"%string
                   Scenario.s5_db
  = (Scenario.s5_db,
     [] ++ [mk_log INFO "Returning insufficient evidence response: No valid citations were returned by the model."%string],
     Returned Spec.canned_response).
Proof.
  apply (proj1 (proj1 (proj2 (proj2 (proj2 (proj2 (citations_are_resolved
                                                     Scenario.scripted
                                                     Scenario.settings)))))
                  1%N "Who signed the order?"%string Scenario.s5_db Scenario.s5_db []
                  [Scenario.s5_retrieved] "{}"%string
                  (scenario_ready Scenario.s5_db eq_refl) eq_refl eq_refl
                  ltac:(discriminate) eq_refl eq_refl eq_refl)).
  reflexivity.
Defined.

(** C1 on the code: with settings that hand no chunk to the answer generator
    and do not require citations, a confident retrieval followed by an empty
    answer does not end in the insufficient-evidence response: the service
    raises [IndexError] where it takes the first context chunk, before it
    tests the answer, and the route answers 500. *)
Lemma empty_answer_without_context_raises :
  @QA._retrieve_chunks Scenario.speechless Scenario.s5_db Scenario.no_context_settings
     1%N "Who signed the order?"%string
  = Returned [Scenario.s5_retrieved]
  /\ QA._has_sufficient_retrieval_confidence Scenario.no_context_settings
       [Scenario.s5_retrieved] = true
  /\ Spec.context_of Scenario.no_context_settings [Scenario.s5_retrieved] = []
  /\ @QA._generate_answer Scenario.speechless Scenario.no_context_settings
       "Who signed the order?"%string []
     = Returned (EmptyString, [])
  /\ @QA.ask_question Scenario.speechless Scenario.no_context_settings 1%N
       "Who signed the order?"%string Scenario.s5_db
     = (Scenario.s5_db, [], Raised (mk_exn IndexError "list index out of range"))
  /\ @Routes.ask_document_question Scenario.speechless Scenario.no_context_settings
       "doc-1"%string "Who signed the order?"%string Scenario.s5_db
     = (Scenario.s5_db, [], Routes.HttpError 500 "Internal server error").
Proof. repeat split; vm_compute; reflexivity. Qed.

(** C5 on the code: with the same settings, a reply whose only citation is
    outside the context is not answered from the top chunk of the retrieval:
    there is no context chunk to take, and the service raises [IndexError]. *)
Lemma substitution_without_context_raises :
  @QA._retrieve_chunks Scenario.scripted Scenario.s5_db Scenario.no_context_settings
     1%N "Who signed the order?"%string
  = Returned [Scenario.s5_retrieved]
  /\ require_llm_citations Scenario.no_context_settings = false
  /\ @QA._generate_answer Scenario.scripted Scenario.no_context_settings
       "Who signed the order?"%string
       (Spec.context_of Scenario.no_context_settings [Scenario.s5_retrieved])
     = Returned ("Dr. A. Patel"%string, [9999%N])
  /\ QA.valid_citations_of
       (Spec.context_of Scenario.no_context_settings [Scenario.s5_retrieved]) [9999%N]
     = []
  /\ @QA.ask_question Scenario.scripted Scenario.no_context_settings 1%N
       "Who signed the order?"%string Scenario.s5_db
     = (Scenario.s5_db, [], Raised (mk_exn IndexError "list index out of range")).
Proof. repeat split; vm_compute; reflexivity. Qed.

(** Witness of [failed_ingestion_is_rolled_back]: the second page of the PDF
    has a word with an empty box, which the check constraint of the span
    table rejects after the rows of the first page were flushed. *)
Lemma failed_ingestion_is_rolled_back_witness :
  exists (db' : Session) (logs : list LogEntry),
    @DocumentProcessing._process_document_in_background Scenario.offline "doc-1"%string
      Scenario.two_page_pdf default_settings Scenario.uploaded_db
    = (db', logs, Returned tt)
    /\ pages (committed db') = pages (committed Scenario.uploaded_db)
    /\ spans (committed db') = spans (committed Scenario.uploaded_db)
    /\ chunks (committed db') = chunks (committed Scenario.uploaded_db)
    /\ working db' = committed db'
    /\ events db' = events Scenario.uploaded_db ++ [EvRollback; EvCommit (committed db')]
    /\ db_get_document db' 1%N
       = Some (mk_document (doc_id Scenario.uploaded_document)
                           (doc_filename Scenario.uploaded_document) "error"%string
                           None None None
                           (Some ("Document processing failed: "%string
                                  ++ exn_message Scenario.check_violation)%string))
    /\ In (mk_log ERROR ("Failed to process document "%string
                         ++ @uuid_str Scenario.offline 1%N)) logs.
Proof.
  eapply (failed_ingestion_is_rolled_back Scenario.offline default_settings "doc-1"%string 1%N
            Scenario.two_page_pdf Scenario.uploaded_db _ Scenario.uploaded_document _
            Scenario.check_violation).
  - reflexivity.
  - reflexivity.
  - reflexivity.
  - vm_compute. reflexivity.
Defined.

(** Witness of [provider_failure_paths]: the chunk of the document lacks its
    embedding and the provider is out of reach. *)
Lemma provider_failure_paths_witness :
  @QA.ask_question Scenario.offline Scenario.settings 1%N "Who signed the order?"%string
                   Scenario.pending_db
  = (Scenario.pending_db, [],
     Raised (mk_exn QAError ("Failed to prepare chunk embeddings: "%string
                             ++ exn_message Scenario.provider_down)))
  /\ @Routes.ask_document_question Scenario.offline Scenario.settings "doc-1"%string
                                   "Who signed the order?"%string Scenario.pending_db
     = (Scenario.pending_db, [],
        Routes.HttpError 500
          ("Question answering failed: "%string
           ++ ("Failed to prepare chunk embeddings: "%string
               ++ exn_message Scenario.provider_down))).
Proof.
  apply (proj1 (provider_failure_paths Scenario.offline Scenario.settings "doc-1"%string 1%N
                  "Who signed the order?"%string Scenario.pending_db eq_refl
                  (scenario_ready Scenario.pending_db eq_refl))
           Scenario.pending_db [] Scenario.provider_down).
  reflexivity.
Defined.

(** Witness of [keyword_overlap_filters_line_tokens]: the tokens of the line
    "of the by" are all short or stopwords, so the terms "theory" and "byte",
    which contain "the" and "by", are not matched. *)
Lemma keyword_overlap_filters_line_tokens_witness :
  QA._keyword_overlap_count "of the by"%string ["theory"%string; "byte"%string] = 0%Z
  /\ QA._keyword_overlap_weighted_score "of the by"%string ["theory"%string; "byte"%string] = 0.0%Q.
Proof.
  apply (proj2 (proj2 (proj2 (keyword_overlap_filters_line_tokens
                                "of the by"%string ["theory"%string; "byte"%string])))).
  intros token Hin. vm_compute in Hin.
  destruct Hin as [<-|[<-|[<-|[]]]].
  - left. reflexivity.
  - right. cbn. tauto.
  - left. reflexivity.
Defined.

(** Scenario S5 without signature mode: the question "Which doctor ordered
    it?" returns the line of the ordering doctor. *)
Example s5_normal_mode :
  @QA._build_evidence Scenario.offline Scenario.s5_db Scenario.settings
                      "Which doctor ordered it?"%string "B. Smith"%string 1%N [Scenario.s5_retrieved]
  = Returned [mk_evidence_item 1 "Ordering doctor: B. Smith"%string
                               (mk_bbox 72 130 212 142) (Some 612%Q) (Some 792%Q)].
Proof. vm_compute. reflexivity. Qed.

(** The filter on the three scored items: the two above the floor, in
    display order. *)
Example scored3_filtered :
  map (fun it => (ev_page it, ev_text it))
      (map QA.item (QA.ordered_for_display
                      (QA._filter_scored_evidence Scenario.scored3 default_settings)))
  = [(1%Z, "good line"%string); (2%Z, "best line"%string)].
Proof. vm_compute. reflexivity. Qed.

(** * Further properties of the code *)

Ltac conjs := repeat match goal with |- _ /\ _ => split end; try reflexivity.


(** ** Retrieval confidence *)

Lemma fold_fmin_le (l : list Q) (a t : Q) :
  (fold_left Py.fmin l a <= t)%Q <-> (a <= t)%Q \/ exists d, In d l /\ (d <= t)%Q.
Proof.
  revert a. induction l as [|x l IH]; intros a; cbn [fold_left].
  - split; [intros H; left; exact H | intros [H | [d [[] _]]]; exact H].
  - rewrite IH. rewrite fmin_Qmin. rewrite Q.min_le_iff. split.
    + intros [[H|H]|[d [Hin Hd]]].
      * left; exact H.
      * right; exists x; split; [left; reflexivity | exact H].
      * right; exists d; split; [right; exact Hin| exact Hd].
    + intros [H|[d [[<-|Hin] Hd]]].
      * left; left; exact H.
      * left; right; exact Hd.
      * right; exists d; split; assumption.
Qed.

(** X1: the retrieval is confident exactly when some retrieved chunk has a
    distance and that distance is at most [retrieval_max_vector_distance];
    chunks without a distance never count, and an empty retrieval is never
    confident. *)
Theorem retrieval_confidence_iff_some_chunk_is_close :
  forall (ext : Externals) (settings : Settings) (chunks : list RetrievedChunk),
    QA._has_sufficient_retrieval_confidence settings chunks = true
    <-> exists (chunk : RetrievedChunk) (d : Q),
          In chunk chunks /\ rc_distance chunk = Some d
          /\ (d <= retrieval_max_vector_distance settings)%Q.
Proof.
  intros ext settings chunks.
  unfold QA._has_sufficient_retrieval_confidence.
  set (distances := flat_map (fun chunk => match rc_distance chunk with
                                           | Some d => [d]
                                           | None => []
                                           end) chunks).
  assert (Hin : forall d, In d distances
                          <-> exists chunk, In chunk chunks /\ rc_distance chunk = Some d).
  { intros d. unfold distances. rewrite in_flat_map. split.
    - intros [chunk [Hc Hd]]. exists chunk. split; [exact Hc|].
      destruct (rc_distance chunk) as [d'|]; [|destruct Hd].
      destruct Hd as [<-|[]]. reflexivity.
    - intros [chunk [Hc Hd]]. exists chunk. split; [exact Hc|].
      rewrite Hd. left. reflexivity. }
  assert (Hmain : match distances with
                  | first :: rest =>
                      Qle_bool (fold_left Py.fmin rest first)
                               (retrieval_max_vector_distance settings)
                  | [] => false
                  end = true
                  <-> exists d, In d distances
                                /\ (d <= retrieval_max_vector_distance settings)%Q).
  { destruct distances as [|first rest].
    - split; [discriminate | intros [d [[] _]]].
    - rewrite Qle_bool_iff, fold_fmin_le. split.
      + intros [H|[d [Hd Hle]]].
        * exists first. split; [left; reflexivity | exact H].
        * exists d. split; [right; exact Hd | exact Hle].
      + intros [d [[<-|Hd] Hle]].
        * left. exact Hle.
        * right. exists d. split; assumption. }
  destruct chunks as [|c chunks'] eqn:Echunks.
  - split; [discriminate | intros [chunk [d [[] _]]]].
  - rewrite <- Echunks in *. rewrite Hmain. split.
    + intros [d [Hd Hle]]. apply Hin in Hd. destruct Hd as [chunk [Hc Hd]].
      exists chunk, d. repeat split; assumption.
    + intros [chunk [d [Hc [Hd Hle]]]]. exists d. split; [|exact Hle].
      apply Hin. exists chunk. split; assumption.
Qed.

(** ** Minimum and maximum *)

Lemma fmax_ge_l (a b : Q) : (a <= Py.fmax a b)%Q.
Proof. rewrite fmax_Qmax. apply Q.le_max_l. Qed.

Lemma fmax_ge_r (a b : Q) : (b <= Py.fmax a b)%Q.
Proof. rewrite fmax_Qmax. apply Q.le_max_r. Qed.

Lemma fmin_le_l (a b : Q) : (Py.fmin a b <= a)%Q.
Proof. rewrite fmin_Qmin. apply Q.le_min_l. Qed.

Lemma fmin_le_r (a b : Q) : (Py.fmin a b <= b)%Q.
Proof. rewrite fmin_Qmin. apply Q.le_min_r. Qed.

(** ** Word metrics *)

Lemma count_chars_bounds (p : ascii -> bool) (s : string) :
  (0 <= Py.count_chars p s <= Py.slen s)%Z.
Proof.
  unfold Py.slen. induction s as [|c s IH]; cbn [Py.count_chars String.length].
  - lia.
  - destruct (p c); lia.
Qed.

Lemma slen_nonempty (s : string) : Py.is_empty s = false -> (0 < Py.slen s)%Z.
Proof. destruct s; [discriminate|]. intros _. unfold Py.slen. cbn. lia. Qed.

Lemma inject_Z_ratio_bounds (a b : Z) :
  (0 <= a <= b)%Z -> (0 < b)%Z -> (0 <= inject_Z a / inject_Z b <= 1)%Q.
Proof.
  intros Hab Hb.
  assert (Hb' : (0 < inject_Z b)%Q) by (unfold Qlt; simpl; lia).
  split.
  - apply Qle_shift_div_l; [exact Hb'|]. rewrite Qmult_0_l.
    unfold Qle; simpl; lia.
  - apply Qle_shift_div_r; [exact Hb'|]. rewrite Qmult_1_l.
    rewrite <- Zle_Qle. lia.
Qed.

Lemma word_quality_metrics_range (words : list DocumentProcessing.Word) :
  exists (count : Z) (ratio : Q),
    DocumentProcessing._word_quality_metrics words = Returned (count, ratio)
    /\ (0 <= count <= Py.len words)%Z /\ (0 <= ratio <= 1)%Q.
Proof.
  unfold DocumentProcessing._word_quality_metrics.
  destruct words as [|w words'] eqn:Ew.
  - exists 0%Z, 0.0%Q. repeat split; try discriminate; unfold Py.len; cbn; lia.
  - rewrite <- Ew.
    set (compact := String.concat "" (map DocumentProcessing.word_text words)).
    destruct (Py.is_empty compact) eqn:Eempty.
    + exists 0%Z, 0.0%Q. repeat split; try discriminate; unfold Py.len; lia.
    + pose proof (slen_nonempty _ Eempty) as Hlen.
      pose proof (count_chars_bounds Py.is_alnum compact) as Hcount.
      rewrite truediv_nonzero.
      * eexists _, _. split; [reflexivity|]. split.
        -- unfold Py.len. lia.
        -- apply inject_Z_ratio_bounds; assumption.
      * intros H. unfold Qeq in H. cbn in H. lia.
Qed.

Lemma word_quality_score_range (settings : Settings) (count : Z) (ratio : Q) :
  (0 <= count)%Z -> (0 <= ratio <= 1)%Q ->
  exists value : Q,
    DocumentProcessing._word_quality_score (count, ratio) settings = Returned value
    /\ (0 <= value <= 1)%Q.
Proof.
  intros Hcount [Hr0 Hr1]. rewrite word_quality_score_returns.
  eexists. split; [reflexivity|].
  set (target := Z.max 1 (ocr_trigger_min_words settings)).
  assert (Ht : (0 < inject_Z target)%Q).
  { unfold Qlt; simpl. unfold target. lia. }
  assert (Hratio : (0 <= inject_Z count / inject_Z target)%Q).
  { apply Qle_shift_div_l; [exact Ht|]. rewrite Qmult_0_l.
    unfold Qle; simpl; lia. }
  pose proof (fmin_le_l 1.0 (inject_Z count / inject_Z target)) as Hle.
  assert (Hge : (0 <= Py.fmin 1.0 (inject_Z count / inject_Z target))%Q).
  { rewrite fmin_Qmin. apply Q.min_glb; [discriminate | exact Hratio]. }
  set (w := Py.fmin 1.0 (inject_Z count / inject_Z target)) in *.
  assert (Hle' : (w <= 1)%Q) by (apply Qle_trans with 1.0%Q; [exact Hle | discriminate]).
  split.
  - assert (H1 : (0 <= w * 0.55)%Q) by (apply Qmult_le_0_compat; [exact Hge | discriminate]).
    assert (H2 : (0 <= ratio * 0.45)%Q) by (apply Qmult_le_0_compat; [exact Hr0 | discriminate]).
    lra.
  - lra.
Qed.

(** X3: the quality metrics of a page always exist: the word count lies
    between zero and the number of words, the alphanumeric ratio between zero
    and one, and the score computed from them between zero and one, whatever
    the settings are. *)
Theorem page_quality_is_a_fraction :
  forall (settings : Settings) (words : list DocumentProcessing.Word),
    exists (count : Z) (ratio value : Q),
      DocumentProcessing._word_quality_metrics words = Returned (count, ratio)
      /\ (0 <= count <= Py.len words)%Z /\ (0 <= ratio <= 1)%Q
      /\ DocumentProcessing._word_quality_score (count, ratio) settings = Returned value
      /\ (0 <= value <= 1)%Q.
Proof.
  intros settings words.
  destruct (word_quality_metrics_range words) as [count [ratio [Hm [Hc Hr]]]].
  destruct (word_quality_score_range settings count ratio (proj1 Hc) Hr) as [value [Hs Hv]].
  exists count, ratio, value. repeat split; try assumption; try apply Hc; try apply Hr;
    apply Hv.
Qed.

(** ** Lines *)

Section Lines.

Import QA.

Lemma group_step_concat (tolerance : Q) (groups : list LineGroup) (span : Span) :
  List.concat (map group_spans (group_step tolerance groups span))
  = List.concat (map group_spans groups) ++ [span].
Proof.
  unfold group_step. destruct (rev groups) as [|current earlier] eqn:Erev.
  - assert (groups = []) as ->.
    { rewrite <- (rev_involutive groups), Erev. reflexivity. }
    reflexivity.
  - assert (Hgroups : groups = rev earlier ++ [current]).
    { rewrite <- (rev_involutive groups), Erev. reflexivity. }
    destruct (Qle_bool _ tolerance).
    + rewrite Hgroups, !map_app, !List.concat_app. cbn [map List.concat group_spans].
      rewrite !app_nil_r, app_assoc. reflexivity.
    + rewrite map_app, List.concat_app. cbn. reflexivity.
Qed.

Lemma group_step_nonempty (tolerance : Q) (groups : list LineGroup) (span : Span) :
  Forall (fun g => group_spans g <> []) groups ->
  Forall (fun g => group_spans g <> []) (group_step tolerance groups span).
Proof.
  intros Hall. unfold group_step. destruct (rev groups) as [|current earlier] eqn:Erev.
  - constructor; [discriminate | constructor].
  - assert (Hgroups : groups = rev earlier ++ [current]).
    { rewrite <- (rev_involutive groups), Erev. reflexivity. }
    destruct (Qle_bool _ tolerance).
    + rewrite Hgroups in Hall. apply Forall_app in Hall. destruct Hall as [Hearlier _].
      apply Forall_app. split; [exact Hearlier|].
      constructor; [|constructor]. cbn. intros H. apply app_eq_nil in H.
      destruct H as [_ H]. discriminate.
    + apply Forall_app. split; [exact Hall|]. constructor; [discriminate | constructor].
Qed.

Lemma group_fold (tolerance : Q) (ordered : list Span) (groups : list LineGroup) :
  Forall (fun g => group_spans g <> []) groups ->
  List.concat (map group_spans (fold_left (group_step tolerance) ordered groups))
  = List.concat (map group_spans groups) ++ ordered
  /\ Forall (fun g => group_spans g <> [])
            (fold_left (group_step tolerance) ordered groups).
Proof.
  revert groups. induction ordered as [|span ordered IH]; intros groups Hall.
  - cbn. rewrite app_nil_r. split; [reflexivity | exact Hall].
  - cbn [fold_left].
    destruct (IH _ (group_step_nonempty tolerance groups span Hall)) as [Hc Hn].
    split; [|exact Hn].
    rewrite Hc, group_step_concat, <- app_assoc. reflexivity.
Qed.

(** X4: grouping the spans of a page into lines loses and duplicates no
    span: the lines, one after the other, are the spans sorted by vertical
    middle and left edge, and no line is empty. *)
Theorem lines_partition_the_spans :
  forall (spans : list Span),
    List.concat (_group_spans_into_lines spans)
    = Py.sorted (fun span => [mid_y span; span_x1 span]) spans
    /\ Permutation (List.concat (_group_spans_into_lines spans)) spans
    /\ Forall (fun line => line <> []) (_group_spans_into_lines spans).
Proof.
  intros spans.
  assert (Hc : List.concat (_group_spans_into_lines spans)
               = Py.sorted (fun span => [mid_y span; span_x1 span]) spans
               /\ Forall (fun line => line <> []) (_group_spans_into_lines spans)).
  { unfold _group_spans_into_lines. destruct spans as [|s spans'] eqn:E.
    - split; [reflexivity | constructor].
    - rewrite <- E.
      destruct (group_fold
                  (_line_merge_tolerance
                     (Py.sorted (fun span => [mid_y span; span_x1 span]) spans))
                  (Py.sorted (fun span => [mid_y span; span_x1 span]) spans) []
                  (Forall_nil _)) as [H1 H2].
      split; [exact H1|].
      apply Forall_map. exact H2. }
  destruct Hc as [Hc Hn]. split; [exact Hc|]. split; [|exact Hn].
  rewrite Hc. apply sorted_perm.
Qed.

(** ** Ranking *)

Lemma StronglySorted_weaken {A : Type} (R R' : A -> A -> Prop) (l : list A) :
  (forall x y, R x y -> R' x y) -> StronglySorted R l -> StronglySorted R' l.
Proof.
  intros Himp Hs. induction Hs as [|x l Hs IH Hall]; constructor; [exact IH|].
  eapply Forall_impl; [|exact Hall]. intros y. apply Himp.
Qed.

Lemma rank_entry_projects (candidates : list EvidenceLineCandidate)
  (question_terms answer_terms : list string) (question_weight answer_weight : Q)
  (entry : Z * EvidenceLineCandidate) :
  (ranked_idx (rank_entry candidates question_terms answer_terms question_weight
                          answer_weight entry),
   ranked_candidate (rank_entry candidates question_terms answer_terms question_weight
                                answer_weight entry))
  = entry.
Proof. destruct entry as [idx candidate]. reflexivity. Qed.

(** X5: the ranking of the lines of a page keeps every line exactly once,
    each with its own index, and is ordered by descending score. *)
Theorem ranking_is_a_permutation_by_descending_score :
  forall (candidates : list EvidenceLineCandidate)
         (question_terms answer_terms : list string) (question_weight answer_weight : Q),
    Permutation
      (map (fun entry => (ranked_idx entry, ranked_candidate entry))
           (_rank_line_candidates_with_context candidates question_terms answer_terms
                                               question_weight answer_weight))
      (enumerate candidates)
    /\ StronglySorted (fun earlier later => (ranked_score later <= ranked_score earlier)%Q)
         (_rank_line_candidates_with_context candidates question_terms answer_terms
                                             question_weight answer_weight).
Proof.
  intros candidates qt at_ qw aw.
  unfold _rank_line_candidates_with_context.
  destruct candidates as [|c candidates'] eqn:E.
  - split; [apply Permutation_refl | constructor].
  - rewrite <- E. split.
    + eapply perm_trans; [apply Permutation_map, sorted_perm|].
      rewrite map_map.
      rewrite (map_ext _ (fun entry => entry)) by (intros entry; apply rank_entry_projects).
      rewrite map_id. apply Permutation_refl.
    + eapply StronglySorted_weaken; [|apply sorted_sorted].
      intros earlier later Hkey. cbn [Py.key_lt] in Hkey.
      destruct (Qeq_bool (- ranked_score later) (- ranked_score earlier)) eqn:Eq.
      * apply Qeq_bool_iff in Eq. lra.
      * apply Qltb_ge in Hkey. lra.
Qed.

End Lines.

Section Fallback.

Import DocumentProcessing.

Local Open Scope Z_scope.

Lemma should_use_ocr_needs_words (native_metrics ocr_metrics : Z * Q) (settings : Settings) :
  _should_use_ocr native_metrics ocr_metrics settings = Returned true ->
  fst ocr_metrics <> 0.
Proof.
  unfold _should_use_ocr. destruct native_metrics as [nc nr], ocr_metrics as [oc or_].
  cbn [fst]. destruct (Z.eqb_spec oc 0) as [->|Hne]; [discriminate|]. intros _. exact Hne.
Qed.

Lemma metrics_of_no_words (count : Z) (ratio : Q) :
  _word_quality_metrics [] = Returned (count, ratio) -> count = 0.
Proof. cbn. intros H. injection H as <- _. reflexivity. Qed.

(** X6: when the word extraction of a page returns, the session is
    untouched and the words are the native ones or the OCR ones; OCR words
    are used only with the fallback enabled, after an OCR attempt that
    returned at least one word. With the fallback disabled OCR is never
    attempted and nothing is logged, and a failing OCR leaves the native
    words, with one warning when it was attempted. *)
Theorem ocr_text_is_used_only_when_ocr_found_words :
  forall (page : PdfPage) (page_number : Z) (settings : Settings) (db db' : Session)
         (logs : list LogEntry) (extracted : ExtractedPageWords),
    _extract_words_with_fallback page page_number settings db
    = (db', logs, Returned extracted) ->
    db' = db
    /\ exists native_items,
         get_text_words page = Returned native_items
         /\ native_word_count extracted = Py.len (_extract_words native_items)
         /\ ((source extracted = "native"%string
              /\ words extracted = _extract_words native_items)
             \/ (source extracted = "ocr"%string
                 /\ ocr_fallback_enabled settings = true
                 /\ attempted_ocr extracted = true
                 /\ exists ocr_items,
                      get_text_words_ocr page = Returned ocr_items
                      /\ words extracted = _extract_words ocr_items
                      /\ words extracted <> []
                      /\ ocr_word_count extracted = Py.len (words extracted)))
         /\ (ocr_fallback_enabled settings = false ->
             attempted_ocr extracted = false /\ logs = [])
         /\ (forall exc, get_text_words_ocr page = Raised exc ->
                         source extracted = "native"%string
                         /\ (attempted_ocr extracted = true ->
                             logs = [mk_log WARNING
                                       ("OCR fallback failed on page "
                                        ++ Py.str_of_int page_number ++ ": "
                                        ++ exn_message exc)])).
Proof.
  intros page page_number settings db db' logs extracted.
  unfold _extract_words_with_fallback, tbind, lift, tret, tlog.
  destruct (get_text_words page) as [native_items|exc0]; [|discriminate].
  destruct (_word_quality_metrics (_extract_words native_items)) as [native_metrics|exc0];
    [|discriminate].
  unfold _should_attempt_ocr.
  destruct (ocr_fallback_enabled settings) eqn:Eenabled; cbn [negb].
  2:{ intros H. injection H as <- <- <-. split; [reflexivity|].
      exists native_items. conjs.
      - left. split; reflexivity.
      - intros _. split; reflexivity.
      - intros exc _. split; [reflexivity | discriminate]. }
  destruct native_metrics as [word_count alnum_ratio].
  destruct ((word_count <? ocr_trigger_min_words settings)
            || Py.Qltb alnum_ratio (ocr_trigger_min_alnum_ratio settings)); cbn [negb].
  2:{ intros H. injection H as <- <- <-. split; [reflexivity|].
      exists native_items. conjs.
      - left. split; reflexivity.
      - discriminate.
      - intros exc _. split; [reflexivity | discriminate]. }
  destruct (get_text_words_ocr page) as [ocr_items|exc0].
  - destruct (_word_quality_metrics (_extract_words ocr_items)) as [ocr_metrics|exc1] eqn:Eocr;
      [|discriminate].
    destruct (_should_use_ocr (word_count, alnum_ratio) ocr_metrics settings)
      as [[|]|exc1] eqn:Euse; [| |discriminate].
    + intros H. injection H as <- <- <-. split; [reflexivity|].
      exists native_items. conjs.
      * right. conjs. exists ocr_items. conjs.
        apply should_use_ocr_needs_words in Euse.
        intros Hnil. cbn [words] in Hnil. rewrite Hnil in Eocr.
        destruct ocr_metrics as [count ratio]. apply metrics_of_no_words in Eocr.
        cbn [fst] in Euse. contradiction.
      * discriminate.
      * intros exc H. discriminate.
    + intros H. injection H as <- <- <-. split; [reflexivity|].
      exists native_items. conjs.
      * left. split; reflexivity.
      * discriminate.
      * intros exc H. discriminate.
  - intros H. injection H as <- <- <-. split; [reflexivity|].
    exists native_items. conjs.
    + left. split; reflexivity.
    + discriminate.
    + intros exc H. injection H as <-. split; reflexivity.
Qed.

End Fallback.

Section Windows.

Import DocumentProcessing.

Local Open Scope Z_scope.

Lemma pack_window_range (rest : list (Span * Z)) :
  forall start end_ total_chars,
    end_ <= pack_window rest start end_ total_chars <= end_ + Py.len rest.
Proof.
  unfold Py.len. induction rest as [|ref rest IH]; intros start end_ total_chars;
    cbn [pack_window List.length].
  - lia.
  - destruct (_ && _); [lia|].
    specialize (IH start (end_ + 1) (total_chars + (Py.slen (span_text (fst ref))
                                                    + (if total_chars =? 0 then 0 else 1)))).
    lia.
Qed.

Lemma pack_window_first (rest : list (Span * Z)) (start total_chars : Z) :
  rest <> [] -> start < pack_window rest start start total_chars.
Proof.
  destruct rest as [|ref rest]; [contradiction|]. intros _. cbn [pack_window].
  rewrite Z.ltb_irrefl, andb_false_r.
  pose proof (pack_window_range rest start (start + 1)
                (total_chars + (Py.slen (span_text (fst ref))
                                + (if total_chars =? 0 then 0 else 1)))).
  lia.
Qed.

Lemma len_skipn {A : Type} (l : list A) (start : Z) :
  0 <= start <= Py.len l -> Py.len (skipn (Z.to_nat start) l) = Py.len l - start.
Proof. intros H. unfold Py.len in *. rewrite length_skipn. lia. Qed.

Lemma window_end_range (refs : list (Span * Z)) (start : Z) :
  0 <= start < Py.len refs ->
  start < pack_window (skipn (Z.to_nat start) refs) start start 0 <= Py.len refs.
Proof.
  intros H.
  pose proof (pack_window_range (skipn (Z.to_nat start) refs) start start 0) as Hr.
  rewrite len_skipn in Hr by lia.
  split; [|lia]. apply pack_window_first.
  intros Hnil. apply (f_equal (@List.length _)) in Hnil.
  rewrite length_skipn in Hnil. unfold Py.len in H. cbn in Hnil. lia.
Qed.

Lemma chunk_windows_cover (refs : list (Span * Z)) :
  forall fuel start windows,
    0 <= start ->
    chunk_windows_from fuel refs start = Some windows ->
    (forall s e, In (s, e) windows -> start <= s /\ s < e /\ e <= Py.len refs)
    /\ (forall i, start <= i < Py.len refs ->
                  exists s e, In (s, e) windows /\ s <= i < e)
    /\ (forall k w1 w2,
          nth_error windows k = Some w1 -> nth_error windows (S k) = Some w2 ->
          fst w1 < fst w2 <= snd w1 /\ snd w1 - CHUNK_OVERLAP_SPANS <= fst w2)
    /\ (start < Py.len refs -> exists e rest, windows = (start, e) :: rest).
Proof.
  induction fuel as [|fuel IH]; intros start windows Hstart Hrun; [discriminate|].
  cbn [chunk_windows_from] in Hrun.
  destruct (Z.ltb_spec start (Py.len refs)) as [Hlt|Hge].
  - pose proof (window_end_range refs start (conj Hstart Hlt)) as Hend.
    set (end_ := pack_window (skipn (Z.to_nat start) refs) start start 0) in *.
    destruct (Z.leb_spec (Py.len refs) end_) as [Hlast|Hmore].
    + injection Hrun as <-. conjs.
      * intros s e [H|[]]. injection H as <- <-. lia.
      * intros i Hi. exists start, end_. split; [left; reflexivity | lia].
      * intros k w1 w2 H1 H2. destruct k; cbn in H2; [discriminate | destruct k; discriminate].
      * intros _. eexists _, _. reflexivity.
    + set (next := Z.max (end_ - CHUNK_OVERLAP_SPANS) (start + 1)) in *.
      destruct (chunk_windows_from fuel refs next) as [ws|] eqn:Erec; [|discriminate].
      injection Hrun as <-.
      assert (Hnext : start < next <= end_ /\ end_ - CHUNK_OVERLAP_SPANS <= next)
        by (unfold next, CHUNK_OVERLAP_SPANS; lia).
      destruct (IH next ws ltac:(lia) Erec) as [H1 [H2 [H3 H4]]].
      conjs.
      * intros s e [H|H]; [injection H as <- <-; lia|].
        destruct (H1 s e H) as [Ha [Hb Hc]]. lia.
      * intros i Hi. destruct (Z.lt_ge_cases i next) as [Hin|Hout].
        -- exists start, end_. split; [left; reflexivity | lia].
        -- destruct (H2 i ltac:(lia)) as [s [e [Hw Hi']]].
           exists s, e. split; [right; exact Hw | exact Hi'].
      * intros k w1 w2 Hw1 Hw2. destruct k as [|k].
        -- cbn in Hw1, Hw2. injection Hw1 as <-.
           destruct (H4 ltac:(lia)) as [e [rest Hws]]. rewrite Hws in Hw2.
           cbn in Hw2. injection Hw2 as <-. cbn [fst snd]. lia.
        -- cbn in Hw1, Hw2. apply (H3 k w1 w2 Hw1 Hw2).
      * intros _. eexists _, _. reflexivity.
  - injection Hrun as <-. conjs.
    + intros s e [].
    + intros i Hi. lia.
    + intros k w1 w2 H1. destruct k; discriminate.
    + intros H. lia.
Qed.

(** X7: the chunker always returns, every window is a non-empty range of
    the spans, every span lies in some window, and consecutive windows start
    strictly later, leave no gap and overlap in at most [CHUNK_OVERLAP_SPANS]
    spans. *)
Theorem chunk_windows_cover_every_span :
  forall span_refs : list (Span * Z),
    exists windows,
      _chunk_span_window span_refs = Some windows
      /\ (forall s e, In (s, e) windows -> 0 <= s /\ s < e /\ e <= Py.len span_refs)
      /\ (forall i, 0 <= i < Py.len span_refs ->
                    exists s e, In (s, e) windows /\ s <= i < e)
      /\ (forall k w1 w2,
            nth_error windows k = Some w1 -> nth_error windows (S k) = Some w2 ->
            fst w1 < fst w2 <= snd w1 /\ snd w1 - CHUNK_OVERLAP_SPANS <= fst w2).
Proof.
  intros span_refs.
  destruct (chunk_span_window_total span_refs) as [windows Hrun].
  exists windows. split; [exact Hrun|].
  unfold _chunk_span_window in Hrun. destruct span_refs as [|r refs] eqn:E.
  - injection Hrun as <-. conjs.
    + intros s e [].
    + intros i Hi. unfold Py.len in Hi. cbn in Hi. lia.
    + intros k w1 w2 H1. destruct k; discriminate.
  - rewrite <- E in *.
    destruct (chunk_windows_cover span_refs _ 0 windows ltac:(lia) Hrun) as [H1 [H2 [H3 _]]].
    conjs; assumption.
Qed.

(** *** The size of a window *)

Lemma append_assoc (a b c : string) : ((a ++ b) ++ c = a ++ (b ++ c))%string.
Proof. induction a as [|x a IH]; cbn; [reflexivity | rewrite IH; reflexivity]. Qed.

Lemma slen_append (a b : string) : Py.slen (a ++ b) = Py.slen a + Py.slen b.
Proof.
  unfold Py.slen. induction a as [|c a IH]; cbn [append String.length]; lia.
Qed.

Lemma join_snoc (sep : string) (parts : list string) (p : string) :
  Py.join sep (parts ++ [p])
  = match parts with
    | [] => p
    | _ => (Py.join sep parts ++ sep ++ p)%string
    end.
Proof.
  induction parts as [|a parts IH]; [reflexivity|].
  destruct parts as [|b parts]; [reflexivity|].
  change ((a :: b :: parts) ++ [p]) with (a :: ((b :: parts) ++ [p])).
  change (Py.join sep (a :: (b :: parts) ++ [p]))
    with (a ++ sep ++ Py.join sep ((b :: parts) ++ [p]))%string.
  rewrite IH.
  change (Py.join sep (a :: b :: parts)) with (a ++ sep ++ Py.join sep (b :: parts))%string.
  rewrite !append_assoc. reflexivity.
Qed.

Lemma slen_nonneg (s : string) : 0 <= Py.slen s.
Proof. unfold Py.slen. lia. Qed.

Lemma slen_positive (s : string) : s <> EmptyString -> 0 < Py.slen s.
Proof. destruct s; [contradiction|]. intros _. unfold Py.slen. cbn. lia. Qed.

Lemma slen_join_snoc (parts : list string) (p : string) :
  Py.slen (Py.join " " (parts ++ [p]))
  = match parts with
    | [] => Py.slen p
    | _ => Py.slen (Py.join " " parts) + 1 + Py.slen p
    end.
Proof.
  rewrite join_snoc. destruct parts as [|a parts]; [reflexivity|].
  rewrite !slen_append. change (Py.slen " ") with 1. lia.
Qed.

Lemma slen_join_positive (parts : list string) :
  parts <> [] -> (forall p, In p parts -> p <> EmptyString) ->
  0 < Py.slen (Py.join " " parts).
Proof.
  destruct parts as [|a parts]; [contradiction|]. intros _ Hall.
  destruct parts as [|b parts].
  - apply slen_positive, Hall. left. reflexivity.
  - change (Py.join " " (a :: b :: parts)) with (a ++ " " ++ Py.join " " (b :: parts))%string.
    rewrite !slen_append.
    pose proof (slen_positive a (Hall a (or_introl eq_refl))).
    pose proof (slen_nonneg (Py.join " " (b :: parts))).
    change (Py.slen " ") with 1. lia.
Qed.

Local Abbreviation texts_of refs :=
  (map (fun ref => span_text (fst ref)) refs).

(** The inner loop: [taken] are the spans of the window so far. *)
Lemma pack_window_bound (rest : list (Span * Z)) :
  forall (taken : list (Span * Z)) (start end_ total_chars : Z),
    Py.len taken = end_ - start ->
    total_chars = Py.slen (Py.join " " (texts_of taken)) ->
    (2 <= Py.len taken -> total_chars <= CHUNK_MAX_CHARS) ->
    (forall ref, In ref (taken ++ rest) -> span_text (fst ref) <> EmptyString) ->
    exists more,
      more = firstn (Z.to_nat (pack_window rest start end_ total_chars - end_)) rest
      /\ pack_window rest start end_ total_chars = end_ + Py.len more
      /\ (2 <= Py.len (taken ++ more) ->
          Py.slen (Py.join " " (texts_of (taken ++ more))) <= CHUNK_MAX_CHARS).
Proof.
  induction rest as [|ref rest IH]; intros taken start end_ total_chars Hlen Htotal Hcap Htexts.
  - cbn [pack_window]. exists []. rewrite Z.sub_diag. conjs.
    + unfold Py.len. cbn. lia.
    + rewrite app_nil_r. intros H. rewrite <- Htotal. apply Hcap, H.
  - cbn [pack_window].
    set (text_len := Py.slen (span_text (fst ref)) + (if total_chars =? 0 then 0 else 1)).
    destruct ((CHUNK_MAX_CHARS <? total_chars + text_len) && (start <? end_)) eqn:Eguard.
    + exists []. rewrite Z.sub_diag. conjs.
      * unfold Py.len. cbn. lia.
      * rewrite app_nil_r. intros H. rewrite <- Htotal. apply Hcap, H.
    + assert (Hnew : total_chars + text_len
                     = Py.slen (Py.join " " (texts_of (taken ++ [ref])))).
      { rewrite map_app. cbn [map]. rewrite slen_join_snoc.
        unfold text_len.
        destruct taken as [|t taken'] eqn:Etaken.
        - cbn [map]. rewrite Htotal. cbn. lia.
        - rewrite <- Etaken in *.
          assert (Hpos : 0 < total_chars).
          { rewrite Htotal. apply slen_join_positive.
            - rewrite Etaken. discriminate.
            - intros p Hp. apply in_map_iff in Hp.
              destruct Hp as [r [<- Hr]]. apply Htexts. apply in_or_app. left. exact Hr. }
          destruct (Z.eqb_spec total_chars 0) as [|_]; [lia|].
          replace (texts_of taken) with (texts_of (t :: taken')) by (rewrite Etaken; reflexivity).
          cbn [map]. rewrite Htotal, Etaken. cbn [map]. lia. }
      destruct (IH (taken ++ [ref]) start (end_ + 1) (total_chars + text_len))
        as [more [Hmore [Hend Hbound]]].
      * unfold Py.len in *. rewrite length_app. cbn [List.length]. lia.
      * exact Hnew.
      * intros H2. apply andb_false_iff in Eguard. destruct Eguard as [E|E].
        -- apply Z.ltb_ge in E. exact E.
        -- apply Z.ltb_ge in E. unfold Py.len in *. rewrite length_app in H2.
           cbn [List.length] in H2. lia.
      * intros r Hr. apply Htexts. rewrite <- app_assoc in Hr. exact Hr.
      * pose proof (pack_window_range rest start (end_ + 1) (total_chars + text_len)) as Hr.
        exists (ref :: more). conjs.
        -- replace (Z.to_nat (pack_window rest start (end_ + 1) (total_chars + text_len) - end_))
             with (S (Z.to_nat (pack_window rest start (end_ + 1) (total_chars + text_len)
                                - (end_ + 1)))) by lia.
           cbn [firstn]. rewrite Hmore. reflexivity.
        -- rewrite Hend. unfold Py.len. cbn [List.length]. lia.
        -- change (taken ++ ref :: more) with (taken ++ [ref] ++ more).
           rewrite app_assoc. exact Hbound.
Qed.

Lemma slice_is_window {A : Type} (l : list A) (s e : Z) :
  0 <= s -> s <= e -> e <= Py.len l ->
  Py.slice l s e = firstn (Z.to_nat (e - s)) (skipn (Z.to_nat s) l).
Proof.
  intros Hs Hse He. unfold Py.slice, Py.clamp_bound.
  destruct (Z.ltb_spec s 0) as [|_]; [lia|]. destruct (Z.ltb_spec e 0) as [|_]; [lia|].
  rewrite !Z.max_r by lia. rewrite !Z.min_r by lia.
  rewrite firstn_skipn_comm. f_equal. f_equal. lia.
Qed.

Lemma chunk_windows_bound (refs : list (Span * Z)) :
  (forall ref, In ref refs -> span_text (fst ref) <> EmptyString) ->
  forall fuel start windows,
    0 <= start ->
    chunk_windows_from fuel refs start = Some windows ->
    forall s e, In (s, e) windows -> 2 <= e - s ->
      Py.slen (Py.join " " (texts_of (Py.slice refs s e))) <= CHUNK_MAX_CHARS.
Proof.
  intros Htexts. induction fuel as [|fuel IH]; intros start windows Hstart Hrun;
    [discriminate|].
  cbn [chunk_windows_from] in Hrun.
  destruct (Z.ltb_spec start (Py.len refs)) as [Hlt|Hge];
    [|injection Hrun as <-; intros s e []].
  pose proof (window_end_range refs start (conj Hstart Hlt)) as Hend.
  assert (Hwindow : 2 <= pack_window (skipn (Z.to_nat start) refs) start start 0 - start ->
                    Py.slen (Py.join " "
                               (texts_of (Py.slice refs start
                                            (pack_window (skipn (Z.to_nat start) refs)
                                                         start start 0))))
                    <= CHUNK_MAX_CHARS).
  { intros Hsize.
    destruct (pack_window_bound (skipn (Z.to_nat start) refs) [] start start 0)
      as [more [Hmore [Hlen Hbound]]].
    - unfold Py.len. cbn. lia.
    - reflexivity.
    - unfold Py.len. cbn. lia.
    - intros ref Hin. cbn [app] in Hin. apply Htexts.
      rewrite <- (firstn_skipn (Z.to_nat start) refs). apply in_or_app. right. exact Hin.
    - rewrite slice_is_window by lia. rewrite <- Hmore. cbn [app] in Hbound.
      apply Hbound. lia. }
  set (end_ := pack_window (skipn (Z.to_nat start) refs) start start 0) in *.
  destruct (Z.leb_spec (Py.len refs) end_) as [Hlast|Hmore].
  - injection Hrun as <-. intros s e [H|[]] Hsize. injection H as <- <-.
    apply Hwindow, Hsize.
  - destruct (chunk_windows_from fuel refs _) as [ws|] eqn:Erec; [|discriminate].
    injection Hrun as <-. intros s e [H|H] Hsize.
    + injection H as <- <-. apply Hwindow, Hsize.
    + refine (IH _ ws _ Erec s e H Hsize). unfold CHUNK_OVERLAP_SPANS. lia.
Qed.

(** X8: when no span has an empty text, the text of every chunk window of
    two spans or more has at most [CHUNK_MAX_CHARS] characters; only a window
    of one span can be longer. *)
Theorem chunk_text_fits_unless_a_single_span :
  forall (span_refs : list (Span * Z)) (windows : list (Z * Z)),
    (forall ref, In ref span_refs -> span_text (fst ref) <> EmptyString) ->
    _chunk_span_window span_refs = Some windows ->
    forall s e, In (s, e) windows -> 2 <= e - s ->
      Py.slen (Py.join " " (map (fun ref => span_text (fst ref)) (Py.slice span_refs s e)))
      <= CHUNK_MAX_CHARS.
Proof.
  intros span_refs windows Htexts Hrun s e Hin Hsize.
  unfold _chunk_span_window in Hrun. destruct span_refs as [|r refs] eqn:E.
  - injection Hrun as <-. destruct Hin.
  - rewrite <- E in *.
    apply (chunk_windows_bound span_refs Htexts _ 0 windows ltac:(lia) Hrun s e Hin Hsize).
Qed.

End Windows.

Section Offsets.

Context {ext : Externals}.

Import DocumentProcessing.

Local Open Scope Z_scope.

Lemma substring_whole_prefix (w rest : string) :
  String.substring 0 (String.length w) (w ++ rest) = w.
Proof.
  induction w as [|c w IH]; cbn [append String.length String.substring].
  - destruct rest; reflexivity.
  - rewrite IH. reflexivity.
Qed.

Lemma substring_after_prefix (p w rest : string) :
  String.substring (String.length p) (String.length w) (p ++ w ++ rest) = w.
Proof.
  induction p as [|c p IH]; cbn [append String.length String.substring].
  - apply substring_whole_prefix.
  - exact IH.
Qed.

Lemma page_spans_offsets (document_id : UUID) (page_row_id : Z) (words : list Word) :
  forall (before : string) (first_index char_cursor : Z) (k : nat) (span : Span),
    char_cursor = Py.slen before ->
    nth_error (page_spans_from document_id page_row_id first_index char_cursor words) k
    = Some span ->
    exists word cs,
      nth_error words k = Some word
      /\ span_text span = word_text word
      /\ span_index span = first_index + Z.of_nat k
      /\ span_char_start span = Some cs
      /\ span_char_end span = Some (cs + Py.slen (span_text span))
      /\ char_cursor <= cs
      /\ String.substring (Z.to_nat cs) (String.length (span_text span))
           (before ++ Py.join " " (map word_text words))
         = span_text span.
Proof.
  induction words as [|[[[[x0 y0] x1] y1] text] words IH];
    intros before first_index char_cursor k span Hcursor Hnth.
  - destruct k; discriminate.
  - cbn [page_spans_from] in Hnth. destruct k as [|k].
    + cbn [nth_error] in Hnth. injection Hnth as <-.
      exists (x0, y0, x1, y1, text), char_cursor.
      cbn [span_text span_index span_char_start span_char_end word_text snd nth_error].
      conjs; [lia|].
      match goal with
      | |- context [Py.join " " ?l] =>
          assert (Htail : exists tail, Py.join " " l = (text ++ tail)%string)
      end.
      { cbn [map word_text snd]. destruct (map word_text words) as [|w ws].
        - exists EmptyString. cbn. clear. induction text; cbn; [reflexivity|congruence].
        - eexists. reflexivity. }
      destruct Htail as [tail ->]. rewrite Hcursor. unfold Py.slen. rewrite Nat2Z.id.
      apply substring_after_prefix.
    + cbn [nth_error] in Hnth.
      destruct words as [|w words'] eqn:Ewords; [destruct k; discriminate|].
      rewrite <- Ewords in *.
      destruct (IH (before ++ text ++ " ")%string (first_index + 1)
                   (char_cursor + Py.slen text + 1) k span) as [word [cs H]].
      * rewrite !slen_append, Hcursor. change (Py.slen " ") with 1. lia.
      * exact Hnth.
      * destruct H as [H1 [H2 [H3 [H4 [H5 [H6 H7]]]]]].
        assert (Hnonneg : 0 <= Py.slen text) by (unfold Py.slen; lia).
        exists word, cs. cbn [nth_error]. conjs; try assumption; try lia.
        match goal with
        | |- context [Py.join " " ?l] =>
            assert (Hjoin : Py.join " " l
                            = (text ++ " " ++ Py.join " " (map word_text words))%string)
        end.
        { rewrite Ewords. reflexivity. }
        rewrite Hjoin. rewrite <- H7 at 2. f_equal.
        rewrite !append_assoc. reflexivity.
Qed.

(** X9: the spans of a page are numbered 0, 1, 2, ... in the order of its
    words, and the character offsets stored with a span locate its text in
    the text of the page, the words joined by single blanks. *)
Theorem span_offsets_index_the_page_text :
  forall (document_id : UUID) (page_row_id : Z) (words : list Word) (k : nat)
         (span : Span),
    nth_error (page_spans_from document_id page_row_id 0 0 words) k = Some span ->
    exists (word : Word) (char_start : Z),
      nth_error words k = Some word
      /\ span_text span = word_text word
      /\ span_index span = Z.of_nat k
      /\ span_char_start span = Some char_start
      /\ span_char_end span = Some (char_start + Py.slen (span_text span))
      /\ 0 <= char_start
      /\ String.substring (Z.to_nat char_start) (String.length (span_text span))
           (Py.join " " (map word_text words))
         = span_text span.
Proof.
  intros document_id page_row_id words k span Hnth.
  destruct (page_spans_offsets document_id page_row_id words EmptyString 0 0 k span
              eq_refl Hnth) as [word [cs [H1 [H2 [H3 [H4 [H5 [H6 H7]]]]]]]].
  exists word, cs. conjs; assumption.
Qed.

End Offsets.

Section SuccessfulIngestion.

Context {ext : Externals}.

Import DocumentProcessing.

Local Open Scope Z_scope.

Lemma extract_words_keeps_session (page : PdfPage) (page_number : Z) (settings : Settings)
  (db db' : Session) (logs : list LogEntry) (result : outcome ExtractedPageWords) :
  _extract_words_with_fallback page page_number settings db = (db', logs, result) ->
  db' = db.
Proof.
  unfold _extract_words_with_fallback, tbind, lift, tret, tlog.
  destruct (get_text_words page) as [native_items|exc0];
    [|intros H; injection H as <- _ _; reflexivity].
  destruct (_word_quality_metrics _) as [native_metrics|exc0];
    [|intros H; injection H as <- _ _; reflexivity].
  destruct (negb _); [intros H; injection H as <- _ _; reflexivity|].
  destruct (get_text_words_ocr page) as [ocr_items|exc0];
    [|intros H; injection H as <- _ _; reflexivity].
  destruct (_word_quality_metrics _) as [ocr_metrics|exc1];
    [|intros H; injection H as <- _ _; reflexivity].
  destruct (_should_use_ocr _ _ _) as [[|]|exc1];
    intros H; injection H as <- _ _; reflexivity.
Qed.

Lemma process_page_rows (document_id : UUID) (settings : Settings) (st st1 : PageLoopState)
  (page_idx : Z) (page : PdfPage) (db db1 : Session) (logs : list LogEntry) :
  process_page document_id settings st (page_idx, page) db = (db1, logs, Returned st1) ->
  documents (working db1) = documents (working db)
  /\ chunks (working db1) = chunks (working db)
  /\ exists row,
       pages (working db1) = pages (working db) ++ [row]
       /\ page_document_id row = document_id
       /\ page_number row = page_idx + 1.
Proof.
  unfold process_page. unfold tbind at 1. unfold lift at 1.
  destruct (pixmap_save page) as [[]|exc]; [|discriminate].
  unfold tbind at 1. unfold add_page_and_flush at 1.
  unfold tbind at 1.
  match goal with
  | |- context [_extract_words_with_fallback page ?n settings ?db0] =>
      destruct (_extract_words_with_fallback page n settings db0)
        as [[db2 logs2] [extracted|exc]] eqn:Eextract
  end; [|discriminate].
  apply extract_words_keeps_session in Eextract. subst db2.
  unfold tbind, tret, add_spans_and_flush.
  destruct (forallb span_checks _); [|discriminate].
  intros H. injection H as <- _ _.
  cbn [working documents pages chunks]. conjs.
  eexists. conjs.
Qed.

Lemma page_loop_rows (document_id : UUID) (settings : Settings) (pdf_pages : list PdfPage) :
  forall (start : nat) (st st1 : PageLoopState) (db db1 : Session) (logs : list LogEntry),
    tfold (process_page document_id settings)
          (combine (map Z.of_nat (seq start (List.length pdf_pages))) pdf_pages) st db
    = (db1, logs, Returned st1) ->
    documents (working db1) = documents (working db)
    /\ chunks (working db1) = chunks (working db)
    /\ exists rows,
         pages (working db1) = pages (working db) ++ rows
         /\ Forall (fun row => page_document_id row = document_id) rows
         /\ map page_number rows
            = map (fun k => Z.of_nat k + 1) (seq start (List.length pdf_pages)).
Proof.
  induction pdf_pages as [|page pdf_pages IH]; intros start st st1 db db1 logs Hrun.
  - cbn in Hrun. injection Hrun as <- _ _. conjs. exists []. rewrite app_nil_r. conjs.
    constructor.
  - cbn [List.length seq map combine tfold] in Hrun. unfold tbind in Hrun.
    destruct (process_page document_id settings st (Z.of_nat start, page) db)
      as [[db2 logs2] [st2|exc]] eqn:Epage; [|discriminate].
    match type of Hrun with
    | context [tfold ?f ?l st2 db2] =>
        destruct (tfold f l st2 db2) as [[db3 logs3] r] eqn:Erest
    end.
    injection Hrun as <- _ ->.
    destruct (process_page_rows _ _ _ _ _ _ _ _ _ Epage) as [P1 [P2 [row [P3 [P4 P5]]]]].
    destruct (IH _ _ _ _ _ _ Erest) as [Q1 [Q2 [rows [Q3 [Q4 Q5]]]]].
    conjs; try congruence.
    exists (row :: rows). conjs.
    + rewrite Q3, P3, <- app_assoc. reflexivity.
    + constructor; assumption.
    + cbn [map List.length seq]. rewrite P5, Q5. reflexivity.
Qed.

Lemma add_window_chunk_rows (document_id : UUID) (refs : list (Span * Z))
  (entry : Z * (Z * Z)) (db db1 : Session) (logs : list LogEntry) (result : outcome unit) :
  add_window_chunk document_id refs tt entry db = (db1, logs, result) ->
  result = Returned tt
  /\ documents (working db1) = documents (working db)
  /\ pages (working db1) = pages (working db)
  /\ exists rows,
       chunks (working db1) = chunks (working db) ++ rows
       /\ Forall (fun row => chunk_document_id row = document_id
                             /\ chunk_embedding row = None
                             /\ chunk_text row <> EmptyString) rows.
Proof.
  unfold add_window_chunk. destruct entry as [chunk_index [start end_]].
  destruct (Py.slice refs start end_) as [|[first_span first_page] window] eqn:Ewindow.
  - intros H. injection H as <- _ <-. conjs. exists []. rewrite app_nil_r. conjs. constructor.
  - match goal with |- context [Py.is_empty ?t] => set (text := t) end.
    clearbody text.
    destruct (Py.is_empty text) eqn:Etext.
    + intros H. injection H as <- _ <-. conjs. exists []. rewrite app_nil_r. conjs.
      constructor.
    + destruct (last _ _) as [last_span last_page].
      unfold add_chunk. intros H. injection H as <- _ <-.
      cbn [working documents pages chunks]. conjs.
      eexists. split; [reflexivity|]. constructor; [|constructor].
      cbn [chunk_document_id chunk_embedding chunk_text]. conjs.
      intros Hempty. rewrite Hempty in Etext. discriminate.
Qed.

Lemma chunk_loop_rows (document_id : UUID) (refs : list (Span * Z))
  (entries : list (Z * (Z * Z))) :
  forall (db db1 : Session) (logs : list LogEntry) (result : outcome unit),
    tfold (add_window_chunk document_id refs) entries tt db = (db1, logs, result) ->
    result = Returned tt
    /\ documents (working db1) = documents (working db)
    /\ pages (working db1) = pages (working db)
    /\ exists rows,
         chunks (working db1) = chunks (working db) ++ rows
         /\ Forall (fun row => chunk_document_id row = document_id
                               /\ chunk_embedding row = None
                               /\ chunk_text row <> EmptyString) rows.
Proof.
  induction entries as [|entry entries IH]; intros db db1 logs result Hrun.
  - cbn in Hrun. injection Hrun as <- _ <-. conjs. exists []. rewrite app_nil_r. conjs.
    constructor.
  - cbn [tfold] in Hrun. unfold tbind in Hrun.
    destruct (add_window_chunk document_id refs tt entry db) as [[db2 logs2] r2] eqn:Eadd.
    destruct (add_window_chunk_rows _ _ _ _ _ _ _ Eadd) as [-> [A1 [A2 [rows1 [A3 A4]]]]].
    destruct (tfold _ entries tt db2) as [[db3 logs3] r3] eqn:Erest.
    injection Hrun as <- _ <-.
    destruct (IH _ _ _ _ Erest) as [-> [B1 [B2 [rows2 [B3 B4]]]]].
    conjs; try congruence.
    exists (rows1 ++ rows2). split.
    + rewrite B3, A3, <- app_assoc. reflexivity.
    + apply Forall_app. split; assumption.
Qed.

Lemma filter_own_rows {A : Type} (owner : A -> UUID) (document_id : UUID)
  (kept rows : list A) :
  Forall (fun row => owner row = document_id) rows ->
  filter (fun row => N.eqb (owner row) document_id)
         (filter (fun row => negb (N.eqb (owner row) document_id)) kept ++ rows)
  = rows.
Proof.
  intros Hrows. rewrite filter_app.
  assert (H1 : filter (fun row => N.eqb (owner row) document_id)
                      (filter (fun row => negb (N.eqb (owner row) document_id)) kept) = []).
  { induction kept as [|x kept IH]; [reflexivity|].
    cbn [filter]. destruct (N.eqb (owner x) document_id) eqn:E; cbn [negb]; [exact IH|].
    cbn [filter]. rewrite E. exact IH. }
  rewrite H1. cbn [app].
  induction Hrows as [|x rows Hx _ IH]; [reflexivity|].
  cbn [filter]. rewrite Hx, N.eqb_refl, IH. reflexivity.
Qed.

(** What the [try] block leaves when it completes. *)
Lemma ingest_rows_completed (document_id : UUID) (pdf : PdfFile) (settings : Settings)
  (db db1 : Session) (logs : list LogEntry) :
  ingest_rows document_id pdf settings db = (db1, logs, Returned tt) ->
  exists pdf_pages first_page,
    fitz_open pdf = Returned pdf_pages
    /\ 0 < Py.len pdf_pages
    /\ Py.index pdf_pages 0 = Returned first_page
    /\ documents (working db1)
       = map (fun d => if N.eqb (doc_id d) document_id
                       then mk_document (doc_id d) (doc_filename d) "ready"
                                        (Some (Py.len pdf_pages))
                                        (Some (rect_width first_page))
                                        (Some (rect_height first_page)) None
                       else d)
             (documents (working db))
    /\ map page_number
           (filter (fun row => N.eqb (page_document_id row) document_id)
                   (pages (working db1)))
       = Py.range 1 (Py.len pdf_pages + 1)
    /\ Forall (fun row => chunk_embedding row = None /\ chunk_text row <> EmptyString)
              (filter (fun row => N.eqb (chunk_document_id row) document_id)
                      (chunks (working db1))).
Proof.
  unfold ingest_rows. unfold tbind at 1. unfold lift at 1.
  destruct (fitz_open pdf) as [pdf_pages|exc]; [|discriminate].
  destruct (Z.eqb_spec (Py.len pdf_pages) 0) as [|Hpages]; [discriminate|].
  unfold tbind at 1. unfold _reset_document_rows, tmodify.
  unfold tbind at 1. unfold lift at 1.
  destruct (make_pages_dir pdf) as [[]|exc]; [|discriminate].
  unfold tbind at 1. unfold lift at 1.
  destruct (Py.index pdf_pages 0) as [first_page|exc] eqn:Efirst; [|discriminate].
  unfold tbind at 1.
  match goal with
  | |- context [tfold (process_page document_id settings) ?l ?st0 ?db0] =>
      destruct (tfold (process_page document_id settings) l st0 db0)
        as [[db2 logs2] [st|exc]] eqn:Epages
  end; [|discriminate].
  unfold tbind at 1. unfold lift at 1.
  destruct (_chunk_span_window (span_refs st)) as [windows|]; [|discriminate].
  unfold tbind at 1.
  destruct (tfold (add_window_chunk document_id (span_refs st)) (enumerate windows) tt db2)
    as [[db3 logs3] r3] eqn:Echunks.
  destruct (chunk_loop_rows _ _ _ _ _ _ _ Echunks) as [-> [C1 [C2 [chunk_rows [C3 C4]]]]].
  unfold tbind, tmodify, tlog. intros H. injection H as <- _.
  unfold enumerate in Epages.
  destruct (page_loop_rows _ _ _ _ _ _ _ _ _ Epages) as [P1 [P2 [page_rows [P3 [P4 P5]]]]].
  cbn [with_working working documents pages chunks] in P1, P2, P3.
  exists pdf_pages, first_page. conjs.
  - unfold Py.len in *. lia.
  - exact Efirst.
  - unfold db_update_document, with_working; cbn [working documents pages chunks]. rewrite C1, P1. reflexivity.
  - unfold db_update_document, with_working; cbn [working documents pages chunks]. rewrite C2, P3.
    rewrite (filter_own_rows page_document_id document_id _ _ P4), P5.
    unfold Py.range. replace (Z.to_nat (Py.len pdf_pages + 1 - 1)) with (List.length pdf_pages)
      by (unfold Py.len; lia).
    apply map_ext. intros k. lia.
  - unfold db_update_document, with_working; cbn [working documents pages chunks]. rewrite C3, P2.
    rewrite (filter_own_rows chunk_document_id document_id).
    + eapply Forall_impl; [|exact C4]. intros row [_ H]. exact H.
    + eapply Forall_impl; [|exact C4]. intros row [H _]. exact H.
Qed.

(** X10: processing a registered document never raises and never leaves
    it in the processing state or with uncommitted changes: the document ends
    as "error", without a page count and with the message of the exception,
    or as "ready", with the page count of the PDF, committed pages numbered
    1 to that count, and chunks that have a text and no embedding yet. *)
Theorem ingestion_ends_ready_or_failed :
  forall (settings : Settings) (document_id : UUID) (pdf : PdfFile)
         (db db' : Session) (document : Document) (logs : list LogEntry)
         (result : outcome unit),
    db_get_document db document_id = Some document ->
    working db = committed db ->
    process_document_metadata document_id pdf settings db = (db', logs, result) ->
    result = Returned tt
    /\ working db' = committed db'
    /\ exists document',
         db_get_document db' document_id = Some document'
         /\ doc_filename document' = doc_filename document
         /\ ((doc_status document' = "error"%string
              /\ doc_total_pages document' = None
              /\ exists exc db_failed logs_failed,
                   ingest document_id pdf settings db = (db_failed, logs_failed, Raised exc)
                   /\ doc_error_message document'
                      = Some ("Document processing failed: " ++ exn_message exc)%string)
             \/ (doc_status document' = "ready"%string
                 /\ doc_error_message document' = None
                 /\ exists pdf_pages,
                      fitz_open pdf = Returned pdf_pages
                      /\ 0 < Py.len pdf_pages
                      /\ doc_total_pages document' = Some (Py.len pdf_pages)
                      /\ map page_number
                             (filter (fun row => N.eqb (page_document_id row) document_id)
                                     (pages (committed db')))
                         = Py.range 1 (Py.len pdf_pages + 1)
                      /\ Forall (fun row => chunk_embedding row = None
                                            /\ chunk_text row <> EmptyString)
                                (filter (fun row => N.eqb (chunk_document_id row)
                                                          document_id)
                                        (chunks (committed db'))))).
Proof.
  intros settings document_id pdf db db' document logs result Hdoc Hclean.
  unfold process_document_metadata. unfold tbind at 1. unfold tget at 1. rewrite Hdoc.
  unfold try_except.
  destruct (ingest document_id pdf settings db) as [[db1 logs1] [[]|exc]] eqn:Eingest.
  - intros H. injection H as <- <- <-.
    unfold ingest, tbind, tmodify in Eingest.
    destruct (ingest_rows document_id pdf settings db) as [[db2 logs2] [[]|exc]] eqn:Erows;
      [|discriminate].
    injection Eingest as <- _.
    destruct (ingest_rows_completed _ _ _ _ _ _ Erows)
      as [pdf_pages [first_page [R1 [R2 [R3 [R4 [R5 R6]]]]]]].
    conjs.
    eexists. split; [|split].
    + unfold db_get_document, db_commit. cbn [working]. rewrite R4.
      rewrite find_document_updated by reflexivity.
      unfold db_get_document in Hdoc. rewrite Hdoc. reflexivity.
    + reflexivity.
    + right. conjs. exists pdf_pages. conjs; assumption.
  - destruct (ingest_raises_before_commit _ _ _ _ _ _ _ Eingest) as [Hcommitted Hevents].
    unfold ingest_failed.
    assert (Hfound : db_get_document (db_rollback db1) document_id = Some document).
    { unfold db_get_document in *. cbn [db_rollback working].
      rewrite Hcommitted, <- Hclean. exact Hdoc. }
    unfold tbind, tlog, tmodify, tget. rewrite Hfound.
    intros H. injection H as <- <- <-. conjs.
    eexists. split; [|split].
    + unfold db_get_document.
      unfold db_commit, db_update_document, with_working, db_rollback;
        cbn [committed working documents].
      rewrite find_document_updated by reflexivity.
      unfold db_get_document in Hdoc. rewrite Hcommitted, <- Hclean, Hdoc. reflexivity.
    + reflexivity.
    + left. conjs. exists exc, db1, logs1. conjs.
Qed.

End SuccessfulIngestion.

Section Upload.

Import DocumentProcessing.

Local Open Scope Z_scope.

Lemma read_chunk_spec (stream : list Byte.byte) (chunk_size : Z) :
  0 < chunk_size ->
  stream = Py.slice_to stream chunk_size
           ++ skipn (List.length (Py.slice_to stream chunk_size)) stream
  /\ (stream <> [] -> Py.slice_to stream chunk_size <> []).
Proof.
  intros Hsize. rewrite slice_to_firstn by lia. split.
  - rewrite <- (firstn_skipn (Z.to_nat chunk_size) stream) at 1. f_equal.
    rewrite length_firstn.
    destruct (Nat.le_ge_cases (Z.to_nat chunk_size) (List.length stream)) as [H|H].
    + rewrite Nat.min_l by exact H. reflexivity.
    + rewrite Nat.min_r by exact H. rewrite !skipn_all2 by lia. reflexivity.
  - destruct stream as [|b stream]; [contradiction|]. intros _.
    destruct (Z.to_nat chunk_size) as [|n] eqn:E; [lia|]. discriminate.
Qed.

Lemma persist_chunks_spec (chunk_size max_upload_bytes : Z) :
  0 < chunk_size ->
  forall (fuel : nat) (stream : list Byte.byte) (total_bytes : Z) (target : list Byte.byte),
    (List.length stream < fuel)%nat ->
    (total_bytes + Py.len stream <= max_upload_bytes ->
     persist_chunks fuel chunk_size max_upload_bytes stream total_bytes target
     = (target ++ stream, Persisted (total_bytes + Py.len stream)))
    /\ (max_upload_bytes < total_bytes + Py.len stream -> stream <> [] ->
        exists more message rest,
          persist_chunks fuel chunk_size max_upload_bytes stream total_bytes target
          = (target ++ more, FileTooLarge message)
          /\ stream = more ++ rest
          /\ (more = [] \/ total_bytes + Py.len more <= max_upload_bytes)).
Proof.
  intros Hsize. induction fuel as [|fuel IH]; intros stream total_bytes target Hfuel;
    [lia|].
  cbn [persist_chunks].
  destruct (read_chunk_spec stream chunk_size Hsize) as [Hsplit Hnonempty].
  set (chunk := Py.slice_to stream chunk_size) in *.
  set (rest := skipn (List.length chunk) stream) in *.
  assert (Hlen : Py.len stream = Py.len chunk + Py.len rest).
  { unfold Py.len. rewrite Hsplit at 1. rewrite length_app. lia. }
  destruct chunk as [|b chunk'] eqn:Echunk.
  - assert (stream = []) as ->.
    { destruct stream as [|x s]; [reflexivity|]. exfalso. apply Hnonempty; [discriminate|].
      reflexivity. }
    split.
    + intros _. rewrite app_nil_r. unfold Py.len. cbn. rewrite Z.add_0_r. reflexivity.
    + intros _ H. contradiction.
  - rewrite <- Echunk in *.
    assert (Hchunk : 0 < Py.len chunk).
    { rewrite Echunk. unfold Py.len. cbn [List.length]. lia. }
    assert (Hrest : (List.length rest < fuel)%nat).
    { unfold Py.len in Hlen, Hchunk. lia. }
    destruct (Z.ltb_spec max_upload_bytes (total_bytes + Py.len chunk)) as [Hbig|Hfits].
    + split.
      * intros H. unfold Py.len in *. lia.
      * intros _ _. exists [], ("File exceeds upload size limit of "
                                ++ Py.str_of_int max_upload_bytes ++ " bytes.")%string,
                    stream.
        rewrite app_nil_r. conjs. left. reflexivity.
    + destruct (IH rest (total_bytes + Py.len chunk) (target ++ chunk) Hrest) as [IH1 IH2].
      split.
      * intros H. rewrite IH1 by lia. rewrite <- app_assoc, <- Hsplit. f_equal. f_equal. lia.
      * intros H _.
        assert (Hrest_nonempty : rest <> []).
        { intros Hnil. rewrite Hnil in Hlen. unfold Py.len in Hlen at 3. cbn in Hlen. lia. }
        destruct (IH2 ltac:(lia) Hrest_nonempty) as [more [message [rest' [Hrun [Hmore Hcap]]]]].
        exists (chunk ++ more), message, rest'. conjs.
        -- rewrite Hrun, <- app_assoc. reflexivity.
        -- rewrite <- app_assoc, <- Hmore. exact Hsplit.
        -- right. unfold Py.len in *. rewrite length_app.
           destruct Hcap as [->|Hcap]; cbn [List.length] in *; lia.
Qed.

(** X11: an upload that fits the limit is stored byte for byte and its
    size is returned; a non-empty upload beyond the limit is refused, and
    what was written before the refusal is a prefix of the upload no longer
    than the limit. *)
Theorem persist_upload_respects_the_limit :
  forall (upload_file : UploadFile) (max_upload_bytes : Z) (content : list Byte.byte),
    upload_body upload_file = Returned content ->
    (Py.len content <= max_upload_bytes ->
     persist_upload upload_file max_upload_bytes = (content, Persisted (Py.len content)))
    /\ (max_upload_bytes < Py.len content -> content <> [] ->
        exists written message rest,
          persist_upload upload_file max_upload_bytes = (written, FileTooLarge message)
          /\ content = written ++ rest
          /\ Py.len written <= Z.max 0 max_upload_bytes).
Proof.
  intros upload_file max_upload_bytes content Hbody. unfold persist_upload. rewrite Hbody.
  destruct (persist_chunks_spec UPLOAD_CHUNK_SIZE max_upload_bytes ltac:(reflexivity)
              (S (List.length content)) content 0 [] ltac:(lia)) as [H1 H2].
  split.
  - intros H. apply H1. lia.
  - intros H Hne. destruct (H2 ltac:(lia) Hne) as [more [message [rest [Hrun [Hsplit Hcap]]]]].
    exists more, message, rest. conjs; try assumption.
    destruct Hcap as [->|Hcap]; [unfold Py.len; cbn; lia | lia].
Qed.

End Upload.

Section UploadRoute.

Context {ext : Externals}.

Import DocumentProcessing Routes.

Local Open Scope Z_scope.

Lemma persist_upload_persisted (file : UploadFile) (max_upload_bytes : Z)
  (written : list Byte.byte) (total_bytes : Z) :
  persist_upload file max_upload_bytes = (written, Persisted total_bytes) ->
  upload_body file = Returned written /\ total_bytes = Py.len written.
Proof.
  unfold persist_upload. destruct (upload_body file) as [content|exc]; [|discriminate].
  destruct (persist_chunks_spec UPLOAD_CHUNK_SIZE max_upload_bytes ltac:(reflexivity)
              (S (List.length content)) content 0 [] ltac:(lia)) as [H1 H2].
  destruct (Z.le_gt_cases (0 + Py.len content) max_upload_bytes) as [Hfits|Hbig].
  - rewrite (H1 Hfits). intros H. injection H as <- <-. split; reflexivity.
  - destruct content as [|b content'] eqn:E.
    + intros H. injection H as <- <-. split; reflexivity.
    + rewrite <- E in *.
      destruct (H2 ltac:(lia) ltac:(rewrite E; discriminate))
        as [more [message [rest [Hrun _]]]].
      rewrite Hrun. discriminate.
Qed.

Lemma persist_upload_too_large (file : UploadFile) (max_upload_bytes : Z)
  (content : list Byte.byte) :
  upload_body file = Returned content -> content <> [] ->
  max_upload_bytes < Py.len content ->
  exists written message,
    persist_upload file max_upload_bytes = (written, FileTooLarge message).
Proof.
  intros Hbody Hne Hbig. unfold persist_upload. rewrite Hbody.
  destruct (persist_chunks_spec UPLOAD_CHUNK_SIZE max_upload_bytes ltac:(reflexivity)
              (S (List.length content)) content 0 [] ltac:(lia)) as [_ H2].
  destruct (H2 ltac:(lia) Hne) as [more [message [rest [Hrun _]]]].
  exists ([] ++ more), message. exact Hrun.
Qed.

Lemma find_after_append {A : Type} (p : A -> bool) (l : list A) (x : A) :
  existsb p l = false -> p x = true -> find p (l ++ [x]) = Some x.
Proof.
  induction l as [|y l IH]; cbn [existsb find app]; intros H Hx.
  - rewrite Hx. reflexivity.
  - apply orb_false_iff in H. destruct H as [Hy H]. rewrite Hy. apply IH; assumption.
Qed.

Lemma add_document_keeps_on_failure (document : Document) (content_type : option string)
  (db db' : Session) (exc : exn) :
  add_document_and_commit document content_type db = (db', Raised exc) -> db' = db.
Proof.
  unfold add_document_and_commit. destruct (existsb _ _).
  - intros H. injection H as <- _. reflexivity.
  - destruct (_ || _); intros H; [injection H as <- _; reflexivity | discriminate].
Qed.

(** X12: an upload that is neither named [*.pdf] nor sent with a PDF
    content type is refused with status 400 before anything is touched; an
    upload beyond the size limit is refused with 400 or 413; and whenever the
    answer is not 201 the database is unchanged, no background task is
    scheduled, and after an HTTP error no file is left behind. *)
Theorem rejected_upload_leaves_no_trace :
  forall (max_upload_bytes : Z) (document_dir : outcome unit) (file : UploadFile)
         (db db' : Session) (uploaded : UploadOutcome),
    upload_document max_upload_bytes document_dir file db = (db', uploaded) ->
    (Py.endswith (Py.lower (match upload_filename file with
                            | Some name => name
                            | None => EmptyString
                            end)) ".pdf" = false ->
     Py.contains "pdf" (Py.lower (match upload_content_type file with
                                  | Some value => value
                                  | None => EmptyString
                                  end)) = false ->
     db' = db
     /\ uploaded = mk_upload_outcome
                     (UploadHTTPException 400 "Only PDF files are supported.") None None)
    /\ (forall content,
          upload_body file = Returned content -> content <> [] ->
          max_upload_bytes < Py.len content ->
          document_dir = Returned tt ->
          upload_response uploaded
          = UploadHTTPException 400 "Only PDF files are supported."
          \/ upload_response uploaded = UploadHTTPException 413 "File is too large.")
    /\ ((forall id, upload_response uploaded <> Created201 id) ->
        working db' = working db /\ committed db' = committed db
        /\ events db' = events db /\ background_task uploaded = None
        /\ (forall status detail,
              upload_response uploaded = UploadHTTPException status detail ->
              stored_pdf uploaded = None)).
Proof.
  intros max_upload_bytes document_dir file db db' uploaded Hrun.
  unfold upload_document in Hrun. cbv zeta in Hrun.
  split; [|split].
  - intros Hname Htype. rewrite Hname, Htype in Hrun. cbn [negb andb] in Hrun.
    injection Hrun as <- <-. split; reflexivity.
  - intros content Hbody Hne Hbig Hdir.
    destruct (negb _ && negb _); [injection Hrun as <- <-; left; reflexivity|].
    rewrite Hdir in Hrun.
    destruct (persist_upload_too_large file max_upload_bytes content Hbody Hne Hbig)
      as [written [message Hp]].
    rewrite Hp in Hrun. injection Hrun as <- <-. right. reflexivity.
  - intros Hnot.
    destruct (negb _ && negb _).
    + injection Hrun as <- <-. conjs.
    + destruct document_dir as [[]|exc].
      * destruct (persist_upload file max_upload_bytes) as [written [total|message|exc]].
        -- destruct (add_document_and_commit _ _ _) as [db1 [[]|exc]] eqn:Eadd.
           ++ injection Hrun as <- <-. exfalso. eapply Hnot. reflexivity.
           ++ apply add_document_keeps_on_failure in Eadd. subst db1.
              injection Hrun as <- <-. conjs. intros status detail H. discriminate.
        -- injection Hrun as <- <-. conjs.
        -- injection Hrun as <- <-. conjs.
      * injection Hrun as <- <-. conjs.
Qed.

(** X13: when an upload is answered with 201, the identifier returned
    is the fresh one, the file stored is the upload, the background task is
    scheduled for that identifier, and exactly one document row was added and
    committed, in the state "processing", which the status route reports. *)
Theorem accepted_upload_is_registered_as_processing :
  forall (max_upload_bytes : Z) (document_dir : outcome unit) (file : UploadFile)
         (db db' : Session) (uploaded : UploadOutcome) (id : string),
    upload_document max_upload_bytes document_dir file db = (db', uploaded) ->
    upload_response uploaded = Created201 id ->
    exists (content : list Byte.byte) (document : Document),
      id = uuid_str (uuid4 (uuid_counter db))
      /\ upload_body file = Returned content
      /\ stored_pdf uploaded = Some content
      /\ background_task uploaded = Some id
      /\ doc_id document = uuid4 (uuid_counter db)
      /\ doc_status document = "processing"%string
      /\ doc_total_pages document = None /\ doc_error_message document = None
      /\ documents (committed db') = documents (working db) ++ [document]
      /\ working db' = committed db'
      /\ pages (committed db') = pages (working db)
      /\ db_get_document db' (uuid4 (uuid_counter db)) = Some document
      /\ (uuid_parse id = Some (uuid4 (uuid_counter db)) ->
          get_document_status id db'
          = Status200 (mk_status_response "processing" None None None None)).
Proof.
  intros max_upload_bytes document_dir file db db' uploaded id Hrun Hcreated.
  unfold upload_document in Hrun. cbv zeta in Hrun.
  destruct (negb _ && negb _); [injection Hrun as <- <-; discriminate|].
  destruct document_dir as [[]|exc]; [|injection Hrun as <- <-; discriminate].
  destruct (persist_upload file max_upload_bytes) as [written [total|message|exc]] eqn:Ep;
    [|injection Hrun as <- <-; discriminate|injection Hrun as <- <-; discriminate].
  apply persist_upload_persisted in Ep. destruct Ep as [Hbody _].
  match type of Hrun with
  | context [add_document_and_commit ?d ?c ?s] =>
      set (document := d) in *; set (db0 := s) in *;
      destruct (add_document_and_commit document c db0) as [db1 [[]|exc]] eqn:Eadd
  end; [|injection Hrun as <- <-; discriminate].
  assert (Hadded : documents (committed db1) = documents (working db) ++ [document]
                   /\ working db1 = committed db1
                   /\ pages (committed db1) = pages (working db)
                   /\ db_get_document db1 (uuid4 (uuid_counter db)) = Some document).
  { unfold add_document_and_commit in Eadd.
    destruct (existsb _ (documents (working db0))) eqn:Eexists; [discriminate|].
    destruct (_ || _); [discriminate|]. injection Eadd as <-.
    conjs. unfold db_get_document. cbn [db_commit with_working working documents].
    apply find_after_append; [exact Eexists | apply N.eqb_refl]. }
  destruct Hadded as [A1 [A2 [A3 A4]]].
  injection Hrun as <- <-. cbn [upload_response] in Hcreated. injection Hcreated as <-.
  exists written, document. conjs; try assumption.
  intros Hparse. unfold get_document_status. rewrite Hparse, A4. reflexivity.
Qed.

End UploadRoute.

Section Expansion.

Import QA.

Local Open Scope Z_scope.

Lemma zmem_false_not_In (x : Z) (l : list Z) :
  existsb (Z.eqb x) l = false -> ~ In x l.
Proof.
  intros H Hin. assert (existsb (Z.eqb x) l = true); [|congruence].
  apply existsb_exists. exists x. split; [exact Hin | apply Z.eqb_refl].
Qed.

Lemma zmem_true_In (x : Z) (l : list Z) :
  existsb (Z.eqb x) l = true -> In x l.
Proof.
  intros H. apply existsb_exists in H. destruct H as [y [Hin Heq]].
  apply Z.eqb_eq in Heq. subst y. exact Hin.
Qed.

Lemma add_idx_spec (n m : Z) (sel : list Z) (idx : Z) :
  NoDup sel -> (forall i, In i sel -> 0 <= i < n) ->
  NoDup (add_idx n m sel idx)
  /\ (forall i, In i (add_idx n m sel idx) -> 0 <= i < n)
  /\ incl sel (add_idx n m sel idx)
  /\ (0 <= idx < n -> Py.len (add_idx n m sel idx) < m -> In idx (add_idx n m sel idx)).
Proof.
  intros Hnd Hrange. unfold add_idx.
  destruct ((0 <=? idx) && (idx <? n) && negb (existsb (Z.eqb idx) sel)
            && (Py.len sel <? m)) eqn:E.
  - apply andb_true_iff in E. destruct E as [E Hlen].
    apply andb_true_iff in E. destruct E as [E Hnew].
    apply andb_true_iff in E. destruct E as [H0 Hn].
    apply Z.leb_le in H0. apply Z.ltb_lt in Hn. apply negb_true_iff in Hnew.
    conjs.
    + apply NoDup_app; [exact Hnd | constructor; [intros [] | constructor] |].
      intros a Ha [<-|[]]. apply (zmem_false_not_In _ _ Hnew Ha).
    + intros i H. apply in_app_or in H. destruct H as [H|[<-|[]]]; [apply Hrange, H | lia].
    + intros a Ha. apply in_or_app. left. exact Ha.
    + intros _ _. apply in_or_app. right. left. reflexivity.
  - conjs; [exact Hnd | exact Hrange | intros a Ha; exact Ha |].
    intros Hidx Hlen.
    destruct (existsb (Z.eqb idx) sel) eqn:Emem; [apply zmem_true_In, Emem|].
    exfalso.
    destruct (Z.leb_spec 0 idx) as [_|]; [|lia].
    destruct (Z.ltb_spec idx n) as [_|]; [|lia].
    destruct (Z.ltb_spec (Py.len sel) m) as [_|]; [|lia].
    cbn in E. discriminate.
Qed.

Lemma range_covers (n i : Z) : 0 <= i < n -> In i (Py.range 0 n).
Proof.
  intros H. unfold Py.range. apply in_map_iff. exists (Z.to_nat i). split; [lia|].
  apply in_seq. lia.
Qed.

Lemma range_length (n : Z) : List.length (Py.range 0 n) = Z.to_nat n.
Proof. unfold Py.range. rewrite length_map, length_seq. f_equal. lia. Qed.

Lemma full_selection (n : Z) (sel : list Z) :
  NoDup sel -> (forall i, In i sel -> 0 <= i < n) ->
  Py.len sel <= Z.max 0 n
  /\ (n <= Py.len sel -> forall i, 0 <= i < n -> In i sel).
Proof.
  intros Hnd Hrange.
  assert (Hincl : incl sel (Py.range 0 n)).
  { intros i Hi. apply range_covers, Hrange, Hi. }
  pose proof (NoDup_incl_length Hnd Hincl) as Hlen. rewrite range_length in Hlen.
  split; [unfold Py.len; lia|].
  intros Hfull i Hi.
  apply (@NoDup_length_incl Z sel (Py.range 0 n) Hnd); [|exact Hincl | apply range_covers, Hi].
  rewrite range_length. unfold Py.len in Hfull. lia.
Qed.

Lemma index_in_range {A : Type} (l : list A) (i : Z) :
  0 <= i < Py.len l -> exists x, Py.index l i = Returned x.
Proof.
  intros H. unfold Py.index.
  destruct (Z.ltb_spec i 0) as [|_]; [lia|].
  destruct (Z.ltb_spec i 0) as [|_]; [lia|].
  destruct (nth_error l (Z.to_nat i)) as [x|] eqn:E; [exists x; reflexivity|].
  apply nth_error_None in E. unfold Py.len in H. lia.
Qed.

Lemma is_relevant_returns (candidates : list EvidenceLineCandidate) (idx : Z) :
  0 <= idx < Py.len candidates -> exists b, is_relevant candidates idx = Returned b.
Proof.
  intros H. unfold is_relevant.
  destruct (index_in_range candidates idx H) as [c ->]. cbn [bind].
  destruct (0 <? _); [eexists; reflexivity|].
  destruct (Qle_bool 0.75 _); [eexists; reflexivity|].
  destruct (Qle_bool _ _); eexists; reflexivity.
Qed.

(** A loop whose rounds only add indices in range adds indices in range. *)
Lemma for_break_grows {A : Type} (n : Z)
  (body : list Z -> A -> outcome (list Z * bool)) (l : list A) :
  (forall sel x, In x l -> NoDup sel -> (forall i, In i sel -> 0 <= i < n) ->
                 exists sel' b, body sel x = Returned (sel', b)
                                /\ NoDup sel' /\ (forall i, In i sel' -> 0 <= i < n)
                                /\ incl sel sel') ->
  forall sel, NoDup sel -> (forall i, In i sel -> 0 <= i < n) ->
              exists sel', for_break body l sel = Returned sel'
                           /\ NoDup sel' /\ (forall i, In i sel' -> 0 <= i < n)
                           /\ incl sel sel'.
Proof.
  induction l as [|x l IH]; intros Hbody sel Hnd Hrange.
  - exists sel. conjs; try assumption. intros a Ha; exact Ha.
  - cbn [for_break].
    destruct (Hbody sel x (or_introl eq_refl) Hnd Hrange)
      as [sel1 [b [Hrun [Hnd1 [Hrange1 Hincl1]]]]].
    rewrite Hrun. cbn [bind fst snd]. destruct b.
    + exists sel1. conjs; assumption.
    + destruct (IH (fun s y Hy => Hbody s y (or_intror Hy)) sel1 Hnd1 Hrange1)
        as [sel2 [Hrun2 [Hnd2 [Hrange2 Hincl2]]]].
      exists sel2. conjs; try assumption.
      intros a Ha. apply Hincl2, Hincl1, Ha.
Qed.

(** The last loop of the expansion adds every ranked line while there is
    room. *)
Lemma add_all_loop (n m : Z) (ranked : list RankedLine) :
  (forall entry, In entry ranked -> 0 <= ranked_idx entry < n) ->
  forall sel, NoDup sel -> (forall i, In i sel -> 0 <= i < n) ->
    exists sel',
      for_break
        (fun selected_order entry =>
           ret (add_idx n m selected_order (ranked_idx entry),
                (m <=? Py.len (add_idx n m selected_order (ranked_idx entry)))))
        ranked sel
      = Returned sel'
      /\ NoDup sel' /\ (forall i, In i sel' -> 0 <= i < n) /\ incl sel sel'
      /\ (Py.len sel' < m -> forall entry, In entry ranked -> In (ranked_idx entry) sel').
Proof.
  induction ranked as [|entry ranked IH]; intros Hidx sel Hnd Hrange.
  - exists sel. conjs; try assumption; [intros a Ha; exact Ha | intros _ e []].
  - cbn [for_break]. unfold ret. cbn [bind fst snd].
    destruct (add_idx_spec n m sel (ranked_idx entry) Hnd Hrange)
      as [Hnd1 [Hrange1 [Hincl1 Hadd1]]].
    destruct (Z.leb_spec m (Py.len (add_idx n m sel (ranked_idx entry)))) as [Hfull|Hroom].
    + eexists. split; [reflexivity|]. conjs; try assumption. intros Hlen. lia.
    + destruct (IH (fun e He => Hidx e (or_intror He)) _ Hnd1 Hrange1)
        as [sel2 [Hrun2 [Hnd2 [Hrange2 [Hincl2 Hall2]]]]].
      exists sel2. split; [exact Hrun2|]. conjs; try assumption.
      * intros a Ha. apply Hincl2, Hincl1, Ha.
      * intros Hlen e [<-|He]; [|apply Hall2; assumption].
        apply Hincl2, Hadd1; [apply Hidx; left; reflexivity | exact Hroom].
Qed.

Lemma mapM_keyed (candidates : list EvidenceLineCandidate) (indices : list Z) :
  (forall i, In i indices -> 0 <= i < Py.len candidates) ->
  exists keyed,
    mapM (fun idx => bind (Py.index candidates idx)
                          (fun candidate => ret (lc_y1 candidate, idx))) indices
    = Returned keyed
    /\ map snd keyed = indices.
Proof.
  induction indices as [|i indices IH]; intros Hrange.
  - exists []. split; reflexivity.
  - cbn [mapM].
    destruct (index_in_range candidates i (Hrange i (or_introl eq_refl))) as [c Hc].
    destruct (IH (fun j Hj => Hrange j (or_intror Hj))) as [keyed [Hk Hs]].
    rewrite Hc, Hk. cbn [bind ret].
    eexists. split; [reflexivity|]. cbn [map snd]. rewrite Hs. reflexivity.
Qed.

Lemma sorted_by_y1_perm (candidates : list EvidenceLineCandidate) (indices : list Z) :
  (forall i, In i indices -> 0 <= i < Py.len candidates) ->
  exists result, sorted_by_y1 candidates indices = Returned result
                 /\ Permutation result indices.
Proof.
  intros Hrange. unfold sorted_by_y1.
  destruct (mapM_keyed candidates indices Hrange) as [keyed [Hk Hs]].
  rewrite Hk. cbn [bind]. unfold ret. eexists. split; [reflexivity|].
  rewrite <- Hs. apply Permutation_map, sorted_perm.
Qed.

Lemma expansion_takes_every_line (ranked : list RankedLine)
  (candidates : list EvidenceLineCandidate) (seeds : list Z) :
  (forall entry, In entry ranked -> 0 <= ranked_idx entry < Py.len candidates) ->
  (forall i, 0 <= i < Py.len candidates -> In i (map ranked_idx ranked)) ->
  exists selected,
    _expand_line_indices_from_seeds ranked candidates seeds (Py.len candidates)
    = Returned selected
    /\ NoDup selected
    /\ (forall i, In i selected <-> 0 <= i < Py.len candidates).
Proof.
  intros Hidx Hcover. unfold _expand_line_indices_from_seeds.
  destruct candidates as [|c0 cs] eqn:Ecands.
  - exists []. split; [reflexivity|]. split; [constructor|].
    intros i. unfold Py.len. cbn. split; [intros [] | lia].
  - rewrite <- Ecands in *.
    set (n := Py.len candidates) in *.
    assert (Hn : 0 < n) by (unfold n, Py.len; rewrite Ecands; cbn [List.length]; lia).
    destruct (Z.leb_spec n 0) as [|_]; [lia|].
    cbv zeta.
    assert (Hrel : forall sel idx,
               NoDup sel -> (forall i, In i sel -> 0 <= i < n) -> 0 <= idx < n ->
               exists sel',
                 bind (is_relevant candidates idx)
                      (fun relevant => ret (if (relevant : bool) then add_idx n n sel idx
                                            else sel))
                 = Returned sel'
                 /\ NoDup sel' /\ (forall i, In i sel' -> 0 <= i < n) /\ incl sel sel').
    { intros sel idx Hnd Hrange Hi.
      destruct (is_relevant_returns candidates idx Hi) as [b ->]. cbn [bind]. unfold ret.
      destruct (add_idx_spec n n sel idx Hnd Hrange) as [H1 [H2 [H3 _]]].
      destruct b; eexists; (split; [reflexivity|]); conjs; try assumption.
      intros a Ha; exact Ha. }
    (* the loop over the seeds *)
    match goal with
    | |- context [bind (for_break ?body seeds []) _] =>
        destruct (for_break_grows n body seeds) with (sel := @nil Z)
          as [sel1 [Hrun1 [Hnd1 [Hrange1 _]]]]
    end.
    { intros sel seed _ Hnd Hrange.
      destruct (add_idx_spec n n sel seed Hnd Hrange) as [Ha1 [Ha2 [Ha3 _]]].
      assert (Hstep : forall idx s,
                 NoDup s -> (forall i, In i s -> 0 <= i < n) ->
                 exists s',
                   (if (0 <=? idx) && (idx <? n)
                    then bind (is_relevant candidates idx)
                              (fun relevant =>
                                 ret (if (relevant : bool) then add_idx n n s idx else s))
                    else ret s) = Returned s'
                   /\ NoDup s' /\ (forall i, In i s' -> 0 <= i < n) /\ incl s s').
      { intros idx s Hs1 Hs2.
        destruct ((0 <=? idx) && (idx <? n)) eqn:Eguard.
        - apply andb_true_iff in Eguard. destruct Eguard as [G1 G2].
          apply Z.leb_le in G1. apply Z.ltb_lt in G2.
          apply Hrel; [assumption | assumption | lia].
        - exists s. conjs; try assumption. intros a Ha; exact Ha. }
      destruct (Hstep (seed - 1) _ Ha1 Ha2) as [s1 [Hs1 [Hs1a [Hs1b Hs1c]]]].
      rewrite Hs1. cbn [bind].
      destruct (Hstep (seed + 1) _ Hs1a Hs1b) as [s2 [Hs2 [Hs2a [Hs2b Hs2c]]]].
      rewrite Hs2. cbn [bind]. unfold ret.
      eexists _, _. split; [reflexivity|]. conjs; try assumption.
      intros a Ha. apply Hs2c, Hs1c, Ha3, Ha. }
    { constructor. }
    { intros i []. }
    rewrite Hrun1. cbn [bind].
    (* the loop over the relevant ranked lines *)
    assert (Hstage2 : exists sel2,
               (if Py.len sel1 <? n
                then for_break
                       (fun selected_order entry =>
                          bind (bind (is_relevant candidates (ranked_idx entry))
                                     (fun relevant =>
                                        ret (if (relevant : bool)
                                             then add_idx n n selected_order (ranked_idx entry)
                                             else selected_order)))
                               (fun selected_order0 =>
                                  ret (selected_order0, n <=? Py.len selected_order0)))
                       ranked sel1
                else ret sel1) = Returned sel2
               /\ NoDup sel2 /\ (forall i, In i sel2 -> 0 <= i < n)).
    { destruct (Py.len sel1 <? n).
      - match goal with
        | |- context [for_break ?body ranked sel1] =>
            destruct (for_break_grows n body ranked) with (sel := sel1)
              as [sel2 [Hrun2 [Hnd2 [Hrange2 _]]]]
        end; try assumption.
        + intros sel entry Hin Hnd Hrange.
          destruct (Hrel sel (ranked_idx entry) Hnd Hrange (Hidx entry Hin))
            as [s' [Hs' [Hs1 [Hs2 Hs3]]]].
          rewrite Hs'. cbn [bind]. unfold ret.
          eexists _, _. split; [reflexivity|]. conjs; assumption.
        + exists sel2. conjs; assumption.
      - exists sel1. conjs; assumption. }
    destruct Hstage2 as [sel2 [Hrun2 [Hnd2 Hrange2]]].
    rewrite Hrun2. cbn [bind].
    (* the first ranked line when nothing was selected *)
    set (sel3 := match sel2, ranked with
                 | [], first :: _ => add_idx n n sel2 (ranked_idx first)
                 | _, _ => sel2
                 end).
    assert (Hsel3 : NoDup sel3 /\ (forall i, In i sel3 -> 0 <= i < n)).
    { unfold sel3. destruct sel2 as [|s sel2']; [|split; assumption].
      destruct ranked as [|first ranked']; [split; assumption|].
      destruct (add_idx_spec n n [] (ranked_idx first) Hnd2 Hrange2) as [H1 [H2 _]].
      split; assumption. }
    destruct Hsel3 as [Hnd3 Hrange3].
    (* the loop over all ranked lines *)
    assert (Hstage4 : exists sel4,
               (if Py.len sel3 <? n
                then for_break
                       (fun selected_order entry =>
                          ret (add_idx n n selected_order (ranked_idx entry),
                               n <=? Py.len (add_idx n n selected_order (ranked_idx entry))))
                       ranked sel3
                else ret sel3) = Returned sel4
               /\ NoDup sel4 /\ (forall i, In i sel4 -> 0 <= i < n)
               /\ (forall i, 0 <= i < n -> In i sel4)).
    { destruct (Z.ltb_spec (Py.len sel3) n) as [Hroom|Hfull].
      - destruct (add_all_loop n n ranked Hidx sel3 Hnd3 Hrange3)
          as [sel4 [Hrun4 [Hnd4 [Hrange4 [_ Hall4]]]]].
        exists sel4. split; [exact Hrun4|]. conjs; try assumption.
        intros i Hi.
        destruct (Z.lt_ge_cases (Py.len sel4) n) as [Hlt|Hge].
        + specialize (Hcover i Hi). apply in_map_iff in Hcover.
          destruct Hcover as [entry [<- Hentry]]. apply Hall4; assumption.
        + apply (proj2 (full_selection n sel4 Hnd4 Hrange4)); [lia | exact Hi].
      - exists sel3. split; [reflexivity|]. conjs; try assumption.
        intros i Hi. apply (proj2 (full_selection n sel3 Hnd3 Hrange3)); [lia | exact Hi]. }
    destruct Hstage4 as [sel4 [Hrun4 [Hnd4 [Hrange4 Hall4]]]].
    fold sel3. rewrite Hrun4. cbn [bind].
    destruct (sorted_by_y1_perm candidates sel4 Hrange4) as [result [Hres Hperm]].
    exists result. split; [exact Hres|]. split.
    + apply (Permutation_NoDup (Permutation_sym Hperm) Hnd4).
    + intros i. split.
      * intros Hi. apply Hrange4. apply (Permutation_in _ Hperm Hi).
      * intros Hi. apply (Permutation_in _ (Permutation_sym Hperm)). apply Hall4, Hi.
Qed.

Lemma map_fst_combine {A B : Type} (l1 : list A) (l2 : list B) :
  List.length l1 = List.length l2 -> map fst (combine l1 l2) = l1.
Proof.
  revert l2. induction l1 as [|a l1 IH]; intros [|b l2] H; try discriminate; [reflexivity|].
  cbn. f_equal. apply IH. injection H as H. exact H.
Qed.

Lemma enumerate_indices {A : Type} (l : list A) :
  map fst (enumerate l) = Py.range 0 (Py.len l).
Proof.
  unfold enumerate, Py.range, Py.len.
  rewrite map_fst_combine by (rewrite length_map, length_seq; reflexivity).
  rewrite Z.sub_0_r, Nat2Z.id. reflexivity.
Qed.

Lemma range_In (n i : Z) : In i (Py.range 0 n) <-> 0 <= i < n.
Proof.
  split; [|apply range_covers].
  unfold Py.range. intros H. apply in_map_iff in H. destruct H as [k [<- Hk]].
  apply in_seq in Hk. lia.
Qed.

Lemma ranked_lines_perm (candidates : list EvidenceLineCandidate)
  (question_terms answer_terms : list string) (question_weight answer_weight : Q) :
  Permutation
    (map (fun entry => (ranked_idx entry, ranked_candidate entry))
         (_rank_line_candidates_with_context candidates question_terms answer_terms
                                             question_weight answer_weight))
    (enumerate candidates).
Proof.
  unfold _rank_line_candidates_with_context.
  destruct candidates as [|c candidates'] eqn:E; [apply Permutation_refl|].
  rewrite <- E.
  eapply perm_trans; [apply Permutation_map, sorted_perm|].
  rewrite map_map.
  rewrite (map_ext _ (fun entry => entry)) by (intros [idx candidate]; reflexivity).
  rewrite map_id. apply Permutation_refl.
Qed.

Lemma ranked_indices_perm (candidates : list EvidenceLineCandidate)
  (question_terms answer_terms : list string) (question_weight answer_weight : Q) :
  Permutation
    (map ranked_idx
         (_rank_line_candidates_with_context candidates question_terms answer_terms
                                             question_weight answer_weight))
    (Py.range 0 (Py.len candidates)).
Proof.
  rewrite <- enumerate_indices.
  rewrite <- (map_map (fun entry => (ranked_idx entry, ranked_candidate entry)) fst).
  apply Permutation_map, ranked_lines_perm.
Qed.

(** X14: outside signature mode the selection of lines on a page always
    returns, and it selects every line of the page exactly once, whatever the
    terms, the weights and the minimum overlap are. *)
Theorem every_line_of_a_page_is_selected_outside_signature_mode :
  forall (question_terms answer_terms : list string) (min_keyword_overlap : Z)
         (question_weight answer_weight : Q) (candidates : list EvidenceLineCandidate),
    exists selected : list Z,
      page_selected_indices question_terms answer_terms min_keyword_overlap false
        candidates
        (_rank_line_candidates_with_context candidates question_terms answer_terms
                                            question_weight answer_weight)
      = Returned (Some selected)
      /\ NoDup selected
      /\ (forall i, In i selected <-> 0 <= i < Py.len candidates).
Proof.
  intros qt at_ mko qw aw candidates. unfold page_selected_indices.
  match goal with
  | |- context [_expand_line_indices_from_seeds ?ranked candidates ?seeds _] =>
      destruct (expansion_takes_every_line ranked candidates seeds)
        as [selected [Hrun [Hnd Hall]]]
  end.
  - intros entry Hin. apply range_In.
    apply (Permutation_in _ (ranked_indices_perm candidates qt at_ qw aw)).
    apply in_map. exact Hin.
  - intros i Hi.
    apply (Permutation_in _ (Permutation_sym (ranked_indices_perm candidates qt at_ qw aw))).
    apply range_In. exact Hi.
  - rewrite Hrun. cbn [bind]. exists selected. conjs; assumption.
Qed.

End Expansion.

Section Boxes.

Import QA.

Local Open Scope Q_scope.

Lemma fold_fmin_lower (l : list Q) (a : Q) :
  fold_left Py.fmin l a <= a /\ forall x, In x l -> fold_left Py.fmin l a <= x.
Proof.
  revert a. induction l as [|y l IH]; intros a; cbn [fold_left].
  - split; [apply Qle_refl | intros x []].
  - destruct (IH (Py.fmin a y)) as [H1 H2]. split.
    + apply Qle_trans with (Py.fmin a y); [exact H1 | apply fmin_le_l].
    + intros x [<-|Hx]; [|apply H2, Hx].
      apply Qle_trans with (Py.fmin a y); [exact H1 | apply fmin_le_r].
Qed.

Lemma fold_fmax_upper (l : list Q) (a : Q) :
  a <= fold_left Py.fmax l a /\ forall x, In x l -> x <= fold_left Py.fmax l a.
Proof.
  revert a. induction l as [|y l IH]; intros a; cbn [fold_left].
  - split; [apply Qle_refl | intros x []].
  - destruct (IH (Py.fmax a y)) as [H1 H2]. split.
    + apply Qle_trans with (Py.fmax a y); [apply fmax_ge_l | exact H1].
    + intros x [<-|Hx]; [|apply H2, Hx].
      apply Qle_trans with (Py.fmax a y); [apply fmax_ge_r | exact H1].
Qed.

Lemma min_of_lower (l : list Q) (m : Q) :
  Py.min_of l = Returned m -> forall x, In x l -> m <= x.
Proof.
  destruct l as [|a l]; [discriminate|]. intros H. injection H as <-.
  destruct (fold_fmin_lower l a) as [H1 H2]. intros x [<-|Hx]; [exact H1 | apply H2, Hx].
Qed.

Lemma max_of_upper (l : list Q) (m : Q) :
  Py.max_of l = Returned m -> forall x, In x l -> x <= m.
Proof.
  destruct l as [|a l]; [discriminate|]. intros H. injection H as <-.
  destruct (fold_fmax_upper l a) as [H1 H2]. intros x [<-|Hx]; [exact H1 | apply H2, Hx].
Qed.

(** X15: an evidence item built from a line has a box of positive width
    and height that encloses every span of the line, a page number of at
    least one, and a non-empty text without surrounding blanks. *)
Theorem line_item_box_encloses_its_spans :
  forall (page_number : Z) (page_width page_height : option Q)
         (candidate : EvidenceLineCandidate) (it : EvidenceItem),
    _build_line_evidence_item page_number page_width page_height candidate
    = Returned (Some it) ->
    (bx1 (ev_bbox it) < bx2 (ev_bbox it) /\ by1 (ev_bbox it) < by2 (ev_bbox it))
    /\ (forall span, In span (lc_spans candidate) ->
          bx1 (ev_bbox it) <= span_x1 span /\ span_x2 span <= bx2 (ev_bbox it)
          /\ by1 (ev_bbox it) <= span_y1 span /\ span_y2 span <= by2 (ev_bbox it))
    /\ (1 <= ev_page it)%Z
    /\ ev_text it <> EmptyString
    /\ Py.strip (ev_text it) = ev_text it.
Proof.
  intros page_number page_width page_height candidate it.
  unfold _build_line_evidence_item. destruct (lc_spans candidate) as [|s0 spans0] eqn:Espans;
    [discriminate|].
  rewrite <- Espans. intros H.
  apply bind_returned in H. destruct H as [x1 [Hx1 H]].
  apply bind_returned in H. destruct H as [y1 [Hy1 H]].
  apply bind_returned in H. destruct H as [x2 [Hx2 H]].
  apply bind_returned in H. destruct H as [y2 [Hy2 H]].
  destruct (Qle_bool x2 x1 || Qle_bool y2 y1) eqn:Ebox; [discriminate|].
  apply orb_false_iff in Ebox. destruct Ebox as [Ex Ey].
  apply Qle_bool_false in Ex, Ey.
  destruct (Py.is_empty (Py.strip (lc_text candidate))) eqn:Etext; [discriminate|].
  apply bind_returned in H. destruct H as [built [Hnew H]]. injection H as <-.
  unfold new_EvidenceItem in Hnew.
  destruct (Z.ltb_spec page_number 1) as [|Hpage]; [discriminate|].
  rewrite Etext in Hnew. injection Hnew as <-. cbn [ev_bbox ev_page ev_text bx1 bx2 by1 by2].
  split; [split; assumption|]. split; [|split; [exact Hpage|split]].
  - intros span Hin. repeat split.
    + apply (min_of_lower _ _ Hx1). apply in_map. exact Hin.
    + apply (max_of_upper _ _ Hx2). apply in_map. exact Hin.
    + apply (min_of_lower _ _ Hy1). apply in_map. exact Hin.
    + apply (max_of_upper _ _ Hy2). apply in_map. exact Hin.
  - intros Hempty. rewrite Hempty in Etext. discriminate.
  - apply strip_idempotent.
Qed.

End Boxes.

(** ** Substrings *)

Lemma prefix_iff (p s : string) :
  String.prefix p s = true <-> exists rest, s = (p ++ rest)%string.
Proof.
  revert s. induction p as [|a p IH]; intros s.
  - split; [intros _; exists s; reflexivity | intros _; destruct s; reflexivity].
  - destruct s as [|b s]; cbn [String.prefix].
    + split; [discriminate | intros [rest H]; discriminate].
    + destruct (ascii_dec a b) as [->|Hne].
      * rewrite IH. split; intros [rest H]; exists rest.
        -- cbn. rewrite H. reflexivity.
        -- cbn in H. injection H as H. exact H.
      * split; [discriminate|]. intros [rest H]. cbn in H. injection H as H _.
        congruence.
Qed.

Lemma contains_iff (needle hay : string) :
  Py.contains needle hay = true
  <-> exists before after, hay = (before ++ needle ++ after)%string.
Proof.
  induction hay as [|c hay IH]; cbn [Py.contains].
  - rewrite orb_false_r, prefix_iff. split.
    + intros [rest H]. exists EmptyString, rest. exact H.
    + intros [before [after H]]. destruct before; [exists after; exact H|discriminate].
  - rewrite orb_true_iff, prefix_iff, IH. split.
    + intros [[rest H]|[before [after H]]].
      * exists EmptyString, rest. exact H.
      * exists (String c before), after. cbn. rewrite H. reflexivity.
    + intros [before [after H]]. destruct before as [|b before].
      * left. exists after. exact H.
      * right. cbn in H. injection H as _ H. exists before, after. exact H.
Qed.

Lemma contains_inside (inner outer hay : string) :
  Py.contains inner outer = true -> Py.contains outer hay = true ->
  Py.contains inner hay = true.
Proof.
  rewrite !contains_iff. intros [b1 [a1 H1]] [b2 [a2 H2]].
  exists (b2 ++ b1)%string, (a1 ++ a2)%string.
  rewrite H2, H1, !append_assoc. reflexivity.
Qed.

(** ** The signature signal *)

Section Signal.

Context {ext : Externals}.

Import QA.

Local Open Scope Q_scope.

Lemma fmax_level (s c : Q) :
  (s == 0 \/ (1.15 <= s /\ s <= 2.0)) -> 1.15 <= c -> c <= 2.0 ->
  1.15 <= Py.fmax s c /\ Py.fmax s c <= 2.0.
Proof.
  intros Hs Hc1 Hc2. rewrite fmax_Qmax. split.
  - apply Qle_trans with c; [exact Hc1 | apply Q.le_max_r].
  - apply Q.max_lub; [|exact Hc2]. destruct Hs as [Hs|[_ Hs]]; [|exact Hs].
    rewrite Hs. discriminate.
Qed.

Lemma signal_loop_levels (tokens : list string) (score : Q) :
  (score == 0 \/ (1.15 <= score /\ score <= 2.0)) ->
  let final :=
    fold_left
      (fun score token =>
         if Py.startswith token "sig" then Py.fmax score 1.6
         else
           let score :=
             if Py.startswith token "s" && Qle_bool 0.60 (similarity token "signed")
             then Py.fmax score 1.35 else score in
           if Qle_bool 0.68 (similarity token "electronic")
           then Py.fmax score 1.15 else score)
      tokens score in
  (final == 0 \/ (1.15 <= final /\ final <= 2.0)) /\ score <= final.
Proof.
  revert score. induction tokens as [|token tokens IH]; intros score Hs; cbn zeta.
  - cbn [fold_left]. split; [exact Hs | apply Qle_refl].
  - cbn [fold_left].
    match goal with
    | |- context [fold_left ?f tokens ?s1] =>
        assert (Hstep : (s1 == 0 \/ (1.15 <= s1 /\ s1 <= 2.0)) /\ score <= s1)
    end.
    { destruct (Py.startswith token "sig").
      - split; [right; apply fmax_level; [exact Hs | discriminate | discriminate]
               | apply fmax_ge_l].
      - cbv zeta.
        assert (Hmid : let s1 := if Py.startswith token "s"
                                    && Qle_bool 0.60 (similarity token "signed")
                                 then Py.fmax score 1.35 else score in
                       (s1 == 0 \/ (1.15 <= s1 /\ s1 <= 2.0)) /\ score <= s1).
        { cbv zeta. destruct (_ && _).
          - split; [right; apply fmax_level; [exact Hs | discriminate | discriminate]
                   | apply fmax_ge_l].
          - split; [exact Hs | apply Qle_refl]. }
        cbv zeta in Hmid. destruct Hmid as [Hm1 Hm2].
        destruct (Qle_bool 0.68 _).
        + split; [right; apply fmax_level; [exact Hm1 | discriminate | discriminate]|].
          eapply Qle_trans; [exact Hm2 | apply fmax_ge_l].
        + split; assumption. }
    destruct Hstep as [Hs1 Hle1].
    destruct (IH _ Hs1) as [Hf Hlef]. cbv zeta in Hf, Hlef.
    split; [exact Hf|]. eapply Qle_trans; [exact Hle1 | exact Hlef].
Qed.

(** X16: the signature signal of a line lies between 0 and 2.25, it is
    zero or at least the signature threshold, and a line that contains
    "signed by" as words has the highest signal. *)
Theorem signature_signal_is_zero_or_passes :
  forall (text : string),
    0 <= _signature_line_signal text /\ _signature_line_signal text <= 2.25
    /\ (0 < _signature_line_signal text ->
        SIGNATURE_SIGNAL_THRESHOLD <= _signature_line_signal text)
    /\ (Py.contains " signed by " (" " ++ Py.lower text ++ " ") = true ->
        _signature_line_signal text == 2.25).
Proof.
  intros text. unfold _signature_line_signal. cbv zeta.
  set (lowered := (" " ++ Py.lower text ++ " ")%string).
  set (tokens := filter (fun token => (4 <=? Py.slen token)%Z) (text_tokens text)).
  set (start := if Py.contains " signed by " lowered || Py.contains " signature " lowered
                then Py.fmax 0.0 2.0 else 0.0).
  assert (Hstart : start == 0 \/ (1.15 <= start /\ start <= 2.0)).
  { unfold start. destruct (_ || _); [right | left; reflexivity].
    split; discriminate. }
  destruct (signal_loop_levels tokens start Hstart) as [Hfinal Hmono]. cbv zeta in Hfinal, Hmono.
  match type of Hfinal with
  | (?f == 0 \/ _) => set (final := f) in *
  end.
  assert (Hlevels : let result := if Py.Qltb 0 final && Py.contains " by " lowered
                                  then final + 0.25 else final in
                    result == 0 \/ (1.15 <= result /\ result <= 2.25)).
  { cbv zeta. destruct (Py.Qltb 0 final && Py.contains " by " lowered) eqn:E.
    - apply andb_true_iff in E. destruct E as [E _]. apply Qltb_lt in E.
      right. destruct Hfinal as [H0|[H1 H2]]; [rewrite H0 in E; discriminate|].
      split; lra.
    - destruct Hfinal as [H0|[H1 H2]]; [left; exact H0 | right]. split; lra. }
  cbv zeta in Hlevels.
  split; [|split; [|split]].
  - destruct Hlevels as [H|[H _]]; [rewrite H; discriminate | lra].
  - destruct Hlevels as [H|[_ H]]; [rewrite H; discriminate | exact H].
  - intros Hpos. unfold SIGNATURE_SIGNAL_THRESHOLD.
    destruct Hlevels as [H|[H _]]; [rewrite H in Hpos; discriminate | lra].
  - intros Hphrase.
    assert (Hby : Py.contains " by " lowered = true).
    { apply (contains_inside " by " " signed by " lowered); [reflexivity | exact Hphrase]. }
    assert (Hs2 : start == 2.0).
    { unfold start. rewrite Hphrase. reflexivity. }
    assert (Hf2 : final == 2.0).
    { apply Qle_antisym.
      - destruct Hfinal as [H|[_ H]]; [rewrite H; discriminate | exact H].
      - rewrite <- Hs2. exact Hmono. }
    assert (Hpos : Py.Qltb 0 final = true) by (apply Qltb_lt; rewrite Hf2; reflexivity).
    rewrite Hpos, Hby. cbn [andb]. rewrite Hf2. reflexivity.
Qed.

End Signal.

(** ** Question terms *)

Section Terms.

Import QA.

Lemma lower_char_idempotent (c : ascii) : Py.lower_char (Py.lower_char c) = Py.lower_char c.
Proof.
  destruct c as [[] [] [] [] [] [] [] []]; reflexivity.
Qed.

Lemma lower_idempotent (s : string) : Py.lower (Py.lower s) = Py.lower s.
Proof.
  induction s as [|c s IH]; [reflexivity|].
  cbn [Py.lower]. rewrite lower_char_idempotent, IH. reflexivity.
Qed.

Lemma sfilter_all (p : ascii -> bool) (s : string) (c : ascii) :
  In c (list_ascii_of_string (Py.sfilter p s)) -> p c = true.
Proof.
  induction s as [|a s IH]; cbn [Py.sfilter]; [intros []|].
  destruct (p a) eqn:E; [|exact IH].
  cbn [list_ascii_of_string]. intros [<-|H]; [exact E | apply IH, H].
Qed.

(** X17: the terms of a question are distinct, have three characters or
    more, are no stopwords, consist of lower-case letters and digits, and do
    not depend on the case of the question. *)
Theorem question_terms_are_normalized :
  forall (question : string),
    NoDup (_tokenize_question_terms question)
    /\ (forall term, In term (_tokenize_question_terms question) ->
          (3 <= Py.slen term)%Z
          /\ Py.mem_str term QUESTION_STOPWORDS = false
          /\ forall c, In c (list_ascii_of_string term) ->
                       Py.is_lower c || Py.is_digit c = true)
    /\ _tokenize_question_terms (Py.lower question) = _tokenize_question_terms question.
Proof.
  intros question. unfold _tokenize_question_terms, Py.set_of.
  split; [apply NoDup_nodup|]. split.
  - intros term Hin. apply nodup_In in Hin. apply filter_In in Hin.
    destruct Hin as [Hin Hkeep]. apply keeps_token_spec in Hkeep.
    destruct Hkeep as [Hlen Hstop]. split; [exact Hlen|]. split; [exact Hstop|].
    unfold text_tokens in Hin. apply in_map_iff in Hin. destruct Hin as [raw [<- _]].
    intros c. unfold _normalize_token. apply sfilter_all.
  - unfold text_tokens. rewrite lower_idempotent. reflexivity.
Qed.

(** ** Keyword overlap *)

Local Open Scope Q_scope.




End Terms.

Section GlobalFilterShape.

Import QA.

Local Open Scope Q_scope.

Lemma filter_walk_prefix (score_floor drop_ratio_stop : Q)
  (entries selected : list ScoredEvidenceItem) (previous_score : Q) :
  exists kept dropped,
    filter_walk score_floor drop_ratio_stop entries selected previous_score
    = selected ++ kept
    /\ entries = kept ++ dropped.
Proof.
  revert selected previous_score. induction entries as [|e entries IH];
    intros selected previous_score; cbn [filter_walk].
  - exists [], []. rewrite app_nil_r. split; reflexivity.
  - destruct (Py.Qltb (score e) score_floor).
    + exists [], (e :: entries). rewrite app_nil_r. split; reflexivity.
    + destruct (_ && _).
      * exists [], (e :: entries). rewrite app_nil_r. split; reflexivity.
      * destruct (IH (selected ++ [e]) (score e)) as [kept [dropped [Hk Hd]]].
        exists (e :: kept), dropped. rewrite Hk, <- app_assoc, Hd. split; reflexivity.
Qed.

Lemma slice_to_prefix {A : Type} (l : list A) (k : Z) :
  exists dropped, l = Py.slice_to l k ++ dropped.
Proof.
  unfold Py.slice_to. exists (skipn (Py.clamp_bound l k) l).
  symmetry. apply firstn_skipn.
Qed.

Lemma slice_to_length {A : Type} (l : list A) (k : Z) :
  (0 <= k)%Z -> (Py.len (Py.slice_to l k) <= k)%Z.
Proof.
  intros Hk. rewrite slice_to_firstn by exact Hk. unfold Py.len.
  pose proof (firstn_le_length (Z.to_nat k) l). lia.
Qed.

Lemma slice_to_head {A : Type} (x : A) (l : list A) (k : Z) :
  (0 < k)%Z -> exists l', Py.slice_to (x :: l) k = x :: l'.
Proof.
  intros Hk. rewrite slice_to_firstn by lia.
  destruct (Z.to_nat k) as [|n] eqn:E; [lia|]. cbn [firstn]. eexists. reflexivity.
Qed.

(** X19: the global filter returns a prefix of the items in ranking
    order (descending score, then page and position), keeps at least one item
    when there is one, and keeps at most [answer_max_evidence_items] when that
    is positive. *)
Theorem filtered_evidence_is_a_capped_prefix :
  forall (scored_items : list ScoredEvidenceItem) (settings : Settings),
    (exists dropped,
        Py.sorted
          (fun entry => [- score entry; inject_Z (ev_page (item entry));
                         by1 (ev_bbox (item entry)); bx1 (ev_bbox (item entry))])
          scored_items
        = _filter_scored_evidence scored_items settings ++ dropped)
    /\ (scored_items <> [] -> _filter_scored_evidence scored_items settings <> [])
    /\ ((0 < answer_max_evidence_items settings)%Z ->
        (Py.len (_filter_scored_evidence scored_items settings)
         <= answer_max_evidence_items settings)%Z).
Proof.
  intros scored_items settings. unfold _filter_scored_evidence.
  destruct scored_items as [|s0 items0] eqn:Eitems.
  - conjs; [exists []; reflexivity | intros H; contradiction | intros H; unfold Py.len; cbn; lia].
  - rewrite <- Eitems.
    set (ordered := Py.sorted _ scored_items).
    destruct ordered as [|first rest] eqn:Eordered.
    + exfalso. assert (Hlen : List.length ordered = List.length scored_items)
        by apply sorted_by_length.
      rewrite Eordered, Eitems in Hlen. discriminate.
    + destruct (Qle_bool (score first) 0).
      * destruct (slice_to_head first rest 1 ltac:(lia)) as [l' Hhead].
        conjs.
        -- apply slice_to_prefix.
        -- intros _. rewrite Hhead. discriminate.
        -- intros Hcap. eapply Z.le_trans; [apply slice_to_length; lia | lia].
      * cbv zeta.
        match goal with
        | |- context [filter_walk ?f ?d rest [first] ?p] =>
            destruct (filter_walk_prefix f d rest [first] p) as [kept [dropped [Hk Hd]]];
            rewrite Hk
        end.
        destruct (Z.ltb_spec 0 (answer_max_evidence_items settings)) as [Hcap|Hnocap].
        -- destruct (slice_to_head first kept (answer_max_evidence_items settings) Hcap)
             as [l' Hhead].
           conjs.
           ++ destruct (slice_to_prefix ([first] ++ kept)
                                        (answer_max_evidence_items settings)) as [d' Hd'].
              exists (d' ++ dropped). rewrite app_assoc, <- Hd', Hd. reflexivity.
           ++ intros _. cbn [app]. rewrite Hhead. discriminate.
           ++ intros _. apply slice_to_length. lia.
        -- conjs.
           ++ exists dropped. rewrite Hd. reflexivity.
           ++ intros _. discriminate.
           ++ intros Hcap. lia.
Qed.

End GlobalFilterShape.

Section Neighbours.

Import QA.

Local Open Scope Z_scope.

Lemma umem_false_not_In (x : UUID) (l : list UUID) : umem x l = false -> ~ In x l.
Proof.
  intros H Hin. assert (umem x l = true); [|congruence].
  apply existsb_exists. exists x. split; [exact Hin | apply N.eqb_refl].
Qed.

Lemma umem_true_In (x : UUID) (l : list UUID) : umem x l = true -> In x l.
Proof.
  intros H. apply existsb_exists in H. destruct H as [y [Hin Heq]].
  apply N.eqb_eq in Heq. subst y. exact Hin.
Qed.

Lemma dict_get_In {V : Type} (d : list (Z * V)) (key : Z) (v : V) :
  Py.dict_get d key = Some v -> In (key, v) d.
Proof.
  unfold Py.dict_get. destruct (find _ (rev d)) as [[k v']|] eqn:E; [|discriminate].
  cbn. intros H. injection H as <-. apply find_some in E. destruct E as [Hin Hk].
  cbn in Hk. apply Z.eqb_eq in Hk. subst k. apply in_rev. exact Hin.
Qed.

(** The first loop: the chunks handed in, each id once. *)
Lemma expand_first_loop (present : list Z) (chunks : list RetrievedChunk) :
  forall (expanded : list RetrievedChunk) (seen : list UUID) (neighbours : list Z),
    seen = map rc_id expanded -> NoDup seen ->
    let '(expanded', seen', _) :=
      fold_left
        (fun st chunk =>
           let '(expanded, seen_ids, neighbor_indices) := st in
           let '(expanded, seen_ids) :=
             if negb (umem (rc_id chunk) seen_ids)
             then (expanded ++ [chunk], seen_ids ++ [rc_id chunk])
             else (expanded, seen_ids) in
           let neighbor_indices :=
             if negb (zmem (rc_chunk_index chunk + 1) present)
             then Py.zset_of (neighbor_indices ++ [rc_chunk_index chunk + 1])
             else neighbor_indices in
           let neighbor_indices :=
             if (0 <? rc_chunk_index chunk)
                && negb (zmem (rc_chunk_index chunk - 1) present)
             then Py.zset_of (neighbor_indices ++ [rc_chunk_index chunk - 1])
             else neighbor_indices in
           (expanded, seen_ids, neighbor_indices))
        chunks (expanded, seen, neighbours) in
    seen' = map rc_id expanded' /\ NoDup seen'
    /\ (forall e, In e expanded' -> In e expanded \/ In e chunks)
    /\ (forall id, In id seen \/ In id (map rc_id chunks) -> In id seen').
Proof.
  induction chunks as [|chunk chunks IH]; intros expanded seen neighbours Hseen Hnd.
  - cbn [fold_left]. conjs; try assumption.
    + intros e He. left. exact He.
    + intros id [H|[]]. exact H.
  - cbn [fold_left].
    destruct (umem (rc_id chunk) seen) eqn:Emem; cbn [negb].
    + match goal with
      | |- context [fold_left ?f chunks (expanded, seen, ?n)] =>
          specialize (IH expanded seen n Hseen Hnd);
          destruct (fold_left f chunks (expanded, seen, n)) as [[expanded' seen'] n']
      end.
      destruct IH as [H1 [H2 [H3 H4]]]. conjs; try assumption.
      * intros e He. destruct (H3 e He) as [H|H]; [left; exact H | right; right; exact H].
      * intros id [H|[<-|H]].
        -- apply H4. left. exact H.
        -- apply H4. left. apply umem_true_In, Emem.
        -- apply H4. right. exact H.
    + match goal with
      | |- context [fold_left ?f chunks (expanded ++ [chunk], seen ++ [rc_id chunk], ?n)] =>
          specialize (IH (expanded ++ [chunk]) (seen ++ [rc_id chunk]) n);
          destruct (fold_left f chunks (expanded ++ [chunk], seen ++ [rc_id chunk], n))
            as [[expanded' seen'] n']
      end.
      destruct IH as [H1 [H2 [H3 H4]]].
      * rewrite Hseen, map_app. reflexivity.
      * apply NoDup_app; [exact Hnd | constructor; [intros [] | constructor] |].
        intros a Ha [<-|[]]. apply (umem_false_not_In _ _ Emem Ha).
      * conjs; try assumption.
        -- intros e He. destruct (H3 e He) as [H|H]; [|right; right; exact H].
           apply in_app_or in H. destruct H as [H|[<-|[]]];
             [left; exact H | right; left; reflexivity].
        -- intros id [H|[<-|H]].
           ++ apply H4. left. apply in_or_app. left. exact H.
           ++ apply H4. left. apply in_or_app. right. left. reflexivity.
           ++ apply H4. right. exact H.
Qed.

(** The second loop: the rows next to a chunk handed in, each id once. *)
Lemma expand_second_loop (rows : list (Z * Chunk)) (indices : list Z) :
  forall (expanded : list RetrievedChunk) (seen : list UUID),
    seen = map rc_id expanded -> NoDup seen ->
    let '(expanded', seen') :=
      fold_left
        (fun st neighbor_index =>
           let '(expanded, seen_ids) := st in
           match Py.dict_get rows neighbor_index with
           | None => st
           | Some neighbor_row =>
               if umem (chunk_id neighbor_row) seen_ids then st
               else (expanded ++ [retrieved_of_row neighbor_row],
                     seen_ids ++ [chunk_id neighbor_row])
           end)
        indices (expanded, seen) in
    seen' = map rc_id expanded' /\ NoDup seen'
    /\ incl expanded expanded'
    /\ (forall e, In e expanded' ->
          In e expanded
          \/ exists index row, In index indices /\ In (index, row) rows
                               /\ e = retrieved_of_row row).
Proof.
  induction indices as [|index indices IH]; intros expanded seen Hseen Hnd.
  - cbn [fold_left]. conjs; try assumption.
    + intros e He. exact He.
    + intros e He. left. exact He.
  - cbn [fold_left].
    assert (Hskip : let '(expanded', seen') :=
                      fold_left
                        (fun st neighbor_index =>
                           let '(expanded, seen_ids) := st in
                           match Py.dict_get rows neighbor_index with
                           | None => st
                           | Some neighbor_row =>
                               if umem (chunk_id neighbor_row) seen_ids then st
                               else (expanded ++ [retrieved_of_row neighbor_row],
                                     seen_ids ++ [chunk_id neighbor_row])
                           end)
                        indices (expanded, seen) in
                    seen' = map rc_id expanded' /\ NoDup seen'
                    /\ incl expanded expanded'
                    /\ (forall e, In e expanded' ->
                          In e expanded
                          \/ exists index0 row, In index0 (index :: indices)
                                                /\ In (index0, row) rows
                                                /\ e = retrieved_of_row row)).
    { specialize (IH expanded seen Hseen Hnd).
      destruct (fold_left _ indices (expanded, seen)) as [expanded' seen'].
      destruct IH as [H1 [H2 [H3 H4]]]. conjs; try assumption.
      intros e He. destruct (H4 e He) as [H|[i [row [Hi [Hrow He']]]]]; [left; exact H|].
      right. exists i, row. conjs; try assumption. right. exact Hi. }
    destruct (Py.dict_get rows index) as [row|] eqn:Eget; [|exact Hskip].
    destruct (umem (chunk_id row) seen) eqn:Emem; [exact Hskip|]. clear Hskip.
    specialize (IH (expanded ++ [retrieved_of_row row]) (seen ++ [chunk_id row])).
    destruct (fold_left _ indices (expanded ++ [retrieved_of_row row], seen ++ [chunk_id row]))
      as [expanded' seen'].
    destruct IH as [H1 [H2 [H3 H4]]].
    + rewrite Hseen, map_app. reflexivity.
    + apply NoDup_app; [exact Hnd | constructor; [intros [] | constructor] |].
      intros a Ha [<-|[]]. apply (umem_false_not_In _ _ Emem Ha).
    + conjs; try assumption.
      * intros e He. apply H3. apply in_or_app. left. exact He.
      * intros e He. destruct (H4 e He) as [H|[i [row' [Hi [Hrow He']]]]].
        -- apply in_app_or in H. destruct H as [H|[<-|[]]]; [left; exact H|].
           right. exists index, row. conjs; [left; reflexivity | apply dict_get_In, Eget].
        -- right. exists i, row'. conjs; try assumption. right. exact Hi.
Qed.

Lemma expand_outer_loop (rows : list (Z * Chunk)) (chunks : list RetrievedChunk) :
  forall (expanded : list RetrievedChunk) (seen : list UUID),
    seen = map rc_id expanded -> NoDup seen ->
    let '(expanded', seen') :=
      fold_left
        (fun st chunk =>
           fold_left
             (fun st neighbor_index =>
                let '(expanded, seen_ids) := st in
                match Py.dict_get rows neighbor_index with
                | None => st
                | Some neighbor_row =>
                    if umem (chunk_id neighbor_row) seen_ids then st
                    else (expanded ++ [retrieved_of_row neighbor_row],
                          seen_ids ++ [chunk_id neighbor_row])
                end)
             [rc_chunk_index chunk + 1; rc_chunk_index chunk - 1] st)
        chunks (expanded, seen) in
    seen' = map rc_id expanded' /\ NoDup seen'
    /\ incl expanded expanded'
    /\ (forall e, In e expanded' ->
          In e expanded
          \/ exists chunk row,
               In chunk chunks
               /\ (In (rc_chunk_index chunk + 1, row) rows
                   \/ In (rc_chunk_index chunk - 1, row) rows)
               /\ e = retrieved_of_row row).
Proof.
  induction chunks as [|chunk chunks IH]; intros expanded seen Hseen Hnd.
  - cbn [fold_left]. conjs; try assumption.
    + intros e He. exact He.
    + intros e He. left. exact He.
  - match goal with
    | |- context [fold_left ?f (chunk :: chunks) ?a] =>
        change (fold_left f (chunk :: chunks) a) with (fold_left f chunks (f a chunk))
    end.
    cbv beta.
    pose proof (expand_second_loop rows [rc_chunk_index chunk + 1; rc_chunk_index chunk - 1]
                                   expanded seen Hseen Hnd) as Hinner.
    match type of Hinner with
    | (let '(_, _) := ?inner in _) => destruct inner as [expanded1 seen1]
    end.
    destruct Hinner as [H1 [H2 [H3 H4]]].
    specialize (IH expanded1 seen1 H1 H2).
    destruct (fold_left _ chunks (expanded1, seen1)) as [expanded' seen'].
    destruct IH as [K1 [K2 [K3 K4]]]. conjs; try assumption.
    + intros e He. apply K3, H3, He.
    + intros e He. destruct (K4 e He) as [H|[c [row [Hc [Hrow He']]]]].
      * destruct (H4 e H) as [H'|[i [row [Hi [Hrow He']]]]]; [left; exact H'|].
        right. exists chunk, row. conjs; [left; reflexivity | | exact He'].
        destruct Hi as [<-|[<-|[]]]; [left | right]; exact Hrow.
      * right. exists c, row. conjs; [right; exact Hc | exact Hrow | exact He'].
Qed.

(** X20: the chunks searched for evidence have distinct ids, include
    every cited chunk, and apart from the cited chunks hold only chunks of the
    same document whose index is next to the index of a cited chunk. *)
Theorem evidence_chunks_are_the_cited_ones_and_their_neighbours :
  forall (db : Session) (document_id : UUID) (chunks : list RetrievedChunk),
    NoDup (map rc_id (_expand_chunks_for_evidence db document_id chunks))
    /\ (forall chunk, In chunk chunks ->
          In (rc_id chunk) (map rc_id (_expand_chunks_for_evidence db document_id chunks)))
    /\ (forall e, In e (_expand_chunks_for_evidence db document_id chunks) ->
          In e chunks
          \/ exists chunk row,
               In chunk chunks /\ In row (chunks_of db)
               /\ chunk_document_id row = document_id
               /\ (chunk_index row = rc_chunk_index chunk + 1
                   \/ chunk_index row = rc_chunk_index chunk - 1)
               /\ e = retrieved_of_row row).
Proof.
  intros db document_id chunks. unfold _expand_chunks_for_evidence.
  destruct chunks as [|c0 chunks0] eqn:Echunks.
  - conjs; [constructor | intros chunk [] | intros e []].
  - rewrite <- Echunks.
    pose proof (expand_first_loop (Py.zset_of (map rc_chunk_index chunks)) chunks [] [] []
                                  eq_refl (NoDup_nil _)) as Hfirst.
    match type of Hfirst with
    | context [fold_left ?f chunks ?a] =>
        destruct (fold_left f chunks a) as [[expanded seen] neighbours] eqn:Eloop
    end.
    destruct Hfirst as [F1 [F2 [F3 F4]]].
    assert (Hcited : forall chunk, In chunk chunks -> In (rc_id chunk) seen).
    { intros chunk Hc. apply F4. right. apply in_map. exact Hc. }
    assert (Hold : forall e, In e expanded -> In e chunks).
    { intros e He. destruct (F3 e He) as [[]|H]. exact H. }
    destruct neighbours as [|n0 neighbours0] eqn:Eneigh.
    + rewrite <- F1. conjs; [exact F2 | exact Hcited |].
      intros e He. left. apply Hold, He.
    + rewrite <- Eneigh.
      set (rows := map (fun row => (chunk_index row, row))
                       (Py.sorted (fun row => [inject_Z (chunk_index row)])
                          (filter (fun row => N.eqb (chunk_document_id row) document_id
                                              && zmem (chunk_index row) neighbours)
                                  (chunks_of db)))).
      pose proof (expand_outer_loop rows chunks expanded seen F1 F2) as Hsecond.
      match type of Hsecond with
      | context [fold_left ?f chunks ?a] =>
          destruct (fold_left f chunks a) as [expanded' seen'] eqn:Eloop2
      end.
      destruct Hsecond as [S1 [S2 [S3 S4]]]. cbn [fst].
      rewrite <- S1. conjs; [exact S2 | |].
      * intros chunk Hc. rewrite S1.
        assert (Hin : In (rc_id chunk) (map rc_id expanded)).
        { rewrite <- F1. apply Hcited, Hc. }
        apply in_map_iff in Hin. destruct Hin as [e [He Hin]].
        apply in_map_iff. exists e. split; [exact He | apply S3, Hin].
      * intros e He. destruct (S4 e He) as [H|[chunk [row [Hc [Hrow He']]]]];
          [left; apply Hold, H|].
        right. exists chunk, row.
        assert (Hrows : forall index, In (index, row) rows ->
                          In row (chunks_of db) /\ chunk_document_id row = document_id
                          /\ chunk_index row = index).
        { intros index Hin. unfold rows in Hin. apply in_map_iff in Hin.
          destruct Hin as [row' [Heq Hin]]. injection Heq as <- ->.
          apply sorted_In in Hin. apply filter_In in Hin. destruct Hin as [Hin Hf].
          apply andb_true_iff in Hf. destruct Hf as [Hdoc _]. apply N.eqb_eq in Hdoc.
          conjs; assumption. }
        destruct Hrow as [Hrow|Hrow]; destruct (Hrows _ Hrow) as [R1 [R2 R3]];
          conjs; try assumption; [left | right]; exact R3.
Qed.

End Neighbours.

Lemma StronglySorted_map {A B : Type} (R : B -> B -> Prop) (f : A -> B) (l : list A) :
  StronglySorted (fun x y => R (f x) (f y)) l -> StronglySorted R (map f l).
Proof.
  intros Hs. induction Hs as [|x l Hs IH Hall]; cbn [map]; constructor; [exact IH|].
  apply Forall_map. exact Hall.
Qed.

Section BuiltEvidence.

Context {ext : Externals}.

Import QA.

Local Open Scope Q_scope.

Lemma filter_scored_evidence_prefix (scored_items : list ScoredEvidenceItem)
  (settings : Settings) :
  exists dropped,
    Py.sorted
      (fun entry => [- score entry; inject_Z (ev_page (item entry));
                     by1 (ev_bbox (item entry)); bx1 (ev_bbox (item entry))])
      scored_items
    = _filter_scored_evidence scored_items settings ++ dropped.
Proof.
  unfold _filter_scored_evidence.
  destruct scored_items as [|s0 items0] eqn:Eitems; [exists []; reflexivity|].
  rewrite <- Eitems.
  set (ordered := Py.sorted _ scored_items).
  destruct ordered as [|first rest] eqn:Eordered; [exists []; reflexivity|].
  destruct (Qle_bool (score first) 0); [apply slice_to_prefix|].
  cbv zeta.
  match goal with
  | |- context [filter_walk ?f ?d rest [first] ?p] =>
      destruct (filter_walk_prefix f d rest [first] p) as [kept [dropped [Hk Hd]]];
      rewrite Hk
  end.
  destruct (0 <? answer_max_evidence_items settings)%Z.
  - destruct (slice_to_prefix ([first] ++ kept) (answer_max_evidence_items settings))
      as [d' Hd'].
    exists (d' ++ dropped). rewrite app_assoc, <- Hd', Hd. reflexivity.
  - exists dropped. rewrite Hd. reflexivity.
Qed.

Lemma upsert_scored_keys (scored_by_key : list (string * ScoredEvidenceItem))
  (key : string) (scored : ScoredEvidenceItem) :
  map fst (upsert_scored scored_by_key key scored) = map fst scored_by_key
  \/ (~ In key (map fst scored_by_key)
      /\ map fst (upsert_scored scored_by_key key scored) = map fst scored_by_key ++ [key]).
Proof.
  induction scored_by_key as [|[k existing] rest IH]; cbn [upsert_scored].
  - right. split; [intros [] | reflexivity].
  - destruct (String.eqb k key) eqn:E.
    + left. destruct (Py.Qltb _ _); reflexivity.
    + apply String.eqb_neq in E. destruct IH as [IH|[Hnot IH]].
      * left. cbn [map fst]. rewrite IH. reflexivity.
      * right. split.
        -- intros [H|H]; [cbn in H; congruence | exact (Hnot H)].
        -- cbn [map fst app]. rewrite IH. reflexivity.
Qed.

Lemma upsert_scored_keyed (scored_by_key : list (string * ScoredEvidenceItem))
  (scored : ScoredEvidenceItem) :
  NoDup (map fst scored_by_key) ->
  (forall kv, In kv scored_by_key -> fst kv = evidence_key (item (snd kv))) ->
  NoDup (map fst (upsert_scored scored_by_key (evidence_key (item scored)) scored))
  /\ (forall kv, In kv (upsert_scored scored_by_key (evidence_key (item scored)) scored) ->
        fst kv = evidence_key (item (snd kv))).
Proof.
  intros Hnd Hkeys. split.
  - destruct (upsert_scored_keys scored_by_key (evidence_key (item scored)) scored)
      as [->|[Hnot ->]]; [exact Hnd|].
    apply NoDup_app; [exact Hnd | constructor; [intros [] | constructor] |].
    intros a Ha [<-|[]]. exact (Hnot Ha).
  - clear Hnd. induction scored_by_key as [|[k existing] rest IH]; cbn [upsert_scored].
    + intros kv [<-|[]]. reflexivity.
    + destruct (String.eqb k (evidence_key (item scored))) eqn:E.
      * apply String.eqb_eq in E.
        destruct (Py.Qltb _ _).
        -- intros kv [<-|Hin]; [exact E | apply Hkeys; right; exact Hin].
        -- intros kv Hin. apply Hkeys. exact Hin.
      * intros kv [<-|Hin]; [apply (Hkeys (k, existing)); left; reflexivity|].
        apply IH; [|exact Hin]. intros kv' Hin'. apply Hkeys. right. exact Hin'.
Qed.

Lemma upsert_fold_keyed (chunk_items : list ScoredEvidenceItem) :
  forall scored_by_key,
    NoDup (map fst scored_by_key) ->
    (forall kv, In kv scored_by_key -> fst kv = evidence_key (item (snd kv))) ->
    NoDup (map fst (fold_left
                      (fun scored_by_key scored =>
                         upsert_scored scored_by_key (evidence_key (item scored)) scored)
                      chunk_items scored_by_key))
    /\ (forall kv,
          In kv (fold_left
                   (fun scored_by_key scored =>
                      upsert_scored scored_by_key (evidence_key (item scored)) scored)
                   chunk_items scored_by_key) ->
          fst kv = evidence_key (item (snd kv))).
Proof.
  induction chunk_items as [|scored chunk_items IH]; intros sbk Hnd Hkeys.
  - split; assumption.
  - cbn [fold_left]. destruct (upsert_scored_keyed sbk scored Hnd Hkeys) as [H1 H2].
    apply IH; assumption.
Qed.

Lemma key_lt_prefix3 (a1 a2 a3 a4 b1 b2 b3 b4 : Q) :
  Py.key_lt [a1; a2; a3; a4] [b1; b2; b3; b4] = false ->
  Py.key_lt [a1; a2; a3] [b1; b2; b3] = false.
Proof.
  cbn [Py.key_lt].
  destruct (Qeq_bool a1 b1); [|intros H; exact H].
  destruct (Qeq_bool a2 b2); [|intros H; exact H].
  destruct (Qeq_bool a3 b3); [reflexivity | intros H; exact H].
Qed.

(** X21: the evidence returned has no two items with the same page,
    text and box, and is ordered by page, then top edge, then left edge. *)
Theorem built_evidence_is_deduplicated_and_in_reading_order :
  forall (db : Session) (settings : Settings) (question answer : string)
         (document_id : UUID) (chunks : list RetrievedChunk) (evidence : list EvidenceItem),
    _build_evidence db settings question answer document_id chunks = Returned evidence ->
    NoDup (map evidence_key evidence)
    /\ StronglySorted
         (fun earlier later =>
            Py.key_lt [inject_Z (ev_page later); by1 (ev_bbox later); bx1 (ev_bbox later)]
                      [inject_Z (ev_page earlier); by1 (ev_bbox earlier);
                       bx1 (ev_bbox earlier)]
            = false)
         evidence.
Proof.
  intros db settings question answer document_id chunks evidence.
  unfold _build_evidence.
  destruct (_normalize_evidence_weights _ _) as [question_weight answer_weight].
  intros H. apply bind_returned in H. destruct H as [scored_by_key [Hfold Hres]].
  assert (Hinv : NoDup (map fst scored_by_key)
                 /\ forall kv, In kv scored_by_key -> fst kv = evidence_key (item (snd kv))).
  { revert Hfold.
    apply (foldM_invariant
             (fun sbk => NoDup (map fst sbk)
                         /\ forall kv, In kv sbk -> fst kv = evidence_key (item (snd kv)))).
    - intros acc chunk acc' _ [Hnd Hkeys] Hbody.
      apply bind_returned in Hbody. destruct Hbody as [chunk_items [_ Hret]].
      injection Hret as <-. apply upsert_fold_keyed; assumption.
    - split; [constructor | intros kv []]. }
  destruct Hinv as [Hnd Hkeys].
  destruct scored_by_key as [|kv0 sbk0] eqn:Esbk.
  - injection Hres as <-. split; constructor.
  - rewrite <- Esbk in *. injection Hres as <-.
    set (filtered := _filter_scored_evidence (map snd scored_by_key) settings).
    split.
    + rewrite map_map.
      apply (Permutation_NoDup
               (Permutation_map (fun entry => evidence_key (item entry))
                  (Permutation_sym (sorted_perm _ filtered)))).
      destruct (filter_scored_evidence_prefix (map snd scored_by_key) settings)
        as [dropped Hprefix]. fold filtered in Hprefix.
      assert (Hall : NoDup (map (fun entry => evidence_key (item entry))
                                (filtered ++ dropped))).
      { rewrite <- Hprefix.
        apply (Permutation_NoDup
                 (Permutation_map (fun entry => evidence_key (item entry))
                    (Permutation_sym (sorted_perm _ (map snd scored_by_key))))).
        rewrite map_map.
        rewrite (map_ext_in _ fst); [exact Hnd|].
        intros kv Hin. symmetry. apply Hkeys, Hin. }
      rewrite map_app in Hall. apply NoDup_app_remove_r in Hall. exact Hall.
    + apply StronglySorted_map. unfold ordered_for_display.
      eapply StronglySorted_weaken; [|apply sorted_sorted].
      intros earlier later Hkey. apply key_lt_prefix3 in Hkey. exact Hkey.
Qed.

End BuiltEvidence.

Section ChatRequestFacts.

Context {provider : ChatProvider}.

Import QA.

Lemma first_choice_content_nonempty (choices : list (option string)) (content : string) :
  first_choice_content choices = Returned content -> content <> EmptyString.
Proof.
  unfold first_choice_content. intros H. apply bind_returned in H.
  destruct H as [c [_ H]]. injection H as <-.
  destruct c as [text|]; [|discriminate].
  destruct text; cbn; discriminate.
Qed.

Lemma responses_api_nonempty (model_name : string) (calls : list ProviderCall)
  (content : string) :
  _create_response_via_responses_api model_name = (calls, Returned content) ->
  content <> EmptyString.
Proof.
  unfold _create_response_via_responses_api. cbv zeta. intros H. injection H as _ H.
  destruct (responses_create _ _) as [response|message|exc]; try discriminate.
  destruct (Py.is_empty (Py.strip _)) eqn:E1; cbn [negb] in H.
  - injection H as <-.
    match goal with |- (if Py.is_empty ?j then _ else _) <> _ => destruct j end;
      cbn; discriminate.
  - injection H as <-. intros Hempty. rewrite Hempty in E1. discriminate.
Qed.

(** X22: whichever request path answers, the text returned for the chat
    model is never empty. *)
Theorem chat_reply_is_never_empty :
  forall (settings : Settings) (calls : list ProviderCall) (content : string),
    _create_llm_json_response settings = (calls, Returned content) ->
    content <> EmptyString.
Proof.
  intros settings calls content. unfold _create_llm_json_response. cbv zeta.
  unfold _create_llm_json_response_for_model. cbv zeta.
  destruct (chat_completions_create _) as [choices|message|exc].
  - intros H. injection H as _ H. apply (first_choice_content_nonempty _ _ H).
  - destruct (negb (chat_request_eqb _ _)).
    + destruct (chat_completions_create _) as [choices|retry_message|exc].
      * intros H. injection H as _ H. apply (first_choice_content_nonempty _ _ H).
      * destruct (_ || _).
        -- destruct (_create_response_via_responses_api _) as [calls' result] eqn:E.
           intros H. injection H as _ H. subst result.
           apply (responses_api_nonempty _ _ _ E).
        -- discriminate.
      * discriminate.
    + destruct (_ || _).
      * destruct (_create_response_via_responses_api _) as [calls' result] eqn:E.
        intros H. injection H as _ H. subst result.
        apply (responses_api_nonempty _ _ _ E).
      * discriminate.
  - discriminate.
Qed.

(** X23: one question makes at most two chat-completions requests
    and at most one Responses request, in this order; a second request of any
    kind is made only after the first was refused as a bad request, and the
    retried chat request differs from the first only in having dropped
    [response_format], the temperature, or both. *)
Theorem chat_requests_are_retried_at_most_once :
  forall (settings : Settings),
    let model := Py.strip (openai_chat_model settings) in
    let temperature := if _is_gpt5_family_model model then None else Some 0.1%Q in
    let first := mk_chat_request model true temperature in
    let calls := fst (_create_llm_json_response settings) in
    (calls = [ChatCall first]
     \/ calls = [ChatCall first; ResponsesCall model temperature]
     \/ exists retry,
          (calls = [ChatCall first; ChatCall retry]
           \/ calls = [ChatCall first; ChatCall retry; ResponsesCall model temperature])
          /\ req_model retry = model
          /\ chat_request_eqb retry first = false
          /\ (req_response_format retry = false \/ req_temperature retry = None)
          /\ (req_temperature retry = None \/ req_temperature retry = temperature))
    /\ (List.length calls > 1 ->
        exists message, chat_completions_create first = BadRequest message)%nat.
Proof.
  intros settings. cbv zeta. unfold _create_llm_json_response. cbv zeta.
  unfold _create_llm_json_response_for_model. cbv zeta.
  set (model := Py.strip (openai_chat_model settings)).
  assert (Htemp : (if negb (_is_gpt5_family_model model) then Some 0.1%Q else None)
                  = (if _is_gpt5_family_model model then None else Some 0.1%Q)).
  { destruct (_is_gpt5_family_model model); reflexivity. }
  rewrite Htemp.
  set (temperature := if _is_gpt5_family_model model then None else Some 0.1%Q).
  set (first := mk_chat_request model true temperature).
  assert (Hresponses : fst (_create_response_via_responses_api model)
                       = [ResponsesCall model temperature]).
  { unfold _create_response_via_responses_api. cbv zeta. cbn [fst]. rewrite Htemp.
    reflexivity. }
  destruct (chat_completions_create first) as [choices|message|exc] eqn:Efirst.
  - cbn [fst]. split; [left; reflexivity | cbn; lia].
  - split; [|intros _; exists message; reflexivity].
    set (lowered := Py.lower message).
    set (retry :=
           if Py.contains "temperature" lowered
           then mk_chat_request
                  (req_model (if Py.contains "response_format" lowered
                              then mk_chat_request (req_model first) false
                                                   (req_temperature first)
                              else first))
                  (req_response_format (if Py.contains "response_format" lowered
                                        then mk_chat_request (req_model first) false
                                                             (req_temperature first)
                                        else first))
                  None
           else if Py.contains "response_format" lowered
                then mk_chat_request (req_model first) false (req_temperature first)
                else first).
    assert (Hretry : req_model retry = model
                     /\ (chat_request_eqb retry first = false ->
                         req_response_format retry = false \/ req_temperature retry = None)
                     /\ (req_temperature retry = None
                         \/ req_temperature retry = temperature)).
    { unfold retry. destruct (Py.contains "temperature" lowered),
        (Py.contains "response_format" lowered); cbn; conjs;
        try (intros _; left; reflexivity); try (intros _; right; reflexivity);
        try (left; reflexivity); try (right; reflexivity).
      intros H. exfalso. unfold chat_request_eqb, first in H. cbn in H.
      rewrite String.eqb_refl in H. cbn in H. unfold temperature in H.
      destruct (_is_gpt5_family_model model); cbn in H; discriminate. }
    destruct Hretry as [R1 [R2 R3]].
    destruct (chat_request_eqb retry first) eqn:Eeq; cbn [negb].
    + destruct (_ || _).
      * destruct (_create_response_via_responses_api model) as [calls' result].
        cbn [fst] in Hresponses |- *. subst calls'. right. left. reflexivity.
      * left. reflexivity.
    + destruct (chat_completions_create retry) as [choices|retry_message|exc'].
      * right. right. exists retry. conjs; try assumption; [left; reflexivity | apply R2; reflexivity].
      * destruct (_ || _).
        -- destruct (_create_response_via_responses_api model) as [calls' result].
           cbn [fst] in Hresponses |- *. subst calls'.
           right. right. exists retry. conjs; try assumption;
             [right; reflexivity | apply R2; reflexivity].
        -- right. right. exists retry. conjs; try assumption;
             [left; reflexivity | apply R2; reflexivity].
      * right. right. exists retry. conjs; try assumption;
          [left; reflexivity | apply R2; reflexivity].
  - cbn [fst]. split; [left; reflexivity | cbn; lia].
Qed.

End ChatRequestFacts.

(** ** Tasks that keep a relation between the sessions *)

Section Preserves.

Variable R : Session -> Session -> Prop.
Hypothesis R_refl : forall db, R db db.
Hypothesis R_trans : forall db1 db2 db3, R db1 db2 -> R db2 db3 -> R db1 db3.

Lemma preserves_tret {A : Type} (a : A) : preserves R (tret a).
Proof. intros db db' logs result H. injection H as <- _ _. apply R_refl. Qed.

Lemma preserves_lift {A : Type} (o : outcome A) : preserves R (lift o).
Proof. intros db db' logs result H. injection H as <- _ _. apply R_refl. Qed.

Lemma preserves_traise {A : Type} (c : exn_class) (msg : string) :
  preserves R (@traise A c msg).
Proof. apply preserves_lift. Qed.

Lemma preserves_tlog (lvl : log_level) (msg : string) : preserves R (tlog lvl msg).
Proof. intros db db' logs result H. injection H as <- _ _. apply R_refl. Qed.

Lemma preserves_tget : preserves R tget.
Proof. intros db db' logs result H. injection H as <- _ _. apply R_refl. Qed.

Lemma preserves_tbind {A B : Type} (m : task A) (k : A -> task B) :
  preserves R m -> (forall a, preserves R (k a)) -> preserves R (tbind m k).
Proof.
  intros Hm Hk db db' logs result H. unfold tbind in H.
  destruct (m db) as [[db1 logs1] [a|exc]] eqn:Em.
  - destruct (k a db1) as [[db2 logs2] r] eqn:Ek. injection H as <- _ _.
    apply R_trans with db1; [apply (Hm _ _ _ _ Em) | apply (Hk a _ _ _ _ Ek)].
  - injection H as <- _ _. apply (Hm _ _ _ _ Em).
Qed.

Lemma preserves_tfold {A S : Type} (body : S -> A -> task S) (l : list A) :
  (forall acc x, preserves R (body acc x)) -> forall acc, preserves R (tfold body l acc).
Proof.
  intros Hbody. induction l as [|x l IH]; intros acc; cbn [tfold].
  - apply preserves_tret.
  - apply preserves_tbind; [apply Hbody | exact IH].
Qed.

Lemma preserves_try_except {A : Type} (m : task A) (handler : exn -> task A) :
  preserves R m -> (forall exc, preserves R (handler exc)) ->
  preserves R (try_except m handler).
Proof.
  intros Hm Hh db db' logs result H. unfold try_except in H.
  destruct (m db) as [[db1 logs1] [a|exc]] eqn:Em.
  - injection H as <- _ _. apply (Hm _ _ _ _ Em).
  - destruct (handler exc db1) as [[db2 logs2] r] eqn:Eh. injection H as <- _ _.
    apply R_trans with db1; [apply (Hm _ _ _ _ Em) | apply (Hh exc _ _ _ _ Eh)].
Qed.

End Preserves.

Lemma filter_all_false_in {A : Type} (p : A -> bool) (l : list A) :
  (forall x, In x l -> p x = false) -> filter p l = [].
Proof.
  induction l as [|x l IH]; intros H; [reflexivity|].
  cbn [filter]. rewrite (H x (or_introl eq_refl)). apply IH.
  intros y Hy. apply H. right. exact Hy.
Qed.

Section Backfill.

Context {ext : Externals}.

Import QA.

(** What a run of assignments does to the chunk rows: a map [g] over them
    that changes embeddings only, keeps the embeddings there are, and gives
    one to every row whose id is in [ids]. *)
Local Abbreviation assigns g ids :=
  (forall row,
      forget_embedding (g row) = forget_embedding row
      /\ (chunk_embedding row <> None -> chunk_embedding (g row) <> None)
      /\ (In (chunk_id row) ids -> chunk_embedding (g row) <> None)).

Local Abbreviation backfilled db db' g :=
  (documents (working db') = documents (working db)
   /\ pages (working db') = pages (working db)
   /\ spans (working db') = spans (working db)
   /\ chunks (working db') = map g (chunks (working db))
   /\ committed db' = committed db /\ events db' = events db).

Lemma assign_embeddings_spec (batch : list Chunk) :
  forall (data : list Embedding) (db db' : Session) (logs : list LogEntry)
         (result : outcome unit),
    assign_embeddings batch data db = (db', logs, result) ->
    exists g,
      backfilled db db' g
      /\ assigns g (match result with
                    | Returned _ => map chunk_id batch
                    | Raised _ => []
                    end).
Proof.
  induction batch as [|chunk batch IH]; intros data db db' logs result Hrun.
  - exists (fun row => row).
    destruct data; cbn in Hrun; injection Hrun as <- <- <-.
    + rewrite map_id. conjs. intros row. conjs; [intros H; exact H | intros []].
    + rewrite map_id. conjs. intros row. conjs; [intros H; exact H | intros []].
  - destruct data as [|embedded data].
    + cbn in Hrun. injection Hrun as <- <- <-. exists (fun row => row).
      rewrite map_id. conjs. intros row. conjs; [intros H; exact H | intros []].
    + cbn [assign_embeddings] in Hrun. unfold tbind, set_chunk_embedding, tmodify in Hrun.
      match type of Hrun with
      | context [assign_embeddings batch data ?db1] =>
          destruct (assign_embeddings batch data db1) as [[db2 logs2] r] eqn:Erest
      end.
      injection Hrun as <- <- <-.
      destruct (IH _ _ _ _ _ Erest) as [g [[B1 [B2 [B3 [B4 [B5 B6]]]]] Hg]].
      cbn [with_working working documents pages spans chunks committed events] in *.
      set (g0 := fun row =>
                   if N.eqb (chunk_id row) (chunk_id chunk)
                   then mk_chunk (chunk_id row) (chunk_document_id row)
                                 (chunk_index row) (chunk_text row)
                                 (chunk_page_start row) (chunk_page_end row)
                                 (chunk_span_start_id row) (chunk_span_end_id row)
                                 (Some embedded)
                   else row) in *.
      assert (Hg0 : forall row, forget_embedding (g0 row) = forget_embedding row
                                /\ (chunk_embedding row <> None ->
                                    chunk_embedding (g0 row) <> None)
                                /\ (chunk_id row = chunk_id chunk ->
                                    chunk_embedding (g0 row) <> None)
                                /\ chunk_id (g0 row) = chunk_id row).
      { intros row. unfold g0. destruct (N.eqb_spec (chunk_id row) (chunk_id chunk)).
        - conjs; intros; discriminate.
        - conjs; [intros H; exact H | intros H; contradiction]. }
      exists (fun row => g (g0 row)). conjs; try assumption.
      * rewrite B4, map_map. reflexivity.
      * intros row. destruct (Hg (g0 row)) as [G1 [G2 G3]].
        destruct (Hg0 row) as [Z1 [Z2 [Z3 Z4]]]. conjs.
        -- rewrite G1. exact Z1.
        -- intros H. apply G2, Z2, H.
        -- destruct r as [[]|exc]; [|intros []].
           cbn [map]. intros [Hid|Hin].
           ++ apply G2, Z3. symmetry. exact Hid.
           ++ apply G3. rewrite Z4. exact Hin.
Qed.

Lemma backfill_batches_spec (model : string) (dimensions : option Z)
  (batches : list (list Chunk)) :
  forall (db db' : Session) (logs : list LogEntry) (result : outcome unit),
    tfold (fun (_ : unit) batch =>
             tbind (lift (embeddings_create model dimensions (map chunk_text batch)))
                   (fun data => assign_embeddings batch data))
          batches tt db
    = (db', logs, result) ->
    exists g,
      backfilled db db' g
      /\ assigns g (match result with
                    | Returned _ => map chunk_id (List.concat batches)
                    | Raised _ => []
                    end).
Proof.
  induction batches as [|batch batches IH]; intros db db' logs result Hrun.
  - cbn in Hrun. injection Hrun as <- <- <-. exists (fun row => row).
    rewrite map_id. conjs. intros row. conjs; [intros H; exact H | intros []].
  - cbn [tfold] in Hrun. unfold tbind at 1 in Hrun. unfold tbind at 1 in Hrun.
    unfold lift in Hrun.
    destruct (embeddings_create model dimensions (map chunk_text batch)) as [data|exc].
    + destruct (assign_embeddings batch data db) as [[db1 logs1] [[]|exc]] eqn:Eassign.
      * match type of Hrun with
        | context [tfold ?f batches tt db1] =>
            destruct (tfold f batches tt db1) as [[db2 logs2] r] eqn:Erest
        end.
        injection Hrun as <- <- <-.
        destruct (assign_embeddings_spec _ _ _ _ _ _ Eassign)
          as [g1 [[A1 [A2 [A3 [A4 [A5 A6]]]]] Hg1]].
        destruct (IH _ _ _ _ Erest) as [g2 [[B1 [B2 [B3 [B4 [B5 B6]]]]] Hg2]].
        exists (fun row => g2 (g1 row)). conjs; try congruence.
        -- rewrite B4, A4, map_map. reflexivity.
        -- intros row. destruct (Hg1 row) as [P1 [P2 P3]].
           destruct (Hg2 (g1 row)) as [Q1 [Q2 Q3]]. conjs.
           ++ rewrite Q1. exact P1.
           ++ intros H. apply Q2, P2, H.
           ++ destruct r as [[]|exc]; [|intros []].
              cbn [List.concat]. rewrite map_app. intros Hin.
              apply in_app_or in Hin. destruct Hin as [Hin|Hin].
              ** apply Q2, P3, Hin.
              ** apply Q3.
                 assert (Hid : chunk_id (g1 row) = chunk_id row).
                 { apply (f_equal chunk_id) in P1. exact P1. }
                 rewrite Hid. exact Hin.
      * injection Hrun as <- <- <-.
        destruct (assign_embeddings_spec _ _ _ _ _ _ Eassign) as [g1 [HB Hg1]].
        exists g1. split; [exact HB | exact Hg1].
    + injection Hrun as <- <- <-. exists (fun row => row).
      rewrite map_id. conjs. intros row. conjs; [intros H; exact H | intros []].
Qed.

Lemma ensure_chunk_embeddings_spec (settings : Settings) (document_id : UUID)
  (db db' : Session) (logs : list LogEntry) (result : outcome unit) :
  _ensure_chunk_embeddings settings document_id db = (db', logs, result) ->
  exists g,
    documents (working db') = documents (working db)
    /\ pages (working db') = pages (working db)
    /\ spans (working db') = spans (working db)
    /\ chunks (working db') = map g (chunks (working db))
    /\ (events db' = events db
        \/ (events db' = events db ++ [EvCommit (working db')]
            /\ committed db' = working db'
            /\ select_missing_chunks db document_id <> []))
    /\ assigns g (match result with
                  | Returned _ => map chunk_id (select_missing_chunks db document_id)
                  | Raised _ => []
                  end).
Proof.
  unfold _ensure_chunk_embeddings. unfold tbind at 1. unfold tget at 1.
  destruct (select_missing_chunks db document_id) as [|c0 missing0] eqn:Emissing.
  - intros H. injection H as <- <- <-. exists (fun row => row). rewrite map_id.
    conjs; [left; reflexivity|]. intros row. conjs; [intros H; exact H | intros []].
  - rewrite <- Emissing.
    destruct (_embedding_request_kwargs settings) as [model dimensions].
    unfold tbind, tmodify.
    match goal with
    | |- context [tfold ?f ?batches tt db] =>
        destruct (tfold f batches tt db) as [[db1 logs1] [[]|exc]] eqn:Efold
    end.
    + intros H. injection H as <- <- <-.
      destruct (backfill_batches_spec _ _ _ _ _ _ _ Efold)
        as [g [[B1 [B2 [B3 [B4 [B5 B6]]]]] Hg]].
      exists g. cbn [db_commit working committed events]. conjs; try assumption.
      * right. conjs; [rewrite B6; reflexivity | rewrite Emissing; discriminate].
      * rewrite batches_of_concat in Hg; [exact Hg | lia | lia].
    + intros H. injection H as <- <- <-.
      destruct (backfill_batches_spec _ _ _ _ _ _ _ Efold)
        as [g [[B1 [B2 [B3 [B4 [B5 B6]]]]] Hg]].
      exists g. conjs; try assumption. left. exact B6.
Qed.

(** X24: when the embedding back-fill returns, no chunk of the
    document lacks an embedding, only embeddings have changed, no embedding
    that was there is lost, the changes are committed, and a second back-fill
    does nothing: no provider call, no change, no log. *)
Theorem embedding_backfill_completes_and_is_idempotent :
  forall (settings : Settings) (document_id : UUID) (db db' : Session)
         (logs : list LogEntry),
    _ensure_chunk_embeddings settings document_id db = (db', logs, Returned tt) ->
    select_missing_chunks db' document_id = []
    /\ only_embeddings_change db db'
    /\ (forall row row',
          In (row, row') (combine (chunks (working db)) (chunks (working db'))) ->
          chunk_embedding row <> None -> chunk_embedding row' <> None)
    /\ (select_missing_chunks db document_id <> [] -> committed db' = working db')
    /\ _ensure_chunk_embeddings settings document_id db' = (db', [], Returned tt).
Proof.
  intros settings document_id db db' logs Hrun.
  destruct (ensure_chunk_embeddings_spec _ _ _ _ _ _ Hrun)
    as [g [D1 [D2 [D3 [D4 [Hev Hg]]]]]].
  assert (Hnone : select_missing_chunks db' document_id = []).
  { unfold select_missing_chunks, chunks_of. rewrite D4.
    match goal with
    | |- Py.sorted ?k (filter ?p ?l) = [] =>
        assert (Hfilter : filter p l = [])
    end.
    { apply filter_all_false_in. intros row' Hin. apply in_map_iff in Hin.
      destruct Hin as [row [<- Hin]].
      destruct (Hg row) as [G1 [G2 G3]].
      destruct (N.eqb (chunk_document_id (g row)) document_id) eqn:Edoc; [|reflexivity].
      destruct (chunk_embedding (g row)) eqn:Eemb; [reflexivity|]. exfalso.
      assert (Hdoc : chunk_document_id (g row) = chunk_document_id row).
      { apply (f_equal chunk_document_id) in G1. exact G1. }
      assert (Hmissing : In row (select_missing_chunks db document_id)).
      { unfold select_missing_chunks. apply sorted_In. apply filter_In.
        split; [exact Hin|]. rewrite <- Hdoc, Edoc.
        destruct (chunk_embedding row) eqn:Erow; [|reflexivity].
        exfalso. apply G2; [discriminate | reflexivity]. }
      apply G3; [apply in_map; exact Hmissing | reflexivity]. }
    rewrite Hfilter. reflexivity. }
  split; [exact Hnone|]. split; [|split; [|split]].
  - unfold only_embeddings_change. conjs; try assumption.
    rewrite D4, map_map. apply map_ext. intros row. apply (Hg row).
  - intros row row' Hin. rewrite D4 in Hin.
    assert (Hrow : row' = g row).
    { revert Hin. generalize (chunks (working db)). intros l.
      induction l as [|x l IH]; cbn; [intros []|].
      intros [H|H]; [injection H as <- <-; reflexivity | apply IH, H]. }
    subst row'. apply (Hg row).
  - intros Hne. destruct Hev as [Hev|[_ [Hc _]]]; [|exact Hc].
    exfalso. clear Hnone. revert Hrun Hev. unfold _ensure_chunk_embeddings.
    unfold tbind at 1. unfold tget at 1.
    destruct (select_missing_chunks db document_id) as [|c0 m0] eqn:Em; [contradiction|].
    destruct (_embedding_request_kwargs settings) as [model dimensions].
    unfold tbind, tmodify.
    match goal with
    | |- context [tfold ?f ?batches tt db] =>
        destruct (tfold f batches tt db) as [[db1 logs1] [[]|exc]] eqn:Efold
    end; [|discriminate].
    intros H. injection H as <- _.
    destruct (backfill_batches_spec _ _ _ _ _ _ _ Efold)
      as [g' [[_ [_ [_ [_ [_ B6]]]]] _]].
    cbn [db_commit events]. rewrite B6. intros Habs.
    apply (f_equal (@List.length _)) in Habs. rewrite length_app in Habs.
    cbn in Habs. lia.
  - unfold _ensure_chunk_embeddings. unfold tbind at 1. unfold tget at 1.
    rewrite Hnone. reflexivity.
Qed.

Local Abbreviation quiet db db' :=
  (only_embeddings_change db db'
   /\ exists commits, events db' = events db ++ map EvCommit commits).

Lemma quiet_refl (db : Session) : quiet db db.
Proof.
  split; [unfold only_embeddings_change; conjs|]. exists []. rewrite app_nil_r. reflexivity.
Qed.

Lemma quiet_trans (db1 db2 db3 : Session) : quiet db1 db2 -> quiet db2 db3 -> quiet db1 db3.
Proof.
  intros [[A1 [A2 [A3 A4]]] [c1 E1]] [[B1 [B2 [B3 B4]]] [c2 E2]]. split.
  - unfold only_embeddings_change. conjs; congruence.
  - exists (c1 ++ c2). rewrite E2, E1, map_app, app_assoc. reflexivity.
Qed.

Lemma quiet_ensure_chunk_embeddings (settings : Settings) (document_id : UUID) :
  preserves (fun db db' => quiet db db') (_ensure_chunk_embeddings settings document_id).
Proof.
  intros db db' logs result Hrun.
  destruct (ensure_chunk_embeddings_spec _ _ _ _ _ _ Hrun)
    as [g [D1 [D2 [D3 [D4 [Hev Hg]]]]]].
  split.
  - unfold only_embeddings_change. conjs; try assumption.
    rewrite D4, map_map. apply map_ext. intros row. apply (Hg row).
  - destruct Hev as [Hev|[Hev _]].
    + exists []. rewrite app_nil_r. exact Hev.
    + exists [working db']. exact Hev.
Qed.

Lemma quiet_insufficient_response (reason : string) :
  preserves (fun db db' => quiet db db') (_insufficient_response reason).
Proof.
  unfold _insufficient_response.
  apply (preserves_tbind _ quiet_trans); [apply (preserves_tlog _ quiet_refl)|].
  intros _. apply (preserves_tret _ quiet_refl).
Qed.

Lemma quiet_answer_with_citations (settings : Settings) (document_id : UUID)
  (question answer : string) (context_chunks : list RetrievedChunk)
  (citations : list UUID) :
  preserves (fun db db' => quiet db db')
            (answer_with_citations settings document_id question answer context_chunks
                                   citations).
Proof.
  unfold answer_with_citations.
  destruct (Py.is_empty answer); [apply quiet_insufficient_response|].
  destruct (_answer_is_uncertain answer); [apply quiet_insufficient_response|].
  destruct (select_cited_chunks context_chunks citations);
    [apply quiet_insufficient_response|].
  apply (preserves_tbind _ quiet_trans); [apply (preserves_tget _ quiet_refl)|].
  intros db0.
  apply (preserves_tbind _ quiet_trans); [apply (preserves_lift _ quiet_refl)|].
  intros evidence.
  destruct (_ <? _)%Z; [apply quiet_insufficient_response|].
  destruct (negb _); [apply quiet_insufficient_response|].
  apply (preserves_tret _ quiet_refl).
Qed.

Lemma quiet_answer_from_retrieved (settings : Settings) (document_id : UUID)
  (question : string) (retrieved : list RetrievedChunk) :
  preserves (fun db db' => quiet db db')
            (answer_from_retrieved settings document_id question retrieved).
Proof.
  unfold answer_from_retrieved.
  destruct retrieved; [apply quiet_insufficient_response|].
  destruct (negb _); [apply quiet_insufficient_response|].
  destruct (_generate_answer _ _ _) as [[answer cited]|exc].
  - apply (preserves_tbind _ quiet_trans); [apply (preserves_lift _ quiet_refl)|].
    intros [valid|]; [apply quiet_answer_with_citations | apply quiet_insufficient_response].
  - apply (preserves_traise _ quiet_refl).
Qed.

(** X25: asking a question, whatever its outcome, changes nothing in
    the working rows but the embeddings of chunks, and the only database
    events it adds are commits. *)
Theorem asking_changes_embeddings_only :
  forall (settings : Settings) (document_id : UUID) (question : string)
         (db db' : Session) (logs : list LogEntry)
         (result : outcome AskQuestionResponse),
    ask_question settings document_id question db = (db', logs, result) ->
    only_embeddings_change db db'
    /\ exists commits, events db' = events db ++ map EvCommit commits.
Proof.
  intros settings document_id question db db' logs result.
  assert (H : preserves (fun db db' => quiet db db')
                        (ask_question settings document_id question)).
  { unfold ask_question. cbv zeta.
    destruct (Py.is_empty (Py.strip question)); [apply (preserves_traise _ quiet_refl)|].
    apply (preserves_tbind _ quiet_trans); [apply (preserves_tget _ quiet_refl)|].
    intros db0.
    destruct (db_get_document db0 document_id) as [document|];
      [|apply (preserves_traise _ quiet_refl)].
    destruct (negb (String.eqb _ _)); [apply (preserves_traise _ quiet_refl)|].
    destruct (match openai_api_key settings with
              | Some key => Py.is_empty key
              | None => true
              end); [apply (preserves_traise _ quiet_refl)|].
    destruct (negb (_ =? _)%Z); [apply (preserves_traise _ quiet_refl)|].
    apply (preserves_tbind _ quiet_trans).
    - apply (preserves_try_except _ quiet_trans);
        [apply quiet_ensure_chunk_embeddings|].
      intros exc. apply (preserves_traise _ quiet_refl).
    - intros _.
      apply (preserves_tbind _ quiet_trans); [apply (preserves_tget _ quiet_refl)|].
      intros db1.
      destruct (_retrieve_chunks db1 settings document_id (Py.strip question)).
      + apply quiet_answer_from_retrieved.
      + apply (preserves_tbind _ quiet_trans); [apply (preserves_tlog _ quiet_refl)|].
        intros _. apply quiet_insufficient_response. }
  apply H.
Qed.

End Backfill.

Section AskRoute.

Context {ext : Externals}.

Import QA Routes.

(** X26: the ask route answers 422 to an empty question, 404 to
    an unknown or malformed document id, 400 to a blank question, 409 to a
    document that is not ready and 500 to a missing API key or an embedding
    dimension other than 1536, each time leaving the session as it was and
    logging nothing. *)
Theorem ask_route_rejects_before_any_provider_call :
  forall (settings : Settings) (document_id : string) (question : string) (db : Session),
    (question = EmptyString ->
     ask_document_question settings document_id question db
     = (db, [], HttpError 422 "String should have at least 1 character"))
    /\ (question <> EmptyString ->
        (uuid_parse document_id = None
         \/ exists document_uuid,
              uuid_parse document_id = Some document_uuid
              /\ db_get_document db document_uuid = None) ->
        ask_document_question settings document_id question db
        = (db, [], HttpError 404 ("Document not found: " ++ document_id)))
    /\ (forall document_uuid document,
          question <> EmptyString ->
          uuid_parse document_id = Some document_uuid ->
          db_get_document db document_uuid = Some document ->
          (Py.strip question = EmptyString ->
           ask_document_question settings document_id question db
           = (db, [], HttpError 400 "Question cannot be empty."))
          /\ (Py.strip question <> EmptyString ->
              doc_status document <> "ready"%string ->
              ask_document_question settings document_id question db
              = (db, [], HttpError 409 "Document is not ready for question answering."))
          /\ (Py.strip question <> EmptyString ->
              doc_status document = "ready"%string ->
              (openai_api_key settings = None
               \/ openai_api_key settings = Some EmptyString) ->
              ask_document_question settings document_id question db
              = (db, [], HttpError 500 "OPENAI_API_KEY is not configured."))
          /\ (Py.strip question <> EmptyString ->
              doc_status document = "ready"%string ->
              (exists key, openai_api_key settings = Some key /\ key <> EmptyString) ->
              openai_embedding_dimensions settings <> 1536%Z ->
              ask_document_question settings document_id question db
              = (db, [],
                 HttpError 500
                   "OPENAI_EMBEDDING_DIMENSIONS must be 1536 for current schema."))).
Proof.
  intros settings document_id question db. split; [|split].
  - intros ->. reflexivity.
  - intros Hq Hmissing. unfold ask_document_question.
    destruct question; [contradiction|]. cbn [Py.is_empty].
    destruct Hmissing as [->|[u [-> ->]]]; reflexivity.
  - intros u document Hq Hparse Hdoc.
    assert (Hroute : ask_document_question settings document_id question db
                     = match ask_question settings u question db with
                       | (db', logs, Returned response) => (db', logs, Http200 response)
                       | (db', logs, Raised exc) =>
                           (db', logs,
                            match exn_kind exc with
                            | InvalidQuestionError => HttpError 400 (exn_message exc)
                            | DocumentNotReadyError => HttpError 409 (exn_message exc)
                            | OpenAIConfigurationError => HttpError 500 (exn_message exc)
                            | QAError =>
                                HttpError 500
                                  ("Question answering failed: " ++ exn_message exc)
                            | _ => HttpError 500 "Internal server error"
                            end)
                       end).
    { unfold ask_document_question. destruct question; [contradiction|].
      cbn [Py.is_empty]. rewrite Hparse, Hdoc. reflexivity. }
    rewrite Hroute. unfold ask_question. cbv zeta.
    split; [|split; [|split]].
    + intros ->. reflexivity.
    + intros Hs Hstatus. destruct (Py.strip question) eqn:Es; [contradiction|].
      cbn [Py.is_empty]. unfold tbind, tget. rewrite Hdoc.
      assert (Hneq : String.eqb (doc_status document) "ready" = false).
      { apply String.eqb_neq. exact Hstatus. }
      rewrite Hneq. reflexivity.
    + intros Hs Hstatus Hkey. destruct (Py.strip question) eqn:Es; [contradiction|].
      cbn [Py.is_empty]. unfold tbind, tget. rewrite Hdoc, Hstatus.
      destruct Hkey as [->| ->]; reflexivity.
    + intros Hs Hstatus [key [Hkey Hkne]] Hdim.
      destruct (Py.strip question) eqn:Es; [contradiction|].
      cbn [Py.is_empty]. unfold tbind, tget. rewrite Hdoc, Hstatus, Hkey.
      destruct key; [contradiction|]. cbn [Py.is_empty String.eqb Ascii.eqb Bool.eqb negb].
      assert (Hneq : (openai_embedding_dimensions settings =? EMBEDDING_VECTOR_DIM)%Z = false).
      { apply Z.eqb_neq. exact Hdim. }
      rewrite Hneq. reflexivity.
Qed.

(** X27: when the retrieval is confident and the answer generation
    raises, the service raises [QAError] with the prefix "Failed to generate
    answer: " and the route answers 500 with "Question answering failed: "
    before it, keeping the embeddings that the back-fill stored. *)
Theorem failed_answer_generation_is_a_server_error :
  forall (settings : Settings) (document_id_text : string) (document_id : UUID)
         (question : string) (db db1 : Session) (logs1 : list LogEntry)
         (retrieved : list RetrievedChunk) (exc : exn),
    uuid_parse document_id_text = Some document_id ->
    Spec.ready_to_answer settings db document_id question ->
    _ensure_chunk_embeddings settings document_id db = (db1, logs1, Returned tt) ->
    _retrieve_chunks db1 settings document_id (Py.strip question) = Returned retrieved ->
    _has_sufficient_retrieval_confidence settings retrieved = true ->
    _generate_answer settings (Py.strip question)
                     (Py.slice_to retrieved (retrieval_max_context_chunks settings))
    = Raised exc ->
    ask_question settings document_id question db
    = (db1, logs1,
       Raised (mk_exn QAError ("Failed to generate answer: " ++ exn_message exc)))
    /\ ask_document_question settings document_id_text question db
       = (db1, logs1,
          HttpError 500 ("Question answering failed: "
                         ++ ("Failed to generate answer: " ++ exn_message exc))).
Proof.
  intros settings document_id_text document_id question db db1 logs1 retrieved exc
         Hparse Hready Hfill Hret Hconf Hgen.
  assert (Hask : ask_question settings document_id question db
                 = (db1, logs1,
                    Raised (mk_exn QAError ("Failed to generate answer: "
                                            ++ exn_message exc)))).
  { rewrite (ask_question_ready settings document_id question db Hready).
    rewrite Hfill, Hret. unfold answer_from_retrieved.
    destruct retrieved as [|chunk chunks] eqn:E; [discriminate Hconf|].
    rewrite <- E in *. rewrite Hconf. cbn [negb]. rewrite Hgen.
    unfold traise, lift, raise. rewrite app_nil_r. reflexivity. }
  split; [exact Hask|].
  unfold ask_document_question.
  destruct Hready as [Hq [[document [Hdoc _]] _]].
  rewrite (strip_nonempty question Hq), Hparse, Hdoc, Hask. reflexivity.
Qed.

End AskRoute.

(** ** The properties at the scenarios *)

Ltac computed H :=
  match goal with |- ?run /\ _ => assert (H : run) by (vm_compute; reflexivity) end.

(** Witness of [ocr_text_is_used_only_when_ocr_found_words]: a scanned page,
    whose two words come from OCR. *)
Lemma ocr_text_is_used_only_when_ocr_found_words_witness :
  exists (db' : Session) (logs : list LogEntry)
         (extracted : DocumentProcessing.ExtractedPageWords),
    DocumentProcessing._extract_words_with_fallback Scenario.scanned_page 1
      default_settings Scenario.uploaded_db
    = (db', logs, Returned extracted)
    /\ db' = Scenario.uploaded_db.
Proof.
  do 3 eexists. computed Hrun. split; [exact Hrun|].
  exact (proj1 (ocr_text_is_used_only_when_ocr_found_words _ _ _ _ _ _ _ Hrun)).
Defined.

(** Witness of [chunk_text_fits_unless_a_single_span]: the first window of
    the forty-five spans of scenario S3 holds forty-two of them. *)
Lemma chunk_text_fits_unless_a_single_span_witness :
  (Py.slen (Py.join " " (map (fun ref => span_text (fst ref))
                             (Py.slice Scenario.spans45 0 42)))
   <= DocumentProcessing.CHUNK_MAX_CHARS)%Z.
Proof.
  apply (chunk_text_fits_unless_a_single_span Scenario.spans45 [(0, 42); (22, 45)]%Z).
  - intros ref Hin. apply repeat_spec in Hin. subst ref. discriminate.
  - vm_compute. reflexivity.
  - left. reflexivity.
  - lia.
Defined.

(** Witness of [span_offsets_index_the_page_text]: the second word of the
    page text "Signed by". *)
Lemma span_offsets_index_the_page_text_witness :
  exists (span : Span),
    nth_error (DocumentProcessing.page_spans_from 1%N 1 0 0
                 [(72, 100, 108, 112, "Signed"%string);
                  (112, 100, 124, 112, "by"%string)]%Q) 1
    = Some span
    /\ span_index span = 1%Z.
Proof.
  eexists. computed Hrun. split; [exact Hrun|].
  destruct (span_offsets_index_the_page_text _ _ _ _ _ Hrun)
    as [word [char_start [_ [_ [Hindex _]]]]].
  exact Hindex.
Defined.

(** Witness of [ingestion_ends_ready_or_failed]: the upload of one scanned
    page. *)
Lemma ingestion_ends_ready_or_failed_witness :
  exists (db' : Session) (logs : list LogEntry) (result : outcome unit),
    @DocumentProcessing.process_document_metadata Scenario.offline 1%N
      Scenario.one_page_pdf default_settings Scenario.uploaded_db
    = (db', logs, result)
    /\ result = Returned tt
    /\ working db' = committed db'.
Proof.
  do 3 eexists. computed Hrun. split; [exact Hrun|].
  destruct (@ingestion_ends_ready_or_failed Scenario.offline default_settings 1%N
              Scenario.one_page_pdf Scenario.uploaded_db _
              Scenario.uploaded_document _ _ eq_refl eq_refl Hrun)
    as [Hresult [Hclean _]].
  split; [exact Hresult | exact Hclean].
Defined.

(** Witness of [persist_upload_respects_the_limit]: four bytes under a limit
    of ten. *)
Lemma persist_upload_respects_the_limit_witness :
  DocumentProcessing.persist_upload Scenario.pdf_upload 10
  = ([Byte.x25; Byte.x50; Byte.x44; Byte.x46], DocumentProcessing.Persisted 4).
Proof.
  apply (proj1 (persist_upload_respects_the_limit Scenario.pdf_upload 10
                  [Byte.x25; Byte.x50; Byte.x44; Byte.x46] eq_refl)).
  vm_compute. discriminate.
Defined.

(** Witness of [rejected_upload_leaves_no_trace]: a text file. *)
Lemma rejected_upload_leaves_no_trace_witness :
  exists (db' : Session) (uploaded : Routes.UploadOutcome),
    @Routes.upload_document Scenario.offline 10 (Returned tt) Scenario.text_upload
      Scenario.uploaded_db
    = (db', uploaded)
    /\ db' = Scenario.uploaded_db
    /\ uploaded = Routes.mk_upload_outcome
                    (Routes.UploadHTTPException 400 "Only PDF files are supported.")
                    None None.
Proof.
  do 2 eexists. computed Hrun. split; [exact Hrun|].
  apply (proj1 (@rejected_upload_leaves_no_trace Scenario.offline _ _ _ _ _ _ Hrun));
    reflexivity.
Defined.

(** Witness of [accepted_upload_is_registered_as_processing]: four bytes sent
    as a PDF. *)
Lemma accepted_upload_is_registered_as_processing_witness :
  exists (db' : Session) (uploaded : Routes.UploadOutcome) (id : string),
    @Routes.upload_document Scenario.offline 10 (Returned tt) Scenario.pdf_upload
      Scenario.uploaded_db
    = (db', uploaded)
    /\ Routes.upload_response uploaded = Routes.Created201 id
    /\ Routes.background_task uploaded = Some id
    /\ working db' = committed db'.
Proof.
  do 3 eexists. computed Hrun. split; [exact Hrun|].
  computed Hcreated. split; [exact Hcreated|].
  destruct (@accepted_upload_is_registered_as_processing Scenario.offline _ _ _ _ _ _ _
              Hrun Hcreated)
    as [content [document [_ [_ [_ [Htask [_ [_ [_ [_ [_ [Hclean _]]]]]]]]]]]].
  split; [exact Htask | exact Hclean].
Defined.

(** Witness of [line_item_box_encloses_its_spans]: the signed line of
    scenario S5. *)
Lemma line_item_box_encloses_its_spans_witness :
  exists (it : EvidenceItem),
    QA._build_line_evidence_item 1 (Some 612%Q) (Some 792%Q) Scenario.signed_line
    = Returned (Some it)
    /\ (bx1 (ev_bbox it) < bx2 (ev_bbox it))%Q
    /\ (by1 (ev_bbox it) < by2 (ev_bbox it))%Q.
Proof.
  eexists. computed Hrun. split; [exact Hrun|].
  exact (proj1 (line_item_box_encloses_its_spans _ _ _ _ _ Hrun)).
Defined.

(** Witness of [built_evidence_is_deduplicated_and_in_reading_order]:
    scenario S5 with the question of the ordering doctor. *)
Lemma built_evidence_is_deduplicated_and_in_reading_order_witness :
  exists (evidence : list EvidenceItem),
    @QA._build_evidence Scenario.offline Scenario.s5_db Scenario.settings
      "Which doctor ordered it?"%string "B. Smith"%string 1%N [Scenario.s5_retrieved]
    = Returned evidence
    /\ NoDup (map QA.evidence_key evidence).
Proof.
  eexists. computed Hrun. split; [exact Hrun|].
  exact (proj1 (@built_evidence_is_deduplicated_and_in_reading_order Scenario.offline
                  _ _ _ _ _ _ _ Hrun)).
Defined.

(** Witness of [chat_reply_is_never_empty]: a provider that refuses the first
    request and answers the retried one. *)
Lemma chat_reply_is_never_empty_witness :
  exists (calls : list ProviderCall) (content : string),
    @QA._create_llm_json_response Scenario.legacy_provider default_settings
    = (calls, Returned content)
    /\ content <> EmptyString.
Proof.
  do 2 eexists. computed Hrun. split; [exact Hrun|].
  exact (@chat_reply_is_never_empty Scenario.legacy_provider _ _ _ Hrun).
Defined.

(** Witness of [embedding_backfill_completes_and_is_idempotent]: the chunk
    of the document lacks its embedding and the provider answers. *)
Lemma embedding_backfill_completes_and_is_idempotent_witness :
  exists (db' : Session) (logs : list LogEntry),
    @QA._ensure_chunk_embeddings Scenario.scripted Scenario.settings 1%N
      Scenario.pending_db
    = (db', logs, Returned tt)
    /\ QA.select_missing_chunks db' 1%N = [].
Proof.
  do 2 eexists. computed Hrun. split; [exact Hrun|].
  exact (proj1 (@embedding_backfill_completes_and_is_idempotent Scenario.scripted
                  _ _ _ _ _ Hrun)).
Defined.

(** Witness of [asking_changes_embeddings_only]: the question of scenario S6
    asked while the embedding of the chunk is missing. *)
Lemma asking_changes_embeddings_only_witness :
  exists (db' : Session) (logs : list LogEntry) (result : outcome AskQuestionResponse),
    @QA.ask_question Scenario.scripted Scenario.settings 1%N
      "Who signed the order?"%string Scenario.pending_db
    = (db', logs, result)
    /\ QA.only_embeddings_change Scenario.pending_db db'
    /\ exists commits, events db' = events Scenario.pending_db ++ map EvCommit commits.
Proof.
  do 3 eexists. computed Hrun. split; [exact Hrun|].
  exact (@asking_changes_embeddings_only Scenario.scripted _ _ _ _ _ _ _ Hrun).
Defined.

(** Witness of [failed_answer_generation_is_a_server_error]: the embeddings
    are stored and the retrieval is confident, and the chat model is out of
    reach. *)
Lemma failed_answer_generation_is_a_server_error_witness :
  exists (db1 : Session) (logs1 : list LogEntry),
    @QA.ask_question Scenario.chat_down Scenario.settings 1%N
      "Who signed the order?"%string Scenario.pending_db
    = (db1, logs1,
       Raised (mk_exn QAError ("Failed to generate answer: "%string
                               ++ exn_message Scenario.provider_down))).
Proof.
  do 2 eexists.
  refine (proj1 (@failed_answer_generation_is_a_server_error Scenario.chat_down
                   Scenario.settings "doc-1"%string 1%N "Who signed the order?"%string
                   Scenario.pending_db _ _ _ Scenario.provider_down eq_refl
                   (scenario_ready Scenario.pending_db eq_refl) _ _ _ _)).
  - vm_compute. reflexivity.
  - vm_compute. reflexivity.
  - vm_compute. reflexivity.
  - vm_compute. reflexivity.
Defined.
